(** * M5Tab-Macintosh: the incremental display-update engine

    A shallow embedding of [src/basilisk/video_esp32.cpp]: palette
    conversion, write-time dirty tracking, tile snapshot and render, the
    frame compositor, the render scheduler and driver initialisation.

    Conventions.
    - [uint8], [uint16], [uint32] and [int] values are integers in [Z];
      wrap-around of unsigned arithmetic is written out with [wrap32] and
      [wrap16].  Every division below has non-negative operands, where the
      truncating division of C coincides with [Z.div] and [Z.modulo].
    - The file-scope variables of the translation unit are the fields of one
      record, [globals].  A function of the source is a computation
      [M A := globals -> option (A * globals)]; [None] stands for undefined
      behaviour (an access outside an array or a buffer, a NULL dereference)
      or for a loop that exhausted its fuel.
    - PSRAM is a finite map from block identifiers to buffer contents; a
      pointer is [option nat], [None] being NULL.
    - Calls to [M5.Display] are recorded, in order, in the [display] trace.
    - [Serial] logging and the [D(bug(...))] macros have no effect on the
      modelled state and are left out.
    - The emulation and the video task run on two cores.  Here every call of
      the source and every iteration of the task loop is one step of a
      sequential trace. *)

From Stdlib Require Import ZArith Lia Bool QArith.
From stdpp Require Import base functions option list gmap.

Local Open Scope Z_scope.

(** ** Build-time configuration *)

Definition MAC_SCREEN_WIDTH : Z := 640.
Definition MAC_SCREEN_HEIGHT : Z := 360.
Definition PIXEL_SCALE : Z := 2.
Definition DISPLAY_WIDTH : Z := 1280.
Definition DISPLAY_HEIGHT : Z := 720.
Definition TILE_WIDTH : Z := 40.
Definition TILE_HEIGHT : Z := 40.
Definition TILES_X : Z := 16.
Definition TILES_Y : Z := 9.
Definition TOTAL_TILES : Z := TILES_X * TILES_Y.
Definition DIRTY_THRESHOLD_PERCENT : Z := 80.
Definition PERF_REPORT_INTERVAL_MS : Z := 5000.
(** [(TOTAL_TILES + 31) / 32], the number of words of a dirty bitmap. *)
Definition BITMAP_WORDS : Z := (TOTAL_TILES + 31) / 32.

(** ** Machine integers *)

Definition wrap16 (z : Z) : Z := z mod 2 ^ 16.
Definition wrap32 (z : Z) : Z := z mod 2 ^ 32.

(** ** Palette conversion *)

(** [rgb888_to_rgb565]: the operands are promoted to [int], the result is
    converted to [uint16]. *)
Definition rgb888_to_rgb565 (r g b : Z) : Z :=
  wrap16 (Z.lor (Z.lor (Z.shiftl (Z.shiftr r 3) 3) (Z.shiftr g 5))
                (Z.shiftl (Z.lor (Z.shiftl (Z.shiftr g 2) 5) (Z.shiftr b 3)) 8)).

(** The two bytes of a 16-bit display pixel. *)
Definition low_byte (v : Z) : Z := Z.land v 255.
Definition high_byte (v : Z) : Z := Z.shiftr v 8.

(** ** Program state *)

(** Calls to the display driver ([M5.Display]). *)
Inductive display_op : Type :=
| startWrite
| setAddrWindow (x y w h : Z)
| writePixels (data : list Z) (len : Z)
| endWrite.

(** The file-scope variables, by type.  [tile_snapshot] and [tile_buffer]
    are the static locals of [renderAndPushDirtyTiles]; [last_frame_ticks]
    is the local of [videoRenderTaskOptimized] that lives across loop
    iterations; [task_notification] is the FreeRTOS notification value of
    the video task. *)
Inductive flag : Type :=
| frame_ready | video_task_running | force_full_update
| use_write_dirty_tracking | video_task_handle.

Inductive word : Type :=
| frame_buffer_size | dsi_framebuffer_size | dirty_tile_count
| perf_snapshot_us | perf_detect_us | perf_render_us | perf_push_us
| perf_frame_count | perf_partial_count | perf_full_count | perf_skip_count
| perf_last_report_ms | task_notification | last_frame_ticks.

Inductive array : Type :=
| palette_rgb565 | dirty_tiles | write_dirty_tiles | tile_snapshot | tile_buffer.

Inductive pointer : Type :=
| mac_frame_buffer | dsi_framebuffer | snapshot_buffer | compare_buffer.

#[export] Instance flag_eq_dec : EqDecision flag.
Proof. solve_decision. Defined.
#[export] Instance word_eq_dec : EqDecision word.
Proof. solve_decision. Defined.
#[export] Instance array_eq_dec : EqDecision array.
Proof. solve_decision. Defined.
#[export] Instance pointer_eq_dec : EqDecision pointer.
Proof. solve_decision. Defined.

Record globals : Type := Globals {
  flags : flag -> bool;
  words : word -> Z;
  arrays : array -> list Z;
  pointers : pointer -> option nat;
  heap : gmap nat (list Z);
  display : list display_op
}.

Definition set_flags (f : flag -> bool) (st : globals) : globals :=
  Globals f (words st) (arrays st) (pointers st) (heap st) (display st).
Definition set_words (f : word -> Z) (st : globals) : globals :=
  Globals (flags st) f (arrays st) (pointers st) (heap st) (display st).
Definition set_arrays (f : array -> list Z) (st : globals) : globals :=
  Globals (flags st) (words st) f (pointers st) (heap st) (display st).
Definition set_pointers (f : pointer -> option nat) (st : globals) : globals :=
  Globals (flags st) (words st) (arrays st) f (heap st) (display st).
Definition set_heap (h : gmap nat (list Z)) (st : globals) : globals :=
  Globals (flags st) (words st) (arrays st) (pointers st) h (display st).
Definition set_display (d : list display_op) (st : globals) : globals :=
  Globals (flags st) (words st) (arrays st) (pointers st) (heap st) d.

(** The static initialisers of the translation unit. *)
Definition initial_globals : globals :=
  Globals
    (fun x => match x with
              | force_full_update | use_write_dirty_tracking => true
              | _ => false
              end)
    (fun _ => 0)
    (fun a => match a with
              | palette_rgb565 => replicate 256 0
              | dirty_tiles | write_dirty_tiles => replicate (Z.to_nat BITMAP_WORDS) 0
              | tile_snapshot => replicate (Z.to_nat (TILE_WIDTH * TILE_HEIGHT)) 0
              | tile_buffer =>
                  replicate (Z.to_nat (TILE_WIDTH * PIXEL_SCALE * TILE_HEIGHT * PIXEL_SCALE)) 0
              end)
    (fun _ => None)
    ∅
    [].

(** ** The monad of the embedding: state, with undefined behaviour *)

Definition M (A : Type) : Type := globals -> option (A * globals).

#[export] Instance M_ret : MRet M := fun A a st => Some (a, st).
#[export] Instance M_bind : MBind M := fun A B f m st =>
  match m st with
  | Some (a, st') => f a st'
  | None => None
  end.

Definition undefined {A : Type} : M A := fun _ => None.
Definition defined {A : Type} (o : option A) : M A := fun st =>
  match o with
  | Some a => Some (a, st)
  | None => None
  end.

Definition flag_get (x : flag) : M bool := fun st => Some (flags st x, st).
Definition flag_set (x : flag) (v : bool) : M unit := fun st =>
  Some (tt, set_flags (<[x := v]> (flags st)) st).
Definition word_get (x : word) : M Z := fun st => Some (words st x, st).
Definition word_set (x : word) (v : Z) : M unit := fun st =>
  Some (tt, set_words (<[x := v]> (words st)) st).
Definition array_get (a : array) : M (list Z) := fun st => Some (arrays st a, st).
Definition array_set (a : array) (l : list Z) : M unit := fun st =>
  Some (tt, set_arrays (<[a := l]> (arrays st)) st).
Definition pointer_get (p : pointer) : M (option nat) := fun st => Some (pointers st p, st).
Definition pointer_set (p : pointer) (v : option nat) : M unit := fun st =>
  Some (tt, set_pointers (<[p := v]> (pointers st)) st).
Definition emit (ops : list display_op) : M unit := fun st =>
  Some (tt, set_display (display st ++ ops) st).

(** Element access; outside the array the behaviour is undefined. *)
Definition elem_get (l : list Z) (i : Z) : option Z :=
  if decide (0 <= i) then l !! Z.to_nat i else None.
Definition elem_set (l : list Z) (i : Z) (v : Z) : option (list Z) :=
  if decide (0 <= i < Z.of_nat (length l)) then Some (<[Z.to_nat i := v]> l) else None.

(** [for (; x < bound; x += step) body], with the loop-carried variables in
    [s].  The result is the final [x] and [s]. *)
Fixpoint for_loop {S : Type} (fuel : nat) (x bound step : Z)
    (body : Z -> S -> option S) (s : S) : option (Z * S) :=
  if x <? bound
  then match fuel with
       | O => None
       | Datatypes.S fuel' =>
           match body x s with
           | Some s' => for_loop fuel' (x + step) bound step body s'
           | None => None
           end
       end
  else Some (x, s).

(** The same loop over the global state, [l] holding the local variables. *)
Definition for_loop_M {L : Type} (fuel : nat) (x bound step : Z)
    (body : Z -> L -> M L) (l : L) : M (Z * L) := fun st =>
  match for_loop fuel x bound step
          (fun i '(l, st) => body i l st) (l, st) with
  | Some (x', (l', st')) => Some ((x', l'), st')
  | None => None
  end.

(** ** Dirty tracker *)

(** The tile grid: the index of the tile that holds source pixel [(x, y)]. *)
Definition tile_index (x y : Z) : Z :=
  (y / TILE_HEIGHT) * TILES_X + x / TILE_WIDTH.

(** The tile of a framebuffer byte, as [VideoMarkDirtyOffset] computes it. *)
Definition tile_of_offset (offset : Z) : Z :=
  let y := offset / MAC_SCREEN_WIDTH in
  let x := offset mod MAC_SCREEN_WIDTH in
  let tile_x := x / TILE_WIDTH in
  let tile_y := y / TILE_HEIGHT in
  tile_y * TILES_X + tile_x.

(** The source rectangle of tile [(tile_x, tile_y)], as [snapshotTile],
    [renderTileToBuffer] and [detectDirtyTiles] traverse it: rows
    [tile_y * TILE_HEIGHT + row] and columns [tile_x * TILE_WIDTH + col]. *)
Definition in_tile (tile_x tile_y x y : Z) : Prop :=
  tile_x * TILE_WIDTH <= x < tile_x * TILE_WIDTH + TILE_WIDTH /\
  tile_y * TILE_HEIGHT <= y < tile_y * TILE_HEIGHT + TILE_HEIGHT.

(** [__atomic_or_fetch(&a[i], v, __ATOMIC_RELAXED)] *)
Definition atomic_or_fetch (a : array) (i v : Z) : M unit :=
  l ← array_get a;
  old ← defined (elem_get l i);
  l' ← defined (elem_set l i (Z.lor old v));
  array_set a l'.

(** [__atomic_exchange_n(&a[i], v, __ATOMIC_RELAXED)] *)
Definition atomic_exchange_n (a : array) (i v : Z) : M Z :=
  l ← array_get a;
  old ← defined (elem_get l i);
  l' ← defined (elem_set l i v);
  array_set a l';;
  mret old.

Definition VideoMarkDirtyOffset (offset : Z) : M unit :=
  tracking ← flag_get use_write_dirty_tracking;
  if negb tracking then mret tt else
  size ← word_get frame_buffer_size;
  if size <=? offset then mret tt else
  let tile_idx := tile_of_offset offset in
  atomic_or_fetch write_dirty_tiles (tile_idx / 32) (Z.shiftl 1 (tile_idx mod 32)).

(** The size a range write is clamped to.  [offset + size] is computed in
    [uint32]. *)
Definition clamp_size (fb_size offset size : Z) : Z :=
  if fb_size <? wrap32 (offset + size) then wrap32 (fb_size - offset) else size.

Definition VideoMarkDirtyRange (offset size : Z) : M unit :=
  tracking ← flag_get use_write_dirty_tracking;
  if negb tracking then mret tt else
  fb_size ← word_get frame_buffer_size;
  if fb_size <=? offset then mret tt else
  let size := clamp_size fb_size offset size in
  VideoMarkDirtyOffset offset;;
  if 1 <? size
  then VideoMarkDirtyOffset (wrap32 (offset + size - 1))
  else mret tt.

(** [while (bits) { count += (bits & 1); bits >>= 1; }] *)
Fixpoint popcount_loop (fuel : nat) (bits count : Z) : option Z :=
  if bits =? 0 then Some count
  else match fuel with
       | O => None
       | S fuel' => popcount_loop fuel' (Z.shiftr bits 1) (count + Z.land bits 1)
       end.

Definition collectWriteDirtyTiles : M Z :=
  '(_, count) ← for_loop_M (Z.to_nat BITMAP_WORDS) 0 BITMAP_WORDS 1
      (fun i count =>
         bits ← atomic_exchange_n write_dirty_tiles i 0;
         dt ← array_get dirty_tiles;
         dt' ← defined (elem_set dt i bits);
         array_set dirty_tiles dt';;
         defined (popcount_loop 32 bits count))
      0;
  mret count.

Definition isTileDirty (tile_idx : Z) : M bool :=
  dt ← array_get dirty_tiles;
  w ← defined (elem_get dt (tile_idx / 32));
  mret (negb (Z.land w (Z.shiftl 1 (tile_idx mod 32)) =? 0)).

(** ** Tile snapshot and render *)

(** [*((uint32 * )(mem + p))]: a little-endian 32-bit read. *)
Definition load32 (mem : list Z) (p : Z) : option Z :=
  b0 ← elem_get mem p;
  b1 ← elem_get mem (p + 1);
  b2 ← elem_get mem (p + 2);
  b3 ← elem_get mem (p + 3);
  Some (Z.lor (Z.lor b0 (Z.shiftl b1 8)) (Z.lor (Z.shiftl b2 16) (Z.shiftl b3 24))).

(** [memcpy(dst + d, src + s, n)] *)
Definition memcpy (dst : list Z) (d : Z) (src : list Z) (s n : Z) : option (list Z) :=
  if decide (0 <= n /\ 0 <= d /\ d + n <= Z.of_nat (length dst) /\
             0 <= s /\ s + n <= Z.of_nat (length src))
  then Some (take (Z.to_nat d) dst ++ take (Z.to_nat n) (drop (Z.to_nat s) src)
               ++ drop (Z.to_nat (d + n)) dst)
  else None.

(** The local variables of a row conversion: the source pointer, the two
    destination row pointers (offsets into the output buffer) and the
    output buffer. *)
Definition row_vars : Type := (Z * Z * Z * list Z)%type.

(** Four source pixels, each written 2x2 scaled. *)
Definition convert4 (mem local_palette : list Z) (v : row_vars) : option row_vars :=
  let '(src, dst_row0, dst_row1, out) := v in
  src4 ← load32 mem src;
  let src := src + 4 in
  c0 ← elem_get local_palette (Z.land src4 255);
  c1 ← elem_get local_palette (Z.land (Z.shiftr src4 8) 255);
  c2 ← elem_get local_palette (Z.land (Z.shiftr src4 16) 255);
  c3 ← elem_get local_palette (Z.land (Z.shiftr src4 24) 255);
  out ← elem_set out (dst_row0 + 0) c0; out ← elem_set out (dst_row0 + 1) c0;
  out ← elem_set out (dst_row0 + 2) c1; out ← elem_set out (dst_row0 + 3) c1;
  out ← elem_set out (dst_row0 + 4) c2; out ← elem_set out (dst_row0 + 5) c2;
  out ← elem_set out (dst_row0 + 6) c3; out ← elem_set out (dst_row0 + 7) c3;
  out ← elem_set out (dst_row1 + 0) c0; out ← elem_set out (dst_row1 + 1) c0;
  out ← elem_set out (dst_row1 + 2) c1; out ← elem_set out (dst_row1 + 3) c1;
  out ← elem_set out (dst_row1 + 4) c2; out ← elem_set out (dst_row1 + 5) c2;
  out ← elem_set out (dst_row1 + 6) c3; out ← elem_set out (dst_row1 + 7) c3;
  Some (src, dst_row0 + 8, dst_row1 + 8, out).

(** One remaining source pixel. *)
Definition convert1 (mem local_palette : list Z) (v : row_vars) : option row_vars :=
  let '(src, dst_row0, dst_row1, out) := v in
  i ← elem_get mem src;
  c ← elem_get local_palette i;
  out ← elem_set out (dst_row0 + 0) c; out ← elem_set out (dst_row0 + 1) c;
  out ← elem_set out (dst_row1 + 0) c; out ← elem_set out (dst_row1 + 1) c;
  Some (src + 1, dst_row0 + 2, dst_row1 + 2, out).

(** The conversion of one source row of [width] pixels: the loop over groups
    of four pixels, then the loop over the remaining pixels.  The source has
    this text three times (in [renderTileToBuffer], in
    [renderTileFromSnapshot] and in [renderFrameToDSI]), with [TILE_WIDTH] or
    [MAC_SCREEN_WIDTH] for [width]. *)
Definition convert_row (width : Z) (mem local_palette : list Z) (v : row_vars) :
    option row_vars :=
  '(x, v) ← for_loop (Z.to_nat width) 0 (width - 3) 4
              (fun _ => convert4 mem local_palette) v;
  '(_, v) ← for_loop (Z.to_nat width) x width 1
              (fun _ => convert1 mem local_palette) v;
  Some v.

Definition renderTileToBuffer (src_buffer : list Z) (tile_x tile_y : Z)
    (local_palette out_buffer : list Z) : option (list Z) :=
  let src_start_x := tile_x * TILE_WIDTH in
  let src_start_y := tile_y * TILE_HEIGHT in
  let tile_pixel_width := TILE_WIDTH * PIXEL_SCALE in
  '(_, (_, out_buffer)) ← for_loop (Z.to_nat TILE_HEIGHT) 0 TILE_HEIGHT 1
      (fun row '(out, buf) =>
         let src_y := src_start_y + row in
         let src := src_y * MAC_SCREEN_WIDTH + src_start_x in
         '(_, _, _, buf) ← convert_row TILE_WIDTH src_buffer local_palette
                             (src, out, out + tile_pixel_width, buf);
         Some (out + tile_pixel_width * 2, buf))
      (0, out_buffer);
  Some out_buffer.

Definition snapshotTile (src_buffer : list Z) (tile_x tile_y : Z)
    (snapshot : list Z) : option (list Z) :=
  let src_start_x := tile_x * TILE_WIDTH in
  let src_start_y := tile_y * TILE_HEIGHT in
  '(_, (_, snapshot)) ← for_loop (Z.to_nat TILE_HEIGHT) 0 TILE_HEIGHT 1
      (fun row '(dst, snap) =>
         let src := (src_start_y + row) * MAC_SCREEN_WIDTH + src_start_x in
         snap ← memcpy snap dst src_buffer src TILE_WIDTH;
         Some (dst + TILE_WIDTH, snap))
      (0, snapshot);
  Some snapshot.

Definition renderTileFromSnapshot (snapshot local_palette out_buffer : list Z) :
    option (list Z) :=
  let tile_pixel_width := TILE_WIDTH * PIXEL_SCALE in
  '(_, (_, _, out_buffer)) ← for_loop (Z.to_nat TILE_HEIGHT) 0 TILE_HEIGHT 1
      (fun row '(src, out, buf) =>
         '(src, _, _, buf) ← convert_row TILE_WIDTH snapshot local_palette
                               (src, out, out + tile_pixel_width, buf);
         Some (src, out + tile_pixel_width * 2, buf))
      (0, 0, out_buffer);
  Some out_buffer.

(** ** PSRAM blocks *)

(** The contents of the block a pointer refers to; NULL and freed blocks
    are undefined. *)
Definition deref (p : option nat) : M (list Z) := fun st =>
  match p with
  | Some b => match heap st !! b with
              | Some data => Some (data, st)
              | None => None
              end
  | None => None
  end.

Definition store (p : option nat) (data : list Z) : M unit := fun st =>
  match p with
  | Some b => match heap st !! b with
              | Some _ => Some (tt, set_heap (<[b := data]> (heap st)) st)
              | None => None
              end
  | None => None
  end.

(** [ps_malloc]: [ok] tells whether the allocator finds memory; the new
    block holds [count] elements. *)
Definition ps_malloc (ok : bool) (count : Z) : M (option nat) := fun st =>
  if ok
  then let b := fresh (dom (heap st)) in
       Some (Some b, set_heap (<[b := replicate (Z.to_nat count) 0]> (heap st)) st)
  else Some (None, st).

(** [free]: a no-op on NULL, undefined on a block that is not live. *)
Definition free (p : option nat) : M unit := fun st =>
  match p with
  | Some b => match heap st !! b with
              | Some _ => Some (tt, set_heap (delete b (heap st)) st)
              | None => None
              end
  | None => Some (tt, st)
  end.

(** ** Palette table *)

(** [ESP32_monitor_desc::set_palette]; [pal] holds [uint8] values. *)
Definition set_palette (pal : list Z) (num : Z) : M unit :=
  for_loop_M 256 0 (Z.min num 256) 1
    (fun i _ =>
       r ← defined (elem_get pal (i * 3 + 0));
       g ← defined (elem_get pal (i * 3 + 1));
       b ← defined (elem_get pal (i * 3 + 2));
       p ← array_get palette_rgb565;
       p' ← defined (elem_set p i (rgb888_to_rgb565 r g b));
       array_set palette_rgb565 p')
    tt;;
  flag_set force_full_update true.

(** ** Full-frame comparison fallback *)

Definition takeFrameSnapshot : M unit :=
  s ← pointer_get snapshot_buffer;
  m ← pointer_get mac_frame_buffer;
  n ← word_get frame_buffer_size;
  dst ← deref s;
  src ← deref m;
  dst' ← defined (memcpy dst 0 src 0 n);
  store s dst'.

Definition swapBuffers : M unit :=
  temp ← pointer_get compare_buffer;
  s ← pointer_get snapshot_buffer;
  pointer_set compare_buffer s;;
  pointer_set snapshot_buffer temp.

(** [detectDirtyTiles]: a [break] is rendered as the remaining iterations
    doing nothing. *)
Definition detectDirtyTiles (current previous : option nat) : M Z :=
  array_set dirty_tiles (replicate (Z.to_nat BITMAP_WORDS) 0);;
  cur ← deref current;
  prev ← deref previous;
  '(_, count) ← for_loop_M (Z.to_nat TILES_Y) 0 TILES_Y 1
    (fun ty count =>
       '(_, count) ← for_loop_M (Z.to_nat TILES_X) 0 TILES_X 1
         (fun tx count =>
            let tile_idx := ty * TILES_X + tx in
            '(_, is_dirty) ← defined (for_loop (Z.to_nat TILE_HEIGHT) 0 TILE_HEIGHT 1
               (fun row is_dirty =>
                  if is_dirty : bool then Some is_dirty else
                  let y := ty * TILE_HEIGHT + row in
                  let offset := y * MAC_SCREEN_WIDTH + tx * TILE_WIDTH in
                  '(_, is_dirty) ← for_loop (Z.to_nat (TILE_WIDTH / 4)) 0 (TILE_WIDTH / 4) 1
                     (fun w is_dirty =>
                        if is_dirty : bool then Some is_dirty else
                        c ← load32 cur (offset + 4 * w);
                        p ← load32 prev (offset + 4 * w);
                        Some (negb (c =? p)))
                     is_dirty;
                  Some is_dirty)
               false);
            if is_dirty : bool
            then atomic_or_fetch dirty_tiles (tile_idx / 32) (Z.shiftl 1 (tile_idx mod 32));;
                 mret (count + 1)
            else mret count)
         count;
       mret count)
    0;
  mret count.

(** ** Frame compositor *)

Definition renderAndPushDirtyTiles (src_buffer : option nat) (local_palette : list Z) :
    M unit :=
  let tile_pixel_width := TILE_WIDTH * PIXEL_SCALE in
  let tile_pixel_height := TILE_HEIGHT * PIXEL_SCALE in
  emit [startWrite];;
  for_loop_M (Z.to_nat TILES_Y) 0 TILES_Y 1
    (fun ty _ =>
       for_loop_M (Z.to_nat TILES_X) 0 TILES_X 1
         (fun tx _ =>
            let tile_idx := ty * TILES_X + tx in
            dirty ← isTileDirty tile_idx;
            if negb dirty then mret tt else
            src ← deref src_buffer;
            snap ← array_get tile_snapshot;
            snap ← defined (snapshotTile src tx ty snap);
            array_set tile_snapshot snap;;
            buf ← array_get tile_buffer;
            buf ← defined (renderTileFromSnapshot snap local_palette buf);
            array_set tile_buffer buf;;
            let dst_start_x := tx * tile_pixel_width in
            let dst_start_y := ty * tile_pixel_height in
            emit [setAddrWindow dst_start_x dst_start_y tile_pixel_width tile_pixel_height;
                  writePixels buf (tile_pixel_width * tile_pixel_height)])
         tt;;
       mret tt)
    tt;;
  emit [endWrite].

(** [renderFrameToDSI]: the source block is read as a whole before the
    destination block is written; the two are distinct allocations. *)
Definition renderFrameToDSI (src_buffer : option nat) : M unit :=
  dsi ← pointer_get dsi_framebuffer;
  match src_buffer, dsi with
  | Some _, Some _ =>
      local_palette ← array_get palette_rgb565;
      src_data ← deref src_buffer;
      dsi_data ← deref dsi;
      '(_, (_, dsi_data)) ← defined (for_loop (Z.to_nat MAC_SCREEN_HEIGHT) 0 MAC_SCREEN_HEIGHT 1
         (fun y '(src, buf) =>
            let dst_row0 := (y * 2) * DISPLAY_WIDTH in
            let dst_row1 := dst_row0 + DISPLAY_WIDTH in
            '(src, _, _, buf) ← convert_row MAC_SCREEN_WIDTH src_data local_palette
                                  (src, dst_row0, dst_row1, buf);
            Some (src, buf))
         (0, dsi_data));
      store dsi dsi_data
  | _, _ => mret tt
  end.

Definition pushFramebufferToDisplay : M unit :=
  dsi ← pointer_get dsi_framebuffer;
  match dsi with
  | None => mret tt
  | Some _ =>
      data ← deref dsi;
      emit [startWrite; setAddrWindow 0 0 DISPLAY_WIDTH DISPLAY_HEIGHT;
            writePixels data (DISPLAY_WIDTH * DISPLAY_HEIGHT); endWrite]
  end.

Inductive update_kind : Type := FullUpdate | PartialUpdate | SkipUpdate.

(** The decision of the loop body of [videoRenderTaskOptimized], as a
    function of the forced-full flag and of the dirty tile count. *)
Definition dirty_threshold : Z := (TOTAL_TILES * DIRTY_THRESHOLD_PERCENT) / 100.

Definition choose_update (force : bool) (d : Z) : update_kind :=
  let do_full_update := force in
  let do_full_update :=
    if negb do_full_update
    then (if dirty_threshold <? d then true else do_full_update)
    else do_full_update in
  if do_full_update then FullUpdate
  else if 0 <? d then PartialUpdate
  else SkipUpdate.

(** ** Render scheduler *)

(** What the platform supplies to one iteration of the task loop: the
    minimum frame interval in ticks (the value of the FreeRTOS macro
    [pdMS_TO_TICKS(67)], 67 at a tick rate of 1000 Hz), the tick count and
    the millisecond clock at the wake, and the durations measured with
    [micros] around each phase. *)
Record readings : Type := Readings {
  min_frame_ticks : Z;
  now_ticks : Z;
  now_ms : Z;
  snapshot_time : Z;
  detect_time : Z;
  render_time : Z;
  push_time : Z
}.

(** [counter += dt] on a [uint32_t] counter. *)
Definition perf_add (c : word) (dt : Z) : M unit :=
  v ← word_get c;
  word_set c (wrap32 (v + dt)).

(** [ulTaskNotifyTake(pdTRUE, timeout)] at the moment it returns: the
    notification value is handed over and cleared. *)
Definition ulTaskNotifyTake : M Z :=
  n ← word_get task_notification;
  word_set task_notification 0;;
  mret n.

Definition reportVideoPerfStats (now : Z) : M unit :=
  last ← word_get perf_last_report_ms;
  if PERF_REPORT_INTERVAL_MS <=? wrap32 (now - last)
  then word_set perf_last_report_ms now;;
       word_set perf_snapshot_us 0;;
       word_set perf_detect_us 0;;
       word_set perf_render_us 0;;
       word_set perf_push_us 0;;
       word_set perf_frame_count 0;;
       word_set perf_partial_count 0;;
       word_set perf_full_count 0;;
       word_set perf_skip_count 0
  else mret tt.

Inductive outcome : Type :=
| Abandoned
| Rendered (kind : update_kind).

(** The loop body between the palette snapshot and [perf_frame_count++], in
    its two phases.  First the dirty set: unless a full update is forced,
    drain the write-time bitmap (or compare against the previous frame) and
    escalate to a full update above the threshold. *)
Definition detect_phase (env : readings) : M bool :=
  do_full_update ← flag_get force_full_update;
  tracking ← flag_get use_write_dirty_tracking;
  if negb do_full_update && tracking then
    count ← collectWriteDirtyTiles;
    word_set dirty_tile_count count;;
    perf_add perf_detect_us (detect_time env);;
    mret (if dirty_threshold <? count then true else do_full_update)
  else if negb do_full_update then
    takeFrameSnapshot;;
    perf_add perf_snapshot_us (snapshot_time env);;
    s ← pointer_get snapshot_buffer;
    c ← pointer_get compare_buffer;
    count ← detectDirtyTiles s c;
    word_set dirty_tile_count count;;
    perf_add perf_detect_us (detect_time env);;
    swapBuffers;;
    mret (if dirty_threshold <? count then true else do_full_update)
  else mret do_full_update.

(** Then the update: full, partial or none. *)
Definition render_phase (env : readings) (local_palette : list Z) (do_full_update : bool) :
    M update_kind :=
  if do_full_update then
    src ← pointer_get mac_frame_buffer;
    renderFrameToDSI src;;
    perf_add perf_render_us (render_time env);;
    pushFramebufferToDisplay;;
    perf_add perf_push_us (push_time env);;
    flag_set force_full_update false;;
    perf_add perf_full_count 1;;
    mret FullUpdate
  else
    count ← word_get dirty_tile_count;
    if 0 <? count then
      src ← pointer_get mac_frame_buffer;
      renderAndPushDirtyTiles src local_palette;;
      perf_add perf_render_us (render_time env);;
      perf_add perf_partial_count 1;;
      mret PartialUpdate
    else
      perf_add perf_skip_count 1;;
      mret SkipUpdate.

Definition render_pass (env : readings) : M update_kind :=
  local_palette ← array_get palette_rgb565;
  do_full_update ← detect_phase env;
  kind ← render_phase env local_palette do_full_update;
  perf_add perf_frame_count 1;;
  mret kind.

(** One iteration of the [while (video_task_running)] loop of
    [videoRenderTaskOptimized], from the return of [ulTaskNotifyTake]. *)
Definition videoRenderTaskOptimized_iteration (env : readings) : M outcome :=
  notification ← ulTaskNotifyTake;
  ready ← flag_get frame_ready;
  let should_render := (0 <? notification) || ready in
  flag_set frame_ready false;;
  let now := now_ticks env in
  last ← word_get last_frame_ticks;
  let elapsed := wrap32 (now - last) in
  if should_render && (elapsed <? min_frame_ticks env) then mret Abandoned else
  kind ← render_pass env;
  word_set last_frame_ticks now;;
  reportVideoPerfStats (now_ms env);;
  mret (Rendered kind).

(** The start of [videoRenderTaskOptimized], before its loop. *)
Definition videoRenderTaskOptimized_start (env : readings) : M unit :=
  word_set perf_last_report_ms (now_ms env);;
  word_set last_frame_ticks (now_ticks env).

(** The loop of [videoRenderTaskOptimized] over a sequence of wakes: the
    running flag is tested before each wait, and the task ends when it is
    clear. *)
Fixpoint videoRenderTaskOptimized_loop (wakes : list readings) : M (list outcome) :=
  match wakes with
  | [] => mret []
  | env :: wakes' =>
      running ← flag_get video_task_running;
      if running : bool then
        o ← videoRenderTaskOptimized_iteration env;
        os ← videoRenderTaskOptimized_loop wakes';
        mret (o :: os)
      else mret []
  end.

Definition VideoSignalFrameReady : M unit :=
  flag_set frame_ready true;;
  handle ← flag_get video_task_handle;
  if handle : bool then
    n ← word_get task_notification;
    word_set task_notification (wrap32 (n + 1))
  else mret tt.

Definition VideoRefresh : M unit :=
  m ← pointer_get mac_frame_buffer;
  running ← flag_get video_task_running;
  if negb (bool_decide (is_Some m)) || negb running then mret tt
  else VideoSignalFrameReady.

(** ** Initialisation and teardown *)

(** What the platform answers during [VideoInit]: whether each [ps_malloc]
    call finds memory, whether the display has a panel, and whether the
    video task can be created. *)
Record init_env : Type := InitEnv {
  mac_alloc_ok : bool;
  snapshot_alloc_ok : bool;
  compare_alloc_ok : bool;
  panel_present : bool;
  dsi_alloc_ok : bool;
  task_create_ok : bool
}.

Definition getDSIFramebuffer (env : init_env) : M (option nat) :=
  if negb (panel_present env) then mret None else
  let fb_size := DISPLAY_WIDTH * DISPLAY_HEIGHT * 2 in
  fb ← ps_malloc (dsi_alloc_ok env) (fb_size / 2);
  match fb with
  | Some _ => word_set dsi_framebuffer_size fb_size
  | None => mret tt
  end;;
  mret fb.

(** [memset(p, v, n)] on a whole block of [n] bytes. *)
Definition memset (p : option nat) (v n : Z) : M unit :=
  data ← deref p;
  data' ← defined (memcpy data 0 (replicate (Z.to_nat n) v) 0 n);
  store p data'.

(** [VideoInit]; the result is its return value.  The monitor descriptor
    and the video mode, which belong to the emulator interface, are left
    out. *)
Definition VideoInit (env : init_env) : M bool :=
  word_set frame_buffer_size (MAC_SCREEN_WIDTH * MAC_SCREEN_HEIGHT);;
  size ← word_get frame_buffer_size;
  m ← ps_malloc (mac_alloc_ok env) size;
  pointer_set mac_frame_buffer m;;
  if negb (bool_decide (is_Some m)) then mret false else
  memset m 128 size;;
  s ← ps_malloc (snapshot_alloc_ok env) size;
  pointer_set snapshot_buffer s;;
  c ← ps_malloc (compare_alloc_ok env) size;
  pointer_set compare_buffer c;;
  if negb (bool_decide (is_Some s)) || negb (bool_decide (is_Some c)) then
    (if bool_decide (is_Some s)
     then free s;; pointer_set snapshot_buffer None else mret tt);;
    (if bool_decide (is_Some c)
     then free c;; pointer_set compare_buffer None else mret tt);;
    free m;;
    pointer_set mac_frame_buffer None;;
    mret false
  else
  memset s 128 size;;
  memset c 128 size;;
  array_set dirty_tiles (replicate (Z.to_nat BITMAP_WORDS) 0);;
  flag_set force_full_update true;;
  d ← getDSIFramebuffer env;
  pointer_set dsi_framebuffer d;;
  if negb (bool_decide (is_Some d)) then
    free m;;
    pointer_set mac_frame_buffer None;;
    mret false
  else
  let gray565 := rgb888_to_rgb565 64 64 64 in
  store d (replicate (Z.to_nat (DISPLAY_WIDTH * DISPLAY_HEIGHT)) gray565);;
  pushFramebufferToDisplay;;
  for_loop_M 256 0 256 1
    (fun i _ =>
       let gray := (255 - i) mod 256 in
       p ← array_get palette_rgb565;
       p' ← defined (elem_set p i (rgb888_to_rgb565 gray gray gray));
       array_set palette_rgb565 p')
    tt;;
  flag_set video_task_running true;;
  (if task_create_ok env then flag_set video_task_handle true else mret tt);;
  mret true.

(** [VideoExit], with [stopVideoTask]. *)
Definition VideoExit : M unit :=
  running ← flag_get video_task_running;
  (if running : bool
   then flag_set video_task_running false;; flag_set video_task_handle false
   else mret tt);;
  m ← pointer_get mac_frame_buffer;
  (if bool_decide (is_Some m) then free m;; pointer_set mac_frame_buffer None else mret tt);;
  s ← pointer_get snapshot_buffer;
  (if bool_decide (is_Some s) then free s;; pointer_set snapshot_buffer None else mret tt);;
  c ← pointer_get compare_buffer;
  (if bool_decide (is_Some c) then free c;; pointer_set compare_buffer None else mret tt);;
  d ← pointer_get dsi_framebuffer;
  (if bool_decide (is_Some d) then free d;; pointer_set dsi_framebuffer None else mret tt).

(** ** Notions used to state the properties *)

(** Bit [t] of a tile bitmap: the test of [isTileDirty]. *)
Definition tile_bit (bitmap : list Z) (t : Z) : bool :=
  match elem_get bitmap (t / 32) with
  | Some w => Z.testbit w (t mod 32)
  | None => false
  end.

(** The number of set bits among the 32 bits of a word, and of a bitmap. *)
Definition popcount (w : Z) : Z :=
  Z.of_nat (length (List.filter (Z.testbit w) (seqZ 0 32))).

Definition bitmap_popcount (bitmap : list Z) : Z :=
  foldr Z.add 0 (popcount <$> bitmap).

(** The calls of the dirty tracker: the producer's marks and the consumer's
    drain. *)
Inductive tracker_call : Type :=
| MarkDirtyOffset (offset : Z)
| MarkDirtyRange (offset size : Z)
| Drain.

Definition run_call (c : tracker_call) : M unit :=
  match c with
  | MarkDirtyOffset offset => VideoMarkDirtyOffset offset
  | MarkDirtyRange offset size => VideoMarkDirtyRange offset size
  | Drain => collectWriteDirtyTiles;; mret tt
  end.

Fixpoint run_calls (cs : list tracker_call) : M unit :=
  match cs with
  | [] => mret tt
  | c :: cs' => run_call c;; run_calls cs'
  end.

(** The arguments of a call are [uint32] values. *)
Definition call_ok (c : tracker_call) : Prop :=
  match c with
  | MarkDirtyOffset offset => 0 <= offset < 2 ^ 32
  | MarkDirtyRange offset size => 0 <= offset < 2 ^ 32 /\ 0 <= size < 2 ^ 32
  | Drain => True
  end.

(** The tiles a call marks: none when tracking is off or the offset is
    outside the framebuffer. *)
Definition offset_tiles (fb_size offset : Z) : list Z :=
  if fb_size <=? offset then [] else [tile_of_offset offset].

Definition marked_tiles (tracking : bool) (fb_size : Z) (c : tracker_call) : list Z :=
  if negb tracking then [] else
  match c with
  | MarkDirtyOffset offset => offset_tiles fb_size offset
  | MarkDirtyRange offset size =>
      if fb_size <=? offset then [] else
      let size := clamp_size fb_size offset size in
      tile_of_offset offset ::
        (if 1 <? size then offset_tiles fb_size (wrap32 (offset + size - 1)) else [])
  | Drain => []
  end.

(** The state the tracker relies on: bitmaps of [BITMAP_WORDS] 32-bit words
    and a framebuffer size that is 0 (before [VideoInit]) or at most the
    640x360 bytes [VideoInit] sets. *)
Definition tracker_ok (st : globals) : Prop :=
  length (arrays st write_dirty_tiles) = Z.to_nat BITMAP_WORDS /\
  length (arrays st dirty_tiles) = Z.to_nat BITMAP_WORDS /\
  0 <= words st frame_buffer_size <= MAC_SCREEN_WIDTH * MAC_SCREEN_HEIGHT /\
  Forall (fun w => 0 <= w < 2 ^ 32) (arrays st write_dirty_tiles).

(** A bitmap with the bit of tile [t] set. *)
Definition with_tile_bit (bitmap : list Z) (t : Z) : list Z :=
  match bitmap !! Z.to_nat (t / 32) with
  | Some w => <[Z.to_nat (t / 32) := Z.lor w (Z.shiftl 1 (t mod 32))]> bitmap
  | None => bitmap
  end.

(** A state that differs from [st] in the write-accumulation bitmap only. *)
Definition with_write_dirty (bitmap : list Z) (st : globals) : globals :=
  set_arrays (<[write_dirty_tiles := bitmap]> (arrays st)) st.

(** The state after the tiles [ts] have been marked, one after the other. *)
Definition mark_all (ts : list Z) (st : globals) : globals :=
  foldl (fun s t => with_write_dirty (with_tile_bit (arrays s write_dirty_tiles) t) s) st ts.

(** The state components the tracker calls leave alone. *)
Definition tracker_frame (st st' : globals) : Prop :=
  flags st' = flags st /\ words st' = words st /\ pointers st' = pointers st /\
  heap st' = heap st /\ display st' = display st /\
  forall a, a <> write_dirty_tiles -> a <> dirty_tiles -> arrays st' a = arrays st a.

(** The static state with the framebuffer size [VideoInit] sets; used for
    concrete instances. *)
Definition ready_globals : globals :=
  set_words (<[frame_buffer_size := MAC_SCREEN_WIDTH * MAC_SCREEN_HEIGHT]> (words initial_globals))
    initial_globals.

(** What is left after [VideoInit]: its return value, the four buffer
    pointers ([mac_frame_buffer], [snapshot_buffer], [compare_buffer],
    [dsi_framebuffer]) and the live PSRAM blocks with their lengths. *)
Definition init_report (r : option (bool * globals)) :
    option (bool * list (option nat) * list (nat * Z)) :=
  match r with
  | Some (ok, st) =>
      Some (ok,
            [pointers st mac_frame_buffer; pointers st snapshot_buffer;
             pointers st compare_buffer; pointers st dsi_framebuffer],
            (fun '(b, data) => (b, Z.of_nat (length data))) <$> map_to_list (heap st))
  | None => None
  end.

(** The bytes at [p .. p + n) of [mem1] are the bytes at [q .. q + n) of [mem2]. *)
Definition reads_agree (mem1 : list Z) (p : Z) (mem2 : list Z) (q n : Z) : Prop :=
  forall j, 0 <= j < n -> elem_get mem1 (p + j) = elem_get mem2 (q + j).

(** The relation between the variables of two row conversions that started
    at source pointers [p] and [q] and have consumed [i] pixels. *)
Definition row_related (p q : Z) (i : Z) (s t : row_vars) : Prop :=
  let '(p1, a0, a1, o1) := s in
  let '(q1, b0, b1, o2) := t in
  p1 = p + i /\ q1 = q + i /\ a0 = b0 /\ a1 = b1 /\ o1 = o2 /\ 0 <= i.

(** The wake of the render task: whether a frame-ready signal is pending,
    and the ticks elapsed since the last render. *)
Definition should_render (st : globals) : bool :=
  (0 <? words st task_notification) || flags st frame_ready.

Definition elapsed_ticks (env : readings) (st : globals) : Z :=
  wrap32 (now_ticks env - words st last_frame_ticks).


(** The state with the frame-ready signal taken: the notification value
    reset and the legacy flag cleared. *)
Definition signal_consumed (st : globals) : globals :=
  set_flags (<[frame_ready := false]> (flags st))
    (set_words (<[task_notification := 0]> (words st)) st).

(** The end of a loop iteration that rendered. *)
Definition finish_iteration (env : readings) (kind : update_kind) : M outcome :=
  word_set last_frame_ticks (now_ticks env);;
  reportVideoPerfStats (now_ms env);;
  mret (Rendered kind).

(** A state in which the producer has signalled a frame, 10 ticks after the
    last render. *)
Definition signalled_globals : globals :=
  set_flags (<[frame_ready := true]> (flags ready_globals))
    (set_words (<[task_notification := 1]> (words ready_globals)) ready_globals).

Definition running_globals (st : globals) : globals :=
  set_flags (<[video_task_running := true]> (flags st)) st.

Definition early_wake : readings := Readings 67 10 10 0 0 0 0.
Definition late_wake : readings := Readings 67 80 80 0 3 0 0.

(** A state with nothing forced and nothing dirty. *)
Definition idle_globals : globals :=
  set_flags (<[force_full_update := false]> (flags ready_globals)) ready_globals.

(** The buffers a full update needs, when they are allocated: a source
    framebuffer of 640x360 bytes, a destination framebuffer of 1280x720
    pixels, and the 256 palette entries. *)
Definition buffers_ok (st : globals) : Prop :=
  length (arrays st palette_rgb565) = 256%nat /\
  (forall m, pointers st mac_frame_buffer = Some m ->
     exists src, heap st !! m = Some src /\
       Z.of_nat (length src) = MAC_SCREEN_WIDTH * MAC_SCREEN_HEIGHT) /\
  (forall d, pointers st dsi_framebuffer = Some d ->
     exists dsi, heap st !! d = Some dsi /\
       Z.of_nat (length dsi) = DISPLAY_WIDTH * DISPLAY_HEIGHT).

(** A state with the source and destination framebuffers allocated, as
    [VideoInit] leaves them: gray source bytes in block 0, dark-gray pixels
    in block 1. *)
Definition allocated_globals : globals :=
  set_heap
    (<[0%nat := replicate (Z.to_nat (MAC_SCREEN_WIDTH * MAC_SCREEN_HEIGHT)) 128]>
       (<[1%nat := replicate (Z.to_nat (DISPLAY_WIDTH * DISPLAY_HEIGHT))
                     (rgb888_to_rgb565 64 64 64)]> ∅))
    (set_pointers
       (<[mac_frame_buffer := Some 0%nat]>
          (<[dsi_framebuffer := Some 1%nat]> (pointers ready_globals)))
       ready_globals).

(** What a partial update needs on top of the tracker state: an allocated
    source framebuffer and the two static tile buffers of
    [renderAndPushDirtyTiles]. *)
Definition engine_ready (st : globals) : Prop :=
  tracker_ok st /\ buffers_ok st /\
  is_Some (pointers st mac_frame_buffer) /\
  Z.of_nat (length (arrays st tile_snapshot)) = TILE_WIDTH * TILE_HEIGHT /\
  Z.of_nat (length (arrays st tile_buffer)) =
    TILE_WIDTH * PIXEL_SCALE * TILE_HEIGHT * PIXEL_SCALE.

(** The part of the state a partial update leaves alone, and what it adds
    to the display trace. *)
Definition partial_frame (st s : globals) : Prop :=
  flags s = flags st /\ words s = words st /\ pointers s = pointers st /\
  heap s = heap st /\
  (forall a, a <> tile_snapshot -> a <> tile_buffer -> arrays s a = arrays st a) /\
  length (arrays s tile_snapshot) = length (arrays st tile_snapshot) /\
  length (arrays s tile_buffer) = length (arrays st tile_buffer) /\
  exists ops, display s = display st ++ startWrite :: ops.

(** A ready engine with nothing forced and a given write-accumulation
    bitmap. *)
Definition dirty_globals (bitmap : list Z) : globals :=
  set_arrays (<[write_dirty_tiles := bitmap]> (arrays allocated_globals))
    (set_flags (<[force_full_update := false]> (flags allocated_globals)) allocated_globals).


(** * Further functions of [video_esp32.cpp] and the notions their
      properties are stated with *)

(** ** Rendering a tile in place *)

(** [renderTile]: a tile converted straight into the DSI framebuffer, at its
    2x2-scaled position.  The source reads both buffers without a NULL
    check. *)
Definition renderTile (src_buffer : option nat) (tile_x tile_y : Z) (local_palette : list Z) :
    M unit :=
  let src_start_x := tile_x * TILE_WIDTH in
  let src_start_y := tile_y * TILE_HEIGHT in
  let dst_start_x := src_start_x * PIXEL_SCALE in
  let dst_start_y := src_start_y * PIXEL_SCALE in
  src_data ← deref src_buffer;
  dsi ← pointer_get dsi_framebuffer;
  dsi_data ← deref dsi;
  '(_, dsi_data) ← defined (for_loop (Z.to_nat TILE_HEIGHT) 0 TILE_HEIGHT 1
     (fun row buf =>
        let src_y := src_start_y + row in
        let dst_y := dst_start_y + row * PIXEL_SCALE in
        let src := src_y * MAC_SCREEN_WIDTH + src_start_x in
        let dst_row0 := dst_y * DISPLAY_WIDTH + dst_start_x in
        let dst_row1 := dst_row0 + DISPLAY_WIDTH in
        '(_, _, _, buf) ← convert_row TILE_WIDTH src_data local_palette
                            (src, dst_row0, dst_row1, buf);
        Some buf)
     dsi_data);
  store dsi dsi_data.

(** ** Pixels *)

(** The display colour of the framebuffer byte at offset [o]: the palette
    entry the byte indexes. *)
Definition pixel_of (src pal : list Z) (o : Z) : option Z :=
  i ← elem_get src o; elem_get pal i.

(** The contents of a [uint8] buffer. *)
Definition bytes_ok (l : list Z) : Prop := Forall (fun b => 0 <= b < 256) l.

(** The first [n] rows of a 2x2-scaled block are written.  Row [r] of the
    block reads [W] source bytes from offset [s + r * ss] and fills the two
    destination rows that start at [d + (2 * r) * ds] and
    [d + (2 * r + 1) * ds], [2 * W] pixels each; every other element of the
    destination is as in [out0]. *)
Definition block_done (src pal : list Z) (s ss W d ds n : Z) (out0 out : list Z) : Prop :=
  length out = length out0 /\
  (forall r dy k, 0 <= r < n -> 0 <= dy < 2 -> 0 <= k < 2 * W ->
     elem_get out (d + (2 * r + dy) * ds + k) = pixel_of src pal (s + r * ss + k / 2)) /\
  (forall j, (forall r dy, 0 <= r < n -> 0 <= dy < 2 ->
                ~ (d + (2 * r + dy) * ds <= j < d + (2 * r + dy) * ds + 2 * W)) ->
     elem_get out j = elem_get out0 j).

(** The 80x80 pixels of tile [(tile_x, tile_y)]: pixel [j] of the block, in
    row-major order, shows the framebuffer byte of row [j / 80 / 2] and
    column [j mod 80 / 2] of the tile. *)
Definition tile_pixels (src pal : list Z) (tile_x tile_y : Z) : list Z :=
  (fun j =>
     let r := j / (TILE_WIDTH * PIXEL_SCALE) / PIXEL_SCALE in
     let c := j mod (TILE_WIDTH * PIXEL_SCALE) / PIXEL_SCALE in
     default 0 (pixel_of src pal
                  ((tile_y * TILE_HEIGHT + r) * MAC_SCREEN_WIDTH + tile_x * TILE_WIDTH + c)))
  <$> seqZ 0 (TILE_WIDTH * PIXEL_SCALE * TILE_HEIGHT * PIXEL_SCALE).

(** What a partial update sends for tile [t]: the window of the tile on the
    display and its pixels. *)
Definition tile_push (src pal : list Z) (t : Z) : list display_op :=
  [setAddrWindow (t mod TILES_X * (TILE_WIDTH * PIXEL_SCALE))
     (t / TILES_X * (TILE_HEIGHT * PIXEL_SCALE))
     (TILE_WIDTH * PIXEL_SCALE) (TILE_HEIGHT * PIXEL_SCALE);
   writePixels (tile_pixels src pal (t mod TILES_X) (t / TILES_X))
     (TILE_WIDTH * PIXEL_SCALE * (TILE_HEIGHT * PIXEL_SCALE))].

(** The pushes for the dirty tiles among the tiles [0 .. n), in index
    order. *)
Definition dirty_pushes (src pal bitmap : list Z) (n : Z) : list display_op :=
  t ← seqZ 0 n; if tile_bit bitmap t then tile_push src pal t else [].

(** ** The running engine *)

(** A ready engine whose render bitmap holds [bitmap]; used for concrete
    instances. *)
Definition pending_globals (bitmap : list Z) : globals :=
  set_arrays (<[dirty_tiles := bitmap]> (arrays allocated_globals)) allocated_globals.

(** The state of the engine between two steps, once [VideoInit] has
    succeeded: the buffers and tables have their sizes, write-time tracking
    is on (the source never clears the flag), and the Mac framebuffer holds
    [uint8] values. *)
Definition engine_inv (st : globals) : Prop :=
  engine_ready st /\
  flags st use_write_dirty_tracking = true /\
  forall m src, pointers st mac_frame_buffer = Some m -> heap st !! m = Some src ->
    bytes_ok src.

(** The counters of the periodic report: the number of rendered frames is
    the sum of the three per-kind counts, in [uint32_t] arithmetic. *)
Definition perf_consistent (st : globals) : Prop :=
  words st perf_frame_count =
    wrap32 (words st perf_full_count + words st perf_partial_count + words st perf_skip_count).

(** The counters [reportVideoPerfStats] resets. *)
Definition perf_counter (w : word) : bool :=
  match w with
  | perf_snapshot_us | perf_detect_us | perf_render_us | perf_push_us
  | perf_frame_count | perf_partial_count | perf_full_count | perf_skip_count => true
  | _ => false
  end.

(** ** Initialisation *)

(** Every allocation of [VideoInit] succeeds and the display has a panel. *)
Definition init_ok (env : init_env) : bool :=
  mac_alloc_ok env && snapshot_alloc_ok env && compare_alloc_ok env &&
  panel_present env && dsi_alloc_ok env.

(** The contents [VideoInit] gives the three Mac-side buffers (gray, 0x80)
    and the display framebuffer (dark gray). *)
Definition gray_frame : list Z :=
  replicate (Z.to_nat (MAC_SCREEN_WIDTH * MAC_SCREEN_HEIGHT)) 128.

Definition gray_screen : list Z :=
  replicate (Z.to_nat (DISPLAY_WIDTH * DISPLAY_HEIGHT)) (rgb888_to_rgb565 64 64 64).

(** The palette [VideoInit] installs: grayscale, index 0 white and index
    255 black. *)
Definition default_palette : list Z :=
  (fun i => rgb888_to_rgb565 (255 - i) (255 - i) (255 - i)) <$> seqZ 0 256.

(** The static tables of the translation unit have their declared sizes,
    the write-time bitmap holds [uint32] words, and write-time tracking has
    the value of its initialiser. *)
Definition statics_ok (st : globals) : Prop :=
  length (arrays st palette_rgb565) = 256%nat /\
  length (arrays st write_dirty_tiles) = Z.to_nat BITMAP_WORDS /\
  Forall (fun w => 0 <= w < 2 ^ 32) (arrays st write_dirty_tiles) /\
  Z.of_nat (length (arrays st tile_snapshot)) = TILE_WIDTH * TILE_HEIGHT /\
  Z.of_nat (length (arrays st tile_buffer)) =
    TILE_WIDTH * PIXEL_SCALE * TILE_HEIGHT * PIXEL_SCALE /\
  flags st use_write_dirty_tracking = true.

(** Every buffer pointer that is not NULL refers to a live block, and no two
    pointers share a block. *)
Definition pointers_live (st : globals) : Prop :=
  (forall p b, pointers st p = Some b -> is_Some (heap st !! b)) /\
  (forall p q b, pointers st p = Some b -> pointers st q = Some b -> p = q).

(** [k] calls of [VideoSignalFrameReady] in a row. *)
(** * The task loop *)
Fixpoint signals (k : nat) : M unit :=
  match k with
  | O => mret tt
  | S k' => VideoSignalFrameReady;; signals k'
  end.

(** ** Accessors *)

(** [VideoGetFrameBuffer] and [VideoGetFrameBufferSize]. *)
Definition VideoGetFrameBuffer : M (option nat) := pointer_get mac_frame_buffer.
Definition VideoGetFrameBufferSize : M Z := word_get frame_buffer_size.

(** ** Frame comparison *)

(** The comparison of one tile in [detectDirtyTiles]: its two inner loops,
    over the rows of the tile and the ten words of a row. *)
Definition tile_scan (cur prev : list Z) (tx ty : Z) : option (Z * bool) :=
  for_loop (Z.to_nat TILE_HEIGHT) 0 TILE_HEIGHT 1
    (fun row is_dirty =>
       if is_dirty : bool then Some is_dirty else
       let y := ty * TILE_HEIGHT + row in
       let offset := y * MAC_SCREEN_WIDTH + tx * TILE_WIDTH in
       '(_, is_dirty) ← for_loop (Z.to_nat (TILE_WIDTH / 4)) 0 (TILE_WIDTH / 4) 1
          (fun w is_dirty =>
             if is_dirty : bool then Some is_dirty else
             c ← load32 cur (offset + 4 * w);
             p ← load32 prev (offset + 4 * w);
             Some (negb (c =? p)))
          is_dirty;
       Some is_dirty)
    false.

(** Tile [t] differs between two frames: some byte of its source rectangle
    does. *)
Definition tile_differs (cur prev : list Z) (t : Z) : Prop :=
  exists x y, 0 <= x < MAC_SCREEN_WIDTH /\ 0 <= y < MAC_SCREEN_HEIGHT /\
    tile_index x y = t /\
    elem_get cur (y * MAC_SCREEN_WIDTH + x) <> elem_get prev (y * MAC_SCREEN_WIDTH + x).

(** A state in comparison mode: write tracking off, nothing forced, and the
    snapshot and compare buffers allocated beside the framebuffers of
    [allocated_globals]. *)
Definition compare_globals : globals :=
  set_flags
    (<[use_write_dirty_tracking := false]>
       (<[force_full_update := false]> (flags allocated_globals)))
    (set_heap
       (<[3%nat := gray_frame]> (<[2%nat := gray_frame]> (heap allocated_globals)))
       (set_pointers
          (<[compare_buffer := Some 3%nat]>
             (<[snapshot_buffer := Some 2%nat]> (pointers allocated_globals)))
          allocated_globals)).

(** ** The drain, word by word *)

(** One iteration of the loop of [collectWriteDirtyTiles]: word [i] of the
    write bitmap is exchanged with zero, the value taken is stored in
    [dirty_tiles] and its set bits are added to [count]. *)
Definition collect_word (i count : Z) : M Z :=
  bits ← atomic_exchange_n write_dirty_tiles i 0;
  dt ← array_get dirty_tiles;
  dt' ← defined (elem_set dt i bits);
  array_set dirty_tiles dt';;
  defined (popcount_loop 32 bits count).

(** A drain that runs while the emulation core marks tiles.
    [collectWriteDirtyTiles] takes no lock: its exchanges are separate
    atomic operations, and the [__atomic_or_fetch] of a mark on the other
    core can fall between any two of them.  The calls of [slots !! k] are
    those the other core completes after [k] exchanges of the drain and
    before the next one; the drain goes on from word [i] with [count]. *)
Fixpoint collect_interleaved (slots : list (list tracker_call)) (i count : Z) : M Z :=
  match slots with
  | [] => mret count
  | cs :: slots' =>
      run_calls cs;;
      count ← collect_word i count;
      collect_interleaved slots' (i + 1) count
  end.

(** The tiles the calls of [slots] mark. *)
Definition slot_tiles (tracking : bool) (fb_size : Z) (slots : list (list tracker_call)) :
    list Z :=
  slots ≫= fun cs => cs ≫= marked_tiles tracking fb_size.

(** What holds after the slots [done] of a drain that started in [st0]:
    for a tile whose word is exchanged already, the bit reported in
    [dirty_tiles] is the bit pending at the start or set by a mark before
    the exchange, and the write bit is set by the marks after it; for the
    other tiles the write bit accumulates. *)
Definition drain_inv (st0 : globals) (done : list (list tracker_call)) (s : globals)
    (count : Z) : Prop :=
  let tiles := slot_tiles (flags st0 use_write_dirty_tracking) (words st0 frame_buffer_size) in
  tracker_ok s /\ tracker_frame st0 s /\
  (forall t, 0 <= t < 32 * BITMAP_WORDS ->
     (t / 32 < Z.of_nat (length done) ->
        (tile_bit (arrays s dirty_tiles) t = true <->
           tile_bit (arrays st0 write_dirty_tiles) t = true \/
           t ∈ tiles (take (S (Z.to_nat (t / 32))) done)) /\
        (tile_bit (arrays s write_dirty_tiles) t = true <->
           t ∈ tiles (drop (S (Z.to_nat (t / 32))) done))) /\
     (Z.of_nat (length done) <= t / 32 ->
        (tile_bit (arrays s write_dirty_tiles) t = true <->
           tile_bit (arrays st0 write_dirty_tiles) t = true \/ t ∈ tiles done))) /\
  count = bitmap_popcount (take (length done) (arrays s dirty_tiles)).

(** ** A full update during which the other core runs *)

(** The update phase of a render pass while the emulation core runs
    [other].  The video task holds no lock across its full update: a call
    on the other core can complete after [renderFrameToDSI] has converted
    the frame (with the palette it copied on entry) and before the task
    pushes the frame and clears [force_full_update]. *)
Definition render_phase_interleaved (env : readings) (local_palette : list Z)
    (do_full_update : bool) (other : M unit) : M update_kind :=
  if do_full_update then
    src ← pointer_get mac_frame_buffer;
    renderFrameToDSI src;;
    other;;
    perf_add perf_render_us (render_time env);;
    pushFramebufferToDisplay;;
    perf_add perf_push_us (push_time env);;
    flag_set force_full_update false;;
    perf_add perf_full_count 1;;
    mret FullUpdate
  else render_phase env local_palette false.

Definition render_pass_interleaved (env : readings) (other : M unit) : M update_kind :=
  local_palette ← array_get palette_rgb565;
  do_full_update ← detect_phase env;
  kind ← render_phase_interleaved env local_palette do_full_update other;
  perf_add perf_frame_count 1;;
  mret kind.
(** * Properties *)

(** ** Palette conversion *)

Lemma testbit_uint8_high (v i : Z) : 0 <= v < 256 -> 8 <= i -> Z.testbit v i = false.
Proof.
  intros Hv Hi. rewrite <- (Z.mod_small v (2 ^ 8)) by lia.
  apply Z.mod_pow2_bits_high. lia.
Qed.

(** Every bit of the converted pixel, in terms of the bits of the three
    components. *)
Lemma rgb888_to_rgb565_testbit (r g b k : Z) :
  0 <= r < 256 -> 0 <= g < 256 -> 0 <= b < 256 -> 0 <= k ->
  Z.testbit (rgb888_to_rgb565 r g b) k =
    if k <? 3 then Z.testbit g (k + 5)
    else if k <? 8 then Z.testbit r k
    else if k <? 13 then Z.testbit b (k - 5)
    else if k <? 16 then Z.testbit g (k - 11)
    else false.
Proof.
  intros Hr Hg Hb Hk. unfold rgb888_to_rgb565, wrap16.
  destruct (Z.ltb_spec k 16) as [Hk16 | Hk16].
  2: { rewrite Z.mod_pow2_bits_high by lia.
       repeat (case_match; try lia). all: try reflexivity.
       all: rewrite ?Z.ltb_lt, ?Z.ltb_ge in *; lia. }
  rewrite Z.mod_pow2_bits_low by lia.
  rewrite !Z.lor_spec.
  rewrite (Z.shiftl_spec _ 8) by lia.
  rewrite (Z.shiftl_spec _ 3) by lia.
  rewrite (Z.shiftr_spec g 5) by lia.
  destruct (Z.ltb_spec k 3).
  { rewrite (Z.testbit_neg_r _ (k - 3)) by lia.
    rewrite (Z.testbit_neg_r _ (k - 8)) by lia.
    rewrite orb_false_r. reflexivity. }
  rewrite (Z.shiftr_spec r 3) by lia.
  rewrite (testbit_uint8_high g (k + 5)) by lia.
  replace (k - 3 + 3) with k by lia. rewrite orb_false_r.
  destruct (Z.ltb_spec k 8).
  { rewrite (Z.testbit_neg_r _ (k - 8)) by lia. apply orb_false_r. }
  rewrite (testbit_uint8_high r k) by lia. simpl.
  rewrite Z.lor_spec, (Z.shiftl_spec _ 5), (Z.shiftr_spec b 3) by lia.
  destruct (Z.ltb_spec k 13).
  { rewrite (Z.testbit_neg_r _ (k - 8 - 5)) by lia. simpl. f_equal. lia. }
  rewrite (Z.shiftr_spec g 2) by lia.
  rewrite (testbit_uint8_high b (k - 8 + 3)) by lia.
  rewrite orb_false_r. f_equal. lia.
Qed.

Lemma rgb888_to_rgb565_range (r g b : Z) : 0 <= rgb888_to_rgb565 r g b < 2 ^ 16.
Proof. unfold rgb888_to_rgb565, wrap16. apply Z.mod_pos_bound. lia. Qed.

Lemma low_byte_testbit (v i : Z) : 0 <= i < 8 -> Z.testbit (low_byte v) i = Z.testbit v i.
Proof.
  intros Hi. unfold low_byte. change 255 with (Z.ones 8).
  rewrite Z.land_spec, Z.ones_spec_low by lia. apply andb_true_r.
Qed.

Lemma high_byte_testbit (v i : Z) : 0 <= i -> Z.testbit (high_byte v) i = Z.testbit v (i + 8).
Proof. intros Hi. unfold high_byte. apply Z.shiftr_spec. lia. Qed.

Lemma bytes_of_uint16 (v : Z) :
  0 <= v < 2 ^ 16 ->
  0 <= low_byte v < 256 /\ 0 <= high_byte v < 256 /\ v = low_byte v + 256 * high_byte v.
Proof.
  intros Hv. unfold low_byte, high_byte. change 255 with (Z.ones 8).
  rewrite Z.land_ones, Z.shiftr_div_pow2 by lia.
  change (2 ^ 8) with 256. change (2 ^ 16) with 65536 in Hv.
  pose proof (Z.div_mod v 256 ltac:(lia)).
  pose proof (Z.mod_pos_bound v 256 ltac:(lia)).
  assert (0 <= v / 256 < 256) by (split; [apply Z.div_pos | apply Z.div_lt_upper_bound]; lia).
  lia.
Qed.

(** C9. The conversion of an RGB888 palette entry is the byte-swapped RGB565
    packing of the source comment: in the low byte the five red bits
    [r >> 3] are bits 7-3 and the top three green bits [g >> 5] are bits
    2-0; in the high byte the low three bits of the six-bit green [g >> 2]
    are bits 7-5 and the five blue bits [b >> 3] are bits 4-0.  The pixel is
    these two bytes and nothing else, and RGB (255, 0, 0) is [0x00F8]. *)
Theorem rgb888_to_rgb565_swap565 (r g b : Z) :
  0 <= r < 256 -> 0 <= g < 256 -> 0 <= b < 256 ->
  let v := rgb888_to_rgb565 r g b in
  (forall i, 0 <= i < 5 -> Z.testbit (low_byte v) (3 + i) = Z.testbit (Z.shiftr r 3) i) /\
  (forall i, 0 <= i < 3 -> Z.testbit (low_byte v) i = Z.testbit (Z.shiftr g 5) i) /\
  (forall i, 0 <= i < 3 -> Z.testbit (high_byte v) (5 + i) = Z.testbit (Z.shiftr g 2) i) /\
  (forall i, 0 <= i < 5 -> Z.testbit (high_byte v) i = Z.testbit (Z.shiftr b 3) i) /\
  0 <= low_byte v < 256 /\ 0 <= high_byte v < 256 /\
  v = low_byte v + 256 * high_byte v /\
  rgb888_to_rgb565 255 0 0 = 0x00F8.
Proof.
  intros Hr Hg Hb v.
  assert (Hbit := fun k => rgb888_to_rgb565_testbit r g b k Hr Hg Hb). fold v in Hbit.
  repeat split.
  - intros i Hi. rewrite low_byte_testbit, Hbit, Z.shiftr_spec by lia.
    destruct (Z.ltb_spec (3 + i) 3); [lia |].
    destruct (Z.ltb_spec (3 + i) 8); [| lia]. f_equal. lia.
  - intros i Hi. rewrite low_byte_testbit, Hbit, Z.shiftr_spec by lia.
    destruct (Z.ltb_spec i 3); [reflexivity | lia].
  - intros i Hi. rewrite high_byte_testbit, Hbit, Z.shiftr_spec by lia.
    destruct (Z.ltb_spec (5 + i + 8) 3); [lia |].
    destruct (Z.ltb_spec (5 + i + 8) 8); [lia |].
    destruct (Z.ltb_spec (5 + i + 8) 13); [lia |].
    destruct (Z.ltb_spec (5 + i + 8) 16); [| lia]. f_equal. lia.
  - intros i Hi. rewrite high_byte_testbit, Hbit, Z.shiftr_spec by lia.
    destruct (Z.ltb_spec (i + 8) 3); [lia |].
    destruct (Z.ltb_spec (i + 8) 8); [lia |].
    destruct (Z.ltb_spec (i + 8) 13); [| lia]. f_equal. lia.
  - apply (bytes_of_uint16 v), rgb888_to_rgb565_range.
  - apply (bytes_of_uint16 v), rgb888_to_rgb565_range.
  - apply (bytes_of_uint16 v), rgb888_to_rgb565_range.
  - apply (bytes_of_uint16 v), rgb888_to_rgb565_range.
  - apply (bytes_of_uint16 v), rgb888_to_rgb565_range.
Qed.

Lemma rgb888_to_rgb565_swap565_witness :
  Z.testbit (low_byte (rgb888_to_rgb565 255 0 0)) 7 = true /\
  rgb888_to_rgb565 255 0 0 = 248.
Proof.
  destruct (rgb888_to_rgb565_swap565 255 0 0 ltac:(lia) ltac:(lia) ltac:(lia))
    as (Hred & _ & _ & _ & _ & _ & _ & Hv).
  split; [exact (Hred 4 ltac:(lia)) | exact Hv].
Defined.

(** ** Tile grid *)

Local Ltac div_lia := Z.div_mod_to_equations; lia.

(** C5. Every valid source pixel has exactly one tile index, in 0..143, the
    one [VideoMarkDirtyOffset] computes from its byte offset; the pixel lies
    in the rectangle of that tile and of no other tile, every tile rectangle
    lies inside the 640x360 buffer, and 40*16 = 640, 40*9 = 360. *)
Theorem tile_coverage (x y : Z) :
  0 <= x < MAC_SCREEN_WIDTH -> 0 <= y < MAC_SCREEN_HEIGHT ->
  0 <= tile_index x y < 144 /\
  TOTAL_TILES = 144 /\
  tile_of_offset (y * MAC_SCREEN_WIDTH + x) = tile_index x y /\
  (0 <= x / TILE_WIDTH < TILES_X /\ 0 <= y / TILE_HEIGHT < TILES_Y /\
   in_tile (x / TILE_WIDTH) (y / TILE_HEIGHT) x y) /\
  (forall tile_x tile_y,
     0 <= tile_x < TILES_X -> 0 <= tile_y < TILES_Y ->
     (in_tile tile_x tile_y x y <-> tile_y * TILES_X + tile_x = tile_index x y)) /\
  (forall tile_x tile_y x' y',
     0 <= tile_x < TILES_X -> 0 <= tile_y < TILES_Y ->
     in_tile tile_x tile_y x' y' ->
     0 <= x' < MAC_SCREEN_WIDTH /\ 0 <= y' < MAC_SCREEN_HEIGHT) /\
  TILE_WIDTH * TILES_X = MAC_SCREEN_WIDTH /\
  TILE_HEIGHT * TILES_Y = MAC_SCREEN_HEIGHT.
Proof.
  unfold tile_index, tile_of_offset, in_tile, TOTAL_TILES, MAC_SCREEN_WIDTH,
    MAC_SCREEN_HEIGHT, TILE_WIDTH, TILE_HEIGHT, TILES_X, TILES_Y.
  intros Hx Hy.
  assert (Hd : (y * 640 + x) / 640 = y) by div_lia.
  assert (Hm : (y * 640 + x) mod 640 = x) by div_lia.
  rewrite Hd, Hm.
  repeat split; try reflexivity; try div_lia.
  all: intros; div_lia.
Qed.

Lemma tile_coverage_witness :
  tile_index 639 359 = 143 /\ tile_of_offset (359 * 640 + 639) = 143.
Proof.
  destruct (tile_coverage 639 359) as (_ & _ & Hoff & _); [unfold MAC_SCREEN_WIDTH; lia | unfold MAC_SCREEN_HEIGHT; lia |].
  split; [reflexivity | exact Hoff].
Defined.

(** ** Frame compositor: the threshold *)

(** The decision on a dirty count [d] with the forced-full flag clear: a
    full update exactly when [d] is at or above 80 * 144 / 100, a partial
    update for every positive [d] below it. *)
Lemma threshold_behaviour (d : Z) :
  TOTAL_TILES = 144 /\ DIRTY_THRESHOLD_PERCENT = 80 /\
  (choose_update false d = FullUpdate <->
     (inject_Z (DIRTY_THRESHOLD_PERCENT * TOTAL_TILES) / 100 <= inject_Z d)%Q) /\
  (0 < d /\ (inject_Z d < inject_Z (DIRTY_THRESHOLD_PERCENT * TOTAL_TILES) / 100)%Q ->
   choose_update false d = PartialUpdate) /\
  choose_update false 115 = PartialUpdate /\
  choose_update false 116 = FullUpdate.
Proof.
  assert (Hfull : choose_update false d = FullUpdate <-> 115 < d).
  { unfold choose_update. change dirty_threshold with 115. cbn.
    destruct (Z.ltb_spec 115 d); [tauto |].
    destruct (0 <? d); split; (discriminate || lia). }
  assert (Hpart : 0 < d <= 115 -> choose_update false d = PartialUpdate).
  { intros Hd. unfold choose_update. change dirty_threshold with 115. cbn.
    destruct (Z.ltb_spec 115 d); [lia |].
    destruct (Z.ltb_spec 0 d); [reflexivity | lia]. }
  change (DIRTY_THRESHOLD_PERCENT * TOTAL_TILES) with 11520.
  unfold Qle, Qlt. cbn.
  repeat split.
  - intros H. apply Hfull in H. lia.
  - intros H. apply Hfull. lia.
  - intros [Hpos Hlt]. apply Hpart. lia.
Qed.


(** ** Reasoning about the embedding *)

Lemma bind_run {A B : Type} (m : M A) (f : A -> M B) (st : globals) :
  (m ≫= f) st = match m st with Some (a, st') => f a st' | None => None end.
Proof. reflexivity. Qed.

Ltac run_M :=
  repeat first
    [ rewrite bind_run
    | progress cbn [defined array_get array_set flag_get flag_set word_get word_set
                    pointer_get pointer_set emit mret M_ret
                    arrays flags words pointers heap display
                    set_arrays set_flags set_words set_pointers set_heap set_display] ].

Lemma elem_get_lookup (l : list Z) (i : Z) :
  0 <= i -> elem_get l i = l !! Z.to_nat i.
Proof. intros Hi. unfold elem_get. case_decide; [reflexivity | lia]. Qed.

Lemma elem_get_neg (l : list Z) (i : Z) : i < 0 -> elem_get l i = None.
Proof. intros Hi. unfold elem_get. case_decide; [lia | reflexivity]. Qed.

Lemma elem_get_is_Some (l : list Z) (i : Z) :
  0 <= i < Z.of_nat (length l) -> is_Some (elem_get l i).
Proof.
  intros Hi. rewrite elem_get_lookup by lia. apply lookup_lt_is_Some. lia.
Qed.

Lemma elem_set_eq (l : list Z) (i v : Z) :
  0 <= i < Z.of_nat (length l) -> elem_set l i v = Some (<[Z.to_nat i := v]> l).
Proof. intros Hi. unfold elem_set. case_decide; [reflexivity | lia]. Qed.

(** The rule of the [for] loop: an invariant that every iteration
    re-establishes holds at the exit, provided the fuel covers the range. *)
Lemma for_loop_rule {S : Type} (I : Z -> S -> Prop) (fuel : nat) (x bound step : Z)
    (body : Z -> S -> option S) (s : S) :
  0 < step ->
  bound - x <= Z.of_nat fuel * step ->
  I x s ->
  (forall i s, x <= i < bound -> I i s -> exists s', body i s = Some s' /\ I (i + step) s') ->
  exists x' s',
    for_loop fuel x bound step body s = Some (x', s') /\ I x' s' /\
    bound <= x' /\ (x' = x \/ x' < bound + step).
Proof.
  intros Hstep. revert x s.
  induction fuel as [| fuel IH]; intros x s Hfuel HI Hbody.
  - exists x, s. cbn. destruct (Z.ltb_spec x bound); [lia |]. auto with lia.
  - cbn. destruct (Z.ltb_spec x bound) as [Hlt | Hge].
    + destruct (Hbody x s ltac:(lia) HI) as (s' & -> & HI').
      destruct (IH (x + step) s') as (x' & s'' & Hrun & HI'' & Hb & Hx').
      * lia.
      * exact HI'.
      * intros i s0 Hi. apply Hbody. lia.
      * exists x', s''. repeat split; [exact Hrun | exact HI'' | exact Hb | right; lia].
    + exists x, s. auto with lia.
Qed.

(** Two loops over the same range whose bodies keep a relation between
    their variables run in lockstep: both are undefined, or both finish in
    related states. *)
Lemma for_loop_rel {S T : Type} (R : Z -> S -> T -> Prop) (fuel : nat) (x bound step : Z)
    (body1 : Z -> S -> option S) (body2 : Z -> T -> option T) (s : S) (t : T) :
  R x s t ->
  (forall i s t, i < bound -> R i s t ->
     match body1 i s, body2 i t with
     | Some s', Some t' => R (i + step) s' t'
     | None, None => True
     | _, _ => False
     end) ->
  match for_loop fuel x bound step body1 s, for_loop fuel x bound step body2 t with
  | Some (x1, s'), Some (x2, t') => x1 = x2 /\ R x1 s' t'
  | None, None => True
  | _, _ => False
  end.
Proof.
  intros HR Hbody. revert x s t HR.
  induction fuel as [| fuel IH]; intros x s t HR; cbn.
  - destruct (x <? bound); auto.
  - destruct (Z.ltb_spec x bound) as [Hlt | Hge]; [| auto].
    specialize (Hbody x s t Hlt HR).
    destruct (body1 x s) as [s' |], (body2 x t) as [t' |]; try tauto.
    apply IH, Hbody.
Qed.

(** Where a loop stops. *)
Lemma for_loop_final {S : Type} (fuel : nat) (x bound step : Z)
    (body : Z -> S -> option S) (s : S) (x' : Z) (s' : S) :
  0 < step ->
  for_loop fuel x bound step body s = Some (x', s') ->
  bound <= x' /\ (x' = x \/ x' < bound + step) /\ exists k, 0 <= k /\ x' = x + k * step.
Proof.
  intros Hstep. revert x s.
  induction fuel as [| fuel IH]; intros x s; cbn.
  - destruct (Z.ltb_spec x bound); [discriminate |].
    intros [= <- <-]. repeat split; [lia | auto |]. exists 0. lia.
  - destruct (Z.ltb_spec x bound) as [Hlt | Hge].
    + destruct (body x s) as [s1 |]; [| discriminate].
      intros Hrun. apply IH in Hrun as (Hb & Hx & k & Hk & ->).
      repeat split; [lia | right; lia |]. exists (k + 1). lia.
    + intros [= <- <-]. repeat split; [lia | auto |]. exists 0. lia.
Qed.

Lemma for_loop_done {S : Type} (fuel : nat) (x bound step : Z)
    (body : Z -> S -> option S) (s : S) :
  bound <= x -> for_loop fuel x bound step body s = Some (x, s).
Proof.
  intros Hge. destruct fuel; cbn; destruct (Z.ltb_spec x bound); (reflexivity || lia).
Qed.

(** ** Dirty tracker *)

Lemma testbit_one (n : Z) : Z.testbit 1 n = (n =? 0).
Proof. destruct n; reflexivity. Qed.

Lemma testbit_lor_shiftl_one (w k j : Z) :
  0 <= j -> Z.testbit (Z.lor w (Z.shiftl 1 k)) j = Z.testbit w j || (j =? k).
Proof.
  intros Hj. rewrite Z.lor_spec, Z.shiftl_spec, testbit_one by lia.
  f_equal. destruct (Z.eqb_spec (j - k) 0), (Z.eqb_spec j k); (reflexivity || lia).
Qed.

Lemma lor_bit_uint32 (w k : Z) :
  0 <= w < 2 ^ 32 -> 0 <= k < 32 -> 0 <= Z.lor w (Z.shiftl 1 k) < 2 ^ 32.
Proof.
  intros Hw Hk.
  assert (Hnn : 0 <= Z.lor w (Z.shiftl 1 k)).
  { apply Z.lor_nonneg. split; [lia | apply Z.shiftl_nonneg; lia]. }
  split; [exact Hnn |].
  destruct (Z.eq_dec (Z.lor w (Z.shiftl 1 k)) 0) as [-> | Hne]; [lia |].
  apply Z.log2_lt_pow2; [lia |].
  rewrite Z.log2_lor by (try apply Z.shiftl_nonneg; lia).
  rewrite Z.shiftl_1_l, Z.log2_pow2 by lia.
  destruct (Z.eq_dec w 0) as [-> | Hw0]; [cbn; lia |].
  assert (Z.log2 w < 32) by (apply Z.log2_lt_pow2; lia). lia.
Qed.

Lemma length_with_tile_bit (bitmap : list Z) (t : Z) :
  length (with_tile_bit bitmap t) = length bitmap.
Proof. unfold with_tile_bit. case_match; [apply length_insert | reflexivity]. Qed.

Lemma tile_bit_with_tile_bit (bitmap : list Z) (t t' : Z) :
  0 <= t < 32 * Z.of_nat (length bitmap) ->
  tile_bit (with_tile_bit bitmap t) t' = tile_bit bitmap t' || (t' =? t).
Proof.
  intros Ht. unfold with_tile_bit.
  destruct (lookup_lt_is_Some_2 bitmap (Z.to_nat (t / 32))) as [w Hw].
  { Z.div_mod_to_equations. lia. }
  rewrite Hw. unfold tile_bit.
  destruct (Z_lt_dec t' 0) as [Hneg | Hnn].
  { rewrite !elem_get_neg by (Z.div_mod_to_equations; lia).
    destruct (Z.eqb_spec t' t); [lia | reflexivity]. }
  assert (0 <= t' / 32) by (Z.div_mod_to_equations; lia).
  assert (0 <= t / 32) by (Z.div_mod_to_equations; lia).
  rewrite !elem_get_lookup by lia.
  destruct (Z.eq_dec (t' / 32) (t / 32)) as [Heq | Hne].
  - rewrite Heq, list_lookup_insert_eq, Hw by (eapply lookup_lt_Some; exact Hw).
    rewrite testbit_lor_shiftl_one by (Z.div_mod_to_equations; lia).
    f_equal.
    destruct (Z.eqb_spec (t' mod 32) (t mod 32)), (Z.eqb_spec t' t);
      try reflexivity; exfalso; Z.div_mod_to_equations; lia.
  - rewrite list_lookup_insert_ne by lia.
    destruct (Z.eqb_spec t' t) as [-> | _]; [lia |]. rewrite orb_false_r. reflexivity.
Qed.

Lemma Forall_with_tile_bit (bitmap : list Z) (t : Z) :
  Forall (fun w => 0 <= w < 2 ^ 32) bitmap ->
  Forall (fun w => 0 <= w < 2 ^ 32) (with_tile_bit bitmap t).
Proof.
  intros Hall. unfold with_tile_bit.
  destruct (bitmap !! Z.to_nat (t / 32)) as [w |] eqn:Hw; [| exact Hall].
  apply Forall_insert; [exact Hall |].
  apply lor_bit_uint32.
  - rewrite Forall_lookup in Hall. exact (Hall _ _ Hw).
  - apply Z.mod_pos_bound. lia.
Qed.

Lemma tile_of_offset_range (fb_size offset : Z) :
  fb_size <= MAC_SCREEN_WIDTH * MAC_SCREEN_HEIGHT -> 0 <= offset < fb_size ->
  0 <= tile_of_offset offset < TOTAL_TILES.
Proof.
  unfold tile_of_offset, MAC_SCREEN_WIDTH, MAC_SCREEN_HEIGHT, TOTAL_TILES, TILE_WIDTH,
    TILE_HEIGHT, TILES_X, TILES_Y.
  intros Hfb Hoff. Z.div_mod_to_equations. lia.
Qed.

Lemma VideoMarkDirtyOffset_run (st : globals) (offset : Z) :
  tracker_ok st -> 0 <= offset ->
  VideoMarkDirtyOffset offset st =
    Some (tt,
          if flags st use_write_dirty_tracking && (offset <? words st frame_buffer_size)
          then with_write_dirty
                 (with_tile_bit (arrays st write_dirty_tiles) (tile_of_offset offset)) st
          else st).
Proof.
  intros (Hlen & _ & Hfb & _) Hoff. unfold VideoMarkDirtyOffset.
  rewrite bind_run. unfold flag_get at 1.
  destruct (flags st use_write_dirty_tracking); [| reflexivity].
  cbn [negb andb]. rewrite bind_run. unfold word_get at 1.
  destruct (Z.leb_spec (words st frame_buffer_size) offset) as [Hge | Hlt].
  { destruct (Z.ltb_spec offset (words st frame_buffer_size)); [lia | reflexivity]. }
  destruct (Z.ltb_spec offset (words st frame_buffer_size)); [| lia].
  cbv zeta. pose proof (tile_of_offset_range _ offset (proj2 Hfb) ltac:(lia)) as Ht.
  change TOTAL_TILES with 144 in Ht. change (Z.to_nat BITMAP_WORDS) with 5%nat in Hlen.
  set (t := tile_of_offset offset) in *.
  assert (Hidx : 0 <= t / 32 < 5) by (Z.div_mod_to_equations; lia).
  destruct (lookup_lt_is_Some_2 (arrays st write_dirty_tiles) (Z.to_nat (t / 32)))
    as [w Hw]; [lia |].
  unfold atomic_or_fetch, with_write_dirty, with_tile_bit.
  rewrite bind_run. unfold array_get at 1. rewrite bind_run.
  rewrite elem_get_lookup, Hw by lia. cbn [defined].
  rewrite bind_run, elem_set_eq by lia. reflexivity.
Qed.

Lemma with_write_dirty_ok (st : globals) (t : Z) :
  tracker_ok st ->
  tracker_ok (with_write_dirty (with_tile_bit (arrays st write_dirty_tiles) t) st).
Proof.
  intros (Hlen & Hlen' & Hfb & Hall). unfold tracker_ok, with_write_dirty.
  cbn [arrays words set_arrays].
  rewrite fn_lookup_insert, fn_lookup_insert_ne by discriminate.
  rewrite length_with_tile_bit. repeat split; try assumption; try apply Hfb.
  apply Forall_with_tile_bit, Hall.
Qed.

Lemma mark_all_cons (t : Z) (ts : list Z) (st : globals) :
  mark_all (t :: ts) st =
    mark_all ts (with_write_dirty (with_tile_bit (arrays st write_dirty_tiles) t) st).
Proof. reflexivity. Qed.

Lemma mark_all_ok (ts : list Z) (st : globals) : tracker_ok st -> tracker_ok (mark_all ts st).
Proof.
  revert st. induction ts as [| t ts IH]; intros st Hok; [exact Hok |].
  rewrite mark_all_cons. apply IH, with_write_dirty_ok, Hok.
Qed.

Lemma mark_all_frame (ts : list Z) (st : globals) :
  flags (mark_all ts st) = flags st /\ words (mark_all ts st) = words st /\
  pointers (mark_all ts st) = pointers st /\ heap (mark_all ts st) = heap st /\
  display (mark_all ts st) = display st /\
  forall a, a <> write_dirty_tiles -> arrays (mark_all ts st) a = arrays st a.
Proof.
  revert st. induction ts as [| t ts IH]; intros st; [tauto |].
  rewrite mark_all_cons.
  destruct (IH (with_write_dirty (with_tile_bit (arrays st write_dirty_tiles) t) st))
    as (-> & -> & -> & -> & -> & Harr).
  repeat split. intros a Ha. rewrite Harr by exact Ha.
  unfold with_write_dirty. cbn [arrays set_arrays]. apply fn_lookup_insert_ne. congruence.
Qed.

Lemma mark_all_tile_bit (ts : list Z) (st : globals) (t' : Z) :
  tracker_ok st -> Forall (fun t => 0 <= t < TOTAL_TILES) ts ->
  tile_bit (arrays (mark_all ts st) write_dirty_tiles) t' =
    tile_bit (arrays st write_dirty_tiles) t' || bool_decide (t' ∈ ts).
Proof.
  revert st. induction ts as [| t ts IH]; intros st Hok Hts.
  - cbn. rewrite bool_decide_eq_false_2 by apply not_elem_of_nil.
    symmetry. apply orb_false_r.
  - inversion Hts as [| ? ? Ht Hts']; subst. rewrite mark_all_cons.
    rewrite IH by (try apply with_write_dirty_ok; assumption).
    unfold with_write_dirty at 1. cbn [arrays set_arrays]. rewrite fn_lookup_insert.
    rewrite tile_bit_with_tile_bit.
    2: { destruct Hok as (Hlen & _). rewrite Hlen. change TOTAL_TILES with 144 in Ht.
         change (Z.to_nat BITMAP_WORDS) with 5%nat. lia. }
    rewrite <- orb_assoc. f_equal.
    destruct (Z.eqb_spec t' t) as [-> | Hne].
    + rewrite (bool_decide_eq_true_2 (t ∈ t :: ts)) by (apply elem_of_cons; left; reflexivity).
      reflexivity.
    + cbn. apply bool_decide_ext. rewrite elem_of_cons. tauto.
Qed.

Lemma offset_tiles_valid (fb_size offset : Z) :
  fb_size <= MAC_SCREEN_WIDTH * MAC_SCREEN_HEIGHT -> 0 <= offset ->
  Forall (fun t => 0 <= t < TOTAL_TILES) (offset_tiles fb_size offset).
Proof.
  intros Hfb Hoff. unfold offset_tiles.
  destruct (Z.leb_spec fb_size offset); [constructor |].
  repeat constructor; eapply tile_of_offset_range; (eassumption || lia).
Qed.

Lemma wrap32_range (z : Z) : 0 <= wrap32 z < 2 ^ 32.
Proof. unfold wrap32. apply Z.mod_pos_bound. lia. Qed.

Lemma wrap32_small (z : Z) : 0 <= z < 2 ^ 32 -> wrap32 z = z.
Proof. unfold wrap32. apply Z.mod_small. Qed.

Lemma marked_tiles_valid (tracking : bool) (fb_size : Z) (c : tracker_call) :
  fb_size <= MAC_SCREEN_WIDTH * MAC_SCREEN_HEIGHT -> call_ok c ->
  Forall (fun t => 0 <= t < TOTAL_TILES) (marked_tiles tracking fb_size c).
Proof.
  intros Hfb Hc. unfold marked_tiles.
  destruct tracking; cbn [negb]; [| constructor].
  destruct c as [offset | offset size |]; cbn in Hc.
  - apply offset_tiles_valid; lia.
  - destruct (Z.leb_spec fb_size offset); [constructor |].
    constructor; [eapply tile_of_offset_range; (eassumption || lia) |].
    destruct (1 <? clamp_size fb_size offset size); [| constructor].
    apply offset_tiles_valid; [assumption | apply wrap32_range].
  - constructor.
Qed.

Lemma VideoMarkDirtyOffset_mark_all (st : globals) (offset : Z) :
  tracker_ok st -> 0 <= offset ->
  VideoMarkDirtyOffset offset st =
    Some (tt, mark_all (marked_tiles (flags st use_write_dirty_tracking)
                          (words st frame_buffer_size) (MarkDirtyOffset offset)) st).
Proof.
  intros Hok Hoff. rewrite VideoMarkDirtyOffset_run by assumption.
  unfold marked_tiles, offset_tiles.
  destruct (flags st use_write_dirty_tracking); cbn [negb andb]; [| reflexivity].
  destruct (Z.ltb_spec offset (words st frame_buffer_size)),
    (Z.leb_spec (words st frame_buffer_size) offset); (reflexivity || lia).
Qed.

Lemma VideoMarkDirtyRange_mark_all (st : globals) (offset size : Z) :
  tracker_ok st -> 0 <= offset ->
  VideoMarkDirtyRange offset size st =
    Some (tt, mark_all (marked_tiles (flags st use_write_dirty_tracking)
                          (words st frame_buffer_size) (MarkDirtyRange offset size)) st).
Proof.
  intros Hok Hoff. unfold VideoMarkDirtyRange, marked_tiles.
  rewrite bind_run. unfold flag_get at 1.
  destruct (flags st use_write_dirty_tracking) eqn:Htr; cbn [negb]; [| reflexivity].
  rewrite bind_run. unfold word_get at 1.
  destruct (Z.leb_spec (words st frame_buffer_size) offset) as [Hge | Hlt]; [reflexivity |].
  cbv zeta. set (size' := clamp_size (words st frame_buffer_size) offset size).
  rewrite bind_run, VideoMarkDirtyOffset_run by assumption.
  rewrite Htr. destruct (Z.ltb_spec offset (words st frame_buffer_size)); [| lia].
  cbn [andb].
  destruct (1 <? size'); [| reflexivity].
  rewrite VideoMarkDirtyOffset_mark_all;
    [| apply with_write_dirty_ok, Hok | apply wrap32_range].
  cbn. rewrite Htr. cbn. reflexivity.
Qed.

Lemma run_call_mark (st : globals) (c : tracker_call) :
  tracker_ok st -> call_ok c -> c <> Drain ->
  run_call c st =
    Some (tt, mark_all (marked_tiles (flags st use_write_dirty_tracking)
                          (words st frame_buffer_size) c) st).
Proof.
  intros Hok Hc Hnd. destruct c as [offset | offset size |]; cbn in Hc |- *.
  - apply VideoMarkDirtyOffset_mark_all; [assumption | lia].
  - apply VideoMarkDirtyRange_mark_all; [assumption | lia].
  - congruence.
Qed.

Lemma for_loop_M_rule {L : Type} (I : Z -> L -> globals -> Prop) (fuel : nat)
    (x bound step : Z) (body : Z -> L -> M L) (l : L) (st : globals) :
  0 < step ->
  bound - x <= Z.of_nat fuel * step ->
  I x l st ->
  (forall i l st, x <= i < bound -> I i l st ->
     exists l' st', body i l st = Some (l', st') /\ I (i + step) l' st') ->
  exists x' l' st',
    for_loop_M fuel x bound step body l st = Some ((x', l'), st') /\ I x' l' st' /\
    bound <= x' /\ (x' = x \/ x' < bound + step).
Proof.
  intros Hstep Hfuel HI Hbody. unfold for_loop_M.
  destruct (for_loop_rule (fun i '(l, st) => I i l st) fuel x bound step
              (fun i '(l, st) => body i l st) (l, st) Hstep Hfuel HI)
    as (x' & [l' st'] & -> & HI' & Hb).
  - intros i [l0 st0] Hi HI0. destruct (Hbody i l0 st0 Hi HI0) as (l' & st' & -> & HI').
    exists (l', st'). auto.
  - exists x', l', st'. auto.
Qed.

Lemma filter_testbit_zero (k : Z) (n : nat) (w : Z) :
  0 <= k -> Z.shiftr w k = 0 ->
  List.filter (Z.testbit w) (seqZ k (Z.of_nat n)) = [].
Proof.
  intros Hk Hz. revert k Hk Hz. induction n as [| n IH]; intros k Hk Hz; [reflexivity |].
  rewrite seqZ_cons by lia. cbn [List.filter].
  replace (Z.testbit w k) with false.
  2: { symmetry. replace k with (0 + k) at 1 by lia. rewrite <- Z.shiftr_spec, Hz by lia. apply Z.bits_0. }
  replace (Z.pred (Z.of_nat (S n))) with (Z.of_nat n) by lia.
  apply IH; [lia |].
  replace (Z.succ k) with (k + 1) by lia.
  rewrite <- Z.shiftr_shiftr, Hz by lia. reflexivity.
Qed.

Lemma popcount_loop_shift (fuel : nat) (w k c : Z) :
  0 <= k -> 0 <= Z.shiftr w k < 2 ^ Z.of_nat fuel ->
  popcount_loop fuel (Z.shiftr w k) c =
    Some (c + Z.of_nat (length (List.filter (Z.testbit w) (seqZ k (Z.of_nat fuel))))).
Proof.
  revert k c. induction fuel as [| fuel IH]; intros k c Hk Hw.
  - change (2 ^ Z.of_nat 0) with 1 in Hw.
    assert (Z.shiftr w k = 0) as -> by lia.
    change (seqZ k (Z.of_nat 0)) with (@nil Z). cbn. f_equal. lia.
  - cbn [popcount_loop]. destruct (Z.eqb_spec (Z.shiftr w k) 0) as [Hz | Hnz].
    + rewrite filter_testbit_zero by assumption. cbn. f_equal. lia.
    + rewrite Z.shiftr_shiftr by lia. rewrite IH.
      2: lia.
      2: { rewrite <- Z.shiftr_shiftr by lia. rewrite (Z.shiftr_div_pow2 _ 1) by lia.
           rewrite Nat2Z.inj_succ, Z.pow_succ_r in Hw by lia.
           change (2 ^ 1) with 2. split; [apply Z.div_pos; lia | apply Z.div_lt_upper_bound; lia]. }
      f_equal. rewrite (seqZ_cons k) by lia. cbn [List.filter].
      replace (Z.pred (Z.of_nat (S fuel))) with (Z.of_nat fuel) by lia.
      replace (Z.succ k) with (k + 1) by lia.
      change 1 with (Z.ones 1) at 1. rewrite Z.land_ones, <- Z.bit0_mod by lia.
      rewrite Z.shiftr_spec by lia.
      rewrite Z.add_0_l. destruct (Z.testbit w k); cbn [Z.b2z length]; lia.
Qed.

Lemma popcount_loop_spec (w c : Z) :
  0 <= w < 2 ^ 32 -> popcount_loop 32 w c = Some (c + popcount w).
Proof.
  intros Hw. pose proof (popcount_loop_shift 32 w 0 c) as H.
  rewrite Z.shiftr_0_r in H. change (Z.of_nat 32) with 32 in H.
  apply H; [lia | exact Hw].
Qed.

Lemma bitmap_popcount_snoc (l : list Z) (w : Z) :
  bitmap_popcount (l ++ [w]) = bitmap_popcount l + popcount w.
Proof.
  unfold bitmap_popcount. induction l as [| a l IH]; cbn in *; lia.
Qed.

Lemma collectWriteDirtyTiles_run (st : globals) :
  tracker_ok st ->
  exists st',
    collectWriteDirtyTiles st = Some (bitmap_popcount (arrays st write_dirty_tiles), st') /\
    arrays st' write_dirty_tiles = replicate (Z.to_nat BITMAP_WORDS) 0 /\
    arrays st' dirty_tiles = arrays st write_dirty_tiles /\
    tracker_frame st st'.
Proof.
  intros (Hlen & Hlen' & Hfb & Hall).
  change (Z.to_nat BITMAP_WORDS) with 5%nat in *.
  set (W0 := arrays st write_dirty_tiles) in *.
  set (D0 := arrays st dirty_tiles) in *.
  unfold collectWriteDirtyTiles. rewrite bind_run.
  destruct (for_loop_M_rule
    (fun i count s =>
       0 <= i <= 5 /\
       length (arrays s write_dirty_tiles) = 5%nat /\
       length (arrays s dirty_tiles) = 5%nat /\
       (forall j : nat, arrays s write_dirty_tiles !! j =
                        if decide (Z.of_nat j < i) then Some 0 else W0 !! j) /\
       (forall j : nat, arrays s dirty_tiles !! j =
                        if decide (Z.of_nat j < i) then W0 !! j else D0 !! j) /\
       count = bitmap_popcount (take (Z.to_nat i) W0) /\
       tracker_frame st s)
    (Z.to_nat BITMAP_WORDS) 0 BITMAP_WORDS 1
    (fun i count =>
       bits ← atomic_exchange_n write_dirty_tiles i 0;
       dt ← array_get dirty_tiles;
       dt' ← defined (elem_set dt i bits);
       array_set dirty_tiles dt';;
       defined (popcount_loop 32 bits count))
    0 st) as (x' & count & st' & Hrun & HI & Hx' & Hx'').
  - lia.
  - change BITMAP_WORDS with 5. lia.
  - repeat split; try (lia || assumption || reflexivity).
    + intros j. case_decide; [lia | reflexivity].
    + intros j. case_decide; [lia | reflexivity].
  - change BITMAP_WORDS with 5.
    intros i count s Hi (_ & Hl1 & Hl2 & Hw & Hd & Hc & Hfr).
    assert (Hwi : arrays s write_dirty_tiles !! Z.to_nat i = W0 !! Z.to_nat i).
    { rewrite Hw. case_decide; [lia | reflexivity]. }
    destruct (lookup_lt_is_Some_2 W0 (Z.to_nat i)) as [w Hw0]; [lia |].
    assert (Hwr : 0 <= w < 2 ^ 32).
    { rewrite Forall_lookup in Hall. exact (Hall _ _ Hw0). }
    unfold atomic_exchange_n. rewrite !bind_run. unfold array_get at 1.
    rewrite elem_get_lookup, Hwi, Hw0 by lia. cbn [defined].
    rewrite elem_set_eq by lia. run_M.
    rewrite fn_lookup_insert_ne by discriminate.
    rewrite elem_set_eq by lia. run_M.
    rewrite popcount_loop_spec by exact Hwr. run_M.
    eexists _, _. split; [reflexivity |].
    cbn [arrays set_arrays flags words pointers heap display].
    rewrite fn_lookup_insert, fn_lookup_insert_ne, fn_lookup_insert by discriminate.
    rewrite !length_insert.
    repeat split; try (lia || assumption).
    + intros j. destruct (decide (Z.to_nat i = j)) as [<- | Hne].
      * rewrite list_lookup_insert_eq by lia. case_decide; [reflexivity | lia].
      * rewrite list_lookup_insert_ne, Hw by exact Hne.
        repeat case_decide; (reflexivity || lia).
    + intros j. destruct (decide (Z.to_nat i = j)) as [<- | Hne].
      * rewrite list_lookup_insert_eq by lia. case_decide; [congruence | lia].
      * rewrite list_lookup_insert_ne, Hd by exact Hne.
        repeat case_decide; (reflexivity || lia).
    + replace (Z.to_nat (i + 1)) with (S (Z.to_nat i)) by lia.
      rewrite (take_S_r _ _ _ Hw0), bitmap_popcount_snoc. congruence.
    + apply Hfr.
    + apply Hfr.
    + apply Hfr.
    + apply Hfr.
    + apply Hfr.
    + intros a Ha1 Ha2. cbn [arrays set_arrays].
      rewrite !fn_lookup_insert_ne by congruence. apply Hfr; assumption.
  - change BITMAP_WORDS with 5 in *.
    destruct HI as (_ & Hl1 & Hl2 & Hw & Hd & Hc & Hfr).
    assert (x' = 5) as -> by lia.
    rewrite Hrun. cbn [mret M_ret]. exists st'. repeat split; try apply Hfr.
    + rewrite Hc, take_ge by lia. reflexivity.
    + apply list_eq. intros j. rewrite Hw. case_decide.
      * symmetry. apply lookup_replicate_2. lia.
      * rewrite lookup_ge_None_2 by lia. symmetry. apply lookup_replicate_None. lia.
    + apply list_eq. intros j. rewrite Hd. case_decide; [reflexivity |].
      rewrite !lookup_ge_None_2 by lia. reflexivity.
Qed.

Lemma tile_bit_zeros (n : nat) (t : Z) : tile_bit (replicate n 0) t = false.
Proof.
  unfold tile_bit. destruct (elem_get (replicate n 0) (t / 32)) as [w |] eqn:Hw; [| reflexivity].
  unfold elem_get in Hw. case_decide; [| discriminate].
  apply lookup_replicate_1 in Hw as [-> _]. apply Z.bits_0.
Qed.

Lemma land_bit_testbit (w k : Z) :
  0 <= k -> negb (Z.land w (Z.shiftl 1 k) =? 0) = Z.testbit w k.
Proof.
  intros Hk. destruct (Z.testbit w k) eqn:Hb.
  - destruct (Z.eqb_spec (Z.land w (Z.shiftl 1 k)) 0) as [Hz | _]; [| reflexivity].
    assert (Hc : Z.testbit (Z.land w (Z.shiftl 1 k)) k = true).
    { rewrite Z.land_spec, Hb, Z.shiftl_spec, Z.sub_diag by lia. reflexivity. }
    rewrite Hz, Z.bits_0 in Hc. discriminate.
  - replace (Z.land w (Z.shiftl 1 k)) with 0; [reflexivity |].
    symmetry. apply Z.bits_inj'. intros j Hj.
    rewrite Z.bits_0, Z.land_spec, Z.shiftl_spec, testbit_one by lia.
    destruct (Z.eqb_spec (j - k) 0) as [Hjk | _]; [| apply andb_false_r].
    replace j with k by lia. rewrite Hb. reflexivity.
Qed.

Lemma isTileDirty_run (st : globals) (t : Z) :
  0 <= t < 32 * Z.of_nat (length (arrays st dirty_tiles)) ->
  isTileDirty t st = Some (tile_bit (arrays st dirty_tiles) t, st).
Proof.
  intros Ht. unfold isTileDirty, tile_bit. run_M.
  destruct (elem_get_is_Some (arrays st dirty_tiles) (t / 32)) as [w Hw].
  { Z.div_mod_to_equations. lia. }
  rewrite Hw. run_M. rewrite land_bit_testbit by (Z.div_mod_to_equations; lia).
  reflexivity.
Qed.

Lemma run_call_ok (st : globals) (c : tracker_call) :
  tracker_ok st -> call_ok c ->
  exists st',
    run_call c st = Some (tt, st') /\ tracker_ok st' /\ tracker_frame st st' /\
    (forall t, tile_bit (arrays st' write_dirty_tiles) t =
       match c with
       | Drain => false
       | _ => tile_bit (arrays st write_dirty_tiles) t ||
              bool_decide (t ∈ marked_tiles (flags st use_write_dirty_tracking)
                                  (words st frame_buffer_size) c)
       end).
Proof.
  intros Hok Hc.
  assert (Hcases : c = Drain \/ c <> Drain) by (destruct c; auto; right; discriminate).
  destruct Hcases as [-> | Hnd].
  - destruct (collectWriteDirtyTiles_run st Hok) as (st' & Hrun & Hw & Hd & Hfr).
    exists st'. cbn [run_call]. rewrite bind_run, Hrun. run_M.
    repeat split; try apply Hfr.
    + rewrite Hw. apply length_replicate.
    + rewrite Hd. apply Hok.
    + destruct Hfr as (_ & -> & _). apply Hok.
    + destruct Hfr as (_ & -> & _). apply Hok.
    + rewrite Hw. apply Forall_replicate. lia.
    + intros t. rewrite Hw. apply tile_bit_zeros.
  - rewrite run_call_mark by assumption. eexists. split; [reflexivity |].
    pose proof (mark_all_frame (marked_tiles (flags st use_write_dirty_tracking)
                  (words st frame_buffer_size) c) st) as (Hf & Hw & Hp & Hh & Hd & Ha).
    split; [apply mark_all_ok, Hok |]. split.
    + repeat split; try assumption. intros a Ha1 _. apply Ha, Ha1.
    + intros t. rewrite mark_all_tile_bit;
        [| exact Hok | apply marked_tiles_valid; [apply Hok | exact Hc]].
      destruct c; (reflexivity || congruence).
Qed.

Lemma run_calls_app (cs1 cs2 : list tracker_call) (st : globals) :
  run_calls (cs1 ++ cs2) st =
    match run_calls cs1 st with
    | Some (_, st') => run_calls cs2 st'
    | None => None
    end.
Proof.
  revert st. induction cs1 as [| c cs1 IH]; intros st; [reflexivity |].
  cbn [app run_calls]. rewrite !bind_run.
  destruct (run_call c st) as [[[] st'] |]; [apply IH | reflexivity].
Qed.

(** What a sequence of tracker calls does to the bit of tile [t] in the
    write-accumulation bitmap. *)
Lemma run_calls_ok (st : globals) (cs : list tracker_call) (t : Z) :
  tracker_ok st -> Forall call_ok cs ->
  exists st',
    run_calls cs st = Some (tt, st') /\ tracker_ok st' /\
    flags st' = flags st /\ words st' = words st /\
    (Forall (fun c => c <> Drain) cs ->
     tile_bit (arrays st write_dirty_tiles) t = true ->
     tile_bit (arrays st' write_dirty_tiles) t = true) /\
    (Forall (fun c => t ∉ marked_tiles (flags st use_write_dirty_tracking)
                         (words st frame_buffer_size) c) cs ->
     tile_bit (arrays st write_dirty_tiles) t = false ->
     tile_bit (arrays st' write_dirty_tiles) t = false).
Proof.
  revert st. induction cs as [| c cs IH]; intros st Hok Hcs.
  - exists st. cbn. tauto.
  - inversion Hcs as [| ? ? Hc Hcs']; subst.
    destruct (run_call_ok st c Hok Hc) as (st1 & Hrun & Hok1 & Hfr & Hbit).
    destruct (IH st1 Hok1 Hcs') as (st' & Hrun' & Hok' & Hf & Hw & Hkeep & Hclear).
    destruct Hfr as (Hf1 & Hw1 & _).
    exists st'. cbn [run_calls]. rewrite bind_run, Hrun.
    split; [exact Hrun' |]. split; [exact Hok' |].
    split; [congruence |]. split; [congruence |]. split.
    + intros Hnd Hset. inversion Hnd as [| ? ? Hc' Hnd']; subst.
      apply Hkeep; [exact Hnd' |]. rewrite Hbit.
      destruct c; try congruence; rewrite Hset; reflexivity.
    + intros Hnm Hunset. inversion Hnm as [| ? ? Hc' Hnm']; subst.
      apply Hclear; [rewrite Hf1, Hw1; exact Hnm' |]. rewrite Hbit.
      destruct c; try reflexivity; rewrite Hunset; cbn [orb];
        apply bool_decide_eq_false_2, Hc'.
Qed.

Lemma ready_globals_ok : tracker_ok ready_globals.
Proof.
  unfold tracker_ok. split; [reflexivity |]. split; [reflexivity |].
  split; [vm_compute; split; discriminate |]. apply Forall_replicate. lia.
Qed.

(** C4. A multi-byte write [VideoMarkDirtyRange offset size] that starts
    inside the framebuffer has its size clamped to the framebuffer end, and
    marks exactly the tile of its first byte and the tile of its last byte:
    every other tile, the interior tiles of a long write among them, keeps
    the bit it had.  For an in-bounds write the clamp changes nothing. *)
Theorem VideoMarkDirtyRange_first_last (st : globals) (offset size : Z) :
  tracker_ok st ->
  flags st use_write_dirty_tracking = true ->
  0 <= offset < words st frame_buffer_size ->
  1 < size ->
  offset + size < 2 ^ 32 ->
  let fb_size := words st frame_buffer_size in
  let clamped := clamp_size fb_size offset size in
  clamped = Z.min size (fb_size - offset) /\
  offset + clamped <= fb_size /\
  (offset + size <= fb_size -> clamped = size) /\
  exists st',
    VideoMarkDirtyRange offset size st = Some (tt, st') /\
    tracker_frame st st' /\
    arrays st' dirty_tiles = arrays st dirty_tiles /\
    forall t,
      tile_bit (arrays st' write_dirty_tiles) t =
        tile_bit (arrays st write_dirty_tiles) t ||
        bool_decide (t = tile_of_offset offset \/
                     t = tile_of_offset (offset + clamped - 1)).
Proof.
  intros Hok Htr Hoff Hsize Hnowrap fb_size clamped.
  assert (Hfb : 0 <= fb_size <= MAC_SCREEN_WIDTH * MAC_SCREEN_HEIGHT) by apply Hok.
  assert (Hclamp : clamped = Z.min size (fb_size - offset)).
  { unfold clamped, clamp_size. rewrite wrap32_small by lia.
    destruct (Z.ltb_spec fb_size (offset + size)); [rewrite wrap32_small |];
      unfold MAC_SCREEN_WIDTH, MAC_SCREEN_HEIGHT in *; lia. }
  split; [exact Hclamp |]. split; [lia |]. split; [lia |].
  rewrite VideoMarkDirtyRange_mark_all by (assumption || lia).
  eexists. split; [reflexivity |].
  set (ts := marked_tiles _ _ _).
  pose proof (mark_all_frame ts st) as (Hf & Hw & Hp & Hh & Hd & Ha).
  split; [| split].
  - repeat split; try assumption. intros a Ha1 _. apply Ha, Ha1.
  - apply Ha. discriminate.
  - intros t. rewrite mark_all_tile_bit;
      [| exact Hok | apply marked_tiles_valid; [apply Hok | cbn; lia]].
    f_equal. apply bool_decide_ext. unfold ts, marked_tiles, offset_tiles.
    rewrite Htr. cbn [negb]. fold fb_size. fold clamped.
    destruct (Z.leb_spec fb_size offset); [lia |].
    destruct (Z.ltb_spec 1 clamped) as [Hgt | Hle].
    + rewrite wrap32_small by (unfold MAC_SCREEN_WIDTH, MAC_SCREEN_HEIGHT in *; lia).
      destruct (Z.leb_spec fb_size (offset + clamped - 1)); [lia |].
      rewrite !elem_of_cons, elem_of_nil. tauto.
    + assert (clamped = 1) as -> by lia.
      replace (offset + 1 - 1) with offset by lia.
      rewrite elem_of_cons, elem_of_nil. tauto.
Qed.

Lemma VideoMarkDirtyRange_first_last_witness :
  exists st',
    VideoMarkDirtyRange 0 640 ready_globals = Some (tt, st') /\
    tile_bit (arrays st' write_dirty_tiles) 0 = true /\
    tile_bit (arrays st' write_dirty_tiles) 7 = false /\
    tile_bit (arrays st' write_dirty_tiles) 15 = true.
Proof.
  destruct (VideoMarkDirtyRange_first_last ready_globals 0 640 ready_globals_ok)
    as (_ & _ & _ & st' & Hrun & _ & _ & Hbits);
    [reflexivity | vm_compute; split; [discriminate | reflexivity] | lia | lia |].
  exists st'. split; [exact Hrun |]. rewrite !Hbits. repeat split.
Defined.

(** The sequential case, each drain taken as one step: in any sequence of
    tracker calls, a tile marked by a call [m] is
    reported dirty by the first drain after [m], whatever marks come in
    between, and by no later drain, whatever calls come after, as long as
    none of them marks the tile again.  The drain leaves every word of the
    write-accumulation bitmap zero, hands the prior words to the render
    bitmap and returns the number of bits that were set. *)
Theorem drain_completeness (st : globals) (pre mid later : list tracker_call)
    (m : tracker_call) (t : Z) :
  tracker_ok st ->
  Forall call_ok (pre ++ m :: mid ++ later) ->
  t ∈ marked_tiles (flags st use_write_dirty_tracking) (words st frame_buffer_size) m ->
  Forall (fun c => c <> Drain) mid ->
  Forall (fun c => t ∉ marked_tiles (flags st use_write_dirty_tracking)
                      (words st frame_buffer_size) c) later ->
  exists st1 count st2 st3 count' st4,
    run_calls (pre ++ m :: mid) st = Some (tt, st1) /\
    collectWriteDirtyTiles st1 = Some (count, st2) /\
    arrays st2 write_dirty_tiles = replicate (Z.to_nat BITMAP_WORDS) 0 /\
    arrays st2 dirty_tiles = arrays st1 write_dirty_tiles /\
    count = bitmap_popcount (arrays st1 write_dirty_tiles) /\
    isTileDirty t st2 = Some (true, st2) /\
    run_calls later st2 = Some (tt, st3) /\
    collectWriteDirtyTiles st3 = Some (count', st4) /\
    isTileDirty t st4 = Some (false, st4).
Proof.
  intros Hok Hcalls Hm Hmid Hlater.
  apply Forall_app in Hcalls as [Hpre Hcalls].
  inversion Hcalls as [| ? ? Hmc Hcalls']; subst.
  apply Forall_app in Hcalls' as [Hmidc Hlaterc].
  destruct (run_calls_ok st pre t Hok Hpre) as (s0 & Hrun0 & Hok0 & Hf0 & Hw0 & _).
  destruct (run_call_ok s0 m Hok0 Hmc) as (s1 & Hrun1 & Hok1 & Hfr1 & Hbit1).
  assert (Hvalid : 0 <= t < TOTAL_TILES).
  { pose proof (marked_tiles_valid (flags st use_write_dirty_tracking)
                  (words st frame_buffer_size) m (proj2 (proj1 (proj2 (proj2 Hok)))) Hmc)
      as Hall.
    rewrite Forall_forall in Hall. apply Hall. exact Hm. }
  assert (Hset1 : tile_bit (arrays s1 write_dirty_tiles) t = true).
  { rewrite Hbit1, Hf0, Hw0. destruct m; try (apply orb_true_iff; right;
      apply bool_decide_eq_true_2; exact Hm).
    cbn in Hm. destruct (flags st use_write_dirty_tracking); cbn in Hm;
      apply elem_of_nil in Hm; contradiction. }
  destruct (run_calls_ok s1 mid t Hok1 Hmidc) as (st1 & Hrun2 & Hokm & Hf2 & Hw2 & Hkeep & _).
  destruct (collectWriteDirtyTiles_run st1 Hokm) as (st2 & Hdrain & Hz & Hd & Hfr2).
  assert (Hok2 : tracker_ok st2).
  { destruct (run_call_ok st1 Drain Hokm I) as (s & Hr & Hok2 & _).
    cbn [run_call] in Hr. rewrite bind_run, Hdrain in Hr. cbn in Hr.
    injection Hr as <-. exact Hok2. }
  destruct Hfr1 as (Hf1 & Hw1 & _). destruct Hfr2 as (Hf3 & Hw3 & _).
  destruct (run_calls_ok st2 later t Hok2 Hlaterc)
    as (st3 & Hrun3 & Hok3 & Hf4 & Hw4 & _ & Hclear).
  destruct (collectWriteDirtyTiles_run st3 Hok3) as (st4 & Hdrain' & Hz' & Hd' & Hfr4).
  assert (Hlen : forall s, tracker_ok s ->
            0 <= t < 32 * Z.of_nat (length (arrays s write_dirty_tiles))).
  { intros s (Hl & _). rewrite Hl. change (Z.to_nat BITMAP_WORDS) with 5%nat.
    change TOTAL_TILES with 144 in Hvalid. lia. }
  exists st1, (bitmap_popcount (arrays st1 write_dirty_tiles)), st2, st3,
    (bitmap_popcount (arrays st3 write_dirty_tiles)), st4.
  repeat split; try assumption.
  - rewrite run_calls_app, Hrun0. cbn [run_calls]. rewrite bind_run, Hrun1. exact Hrun2.
  - rewrite isTileDirty_run by (rewrite Hd; apply Hlen, Hokm).
    rewrite Hd, Hkeep by assumption. reflexivity.
  - rewrite isTileDirty_run by (rewrite Hd'; apply Hlen, Hok3).
    rewrite Hd', Hclear; [reflexivity | | rewrite Hz; apply tile_bit_zeros].
    rewrite Hf3, Hw3, Hf2, Hw2, Hf1, Hw1, Hf0, Hw0. exact Hlater.
Qed.

Lemma drain_completeness_witness :
  exists st1 count st2 st3 count' st4,
    run_calls ([MarkDirtyOffset 5000] ++ MarkDirtyOffset 0 :: [MarkDirtyOffset 700])
      ready_globals = Some (tt, st1) /\
    collectWriteDirtyTiles st1 = Some (count, st2) /\
    arrays st2 write_dirty_tiles = replicate (Z.to_nat BITMAP_WORDS) 0 /\
    arrays st2 dirty_tiles = arrays st1 write_dirty_tiles /\
    count = bitmap_popcount (arrays st1 write_dirty_tiles) /\
    isTileDirty 0 st2 = Some (true, st2) /\
    run_calls [MarkDirtyOffset 100000; Drain; MarkDirtyRange 200000 4] st2 = Some (tt, st3) /\
    collectWriteDirtyTiles st3 = Some (count', st4) /\
    isTileDirty 0 st4 = Some (false, st4).
Proof.
  apply (drain_completeness ready_globals [MarkDirtyOffset 5000] [MarkDirtyOffset 700]
           [MarkDirtyOffset 100000; Drain; MarkDirtyRange 200000 4] (MarkDirtyOffset 0) 0).
  - exact ready_globals_ok.
  - repeat constructor; cbn; lia.
  - vm_compute. apply elem_of_cons. left. reflexivity.
  - repeat constructor; discriminate.
  - repeat constructor; vm_compute; intros H;
      repeat (apply elem_of_cons in H as [H | H]; [discriminate |]);
      apply elem_of_nil in H; exact H.
Defined.

(** ** Initialisation *)

(** A failure of one of the first three allocations: [VideoInit] returns
    false, all four pointers are NULL and no block is live. *)
Lemma VideoInit_alloc_failure_releases (env : init_env) :
  mac_alloc_ok env && snapshot_alloc_ok env && compare_alloc_ok env = false ->
  init_report (VideoInit env initial_globals) = Some (false, [None; None; None; None], []).
Proof.
  destruct env as [[] [] [] [] [] []]; cbn [mac_alloc_ok snapshot_alloc_ok compare_alloc_ok andb];
    intros H; try discriminate H; vm_compute; reflexivity.
Qed.

(** With the three byte buffers allocated, a failure to obtain the display
    framebuffer (no panel, or no memory): [VideoInit] returns false and
    frees the Mac framebuffer only. *)
Lemma VideoInit_dsi_failure (env : init_env) :
  mac_alloc_ok env && snapshot_alloc_ok env && compare_alloc_ok env = true ->
  panel_present env && dsi_alloc_ok env = false ->
  init_report (VideoInit env initial_globals) =
    Some (false, [None; Some 1%nat; Some 2%nat; None],
          [(2%nat, MAC_SCREEN_WIDTH * MAC_SCREEN_HEIGHT);
           (1%nat, MAC_SCREEN_WIDTH * MAC_SCREEN_HEIGHT)]).
Proof.
  destruct env as [[] [] [] [] [] []];
    cbn [mac_alloc_ok snapshot_alloc_ok compare_alloc_ok panel_present dsi_alloc_ok andb];
    intros H1 H2; try discriminate H1; try discriminate H2; vm_compute; reflexivity.
Qed.

(** C8 (the code departs from the claim).  When the display framebuffer
    cannot be allocated after the source, snapshot and compare buffers were,
    [VideoInit] returns false with the snapshot and compare buffers still
    allocated and their pointers still set: only the Mac framebuffer is
    released.  The failure path of the snapshot and compare allocations, a
    few lines above, releases everything. *)
Theorem VideoInit_dsi_failure_leaks :
  init_report (VideoInit (InitEnv true true true true false true) initial_globals) =
    Some (false, [None; Some 1%nat; Some 2%nat; None], [(2%nat, 230400); (1%nat, 230400)]) /\
  init_report (VideoInit (InitEnv true true false true true true) initial_globals) =
    Some (false, [None; None; None; None], []).
Proof. split; vm_compute; reflexivity. Qed.

(** ** Tile snapshot and render *)

Lemma load32_agree (mem1 mem2 : list Z) (p q : Z) :
  reads_agree mem1 p mem2 q 4 -> load32 mem1 p = load32 mem2 q.
Proof.
  intros H. unfold load32.
  rewrite <- (Z.add_0_r p) at 1. rewrite <- (Z.add_0_r q) at 1.
  rewrite (H 0), (H 1), (H 2), (H 3) by lia. reflexivity.
Qed.

Ltac destruct_steps :=
  repeat match goal with
    | |- context [elem_get ?l ?i ≫= _] => destruct (elem_get l i) as [? |]; cbn [mbind option_bind]; [| exact I]
    | |- context [elem_set ?l ?i ?v ≫= _] => destruct (elem_set l i v) as [? |]; cbn [mbind option_bind]; [| exact I]
    end.

Lemma convert4_agree (mem1 mem2 pal : list Z) (p q d0 d1 : Z) (out : list Z) :
  reads_agree mem1 p mem2 q 4 ->
  match convert4 mem1 pal (p, d0, d1, out), convert4 mem2 pal (q, d0, d1, out) with
  | Some (p', a0, a1, o1), Some (q', b0, b1, o2) =>
      p' = p + 4 /\ q' = q + 4 /\ a0 = b0 /\ a1 = b1 /\ o1 = o2
  | None, None => True
  | _, _ => False
  end.
Proof.
  intros H. unfold convert4. rewrite (load32_agree _ _ _ _ H).
  destruct (load32 mem2 q) as [src4 |]; cbn [mbind option_bind]; [| exact I].
  destruct_steps. auto.
Qed.

Lemma convert1_agree (mem1 mem2 pal : list Z) (p q d0 d1 : Z) (out : list Z) :
  reads_agree mem1 p mem2 q 1 ->
  match convert1 mem1 pal (p, d0, d1, out), convert1 mem2 pal (q, d0, d1, out) with
  | Some (p', a0, a1, o1), Some (q', b0, b1, o2) =>
      p' = p + 1 /\ q' = q + 1 /\ a0 = b0 /\ a1 = b1 /\ o1 = o2
  | None, None => True
  | _, _ => False
  end.
Proof.
  intros H. assert (Heq : elem_get mem1 p = elem_get mem2 q).
  { specialize (H 0 ltac:(lia)). rewrite !Z.add_0_r in H. exact H. }
  unfold convert1. rewrite Heq.
  destruct_steps. auto.
Qed.

Lemma convert_row_agree (width : Z) (mem1 mem2 pal : list Z) (p q d0 d1 : Z) (out : list Z) :
  reads_agree mem1 p mem2 q width ->
  match convert_row width mem1 pal (p, d0, d1, out),
        convert_row width mem2 pal (q, d0, d1, out) with
  | Some (p', a0, a1, o1), Some (q', b0, b1, o2) =>
      p' - p = q' - q /\ a0 = b0 /\ a1 = b1 /\ o1 = o2
  | None, None => True
  | _, _ => False
  end.
Proof.
  intros H.
  assert (Hb4 : forall i s t, i < width - 3 -> row_related p q i s t ->
            match convert4 mem1 pal s, convert4 mem2 pal t with
            | Some s', Some t' => row_related p q (i + 4) s' t'
            | None, None => True
            | _, _ => False
            end).
  { intros i [[[p1 a0] a1] o1] [[[q1 b0] b1] o2] Hi (-> & -> & <- & <- & <- & Hi0).
    assert (Hag : reads_agree mem1 (p + i) mem2 (q + i) 4).
    { intros j Hj. rewrite <- !Z.add_assoc. apply H. lia. }
    pose proof (convert4_agree mem1 mem2 pal (p + i) (q + i) a0 a1 o1 Hag) as H4.
    destruct (convert4 mem1 pal _) as [[[[? ?] ?] ?] |],
             (convert4 mem2 pal _) as [[[[? ?] ?] ?] |]; try exact H4.
    destruct H4 as (-> & -> & -> & -> & ->). cbn. repeat split; lia. }
  assert (Hb1 : forall i s t, i < width -> row_related p q i s t ->
            match convert1 mem1 pal s, convert1 mem2 pal t with
            | Some s', Some t' => row_related p q (i + 1) s' t'
            | None, None => True
            | _, _ => False
            end).
  { intros i [[[p1 a0] a1] o1] [[[q1 b0] b1] o2] Hi (-> & -> & <- & <- & <- & Hi0).
    assert (Hag : reads_agree mem1 (p + i) mem2 (q + i) 1).
    { intros j Hj. rewrite <- !Z.add_assoc. apply H. lia. }
    pose proof (convert1_agree mem1 mem2 pal (p + i) (q + i) a0 a1 o1 Hag) as H1.
    destruct (convert1 mem1 pal _) as [[[[? ?] ?] ?] |],
             (convert1 mem2 pal _) as [[[[? ?] ?] ?] |]; try exact H1.
    destruct H1 as (-> & -> & -> & -> & ->). cbn. repeat split; lia. }
  assert (Hinit : row_related p q 0 (p, d0, d1, out) (q, d0, d1, out)).
  { cbn. repeat split; lia. }
  unfold convert_row.
  pose proof (for_loop_rel (row_related p q) (Z.to_nat width) 0 (width - 3) 4
                (fun _ => convert4 mem1 pal) (fun _ => convert4 mem2 pal)
                _ _ Hinit Hb4) as Hquad.
  destruct (for_loop _ 0 _ 4 (fun _ => convert4 mem1 pal) _) as [[x1 s1] |],
           (for_loop _ 0 _ 4 (fun _ => convert4 mem2 pal) _) as [[x2 s2] |];
    cbn [mbind option_bind]; try exact Hquad; try contradiction.
  destruct Hquad as [<- Hrel].
  pose proof (for_loop_rel (row_related p q) (Z.to_nat width) x1 width 1
                (fun _ => convert1 mem1 pal) (fun _ => convert1 mem2 pal)
                s1 s2 Hrel Hb1) as Htail.
  destruct (for_loop _ x1 _ 1 (fun _ => convert1 mem1 pal) _) as [[y1 [[[p1 a0] a1] o1]] |],
           (for_loop _ x1 _ 1 (fun _ => convert1 mem2 pal) _) as [[y2 [[[q1 b0] b1] o2]] |];
    cbn [mbind option_bind]; try exact Htail.
  destruct Htail as [<- (-> & -> & <- & <- & <- & _)]. repeat split; lia.
Qed.

Lemma land_255_range (x : Z) : 0 <= Z.land x 255 < 256.
Proof. change 255 with (Z.ones 8). rewrite Z.land_ones by lia. apply Z.mod_pos_bound. lia. Qed.

Lemma elem_get_Some (l : list Z) (i : Z) :
  0 <= i < Z.of_nat (length l) -> exists v, elem_get l i = Some v.
Proof. intros Hi. destruct (elem_get_is_Some l i Hi) as [v Hv]. eauto. Qed.

Lemma load32_Some (mem : list Z) (p : Z) :
  0 <= p -> p + 4 <= Z.of_nat (length mem) -> exists v, load32 mem p = Some v.
Proof.
  intros Hp Hlen. unfold load32.
  destruct (elem_get_Some mem p) as [b0 ->]; [lia |].
  destruct (elem_get_Some mem (p + 1)) as [b1 ->]; [lia |].
  destruct (elem_get_Some mem (p + 2)) as [b2 ->]; [lia |].
  destruct (elem_get_Some mem (p + 3)) as [b3 ->]; [lia |].
  cbn. eauto.
Qed.

Lemma convert4_ok (mem pal : list Z) (src d0 d1 : Z) (out : list Z) :
  length pal = 256%nat ->
  0 <= src -> src + 4 <= Z.of_nat (length mem) ->
  0 <= d0 -> d0 + 8 <= Z.of_nat (length out) ->
  0 <= d1 -> d1 + 8 <= Z.of_nat (length out) ->
  exists out',
    convert4 mem pal (src, d0, d1, out) = Some (src + 4, d0 + 8, d1 + 8, out') /\
    length out' = length out.
Proof.
  intros Hpal Hs Hs' Hd0 Hd0' Hd1 Hd1'. unfold convert4.
  destruct (load32_Some mem src Hs Hs') as [src4 ->]. cbn [mbind option_bind].
  destruct (elem_get_Some pal (Z.land src4 255)) as [c0 ->];
    [pose proof (land_255_range src4); lia |].
  destruct (elem_get_Some pal (Z.land (Z.shiftr src4 8) 255)) as [c1 ->];
    [pose proof (land_255_range (Z.shiftr src4 8)); lia |].
  destruct (elem_get_Some pal (Z.land (Z.shiftr src4 16) 255)) as [c2 ->];
    [pose proof (land_255_range (Z.shiftr src4 16)); lia |].
  destruct (elem_get_Some pal (Z.land (Z.shiftr src4 24) 255)) as [c3 ->];
    [pose proof (land_255_range (Z.shiftr src4 24)); lia |].
  cbn [mbind option_bind].
  repeat (rewrite elem_set_eq by (rewrite ?length_insert; lia); cbn [mbind option_bind]).
  eexists. split; [reflexivity |]. rewrite !length_insert. reflexivity.
Qed.

Lemma convert_row_ok (width : Z) (mem pal : list Z) (src d0 d1 : Z) (out : list Z) :
  0 <= width -> width mod 4 = 0 ->
  length pal = 256%nat ->
  0 <= src -> src + width <= Z.of_nat (length mem) ->
  0 <= d0 -> d0 + 2 * width <= Z.of_nat (length out) ->
  0 <= d1 -> d1 + 2 * width <= Z.of_nat (length out) ->
  exists out',
    convert_row width mem pal (src, d0, d1, out) =
      Some (src + width, d0 + 2 * width, d1 + 2 * width, out') /\
    length out' = length out.
Proof.
  intros Hw Hw4 Hpal Hs Hs' Hd0 Hd0' Hd1 Hd1'. unfold convert_row.
  destruct (for_loop_rule
    (fun x (v : row_vars) =>
       let '(p, a0, a1, o) := v in
       p = src + x /\ a0 = d0 + 2 * x /\ a1 = d1 + 2 * x /\ length o = length out /\
       0 <= x <= width /\ x mod 4 = 0)
    (Z.to_nat width) 0 (width - 3) 4 (fun _ => convert4 mem pal) (src, d0, d1, out))
    as (x' & [[[p a0] a1] o] & Hrun & (-> & -> & -> & Hlen & Hx & Hx4) & Hb & _).
  - lia.
  - lia.
  - repeat split; lia.
  - intros i [[[p a0] a1] o] Hi (-> & -> & -> & Hlen & Hx & Hx4).
    destruct (convert4_ok mem pal (src + i) (d0 + 2 * i) (d1 + 2 * i) o)
      as (o' & Hc & Hlen'); try lia.
    exists (src + i + 4, d0 + 2 * i + 8, d1 + 2 * i + 8, o'). split; [exact Hc |].
    repeat split; try lia. Z.div_mod_to_equations. lia.
  - rewrite Hrun. cbn [mbind option_bind].
    assert (x' = width) as -> by (Z.div_mod_to_equations; lia).
    rewrite for_loop_done by lia. cbn [mbind option_bind].
    exists o. split; [reflexivity | exact Hlen].
Qed.

Lemma length_memcpy (dst : list Z) (d : Z) (src : list Z) (s n : Z) (dst' : list Z) :
  memcpy dst d src s n = Some dst' -> length dst' = length dst.
Proof.
  unfold memcpy. case_decide as H; [| discriminate]. intros [= <-].
  rewrite !length_app, !length_take, !length_drop. lia.
Qed.

Lemma memcpy_Some (dst : list Z) (d : Z) (src : list Z) (s n : Z) :
  0 <= n -> 0 <= d -> d + n <= Z.of_nat (length dst) ->
  0 <= s -> s + n <= Z.of_nat (length src) ->
  exists dst',
    memcpy dst d src s n = Some dst' /\
    (forall j, 0 <= j < n -> elem_get dst' (d + j) = elem_get src (s + j)) /\
    (forall k, k < d \/ d + n <= k -> elem_get dst' k = elem_get dst k).
Proof.
  intros Hn Hd Hd' Hs Hs'. unfold memcpy. rewrite decide_True by lia.
  eexists. split; [reflexivity |]. split.
  - intros j Hj. rewrite !elem_get_lookup by lia.
    rewrite lookup_app_r by (rewrite length_take; lia).
    rewrite length_take, lookup_app_l by (rewrite length_take, length_drop; lia).
    rewrite lookup_take_lt, lookup_drop by lia. f_equal. lia.
  - intros k Hk. destruct (Z_lt_dec k 0) as [Hneg | Hnn].
    { rewrite !elem_get_neg by lia. reflexivity. }
    rewrite !elem_get_lookup by lia. destruct Hk as [Hk | Hk].
    + rewrite lookup_app_l by (rewrite length_take; lia).
      apply lookup_take_lt. lia.
    + rewrite lookup_app_r by (rewrite length_take; lia).
      rewrite lookup_app_r by (rewrite !length_take, length_drop; lia).
      rewrite lookup_drop, !length_take, length_drop. f_equal. lia.
Qed.

Lemma snapshotTile_ok (src_buffer : list Z) (tile_x tile_y : Z) (snapshot : list Z) :
  Z.of_nat (length src_buffer) = MAC_SCREEN_WIDTH * MAC_SCREEN_HEIGHT ->
  0 <= tile_x < TILES_X -> 0 <= tile_y < TILES_Y ->
  Z.of_nat (length snapshot) = TILE_WIDTH * TILE_HEIGHT ->
  exists snap,
    snapshotTile src_buffer tile_x tile_y snapshot = Some snap /\
    length snap = length snapshot /\
    forall row, 0 <= row < TILE_HEIGHT ->
      reads_agree src_buffer ((tile_y * TILE_HEIGHT + row) * MAC_SCREEN_WIDTH + tile_x * TILE_WIDTH)
        snap (TILE_WIDTH * row) TILE_WIDTH.
Proof.
  unfold MAC_SCREEN_WIDTH, MAC_SCREEN_HEIGHT, TILES_X, TILES_Y, TILE_WIDTH, TILE_HEIGHT.
  intros Hsrc Hx Hy Hsnap. unfold snapshotTile.
  change (Z.to_nat TILE_HEIGHT) with 40%nat.
  unfold MAC_SCREEN_WIDTH, TILE_WIDTH, TILE_HEIGHT. cbv zeta.
  destruct (for_loop_rule
    (fun row '(dst, snap) =>
       dst = 40 * row /\ 0 <= row <= 40 /\ length snap = length snapshot /\
       forall r, 0 <= r < row ->
         reads_agree src_buffer ((tile_y * 40 + r) * 640 + tile_x * 40) snap (40 * r) 40)
    40 0 40 1
    (fun row '(dst, snap) =>
       snap0 ← memcpy snap dst src_buffer ((tile_y * 40 + row) * 640 + tile_x * 40) 40;
       Some (dst + 40, snap0))
    (0, snapshot)) as (x' & [dst snap] & Hrun & (_ & Hrow & Hlen & Hag) & Hb & Hb').
  - lia.
  - lia.
  - repeat split; lia.
  - intros row [dst snap] Hrow (-> & _ & Hlen & Hag).
    destruct (memcpy_Some snap (40 * row) src_buffer ((tile_y * 40 + row) * 640 + tile_x * 40) 40)
      as (snap' & Hcpy & Hnew & Hold); try lia.
    rewrite Hcpy. cbn [mbind option_bind]. eexists. split; [reflexivity |].
    repeat split; try lia.
    + rewrite (length_memcpy _ _ _ _ _ _ Hcpy). exact Hlen.
    + intros r Hr j Hj. destruct (Z.eq_dec r row) as [-> | Hne].
      * symmetry. apply Hnew. exact Hj.
      * rewrite Hold by lia. apply Hag; lia.
  - rewrite Hrun. cbn [mbind option_bind]. exists snap. split; [reflexivity |].
    split; [exact Hlen |]. intros row Hr. apply Hag. lia.
Qed.

Lemma renderTileFromSnapshot_ok (snapshot pal out_buffer : list Z) :
  Z.of_nat (length snapshot) = TILE_WIDTH * TILE_HEIGHT ->
  length pal = 256%nat ->
  Z.of_nat (length out_buffer) = TILE_WIDTH * PIXEL_SCALE * TILE_HEIGHT * PIXEL_SCALE ->
  exists out,
    renderTileFromSnapshot snapshot pal out_buffer = Some out /\
    length out = length out_buffer.
Proof.
  unfold TILE_WIDTH, TILE_HEIGHT, PIXEL_SCALE. intros Hsnap Hpal Hout.
  unfold renderTileFromSnapshot. change (Z.to_nat TILE_HEIGHT) with 40%nat.
  unfold TILE_WIDTH, TILE_HEIGHT, PIXEL_SCALE. cbv zeta.
  destruct (for_loop_rule
    (fun row '(src, out, buf) =>
       src = 40 * row /\ out = 160 * row /\ 0 <= row <= 40 /\ length buf = length out_buffer)
    40 0 40 1
    (fun _ '(src, out, buf) =>
       '(src0, _, _, buf0) ← convert_row 40 snapshot pal (src, out, out + 40 * 2, buf);
       Some (src0, out + 40 * 2 * 2, buf0))
    (0, 0, out_buffer)) as (x' & [[src out] buf] & Hrun & (_ & _ & _ & Hlen) & _).
  - lia.
  - lia.
  - repeat split; lia.
  - intros row [[src out] buf] Hrow (-> & -> & _ & Hlen).
    destruct (convert_row_ok 40 snapshot pal (40 * row) (160 * row) (160 * row + 40 * 2) buf)
      as (buf' & Hc & Hlen'); try lia; try reflexivity.
    rewrite Hc. cbn [mbind option_bind]. eexists. split; [reflexivity |].
    repeat split; lia.
  - rewrite Hrun. cbn [mbind option_bind]. exists buf. split; [reflexivity | exact Hlen].
Qed.

(** C10. For every framebuffer contents, valid tile and palette, copying
    the tile with [snapshotTile] and converting the copy with
    [renderTileFromSnapshot] is defined and gives the same 80x80 block as
    converting the tile in place with [renderTileToBuffer], which is defined
    too. *)
Theorem snapshot_render_refines_direct (src_buffer : list Z) (tile_x tile_y : Z)
    (local_palette snapshot out_buffer : list Z) :
  Z.of_nat (length src_buffer) = MAC_SCREEN_WIDTH * MAC_SCREEN_HEIGHT ->
  0 <= tile_x < TILES_X -> 0 <= tile_y < TILES_Y ->
  length local_palette = 256%nat ->
  Z.of_nat (length snapshot) = TILE_WIDTH * TILE_HEIGHT ->
  Z.of_nat (length out_buffer) = TILE_WIDTH * PIXEL_SCALE * TILE_HEIGHT * PIXEL_SCALE ->
  exists snap out,
    snapshotTile src_buffer tile_x tile_y snapshot = Some snap /\
    renderTileFromSnapshot snap local_palette out_buffer = Some out /\
    renderTileToBuffer src_buffer tile_x tile_y local_palette out_buffer = Some out /\
    Z.of_nat (length out) = 80 * 80.
Proof.
  intros Hsrc Hx Hy Hpal Hsnap Hout.
  destruct (snapshotTile_ok src_buffer tile_x tile_y snapshot Hsrc Hx Hy Hsnap)
    as (snap & Hs & Hslen & Hag).
  destruct (renderTileFromSnapshot_ok snap local_palette out_buffer) as (out & Hr & Holen);
    [congruence | exact Hpal | exact Hout |].
  exists snap, out. split; [exact Hs |]. split; [exact Hr |].
  split; [| rewrite Holen, Hout; reflexivity].
  unfold renderTileFromSnapshot in Hr. unfold renderTileToBuffer. cbv zeta in Hr |- *.
  pose proof (for_loop_rel
    (fun row '(out1, buf1) '(src2, out2, buf2) =>
       src2 = TILE_WIDTH * row /\ out1 = out2 /\ buf1 = buf2 /\ 0 <= row /\
       out1 = 160 * row /\ length buf1 = length out_buffer)
    (Z.to_nat TILE_HEIGHT) 0 TILE_HEIGHT 1
    (fun row '(out, buf) =>
       '(_, _, _, buf0) ← convert_row TILE_WIDTH src_buffer local_palette
           ((tile_y * TILE_HEIGHT + row) * MAC_SCREEN_WIDTH + tile_x * TILE_WIDTH,
            out, out + TILE_WIDTH * PIXEL_SCALE, buf);
       Some (out + TILE_WIDTH * PIXEL_SCALE * 2, buf0))
    (fun _ '(src, out, buf) =>
       '(src0, _, _, buf0) ← convert_row TILE_WIDTH snap local_palette
           (src, out, out + TILE_WIDTH * PIXEL_SCALE, buf);
       Some (src0, out + TILE_WIDTH * PIXEL_SCALE * 2, buf0))
    (0, out_buffer) (0, 0, out_buffer)) as Hrel.
  destruct (for_loop _ _ _ _ _ (0, 0, out_buffer)) as [[x2 [[src2 out2] buf2]] |];
    [| discriminate Hr].
  cbn [mbind option_bind] in Hr. injection Hr as ->.
  lapply Hrel; [clear Hrel; intros Hrel | unfold TILE_WIDTH; repeat split; lia].
  lapply Hrel; [clear Hrel; intros Hrel |].
  - destruct (for_loop _ _ _ _ _ (0, out_buffer)) as [[x1 [out1 buf1]] |];
      cbn [mbind option_bind]; [| contradiction].
    destruct Hrel as (_ & _ & _ & -> & _). reflexivity.
  - intros row [o1 b1] [[s2 o2] b2] Hrow (-> & <- & <- & Hrow0 & -> & Hlen).
    unfold TILE_WIDTH, TILE_HEIGHT, PIXEL_SCALE, MAC_SCREEN_WIDTH in *.
    destruct (convert_row_ok 40 snap local_palette (40 * row) (160 * row)
                (160 * row + 40 * 2) b1) as (b' & Hc & Hlen'); try lia; try reflexivity.
    pose proof (convert_row_agree 40 src_buffer snap local_palette
                  ((tile_y * 40 + row) * 640 + tile_x * 40) (40 * row)
                  (160 * row) (160 * row + 40 * 2) b1 (Hag row ltac:(lia))) as Hcr.
    rewrite Hc in Hcr |- *.
    destruct (convert_row 40 src_buffer _ _) as [[[[p' a0] a1] o1] |]; [| contradiction].
    destruct Hcr as (_ & _ & _ & ->). cbn [mbind option_bind].
    repeat split; lia.
Qed.

Lemma snapshot_render_refines_direct_witness :
  exists snap out,
    snapshotTile (replicate (Z.to_nat 100000) 1 ++ replicate (Z.to_nat 130400) 200) 3 2 (replicate (Z.to_nat 1600) 0)
      = Some snap /\
    renderTileFromSnapshot snap ((fun i => 257 * i) <$> seqZ 0 256) (replicate (Z.to_nat 6400) 0)
      = Some out /\
    renderTileToBuffer (replicate (Z.to_nat 100000) 1 ++ replicate (Z.to_nat 130400) 200) 3 2
      ((fun i => 257 * i) <$> seqZ 0 256) (replicate (Z.to_nat 6400) 0) = Some out /\
    Z.of_nat (length out) = 80 * 80.
Proof.
  apply snapshot_render_refines_direct.
  - vm_compute. reflexivity.
  - unfold TILES_X. lia.
  - unfold TILES_Y. lia.
  - reflexivity.
  - vm_compute. reflexivity.
  - vm_compute. reflexivity.
Defined.

(** ** Render scheduler *)

Lemma iteration_unfold (env : readings) (st : globals) :
  videoRenderTaskOptimized_iteration env st =
    if should_render st && (elapsed_ticks env st <? min_frame_ticks env)
    then Some (Abandoned, signal_consumed st)
    else (render_pass env ≫= finish_iteration env) (signal_consumed st).
Proof.
  unfold videoRenderTaskOptimized_iteration, ulTaskNotifyTake, should_render, elapsed_ticks,
    finish_iteration. run_M.
  rewrite !fn_lookup_insert_ne by discriminate.
  destruct (_ && _); run_M; reflexivity.
Qed.


Ltac fn_simpl :=
  repeat first
    [ rewrite fn_lookup_insert
    | rewrite fn_lookup_insert_ne by discriminate ].

(** The drain phase of a render pass with write-time tracking. *)
Lemma detect_phase_tracking (env : readings) (st : globals) :
  tracker_ok st ->
  flags st force_full_update = false ->
  flags st use_write_dirty_tracking = true ->
  exists st1,
    collectWriteDirtyTiles st = Some (bitmap_popcount (arrays st write_dirty_tiles), st1) /\
    arrays st1 write_dirty_tiles = replicate (Z.to_nat BITMAP_WORDS) 0 /\
    arrays st1 dirty_tiles = arrays st write_dirty_tiles /\
    tracker_frame st st1 /\
    detect_phase env st =
      Some (dirty_threshold <? bitmap_popcount (arrays st write_dirty_tiles),
            set_words
              (<[perf_detect_us := wrap32 (words st perf_detect_us + detect_time env)]>
                 (<[dirty_tile_count := bitmap_popcount (arrays st write_dirty_tiles)]>
                    (words st)))
              st1).
Proof.
  intros Hok Hforce Htrack.
  destruct (collectWriteDirtyTiles_run st Hok) as (st1 & Hdrain & Hw & Hd & Hfr).
  exists st1. repeat split; try assumption; try apply Hfr.
  unfold detect_phase. run_M. rewrite Hforce, Htrack. cbn [negb andb].
  run_M. rewrite Hdrain. unfold perf_add. run_M. fn_simpl.
  destruct Hfr as (_ & -> & _).
  destruct (dirty_threshold <? _); reflexivity.
Qed.

Lemma detect_phase_forced (env : readings) (st : globals) :
  flags st force_full_update = true -> detect_phase env st = Some (true, st).
Proof.
  intros Hforce. unfold detect_phase. run_M. rewrite Hforce. reflexivity.
Qed.

Lemma reportVideoPerfStats_run (now : Z) (st : globals) :
  exists st',
    reportVideoPerfStats now st = Some (tt, st') /\
    flags st' = flags st /\ arrays st' = arrays st /\ pointers st' = pointers st /\
    heap st' = heap st /\ display st' = display st /\
    words st' perf_skip_count =
      (if PERF_REPORT_INTERVAL_MS <=? wrap32 (now - words st perf_last_report_ms)
       then 0 else words st perf_skip_count) /\
    words st' last_frame_ticks = words st last_frame_ticks.
Proof.
  unfold reportVideoPerfStats. run_M.
  destruct (PERF_REPORT_INTERVAL_MS <=? _); run_M; eexists; (split; [reflexivity |]);
    cbn [flags arrays pointers heap display words set_words]; fn_simpl; repeat split.
Qed.

(** C7. A render pass that finds the forced-full flag clear and drains a
    dirty count of zero takes the skip branch: nothing is converted, nothing
    is pushed to the display, the buffers are untouched, and
    [perf_skip_count] is incremented by one (as a [uint32_t]); the counts of
    full and partial updates do not move.  The same holds for the whole loop
    iteration, at the end of which the periodic report may reset the
    counters. *)
Theorem idle_skip (env : readings) (st : globals) :
  tracker_ok st ->
  flags st force_full_update = false ->
  flags st use_write_dirty_tracking = true ->
  bitmap_popcount (arrays st write_dirty_tiles) = 0 ->
  (exists st',
     render_pass env st = Some (SkipUpdate, st') /\
     display st' = display st /\ heap st' = heap st /\
     arrays st' tile_buffer = arrays st tile_buffer /\
     words st' perf_skip_count = wrap32 (words st perf_skip_count + 1) /\
     (0 <= words st perf_skip_count < 2 ^ 32 - 1 ->
      words st' perf_skip_count = words st perf_skip_count + 1) /\
     words st' perf_full_count = words st perf_full_count /\
     words st' perf_partial_count = words st perf_partial_count) /\
  (should_render st && (elapsed_ticks env st <? min_frame_ticks env) = false ->
   exists st',
     videoRenderTaskOptimized_iteration env st = Some (Rendered SkipUpdate, st') /\
     display st' = display st /\ heap st' = heap st /\
     arrays st' tile_buffer = arrays st tile_buffer /\
     words st' perf_skip_count =
       if PERF_REPORT_INTERVAL_MS <=? wrap32 (now_ms env - words st perf_last_report_ms)
       then 0 else wrap32 (words st perf_skip_count + 1)).
Proof.
  intros Hok Hforce Htrack Hzero.
  assert (Hpass : forall s, tracker_ok s -> flags s force_full_update = false ->
            flags s use_write_dirty_tracking = true ->
            bitmap_popcount (arrays s write_dirty_tiles) = 0 ->
            exists s',
              render_pass env s = Some (SkipUpdate, s') /\
              display s' = display s /\ heap s' = heap s /\
              arrays s' tile_buffer = arrays s tile_buffer /\
              pointers s' = pointers s /\ flags s' = flags s /\
              (forall w, w <> dirty_tile_count -> w <> perf_detect_us ->
                 w <> perf_skip_count -> w <> perf_frame_count -> words s' w = words s w) /\
              words s' perf_skip_count = wrap32 (words s perf_skip_count + 1)).
  { intros s Hs Hf Ht Hz.
    destruct (detect_phase_tracking env s Hs Hf Ht) as (s1 & _ & _ & _ & Hfr & Hdet).
    rewrite Hz in Hdet. unfold render_pass. run_M. rewrite Hdet.
    change (dirty_threshold <? 0) with false. unfold render_phase. run_M. fn_simpl.
    change (0 <? 0) with false. cbn iota. unfold perf_add. run_M. fn_simpl.
    eexists. split; [reflexivity |].
    cbn [flags arrays pointers heap display words set_words]. fn_simpl.
    destruct Hfr as (Hf1 & Hw1 & Hp1 & Hh1 & Hd1 & Ha1).
    repeat split; try assumption.
    - apply Ha1; discriminate.
    - intros w H1 H2 H3 H4. rewrite !fn_lookup_insert_ne by congruence. reflexivity. }
  split.
  - destruct (Hpass st Hok Hforce Htrack Hzero)
      as (st' & Hrun & Hd & Hh & Ha & Hp & Hf & Hw & Hskip).
    exists st'. repeat split; try assumption.
    + intros Hr. rewrite Hskip. apply wrap32_small. lia.
    + apply Hw; discriminate.
    + apply Hw; discriminate.
  - intros Hgo. rewrite iteration_unfold, Hgo.
    destruct (Hpass (signal_consumed st) Hok Hforce Htrack Hzero)
      as (s1 & Hrun & Hd & Hh & Ha & Hp & Hf & Hw & Hskip).
    rewrite bind_run, Hrun. unfold finish_iteration. run_M.
    destruct (reportVideoPerfStats_run (now_ms env)
                (set_words (<[last_frame_ticks := now_ticks env]> (words s1)) s1))
      as (s2 & -> & Hf2 & Ha2 & Hp2 & Hh2 & Hd2 & Hskip2 & _).
    run_M. exists s2. split; [reflexivity |].
    cbn [flags arrays pointers heap display words set_words] in *.
    rewrite Hd2, Hh2, Ha2, Hskip2. fn_simpl.
    repeat split; try assumption.
    rewrite (Hw perf_last_report_ms) by discriminate. rewrite Hskip.
    unfold signal_consumed. cbn [words set_flags set_words]. fn_simpl. reflexivity.
Qed.

Lemma idle_skip_witness :
  exists st',
    render_pass late_wake idle_globals = Some (SkipUpdate, st') /\
    display st' = display idle_globals /\
    words st' perf_skip_count = 1.
Proof.
  destruct (idle_skip late_wake idle_globals) as [(st' & Hrun & Hd & _ & _ & Hskip & _) _].
  - exact ready_globals_ok.
  - reflexivity.
  - reflexivity.
  - reflexivity.
  - exists st'. split; [exact Hrun |]. split; [exact Hd |]. rewrite Hskip. reflexivity.
Defined.

(** The partial-correctness rule of the loop: an invariant every defined
    iteration preserves holds whenever the loop is defined. *)
Lemma for_loop_preserves {S : Type} (I : S -> Prop) (fuel : nat) (x bound step : Z)
    (body : Z -> S -> option S) (s : S) (x' : Z) (s' : S) :
  I s ->
  (forall i s s', I s -> body i s = Some s' -> I s') ->
  for_loop fuel x bound step body s = Some (x', s') ->
  I s'.
Proof.
  intros HI Hbody. revert x s HI.
  induction fuel as [| fuel IH]; intros x s HI; cbn.
  - destruct (x <? bound); [discriminate |]. intros [= <- <-]. exact HI.
  - destruct (x <? bound).
    + destruct (body x s) as [s1 |] eqn:Hb; [| discriminate].
      apply IH. eapply Hbody; eassumption.
    + intros [= <- <-]. exact HI.
Qed.

Lemma for_loop_M_preserves {L : Type} (I : globals -> Prop) (fuel : nat) (x bound step : Z)
    (body : Z -> L -> M L) (l : L) (st : globals) (r : Z * L) (st' : globals) :
  I st ->
  (forall i l s l' s', I s -> body i l s = Some (l', s') -> I s') ->
  for_loop_M fuel x bound step body l st = Some (r, st') ->
  I st'.
Proof.
  intros HI Hbody. unfold for_loop_M.
  destruct (for_loop _ _ _ _ _ _) as [[x' [l' s']] |] eqn:Hrun; [| discriminate].
  intros [= <- <-].
  apply (for_loop_preserves (fun p : L * globals => I (snd p))) in Hrun.
  - exact Hrun.
  - exact HI.
  - intros i [l0 s0] [l1 s1] HI0 Hb. cbn in *. eapply Hbody; eassumption.
Qed.

Lemma elem_set_length (l : list Z) (i v : Z) (l' : list Z) :
  elem_set l i v = Some l' -> length l' = length l.
Proof.
  unfold elem_set. case_decide; [| discriminate]. intros [= <-]. apply length_insert.
Qed.

(** A palette update changes the palette entries and sets the forced-full
    flag, nothing else. *)
Lemma set_palette_run (pal : list Z) (num : Z) (st st1 : globals) :
  set_palette pal num st = Some (tt, st1) ->
  flags st1 = <[force_full_update := true]> (flags st) /\
  words st1 = words st /\ pointers st1 = pointers st /\ heap st1 = heap st /\
  display st1 = display st /\
  length (arrays st1 palette_rgb565) = length (arrays st palette_rgb565) /\
  forall a, a <> palette_rgb565 -> arrays st1 a = arrays st a.
Proof.
  unfold set_palette. rewrite bind_run.
  destruct (for_loop_M _ _ _ _ _ _ st) as [[r s] |] eqn:Hloop; [| discriminate].
  run_M. intros [= <-].
  apply (for_loop_M_preserves
           (fun s => flags s = flags st /\ words s = words st /\ pointers s = pointers st /\
                     heap s = heap st /\ display s = display st /\
                     length (arrays s palette_rgb565) = length (arrays st palette_rgb565) /\
                     forall a, a <> palette_rgb565 -> arrays s a = arrays st a)) in Hloop.
  - destruct Hloop as (Hf & Hw & Hp & Hh & Hd & Hl & Ha).
    cbn [flags arrays pointers heap display words set_flags]. rewrite Hf.
    repeat split; assumption.
  - repeat split.
  - intros i l s0 l' s' (Hf & Hw & Hp & Hh & Hd & Hl & Ha). run_M.
    destruct (elem_get pal (i * 3 + 0)) as [r0 |]; [| discriminate]. run_M.
    destruct (elem_get pal (i * 3 + 1)) as [g0 |]; [| discriminate]. run_M.
    destruct (elem_get pal (i * 3 + 2)) as [b0 |]; [| discriminate]. run_M.
    destruct (elem_set _ _ _) as [p' |] eqn:Hset; [| discriminate]. run_M.
    intros [= <- <-]. cbn [flags arrays pointers heap display words set_arrays].
    rewrite fn_lookup_insert. repeat split; try assumption.
    + rewrite (elem_set_length _ _ _ _ Hset). exact Hl.
    + intros a Hne. rewrite fn_lookup_insert_ne by congruence. apply Ha, Hne.
Qed.

Lemma frame_rows_ok (src_data pal dsi_data : list Z) :
  Z.of_nat (length src_data) = MAC_SCREEN_WIDTH * MAC_SCREEN_HEIGHT ->
  length pal = 256%nat ->
  Z.of_nat (length dsi_data) = DISPLAY_WIDTH * DISPLAY_HEIGHT ->
  exists x' src' dsi',
    for_loop (Z.to_nat MAC_SCREEN_HEIGHT) 0 MAC_SCREEN_HEIGHT 1
      (fun y '(src, buf) =>
         let dst_row0 := (y * 2) * DISPLAY_WIDTH in
         let dst_row1 := dst_row0 + DISPLAY_WIDTH in
         '(src0, _, _, buf0) ← convert_row MAC_SCREEN_WIDTH src_data pal
                                 (src, dst_row0, dst_row1, buf);
         Some (src0, buf0))
      (0, dsi_data) = Some (x', (src', dsi')) /\
    length dsi' = length dsi_data.
Proof.
  unfold MAC_SCREEN_WIDTH, MAC_SCREEN_HEIGHT, DISPLAY_WIDTH, DISPLAY_HEIGHT.
  intros Hsrc Hpal Hdsi. cbv zeta.
  destruct (for_loop_rule
    (fun y '(src, buf) =>
       src = 640 * y /\ 0 <= y <= 360 /\ length buf = length dsi_data)
    (Z.to_nat 360) 0 360 1
    (fun y '(src, buf) =>
       '(src0, _, _, buf0) ← convert_row 640 src_data pal
                               (src, y * 2 * 1280, y * 2 * 1280 + 1280, buf);
       Some (src0, buf0))
    (0, dsi_data)) as (x' & [src' dsi'] & Hrun & (_ & _ & Hlen) & _).
  - lia.
  - lia.
  - repeat split; lia.
  - intros y [src buf] Hy (-> & _ & Hlen).
    destruct (convert_row_ok 640 src_data pal (640 * y) (y * 2 * 1280)
                (y * 2 * 1280 + 1280) buf) as (buf' & Hc & Hlen'); try lia; try reflexivity.
    rewrite Hc. cbn [mbind option_bind]. eexists. split; [reflexivity |].
    repeat split; lia.
  - exists x', src', dsi'. split; [exact Hrun | exact Hlen].
Qed.

(** A full-frame conversion is defined on allocated buffers; it rewrites the
    destination block and nothing else, and does nothing when a buffer is
    missing. *)
Lemma renderFrameToDSI_run (st : globals) :
  buffers_ok st ->
  exists st',
    renderFrameToDSI (pointers st mac_frame_buffer) st = Some (tt, st') /\
    flags st' = flags st /\ words st' = words st /\ arrays st' = arrays st /\
    pointers st' = pointers st /\ display st' = display st /\
    buffers_ok st'.
Proof.
  intros (Hpal & Hmac & Hdsi). unfold renderFrameToDSI. run_M.
  destruct (pointers st mac_frame_buffer) as [m |] eqn:Hm.
  2: { exists st. run_M. repeat split; try assumption; rewrite ?Hm; try discriminate. }
  destruct (pointers st dsi_framebuffer) as [d |] eqn:Hd.
  2: { exists st. run_M. repeat split; try assumption; rewrite ?Hm, ?Hd; try discriminate.
       intros m' [= <-]. apply Hmac. reflexivity. }
  destruct (Hmac m eq_refl) as (src & Hsrc & Hslen).
  destruct (Hdsi d eq_refl) as (dsi & Hdsid & Hdlen).
  run_M. unfold deref. rewrite Hsrc. run_M. rewrite Hdsid. run_M.
  destruct (frame_rows_ok src (arrays st palette_rgb565) dsi Hslen Hpal Hdlen)
    as (x' & src' & dsi' & Hrun & Hlen).
  cbv zeta in Hrun. rewrite Hrun. run_M. unfold store. rewrite Hdsid.
  eexists. split; [reflexivity |].
  cbn [flags arrays pointers heap display words set_heap].
  repeat split; try assumption.
  - intros m' Hm'. cbn [pointers set_heap] in Hm'. rewrite Hm in Hm'. injection Hm' as <-.
    cbn [heap set_heap].
    destruct (decide (d = m)) as [-> | Hne].
    + exfalso. rewrite Hsrc in Hdsid. injection Hdsid as ->.
      unfold MAC_SCREEN_WIDTH, MAC_SCREEN_HEIGHT, DISPLAY_WIDTH, DISPLAY_HEIGHT in *. lia.
    + exists src. rewrite lookup_insert_ne by exact Hne. auto.
  - intros d' Hd'. cbn [pointers set_heap] in Hd'. rewrite Hd in Hd'. injection Hd' as <-.
    cbn [heap set_heap].
    exists dsi'. rewrite lookup_insert_eq. split; [reflexivity | lia].
Qed.

Lemma pushFramebufferToDisplay_run (st : globals) :
  buffers_ok st ->
  exists st',
    pushFramebufferToDisplay st = Some (tt, st') /\
    flags st' = flags st /\ words st' = words st /\ arrays st' = arrays st /\
    pointers st' = pointers st /\ heap st' = heap st /\
    display st' =
      display st ++
      match pointers st dsi_framebuffer with
      | Some d =>
          match heap st !! d with
          | Some data =>
              [startWrite; setAddrWindow 0 0 DISPLAY_WIDTH DISPLAY_HEIGHT;
               writePixels data (DISPLAY_WIDTH * DISPLAY_HEIGHT); endWrite]
          | None => []
          end
      | None => []
      end.
Proof.
  intros (_ & _ & Hdsi). unfold pushFramebufferToDisplay. run_M.
  destruct (pointers st dsi_framebuffer) as [d |] eqn:Hd.
  - destruct (Hdsi d eq_refl) as (dsi & Hdsid & _). run_M. unfold deref.
    rewrite Hdsid. run_M. eexists. split; [reflexivity |]. repeat split.
  - exists st. run_M. rewrite app_nil_r. repeat split.
Qed.

(** The full update: the whole frame is converted and pushed, the
    forced-full flag is cleared, the full-update counter moves by one. *)
Lemma render_phase_full (env : readings) (pal : list Z) (st : globals) :
  buffers_ok st ->
  exists st',
    render_phase env pal true st = Some (FullUpdate, st') /\
    flags st' = <[force_full_update := false]> (flags st) /\
    arrays st' = arrays st /\ pointers st' = pointers st /\
    words st' =
      <[perf_full_count := wrap32 (words st perf_full_count + 1)]>
        (<[perf_push_us := wrap32 (words st perf_push_us + push_time env)]>
           (<[perf_render_us := wrap32 (words st perf_render_us + render_time env)]>
              (words st))) /\
    buffers_ok st' /\
    display st' =
      display st ++
      match pointers st dsi_framebuffer with
      | Some d =>
          match heap st' !! d with
          | Some data =>
              [startWrite; setAddrWindow 0 0 DISPLAY_WIDTH DISPLAY_HEIGHT;
               writePixels data (DISPLAY_WIDTH * DISPLAY_HEIGHT); endWrite]
          | None => []
          end
      | None => []
      end.
Proof.
  intros Hbuf. unfold render_phase. run_M.
  destruct (renderFrameToDSI_run st Hbuf) as (s1 & -> & Hf1 & Hw1 & Ha1 & Hp1 & Hd1 & Hb1).
  unfold perf_add. run_M.
  destruct (pushFramebufferToDisplay_run
              (set_words (<[perf_render_us := wrap32 (words s1 perf_render_us + render_time env)]>
                            (words s1)) s1) Hb1)
    as (s2 & -> & Hf2 & Hw2 & Ha2 & Hp2 & Hh2 & Hd2).
  run_M. eexists. split; [reflexivity |].
  cbn [flags arrays pointers heap display words set_words set_flags] in *.
  rewrite Hw2. fn_simpl. rewrite Hf2, Hf1, Ha2, Ha1, Hp2, Hp1, Hw1, Hd2, Hd1, Hh2.
  repeat split; cbn [flags arrays pointers heap display words set_words set_flags].
  - rewrite Ha2, Ha1. apply Hbuf.
  - rewrite Hp2, Hh2. apply Hb1.
  - rewrite Hp2, Hh2. apply Hb1.
  - rewrite Hp1. reflexivity.
Qed.

(** A render pass with the forced-full flag set: no drain, a full update,
    and the flag cleared at its end. *)
Lemma render_pass_forced (env : readings) (st : globals) :
  buffers_ok st ->
  flags st force_full_update = true ->
  exists st',
    render_pass env st = Some (FullUpdate, st') /\
    flags st' = <[force_full_update := false]> (flags st) /\
    arrays st' = arrays st /\ pointers st' = pointers st /\
    words st' perf_full_count = wrap32 (words st perf_full_count + 1) /\
    words st' last_frame_ticks = words st last_frame_ticks /\
    words st' perf_last_report_ms = words st perf_last_report_ms /\
    buffers_ok st' /\
    display st' =
      display st ++
      match pointers st dsi_framebuffer with
      | Some d =>
          match heap st' !! d with
          | Some data =>
              [startWrite; setAddrWindow 0 0 DISPLAY_WIDTH DISPLAY_HEIGHT;
               writePixels data (DISPLAY_WIDTH * DISPLAY_HEIGHT); endWrite]
          | None => []
          end
      | None => []
      end.
Proof.
  intros Hbuf Hforce. unfold render_pass. run_M.
  rewrite detect_phase_forced by exact Hforce. run_M.
  destruct (render_phase_full env (arrays st palette_rgb565) st Hbuf)
    as (s1 & -> & Hf & Ha & Hp & Hw & Hb & Hd).
  unfold perf_add. run_M. eexists. split; [reflexivity |].
  cbn [flags arrays pointers heap display words set_words]. rewrite Hw. fn_simpl.
  repeat split; try assumption.
  all: destruct Hb as (Hb1 & Hb2 & Hb3); assumption.
Qed.

Lemma VideoSignalFrameReady_run (st : globals) :
  exists st',
    VideoSignalFrameReady st = Some (tt, st') /\
    flags st' force_full_update = flags st force_full_update /\
    flags st' frame_ready = true.
Proof.
  unfold VideoSignalFrameReady. run_M.
  rewrite fn_lookup_insert_ne by discriminate.
  destruct (flags st video_task_handle); run_M; eexists; (split; [reflexivity |]);
    cbn [flags set_flags set_words]; fn_simpl; split; reflexivity.
Qed.

(** The sequential case, the call and the pass taken as one step each:
    after a successful [set_palette] the forced-full flag is set; an
    abandoned wake, a frame-ready signal and the tracker calls leave it set;
    the next render pass that runs performs a full update whatever the dirty
    bitmap holds (it is not even drained), pushes the whole destination
    framebuffer to the display when there is one, and clears the flag at its
    end. *)
Theorem palette_forces_full_update (pal : list Z) (num : Z) (st st1 : globals)
    (env : readings) :
  buffers_ok st ->
  set_palette pal num st = Some (tt, st1) ->
  flags st1 force_full_update = true /\
  flags (signal_consumed st1) force_full_update = true /\
  (forall st', VideoSignalFrameReady st1 = Some (tt, st') ->
     flags st' force_full_update = true) /\
  (forall c st', tracker_ok st1 -> call_ok c -> run_call c st1 = Some (tt, st') ->
     flags st' force_full_update = true) /\
  (exists st2,
     render_pass env st1 = Some (FullUpdate, st2) /\
     flags st2 force_full_update = false /\
     arrays st2 write_dirty_tiles = arrays st1 write_dirty_tiles /\
     words st2 perf_full_count = wrap32 (words st1 perf_full_count + 1) /\
     forall d, pointers st1 dsi_framebuffer = Some d ->
       exists data,
         heap st2 !! d = Some data /\
         display st2 =
           display st1 ++
             [startWrite; setAddrWindow 0 0 DISPLAY_WIDTH DISPLAY_HEIGHT;
              writePixels data (DISPLAY_WIDTH * DISPLAY_HEIGHT); endWrite]) /\
  (should_render st1 && (elapsed_ticks env st1 <? min_frame_ticks env) = false ->
   exists st2,
     videoRenderTaskOptimized_iteration env st1 = Some (Rendered FullUpdate, st2) /\
     flags st2 force_full_update = false).
Proof.
  intros Hbuf Hset.
  destruct (set_palette_run pal num st st1 Hset) as (Hf & Hw & Hp & Hh & Hd & Hl & Ha).
  assert (Hforce : flags st1 force_full_update = true).
  { rewrite Hf. apply fn_lookup_insert. }
  assert (Hbuf1 : buffers_ok st1).
  { destruct Hbuf as (Hpal & Hmac & Hdsi). unfold buffers_ok.
    rewrite Hl, Hp, Hh. auto. }
  split; [exact Hforce |]. split; [exact Hforce |]. split; [| split; [| split]].
  - intros st' Hsig. destruct (VideoSignalFrameReady_run st1) as (s & Hs & Hk & _).
    rewrite Hs in Hsig. injection Hsig as <-. congruence.
  - intros c st' Hok Hc Hrun.
    destruct (run_call_ok st1 c Hok Hc) as (s & Hs & _ & (Hfl & _) & _).
    rewrite Hs in Hrun. injection Hrun as <-. rewrite Hfl. exact Hforce.
  - destruct (render_pass_forced env st1 Hbuf1 Hforce)
      as (st2 & Hrun & Hf2 & Ha2 & Hp2 & Hc2 & _ & _ & Hb2 & Hd2).
    exists st2. split; [exact Hrun |]. split; [rewrite Hf2; apply fn_lookup_insert |].
    split; [rewrite Ha2; reflexivity |]. split; [exact Hc2 |].
    intros d Hdsi. rewrite Hdsi in Hd2.
    destruct Hb2 as (_ & _ & Hdsi2). rewrite Hp2 in Hdsi2.
    destruct (Hdsi2 d Hdsi) as (data & Hdata & _). rewrite Hdata in Hd2.
    exists data. split; [exact Hdata | exact Hd2].
  - intros Hgo. rewrite iteration_unfold, Hgo.
    destruct (render_pass_forced env (signal_consumed st1) Hbuf1 Hforce)
      as (s2 & Hrun & Hf2 & _).
    rewrite bind_run, Hrun. unfold finish_iteration. run_M.
    destruct (reportVideoPerfStats_run (now_ms env)
                (set_words (<[last_frame_ticks := now_ticks env]> (words s2)) s2))
      as (s3 & -> & Hf3 & _).
    run_M. exists s3. split; [reflexivity |].
    rewrite Hf3. cbn [flags set_words]. rewrite Hf2. apply fn_lookup_insert.
Qed.

Lemma allocated_globals_buffers_ok : buffers_ok allocated_globals.
Proof.
  split; [reflexivity |]. split.
  - intros m Hm. unfold allocated_globals in Hm. cbn [pointers set_heap set_pointers] in Hm.
    rewrite fn_lookup_insert in Hm. injection Hm as <-.
    exists (replicate (Z.to_nat (MAC_SCREEN_WIDTH * MAC_SCREEN_HEIGHT)) 128). split.
    + apply lookup_insert_eq.
    + rewrite length_replicate.
      unfold MAC_SCREEN_WIDTH, MAC_SCREEN_HEIGHT, DISPLAY_WIDTH, DISPLAY_HEIGHT. lia.
  - intros d Hd. unfold allocated_globals in Hd. cbn [pointers set_heap set_pointers] in Hd.
    rewrite fn_lookup_insert_ne, fn_lookup_insert in Hd by discriminate. injection Hd as <-.
    exists (replicate (Z.to_nat (DISPLAY_WIDTH * DISPLAY_HEIGHT)) (rgb888_to_rgb565 64 64 64)).
    split.
    + unfold allocated_globals. cbn [heap set_heap].
      rewrite lookup_insert_ne by discriminate. apply lookup_insert_eq.
    + rewrite length_replicate.
      unfold MAC_SCREEN_WIDTH, MAC_SCREEN_HEIGHT, DISPLAY_WIDTH, DISPLAY_HEIGHT. lia.
Qed.

Lemma palette_forces_full_update_witness :
  exists st1 st2 data,
    set_palette [255; 0; 0] 1 allocated_globals = Some (tt, st1) /\
    render_pass late_wake st1 = Some (FullUpdate, st2) /\
    flags st2 force_full_update = false /\
    display st2 =
      display st1 ++
        [startWrite; setAddrWindow 0 0 DISPLAY_WIDTH DISPLAY_HEIGHT;
         writePixels data (DISPLAY_WIDTH * DISPLAY_HEIGHT); endWrite].
Proof.
  destruct (set_palette [255; 0; 0] 1 allocated_globals) as [[[] st1] |] eqn:Hset.
  - destruct (palette_forces_full_update _ _ _ _ late_wake allocated_globals_buffers_ok Hset)
      as (_ & _ & _ & _ & (st2 & Hrun & Hf & _ & _ & Hpush) & _).
    destruct (Hpush 1%nat) as (data & _ & Hd).
    + destruct (set_palette_run _ _ _ _ Hset) as (_ & _ & -> & _).
      unfold allocated_globals. cbn [pointers set_heap set_pointers].
      rewrite fn_lookup_insert_ne, fn_lookup_insert by discriminate. reflexivity.
    + exists st1, st2, data. auto.
  - exfalso. revert Hset. unfold set_palette, for_loop_M. cbn. discriminate.
Defined.

(** A partial update is defined on a ready engine: it rewrites the two
    static tile buffers, brackets its pushes between [startWrite] and
    [endWrite], and touches nothing else. *)
Lemma renderAndPushDirtyTiles_run (st : globals) (pal : list Z) :
  engine_ready st -> length pal = 256%nat ->
  exists st',
    renderAndPushDirtyTiles (pointers st mac_frame_buffer) pal st = Some (tt, st') /\
    flags st' = flags st /\ words st' = words st /\ pointers st' = pointers st /\
    heap st' = heap st /\
    (forall a, a <> tile_snapshot -> a <> tile_buffer -> arrays st' a = arrays st a) /\
    exists ops, display st' = display st ++ startWrite :: ops ++ [endWrite].
Proof.
  intros (Hok & Hbuf & [m Hm] & Hsnap & Htb) Hpal.
  destruct Hbuf as (_ & Hmac & _). destruct (Hmac m Hm) as (src & Hsrc & Hslen).
  destruct Hok as (_ & Hdt & _). change (Z.to_nat BITMAP_WORDS) with 5%nat in Hdt.
  unfold renderAndPushDirtyTiles. cbv zeta. run_M.
  set (st0 := set_display (display st ++ [startWrite]) st).
  assert (H0 : partial_frame st st0).
  { unfold st0. repeat split. exists []. reflexivity. }
  destruct (for_loop_M_rule (fun _ (_ : unit) s => partial_frame st s)
    (Z.to_nat TILES_Y) 0 TILES_Y 1
    (fun ty _ =>
       for_loop_M (Z.to_nat TILES_X) 0 TILES_X 1
         (fun tx _ =>
            dirty ← isTileDirty (ty * TILES_X + tx);
            if negb dirty then mret tt else
            src ← deref (pointers st mac_frame_buffer);
            snap ← array_get tile_snapshot;
            snap ← defined (snapshotTile src tx ty snap);
            array_set tile_snapshot snap;;
            buf ← array_get tile_buffer;
            buf ← defined (renderTileFromSnapshot snap pal buf);
            array_set tile_buffer buf;;
            emit [setAddrWindow (tx * (TILE_WIDTH * PIXEL_SCALE))
                    (ty * (TILE_HEIGHT * PIXEL_SCALE))
                    (TILE_WIDTH * PIXEL_SCALE) (TILE_HEIGHT * PIXEL_SCALE);
                  writePixels buf (TILE_WIDTH * PIXEL_SCALE * (TILE_HEIGHT * PIXEL_SCALE))])
         tt;;
       mret tt)
    tt st0) as (x' & [] & s' & Hrun & HI & _).
  - lia.
  - unfold TILES_Y. lia.
  - exact H0.
  - intros ty [] s Hty Hs. rewrite bind_run.
    destruct (for_loop_M_rule (fun _ (_ : unit) s => partial_frame st s)
      (Z.to_nat TILES_X) 0 TILES_X 1
      (fun tx _ =>
         dirty ← isTileDirty (ty * TILES_X + tx);
         if negb dirty then mret tt else
         src ← deref (pointers st mac_frame_buffer);
         snap ← array_get tile_snapshot;
         snap ← defined (snapshotTile src tx ty snap);
         array_set tile_snapshot snap;;
         buf ← array_get tile_buffer;
         buf ← defined (renderTileFromSnapshot snap pal buf);
         array_set tile_buffer buf;;
         emit [setAddrWindow (tx * (TILE_WIDTH * PIXEL_SCALE))
                 (ty * (TILE_HEIGHT * PIXEL_SCALE))
                 (TILE_WIDTH * PIXEL_SCALE) (TILE_HEIGHT * PIXEL_SCALE);
               writePixels buf (TILE_WIDTH * PIXEL_SCALE * (TILE_HEIGHT * PIXEL_SCALE))])
      tt s) as (x1 & [] & s1 & Hrun1 & HI1 & _).
    + lia.
    + unfold TILES_X. lia.
    + exact Hs.
    + intros tx [] s2 Htx (Hf & Hw & Hp & Hh & Ha & Hl1 & Hl2 & ops & Hd).
      unfold TILES_X, TILES_Y in *.
      rewrite bind_run, isTileDirty_run
        by (rewrite Ha, Hdt by discriminate; lia).
      destruct (tile_bit _ _); cbn [negb]; run_M.
      2: { exists tt, s2. split; [reflexivity |]. repeat split; try assumption.
           exists ops. exact Hd. }
      unfold deref. rewrite Hm, Hh, Hsrc. run_M.
      destruct (snapshotTile_ok src tx ty (arrays s2 tile_snapshot))
        as (snap & -> & Hsl & _); try (unfold TILES_X, TILES_Y; lia); try congruence.
      run_M. rewrite fn_lookup_insert_ne by discriminate.
      destruct (renderTileFromSnapshot_ok snap pal (arrays s2 tile_buffer))
        as (buf & -> & Hbl); try congruence.
      run_M. eexists tt, _. split; [reflexivity |].
      unfold partial_frame.
      cbn [flags words pointers heap arrays display set_arrays set_display].
      rewrite fn_lookup_insert, fn_lookup_insert_ne, fn_lookup_insert by discriminate.
      repeat split; try assumption; try congruence.
      * intros a Ha1 Ha2. rewrite !fn_lookup_insert_ne by congruence. apply Ha; assumption.
      * rewrite Hd. eexists. rewrite <- app_assoc. cbn [app]. reflexivity.
    + rewrite Hrun1. run_M. exists tt, s1. split; [reflexivity | exact HI1].
  - rewrite Hrun. run_M. eexists. split; [reflexivity |].
    destruct HI as (Hf & Hw & Hp & Hh & Ha & _ & _ & ops & Hd).
    cbn [flags words pointers heap arrays display set_display].
    repeat split; try assumption.
    exists ops. rewrite Hd, <- app_assoc. reflexivity.
Qed.

(** The decision of a render pass with write-time tracking and no forced
    full update is [choose_update] of the drained count. *)
Lemma render_pass_decision (env : readings) (st : globals) :
  engine_ready st ->
  flags st force_full_update = false ->
  flags st use_write_dirty_tracking = true ->
  exists st1 st',
    collectWriteDirtyTiles st = Some (bitmap_popcount (arrays st write_dirty_tiles), st1) /\
    render_pass env st =
      Some (choose_update false (bitmap_popcount (arrays st write_dirty_tiles)), st').
Proof.
  intros (Hok & Hbuf & Hmac & Hsnap & Htb) Hforce Htrack.
  destruct (detect_phase_tracking env st Hok Hforce Htrack)
    as (st1 & Hdrain & Hw & Hd & Hfr & Hdet).
  exists st1. set (d := bitmap_popcount (arrays st write_dirty_tiles)) in *.
  destruct Hfr as (Hf1 & Hw1 & Hp1 & Hh1 & Hd1 & Ha1).
  set (st2 := set_words _ st1) in Hdet.
  assert (Hbuf2 : buffers_ok st2).
  { destruct Hbuf as (Hpal & Hm & Hds). unfold buffers_ok, st2.
    cbn [arrays pointers heap set_words]. rewrite Ha1, Hp1, Hh1 by discriminate. auto. }
  assert (Hready2 : engine_ready st2).
  { split; [| split; [exact Hbuf2 |]].
    - destruct Hok as (Hl1 & Hl2 & Hfb & Hall). unfold tracker_ok, st2.
      cbn [arrays words set_words]. fn_simpl. rewrite Hw, Hd.
      repeat split; try assumption; try apply Hfb;
        try apply length_replicate. apply Forall_replicate. lia.
    - unfold st2. cbn [arrays pointers set_words]. rewrite Hp1, !Ha1 by discriminate. auto. }
  enough (exists st', render_pass env st = Some (choose_update false d, st'))
    as [st' Hrun] by (exists st'; split; assumption).
  unfold render_pass. run_M. rewrite Hdet. run_M. unfold choose_update. cbn [negb].
  destruct (Z.ltb_spec dirty_threshold d) as [Hfull | Hnot].
  - destruct (render_phase_full env (arrays st palette_rgb565) st2 Hbuf2) as (s3 & -> & _).
    unfold perf_add. run_M. eexists. reflexivity.
  - unfold render_phase. run_M.
    assert (Hcount : words st2 dirty_tile_count = d).
    { unfold st2. cbn [words set_words]. fn_simpl. reflexivity. }
    rewrite Hcount. destruct (Z.ltb_spec 0 d) as [Hpos | Hzero].
    + run_M.
      destruct (renderAndPushDirtyTiles_run st2 (arrays st palette_rgb565) Hready2)
        as (s3 & -> & _); [apply Hbuf |].
      unfold perf_add. run_M. eexists. reflexivity.
    + unfold perf_add. run_M. eexists. reflexivity.
Qed.

(** C1. With 144 tiles and a threshold of 80 percent, a render pass that
    finds the forced-full flag clear drains the dirty count [d] and performs
    a full update exactly when [d] is at or above 80 * 144 / 100 (= 115.2),
    a partial update for every positive [d] below it; 115 dirty tiles give a
    partial update and 116 a full update. *)
Theorem compositor_threshold (env : readings) (st : globals) :
  engine_ready st ->
  flags st force_full_update = false ->
  flags st use_write_dirty_tracking = true ->
  let d := bitmap_popcount (arrays st write_dirty_tiles) in
  let threshold := (inject_Z (DIRTY_THRESHOLD_PERCENT * TOTAL_TILES) / 100)%Q in
  TOTAL_TILES = 144 /\ DIRTY_THRESHOLD_PERCENT = 80 /\
  (exists st1 kind st',
     collectWriteDirtyTiles st = Some (d, st1) /\
     render_pass env st = Some (kind, st') /\
     (kind = FullUpdate <-> (threshold <= inject_Z d)%Q) /\
     (0 < d /\ (inject_Z d < threshold)%Q -> kind = PartialUpdate) /\
     (d = 115 -> kind = PartialUpdate) /\
     (d = 116 -> kind = FullUpdate)).
Proof.
  intros Hready Hforce Htrack d threshold.
  split; [reflexivity |]. split; [reflexivity |].
  destruct (render_pass_decision env st Hready Hforce Htrack) as (st1 & st' & Hdrain & Hrun).
  fold d in Hdrain, Hrun.
  destruct (threshold_behaviour d) as (_ & _ & Hfull & Hpart & H115 & H116).
  exists st1, (choose_update false d), st'.
  split; [exact Hdrain |]. split; [exact Hrun |]. split; [exact Hfull |].
  split; [exact Hpart |]. split; intros ->; assumption.
Qed.

Lemma dirty_globals_ready (bitmap : list Z) :
  length bitmap = Z.to_nat BITMAP_WORDS ->
  Forall (fun w => 0 <= w < 2 ^ 32) bitmap ->
  engine_ready (dirty_globals bitmap).
Proof.
  intros Hlen Hall. unfold engine_ready, tracker_ok, dirty_globals.
  cbn [arrays words pointers set_arrays set_flags]. fn_simpl.
  split; [| split; [| split; [| split]]].
  - split; [exact Hlen |]. split; [reflexivity |]. split; [| exact Hall].
    unfold allocated_globals. cbn [words set_heap set_pointers].
    vm_compute. split; discriminate.
  - destruct allocated_globals_buffers_ok as (Hpal & Hmac & Hdsi).
    split; [| split]; assumption.
  - unfold allocated_globals. cbn [pointers set_heap set_pointers]. fn_simpl. eauto.
  - reflexivity.
  - reflexivity.
Qed.

Lemma compositor_threshold_witness :
  exists st1 st2,
    render_pass late_wake (dirty_globals [4294967295; 4294967295; 4294967295; 524287; 0]) =
      Some (PartialUpdate, st1) /\
    render_pass late_wake (dirty_globals [4294967295; 4294967295; 4294967295; 1048575; 0]) =
      Some (FullUpdate, st2).
Proof.
  destruct (compositor_threshold late_wake
              (dirty_globals [4294967295; 4294967295; 4294967295; 524287; 0]))
    as (_ & _ & _ & k1 & st1 & _ & Hrun1 & _ & _ & H115 & _).
  { apply dirty_globals_ready; [reflexivity | repeat constructor; lia]. }
  { reflexivity. }
  { reflexivity. }
  destruct (compositor_threshold late_wake
              (dirty_globals [4294967295; 4294967295; 4294967295; 1048575; 0]))
    as (_ & _ & _ & k2 & st2 & _ & Hrun2 & _ & _ & _ & H116).
  { apply dirty_globals_ready; [reflexivity | repeat constructor; lia]. }
  { reflexivity. }
  { reflexivity. }
  exists st1, st2. rewrite Hrun1, Hrun2, H115, H116 by (vm_compute; reflexivity).
  split; reflexivity.
Defined.

(** A render pass is defined on a ready engine. *)
Lemma render_pass_defined (env : readings) (st : globals) :
  engine_ready st ->
  flags st use_write_dirty_tracking = true ->
  exists kind st', render_pass env st = Some (kind, st').
Proof.
  intros Hready Htrack. destruct (flags st force_full_update) eqn:Hforce.
  - destruct (render_pass_forced env st (proj1 (proj2 Hready)) Hforce) as (st' & Hrun & _).
    eauto.
  - destruct (render_pass_decision env st Hready Hforce Htrack) as (_ & st' & _ & Hrun).
    eauto.
Qed.

(** C6, as amended.  A wake that carries a frame-ready signal before the
    minimum frame interval has elapsed is abandoned: nothing is rendered and
    nothing is drained; the display trace, the buffers, the palette, the
    dirty bitmaps, the forced-full flag, the time of the last render and the
    counters are unchanged.  The signal itself is consumed (the notification
    value is reset and the frame-ready flag cleared), so the state does
    change; the pending work stays in the bitmaps and the next wake, which
    needs no signal, runs the render pass on them. *)
Theorem abandoned_step_keeps_work (env : readings) (st : globals) :
  should_render st = true ->
  elapsed_ticks env st < min_frame_ticks env ->
  videoRenderTaskOptimized_iteration env st = Some (Abandoned, signal_consumed st) /\
  display (signal_consumed st) = display st /\
  heap (signal_consumed st) = heap st /\
  arrays (signal_consumed st) = arrays st /\
  pointers (signal_consumed st) = pointers st /\
  flags (signal_consumed st) force_full_update = flags st force_full_update /\
  (forall w, w <> task_notification -> words (signal_consumed st) w = words st w) /\
  should_render (signal_consumed st) = false /\
  (forall env',
     videoRenderTaskOptimized_iteration env' (signal_consumed st) =
       (render_pass env' ≫= finish_iteration env') (signal_consumed (signal_consumed st)) /\
     arrays (signal_consumed (signal_consumed st)) = arrays st /\
     flags (signal_consumed (signal_consumed st)) force_full_update =
       flags st force_full_update) /\
  (engine_ready st ->
   flags st use_write_dirty_tracking = true ->
   flags st video_task_running = true ->
   forall env', exists kind st',
     videoRenderTaskOptimized_loop [env; env'] st =
       Some ([Abandoned; Rendered kind], st')).
Proof.
  intros Hsig Hearly.
  assert (Habandon : videoRenderTaskOptimized_iteration env st =
                       Some (Abandoned, signal_consumed st)).
  { rewrite iteration_unfold, Hsig.
    destruct (Z.ltb_spec (elapsed_ticks env st) (min_frame_ticks env)); [reflexivity | lia]. }
  split; [exact Habandon |].
  split; [reflexivity |]. split; [reflexivity |]. split; [reflexivity |].
  split; [reflexivity |]. split; [reflexivity |]. split.
  { intros w Hw. unfold signal_consumed. cbn [words set_flags set_words].
    apply fn_lookup_insert_ne. congruence. }
  split; [reflexivity |]. split.
  { intros env'. repeat split. }
  intros Hready Htrack Hrunning env'.
  destruct (render_pass_defined env' (signal_consumed (signal_consumed st)) Hready Htrack)
    as (kind & s1 & Hpass).
  destruct (reportVideoPerfStats_run (now_ms env')
              (set_words (<[last_frame_ticks := now_ticks env']> (words s1)) s1))
    as (s2 & Hrep & _).
  exists kind, s2.
  assert (Hnext : videoRenderTaskOptimized_iteration env' (signal_consumed st) =
                    Some (Rendered kind, s2)).
  { rewrite iteration_unfold. change (should_render (signal_consumed st)) with false.
    cbn [andb]. rewrite bind_run, Hpass. unfold finish_iteration. run_M.
    rewrite Hrep. reflexivity. }
  assert (Hrunning' : flags (signal_consumed st) video_task_running = true)
    by exact Hrunning.
  cbn [videoRenderTaskOptimized_loop]. rewrite bind_run. cbn [flag_get].
  rewrite Hrunning, bind_run, Habandon, bind_run, bind_run. cbn [flag_get].
  rewrite Hrunning', bind_run, Hnext. reflexivity.
Qed.

Lemma abandoned_step_keeps_work_witness :
  videoRenderTaskOptimized_iteration early_wake signalled_globals =
    Some (Abandoned, signal_consumed signalled_globals).
Proof.
  destruct (abandoned_step_keeps_work early_wake signalled_globals) as [H _];
    [vm_compute; reflexivity | vm_compute; reflexivity | exact H].
Defined.

(** C6 as stated fails: 10 ticks after a render, with a signal pending and
    a minimum interval of 67 ticks, the step is abandoned and the state is
    not the state before: the frame-ready flag and the notification value,
    which were set, are cleared. *)
Lemma abandoned_step_consumes_signal :
  elapsed_ticks early_wake signalled_globals < min_frame_ticks early_wake /\
  flags signalled_globals frame_ready = true /\
  words signalled_globals task_notification = 1 /\
  match videoRenderTaskOptimized_iteration early_wake signalled_globals with
  | Some (o, st') =>
      o = Abandoned /\ flags st' frame_ready = false /\ words st' task_notification = 0 /\
      st' <> signalled_globals
  | None => False
  end.
Proof.
  split; [reflexivity |]. split; [reflexivity |]. split; [reflexivity |].
  rewrite iteration_unfold. cbn [andb].
  change (should_render signalled_globals) with true.
  change (elapsed_ticks early_wake signalled_globals <? min_frame_ticks early_wake) with true.
  cbn [andb]. repeat split. intros Heq.
  apply (f_equal (fun s => flags s frame_ready)) in Heq. discriminate Heq.
Qed.

(** * Pixel-level behaviour of the converters *)

(** * Pixel-level behaviour of the converters *)
Lemma elem_get_insert (l : list Z) (i j v : Z) :
  0 <= i < Z.of_nat (length l) ->
  elem_get (<[Z.to_nat i := v]> l) j = if decide (j = i) then Some v else elem_get l j.
Proof.
  intros Hi. destruct (Z_lt_dec j 0) as [Hneg | Hnn].
  { rewrite !elem_get_neg by lia. rewrite decide_False by lia. reflexivity. }
  rewrite !elem_get_lookup by lia. case_decide as Hj.
  - subst j. apply list_lookup_insert_eq. lia.
  - apply list_lookup_insert_ne. lia.
Qed.

Lemma bytes_ok_elem (mem : list Z) (p b : Z) :
  bytes_ok mem -> elem_get mem p = Some b -> 0 <= b < 256.
Proof.
  intros Hmem Hb. unfold elem_get in Hb. case_decide; [| discriminate].
  unfold bytes_ok in Hmem. rewrite Forall_lookup in Hmem. eapply Hmem, Hb.
Qed.

(** The four bytes of a little-endian 32-bit read. *)
Lemma load32_bytes (b0 b1 b2 b3 : Z) :
  0 <= b0 < 256 -> 0 <= b1 < 256 -> 0 <= b2 < 256 -> 0 <= b3 < 256 ->
  let v := Z.lor (Z.lor b0 (Z.shiftl b1 8)) (Z.lor (Z.shiftl b2 16) (Z.shiftl b3 24)) in
  Z.land v 255 = b0 /\ Z.land (Z.shiftr v 8) 255 = b1 /\
  Z.land (Z.shiftr v 16) 255 = b2 /\ Z.land (Z.shiftr v 24) 255 = b3.
Proof.
  intros H0 H1 H2 H3 v. subst v.
  assert (Hbit : forall s b n, 0 <= b < 256 -> 0 <= n ->
            Z.testbit (Z.shiftl b s) n = Z.testbit b (n - s)).
  { intros s b n _ Hn. apply Z.shiftl_spec. exact Hn. }
  repeat split; apply Z.bits_inj'; intros n Hn;
    change 255 with (Z.ones 8);
    rewrite Z.land_spec, ?Z.shiftr_spec, !Z.lor_spec, !Z.shiftl_spec by lia;
    destruct (Z_lt_dec n 8) as [Hlt | Hge];
    [ rewrite Z.ones_spec_low by lia | rewrite Z.ones_spec_high by lia
    | rewrite Z.ones_spec_low by lia | rewrite Z.ones_spec_high by lia
    | rewrite Z.ones_spec_low by lia | rewrite Z.ones_spec_high by lia
    | rewrite Z.ones_spec_low by lia | rewrite Z.ones_spec_high by lia ];
    rewrite ?andb_true_r, ?andb_false_r;
    try (symmetry; apply testbit_uint8_high; lia).
  - rewrite (Z.testbit_neg_r b1), (Z.testbit_neg_r b2), (Z.testbit_neg_r b3) by lia.
    rewrite !orb_false_r. reflexivity.
  - rewrite (testbit_uint8_high b0), (Z.testbit_neg_r b2), (Z.testbit_neg_r b3) by lia.
    rewrite !orb_false_r. cbn. f_equal. lia.
  - rewrite (testbit_uint8_high b0), (testbit_uint8_high b1), (Z.testbit_neg_r b3) by lia.
    rewrite !orb_false_r. cbn. f_equal. lia.
  - rewrite (testbit_uint8_high b0), (testbit_uint8_high b1), (testbit_uint8_high b2) by lia.
    cbn. f_equal. lia.
Qed.

Lemma pixel_of_Some (mem pal : list Z) (p : Z) :
  length pal = 256%nat -> bytes_ok mem -> 0 <= p < Z.of_nat (length mem) ->
  exists i c, elem_get mem p = Some i /\ elem_get pal i = Some c /\
              pixel_of mem pal p = Some c.
Proof.
  intros Hpal Hmem Hp. destruct (elem_get_Some mem p Hp) as [i Hi].
  pose proof (bytes_ok_elem mem p i Hmem Hi) as Hrange.
  destruct (elem_get_Some pal i) as [c Hc]; [lia |].
  exists i, c. unfold pixel_of. rewrite Hi. cbn. rewrite Hc. auto.
Qed.

(** Four source pixels: eight pixels in each of the two destination rows. *)
Lemma convert4_pixels (mem pal : list Z) (src d0 d1 : Z) (out : list Z) :
  length pal = 256%nat -> bytes_ok mem ->
  0 <= src -> src + 4 <= Z.of_nat (length mem) ->
  0 <= d0 -> d0 + 8 <= d1 -> d1 + 8 <= Z.of_nat (length out) ->
  exists out',
    convert4 mem pal (src, d0, d1, out) = Some (src + 4, d0 + 8, d1 + 8, out') /\
    length out' = length out /\
    (forall k, 0 <= k < 8 ->
       elem_get out' (d0 + k) = pixel_of mem pal (src + k / 2) /\
       elem_get out' (d1 + k) = pixel_of mem pal (src + k / 2)) /\
    (forall j, ~ (d0 <= j < d0 + 8) -> ~ (d1 <= j < d1 + 8) ->
       elem_get out' j = elem_get out j).
Proof.
  intros Hpal Hmem Hs Hs' Hd0 Hd Hd1. unfold convert4, load32, pixel_of.
  destruct (elem_get_Some mem src) as [b0 Hb0]; [lia |].
  destruct (elem_get_Some mem (src + 1)) as [b1 Hb1]; [lia |].
  destruct (elem_get_Some mem (src + 2)) as [b2 Hb2]; [lia |].
  destruct (elem_get_Some mem (src + 3)) as [b3 Hb3]; [lia |].
  pose proof (bytes_ok_elem _ _ _ Hmem Hb0) as R0.
  pose proof (bytes_ok_elem _ _ _ Hmem Hb1) as R1.
  pose proof (bytes_ok_elem _ _ _ Hmem Hb2) as R2.
  pose proof (bytes_ok_elem _ _ _ Hmem Hb3) as R3.
  rewrite Hb0, Hb1, Hb2, Hb3. cbn [mbind option_bind].
  destruct (load32_bytes b0 b1 b2 b3 R0 R1 R2 R3) as (-> & -> & -> & ->).
  destruct (elem_get_Some pal b0) as [c0 Hc0]; [lia |].
  destruct (elem_get_Some pal b1) as [c1 Hc1]; [lia |].
  destruct (elem_get_Some pal b2) as [c2 Hc2]; [lia |].
  destruct (elem_get_Some pal b3) as [c3 Hc3]; [lia |].
  rewrite Hc0, Hc1, Hc2, Hc3. cbn [mbind option_bind].
  repeat (rewrite elem_set_eq by (rewrite ?length_insert; lia); cbn [mbind option_bind]).
  eexists. split; [reflexivity |]. split; [rewrite !length_insert; reflexivity |].
  split.
  - intros k Hk.
    assert (Hcases : k = 0 \/ k = 1 \/ k = 2 \/ k = 3 \/ k = 4 \/ k = 5 \/ k = 6 \/ k = 7)
      by lia.
    split;
      repeat (rewrite elem_get_insert by (rewrite ?length_insert; lia));
      destruct Hcases as [-> | [-> | [-> | [-> | [-> | [-> | [-> | ->]]]]]]];
      repeat (first [rewrite decide_True by lia | rewrite decide_False by lia]);
      repeat match goal with
        | |- context [(?a / 2)] =>
            let v := eval vm_compute in (a / 2) in change (a / 2) with v
        end;
      rewrite ?Z.add_0_r, ?Hb0, ?Hb1, ?Hb2, ?Hb3; cbn; congruence.
  - intros j Hj0 Hj1.
    repeat (rewrite elem_get_insert by (rewrite ?length_insert; lia)).
    repeat (rewrite decide_False by lia). reflexivity.
Qed.

(** A row of [width] source pixels, [width] a multiple of 4. *)
Lemma convert_row_pixels (width : Z) (mem pal : list Z) (src d0 d1 : Z) (out : list Z) :
  0 <= width -> width mod 4 = 0 ->
  length pal = 256%nat -> bytes_ok mem ->
  0 <= src -> src + width <= Z.of_nat (length mem) ->
  0 <= d0 -> d0 + 2 * width <= d1 -> d1 + 2 * width <= Z.of_nat (length out) ->
  exists out',
    convert_row width mem pal (src, d0, d1, out) =
      Some (src + width, d0 + 2 * width, d1 + 2 * width, out') /\
    length out' = length out /\
    (forall k, 0 <= k < 2 * width ->
       elem_get out' (d0 + k) = pixel_of mem pal (src + k / 2) /\
       elem_get out' (d1 + k) = pixel_of mem pal (src + k / 2)) /\
    (forall j, ~ (d0 <= j < d0 + 2 * width) -> ~ (d1 <= j < d1 + 2 * width) ->
       elem_get out' j = elem_get out j).
Proof.
  intros Hw Hw4 Hpal Hmem Hs Hs' Hd0 Hd Hd1. unfold convert_row.
  destruct (for_loop_rule
    (fun x (v : row_vars) =>
       let '(p, a0, a1, o) := v in
       p = src + x /\ a0 = d0 + 2 * x /\ a1 = d1 + 2 * x /\ length o = length out /\
       0 <= x <= width /\ x mod 4 = 0 /\
       (forall k, 0 <= k < 2 * x ->
          elem_get o (d0 + k) = pixel_of mem pal (src + k / 2) /\
          elem_get o (d1 + k) = pixel_of mem pal (src + k / 2)) /\
       (forall j, ~ (d0 <= j < d0 + 2 * x) -> ~ (d1 <= j < d1 + 2 * x) ->
          elem_get o j = elem_get out j))
    (Z.to_nat width) 0 (width - 3) 4 (fun _ => convert4 mem pal) (src, d0, d1, out))
    as (x' & [[[p a0] a1] o] & Hrun & (-> & -> & -> & Hlen & Hx & Hx4 & Hpix & Hrest) & Hb & _).
  - lia.
  - lia.
  - repeat split; try lia; intros; lia.
  - intros i [[[p a0] a1] o] Hi (-> & -> & -> & Hlen & Hx & Hx4 & Hpix & Hrest).
    destruct (convert4_pixels mem pal (src + i) (d0 + 2 * i) (d1 + 2 * i) o)
      as (o' & Hc & Hlen' & Hnew & Hold); try lia; try assumption.
    exists (src + i + 4, d0 + 2 * i + 8, d1 + 2 * i + 8, o'). split; [exact Hc |].
    split; [lia |]. split; [lia |]. split; [lia |]. split; [lia |].
    split; [lia |]. split; [Z.div_mod_to_equations; lia |]. split.
    + intros k Hk. destruct (Z_lt_dec k (2 * i)) as [Hlt | Hge].
      * rewrite !Hold by lia. apply Hpix. lia.
      * destruct (Hnew (k - 2 * i)) as [H0 H1]; [lia |].
        replace (d0 + 2 * i + (k - 2 * i)) with (d0 + k) in H0 by lia.
        replace (d1 + 2 * i + (k - 2 * i)) with (d1 + k) in H1 by lia.
        replace (src + i + (k - 2 * i) / 2) with (src + k / 2) in H0, H1
          by (Z.div_mod_to_equations; lia).
        auto.
    + intros j Hj0 Hj1. rewrite Hold by lia. apply Hrest; lia.
  - rewrite Hrun. cbn [mbind option_bind].
    assert (x' = width) as -> by (Z.div_mod_to_equations; lia).
    rewrite for_loop_done by lia. cbn [mbind option_bind].
    exists o. split; [reflexivity |]. auto.
Qed.

Lemma block_done_start (mem pal : list Z) (s ss W d ds : Z) (out0 : list Z) :
  block_done mem pal s ss W d ds 0 out0 out0.
Proof. split; [reflexivity |]. split; [intros; lia | reflexivity]. Qed.

(** One more row of a block. *)
Lemma convert_row_block (mem pal : list Z) (s ss W d ds n : Z) (out0 out : list Z) :
  0 <= W -> W mod 4 = 0 -> length pal = 256%nat -> bytes_ok mem ->
  0 <= n -> 2 * W <= ds ->
  0 <= s + n * ss -> s + n * ss + W <= Z.of_nat (length mem) ->
  0 <= d -> d + (2 * n + 1) * ds + 2 * W <= Z.of_nat (length out0) ->
  block_done mem pal s ss W d ds n out0 out ->
  exists out',
    convert_row W mem pal (s + n * ss, d + 2 * n * ds, d + 2 * n * ds + ds, out) =
      Some (s + n * ss + W, d + 2 * n * ds + 2 * W, d + 2 * n * ds + ds + 2 * W, out') /\
    block_done mem pal s ss W d ds (n + 1) out0 out'.
Proof.
  intros HW HW4 Hpal Hmem Hn Hds Hs Hs' Hd Hd' (Hlen & Hpix & Hrest).
  destruct (convert_row_pixels W mem pal (s + n * ss) (d + 2 * n * ds)
              (d + 2 * n * ds + ds) out)
    as (out' & Hrun & Hlen' & Hnew & Hold); try lia; try nia; try assumption.
  exists out'. split; [exact Hrun |]. split; [lia |]. split.
  - intros r dy k Hr Hdy Hk. destruct (Z_lt_dec r n) as [Hlt | Hge].
    + rewrite Hold by nia. apply Hpix; lia.
    + assert (r = n) as -> by lia. destruct (Hnew k Hk) as [H0 H1].
      assert (dy = 0 \/ dy = 1) as [-> | ->] by lia.
      * replace (d + (2 * n + 0) * ds + k) with (d + 2 * n * ds + k) by lia. exact H0.
      * replace (d + (2 * n + 1) * ds + k) with (d + 2 * n * ds + ds + k) by lia. exact H1.
  - intros j Hj. rewrite Hold.
    + apply Hrest. intros r dy Hr Hdy. apply Hj; lia.
    + intros Hin. apply (Hj n 0); lia.
    + intros Hin. apply (Hj n 1); lia.
Qed.

(** * The full-frame conversion *)

Lemma frame_rows_pixels (src_data pal dsi_data : list Z) :
  Z.of_nat (length src_data) = MAC_SCREEN_WIDTH * MAC_SCREEN_HEIGHT ->
  bytes_ok src_data ->
  length pal = 256%nat ->
  Z.of_nat (length dsi_data) = DISPLAY_WIDTH * DISPLAY_HEIGHT ->
  exists x' src' dsi',
    for_loop (Z.to_nat MAC_SCREEN_HEIGHT) 0 MAC_SCREEN_HEIGHT 1
      (fun y '(src, buf) =>
         let dst_row0 := (y * 2) * DISPLAY_WIDTH in
         let dst_row1 := dst_row0 + DISPLAY_WIDTH in
         '(src0, _, _, buf0) ← convert_row MAC_SCREEN_WIDTH src_data pal
                                 (src, dst_row0, dst_row1, buf);
         Some (src0, buf0))
      (0, dsi_data) = Some (x', (src', dsi')) /\
    block_done src_data pal 0 640 640 0 1280 360 dsi_data dsi'.
Proof.
  unfold MAC_SCREEN_WIDTH, MAC_SCREEN_HEIGHT, DISPLAY_WIDTH, DISPLAY_HEIGHT.
  intros Hsrc Hbytes Hpal Hdsi. cbv zeta.
  destruct (for_loop_rule
    (fun y '(src, buf) =>
       src = 640 * y /\ 0 <= y <= 360 /\
       block_done src_data pal 0 640 640 0 1280 y dsi_data buf)
    (Z.to_nat 360) 0 360 1
    (fun y '(src, buf) =>
       '(src0, _, _, buf0) ← convert_row 640 src_data pal
                               (src, y * 2 * 1280, y * 2 * 1280 + 1280, buf);
       Some (src0, buf0))
    (0, dsi_data)) as (x' & [src' dsi'] & Hrun & (_ & Hy & Hdone) & Hb & _).
  - lia.
  - lia.
  - split; [lia |]. split; [lia |]. apply block_done_start.
  - intros y [src buf] Hy (-> & _ & Hdone).
    destruct (convert_row_block src_data pal 0 640 640 0 1280 y dsi_data buf)
      as (buf' & Hc & Hdone'); try lia; try assumption; try reflexivity.
    replace (0 + y * 640) with (640 * y) in Hc by lia.
    replace (0 + 2 * y * 1280) with (y * 2 * 1280) in Hc by lia.
    rewrite Hc. cbn [mbind option_bind]. eexists. split; [reflexivity |].
    split; [lia |]. split; [lia | exact Hdone'].
  - exists x', src', dsi'. split; [exact Hrun |].
    assert (x' = 360) as -> by lia. exact Hdone.
Qed.

(** The full-frame conversion shows every byte of the framebuffer as a 2x2
    block of its palette colour. *)
Lemma renderFrameToDSI_spec (st : globals) (m d : nat) (src : list Z) :
  buffers_ok st ->
  pointers st mac_frame_buffer = Some m ->
  pointers st dsi_framebuffer = Some d ->
  heap st !! m = Some src ->
  bytes_ok src ->
  exists st' dsi,
    renderFrameToDSI (Some m) st = Some (tt, st') /\
    heap st' = <[d := dsi]> (heap st) /\
    Z.of_nat (length dsi) = DISPLAY_WIDTH * DISPLAY_HEIGHT /\
    display st' = display st /\
    forall x y dx dy,
      0 <= x < MAC_SCREEN_WIDTH -> 0 <= y < MAC_SCREEN_HEIGHT ->
      0 <= dx < PIXEL_SCALE -> 0 <= dy < PIXEL_SCALE ->
      exists i c,
        elem_get src (y * MAC_SCREEN_WIDTH + x) = Some i /\
        elem_get (arrays st palette_rgb565) i = Some c /\
        elem_get dsi ((PIXEL_SCALE * y + dy) * DISPLAY_WIDTH + (PIXEL_SCALE * x + dx)) = Some c.
Proof.
  intros (Hpal & Hmac & Hdsi) Hm Hd Hsrc Hbytes.
  destruct (Hmac m Hm) as (src' & Hsrc' & Hslen).
  rewrite Hsrc in Hsrc'. injection Hsrc' as <-.
  destruct (Hdsi d Hd) as (dsi & Hdsid & Hdlen).
  unfold renderFrameToDSI. run_M. rewrite Hd. run_M. unfold deref. rewrite Hsrc. run_M.
  rewrite Hdsid. run_M.
  destruct (frame_rows_pixels src (arrays st palette_rgb565) dsi Hslen Hbytes Hpal Hdlen)
    as (x' & p' & dsi' & Hrun & Hlen & Hpix & _).
  cbv zeta in Hrun. rewrite Hrun. run_M. unfold store. rewrite Hdsid.
  exists (set_heap (<[d := dsi']> (heap st)) st), dsi'.
  split; [reflexivity |]. split; [reflexivity |]. split; [lia |]. split; [reflexivity |].
  unfold MAC_SCREEN_WIDTH, MAC_SCREEN_HEIGHT, DISPLAY_WIDTH, DISPLAY_HEIGHT, PIXEL_SCALE in *.
  intros x y dx dy Hx Hy Hdx Hdy.
  destruct (pixel_of_Some src (arrays st palette_rgb565) (y * 640 + x) Hpal Hbytes)
    as (i & c & Hi & Hc & Hp); [nia |].
  exists i, c. split; [exact Hi |]. split; [exact Hc |].
  specialize (Hpix y dy (2 * x + dx) ltac:(lia) ltac:(lia) ltac:(lia)).
  replace (0 + (2 * y + dy) * 1280 + (2 * x + dx)) with ((2 * y + dy) * 1280 + (2 * x + dx))
    in Hpix by lia.
  rewrite Hpix. rewrite <- Hp. f_equal. Z.div_mod_to_equations. lia.
Qed.

(** * Tiles *)

Lemma length_tile_pixels (src pal : list Z) (tile_x tile_y : Z) :
  Z.of_nat (length (tile_pixels src pal tile_x tile_y)) = 6400.
Proof. unfold tile_pixels. rewrite length_fmap, length_seqZ. reflexivity. Qed.

Lemma elem_get_tile_pixels (src pal : list Z) (tile_x tile_y j : Z) :
  0 <= j < 6400 ->
  elem_get (tile_pixels src pal tile_x tile_y) j =
    Some (default 0 (pixel_of src pal
            ((tile_y * 40 + j / 80 / 2) * 640 + tile_x * 40 + j mod 80 / 2))).
Proof.
  intros Hj. rewrite elem_get_lookup by lia. unfold tile_pixels.
  rewrite list_lookup_fmap, lookup_seqZ_lt by (rewrite Z2Nat.id by lia; exact (proj2 Hj)).
  cbn [fmap option_fmap option_map]. rewrite Z2Nat.id by lia. reflexivity.
Qed.

(** A complete 80x80 block over a tile of the framebuffer is [tile_pixels]. *)
Lemma block_done_tile_pixels (src pal : list Z) (tile_x tile_y : Z) (out0 out : list Z) :
  Z.of_nat (length src) = MAC_SCREEN_WIDTH * MAC_SCREEN_HEIGHT ->
  bytes_ok src -> length pal = 256%nat ->
  0 <= tile_x < TILES_X -> 0 <= tile_y < TILES_Y ->
  Z.of_nat (length out0) = 6400 ->
  block_done src pal (tile_y * 40 * 640 + tile_x * 40) 640 40 0 80 40 out0 out ->
  out = tile_pixels src pal tile_x tile_y.
Proof.
  unfold MAC_SCREEN_WIDTH, MAC_SCREEN_HEIGHT, TILES_X, TILES_Y.
  intros Hsrc Hbytes Hpal Hx Hy Hout (Hlen & Hpix & _).
  apply list_eq. intros i. destruct (Z_lt_dec (Z.of_nat i) 6400) as [Hi | Hi].
  - pose proof (elem_get_tile_pixels src pal tile_x tile_y (Z.of_nat i) ltac:(lia)) as Ht.
    rewrite elem_get_lookup, Nat2Z.id in Ht by lia. rewrite Ht.
    specialize (Hpix (Z.of_nat i / 80 / 2) (Z.of_nat i / 80 mod 2) (Z.of_nat i mod 80)
                  ltac:(Z.div_mod_to_equations; lia) ltac:(Z.div_mod_to_equations; lia)
                  ltac:(Z.div_mod_to_equations; lia)).
    replace (0 + (2 * (Z.of_nat i / 80 / 2) + Z.of_nat i / 80 mod 2) * 80 + Z.of_nat i mod 80)
      with (Z.of_nat i) in Hpix by (Z.div_mod_to_equations; lia).
    rewrite elem_get_lookup, Nat2Z.id in Hpix by lia. rewrite Hpix.
    replace (tile_y * 40 * 640 + tile_x * 40 + Z.of_nat i / 80 / 2 * 640 + Z.of_nat i mod 80 / 2)
      with ((tile_y * 40 + Z.of_nat i / 80 / 2) * 640 + tile_x * 40 + Z.of_nat i mod 80 / 2)
      by lia.
    destruct (pixel_of_Some src pal
                ((tile_y * 40 + Z.of_nat i / 80 / 2) * 640 + tile_x * 40 + Z.of_nat i mod 80 / 2)
                Hpal Hbytes) as (b & c & _ & _ & ->); [Z.div_mod_to_equations; nia |].
    reflexivity.
  - rewrite (lookup_ge_None_2 out) by lia.
    rewrite lookup_ge_None_2; [reflexivity |].
    pose proof (length_tile_pixels src pal tile_x tile_y). lia.
Qed.

Lemma renderTileToBuffer_block (src pal : list Z) (tile_x tile_y : Z) (out_buffer : list Z) :
  Z.of_nat (length src) = MAC_SCREEN_WIDTH * MAC_SCREEN_HEIGHT ->
  bytes_ok src -> length pal = 256%nat ->
  0 <= tile_x < TILES_X -> 0 <= tile_y < TILES_Y ->
  Z.of_nat (length out_buffer) = TILE_WIDTH * PIXEL_SCALE * TILE_HEIGHT * PIXEL_SCALE ->
  exists out,
    renderTileToBuffer src tile_x tile_y pal out_buffer = Some out /\
    block_done src pal (tile_y * 40 * 640 + tile_x * 40) 640 40 0 80 40 out_buffer out.
Proof.
  unfold MAC_SCREEN_WIDTH, MAC_SCREEN_HEIGHT, TILES_X, TILES_Y, TILE_WIDTH, TILE_HEIGHT,
    PIXEL_SCALE.
  intros Hsrc Hbytes Hpal Hx Hy Hout. unfold renderTileToBuffer.
  change (Z.to_nat TILE_HEIGHT) with 40%nat.
  unfold MAC_SCREEN_WIDTH, TILE_WIDTH, TILE_HEIGHT, PIXEL_SCALE. cbv zeta.
  destruct (for_loop_rule
    (fun row '(o, buf) =>
       o = 160 * row /\ 0 <= row <= 40 /\
       block_done src pal (tile_y * 40 * 640 + tile_x * 40) 640 40 0 80 row out_buffer buf)
    40 0 40 1
    (fun row '(o, buf) =>
       '(_, _, _, buf0) ← convert_row 40 src pal
           ((tile_y * 40 + row) * 640 + tile_x * 40, o, o + 40 * 2, buf);
       Some (o + 40 * 2 * 2, buf0))
    (0, out_buffer)) as (x' & [o buf] & Hrun & (_ & Hrow & Hdone) & Hb & _).
  - lia.
  - lia.
  - split; [lia |]. split; [lia |]. apply block_done_start.
  - intros row [o buf] Hrow (-> & _ & Hdone).
    destruct (convert_row_block src pal (tile_y * 40 * 640 + tile_x * 40) 640 40 0 80 row
                out_buffer buf) as (buf' & Hc & Hdone');
      try lia; try nia; try assumption; try reflexivity.
    replace (tile_y * 40 * 640 + tile_x * 40 + row * 640)
      with ((tile_y * 40 + row) * 640 + tile_x * 40) in Hc by lia.
    replace (0 + 2 * row * 80) with (160 * row) in Hc by lia.
    change (160 * row + 80) with (160 * row + 40 * 2) in Hc.
    rewrite Hc. cbn [mbind option_bind]. eexists. split; [reflexivity |].
    split; [lia |]. split; [lia | exact Hdone'].
  - rewrite Hrun. cbn [mbind option_bind]. exists buf. split; [reflexivity |].
    assert (x' = 40) as -> by lia. exact Hdone.
Qed.

(** The copy of a tile holds bytes of the framebuffer. *)
Lemma snapshot_render_pixels (src pal : list Z) (tile_x tile_y : Z)
    (snapshot out_buffer : list Z) :
  Z.of_nat (length src) = MAC_SCREEN_WIDTH * MAC_SCREEN_HEIGHT ->
  bytes_ok src -> length pal = 256%nat ->
  0 <= tile_x < TILES_X -> 0 <= tile_y < TILES_Y ->
  Z.of_nat (length snapshot) = TILE_WIDTH * TILE_HEIGHT ->
  Z.of_nat (length out_buffer) = TILE_WIDTH * PIXEL_SCALE * TILE_HEIGHT * PIXEL_SCALE ->
  exists snap,
    snapshotTile src tile_x tile_y snapshot = Some snap /\
    length snap = length snapshot /\
    renderTileFromSnapshot snap pal out_buffer = Some (tile_pixels src pal tile_x tile_y).
Proof.
  intros Hsrc Hbytes Hpal Hx Hy Hsnap Hout.
  destruct (snapshotTile_ok src tile_x tile_y snapshot Hsrc Hx Hy Hsnap)
    as (snap & Hs & Hslen & Hag).
  exists snap. split; [exact Hs |]. split; [exact Hslen |].
  destruct (renderTileToBuffer_block src pal tile_x tile_y out_buffer Hsrc Hbytes Hpal Hx Hy Hout)
    as (out & Hrun & Hdone).
  pose proof (block_done_tile_pixels src pal tile_x tile_y out_buffer out
                Hsrc Hbytes Hpal Hx Hy ltac:(rewrite Hout; reflexivity) Hdone) as Heq.
  subst out. rewrite <- Hrun.
  unfold renderTileFromSnapshot, renderTileToBuffer. cbv zeta.
  pose proof (for_loop_rel
    (fun row '(out1, buf1) '(src2, out2, buf2) =>
       src2 = TILE_WIDTH * row /\ out1 = out2 /\ buf1 = buf2 /\ 0 <= row /\
       out1 = 160 * row /\ length buf1 = length out_buffer)
    (Z.to_nat TILE_HEIGHT) 0 TILE_HEIGHT 1
    (fun row '(out, buf) =>
       '(_, _, _, buf0) ← convert_row TILE_WIDTH src pal
           ((tile_y * TILE_HEIGHT + row) * MAC_SCREEN_WIDTH + tile_x * TILE_WIDTH,
            out, out + TILE_WIDTH * PIXEL_SCALE, buf);
       Some (out + TILE_WIDTH * PIXEL_SCALE * 2, buf0))
    (fun _ '(src, out, buf) =>
       '(src0, _, _, buf0) ← convert_row TILE_WIDTH snap pal
           (src, out, out + TILE_WIDTH * PIXEL_SCALE, buf);
       Some (src0, out + TILE_WIDTH * PIXEL_SCALE * 2, buf0))
    (0, out_buffer) (0, 0, out_buffer)) as Hrel.
  lapply Hrel; [clear Hrel; intros Hrel | unfold TILE_WIDTH; repeat split; lia].
  lapply Hrel; [clear Hrel; intros Hrel |].
  - unfold renderTileToBuffer in Hrun. cbv zeta in Hrun.
    destruct (for_loop _ _ _ _ _ (0, out_buffer)) as [[x1 [out1 buf1]] |];
      [| discriminate Hrun].
    destruct (for_loop _ _ _ _ _ (0, 0, out_buffer)) as [[x2 [[src2 out2] buf2]] |];
      [| contradiction].
    destruct Hrel as (_ & _ & _ & -> & _). reflexivity.
  - intros row [o1 b1] [[s2 o2] b2] Hrow (-> & <- & <- & Hrow0 & -> & Hlen).
    unfold TILE_WIDTH, TILE_HEIGHT, PIXEL_SCALE, MAC_SCREEN_WIDTH in *.
    destruct (convert_row_ok 40 snap pal (40 * row) (160 * row)
                (160 * row + 40 * 2) b1) as (b' & Hc & Hlen'); try lia; try reflexivity.
    pose proof (convert_row_agree 40 src snap pal
                  ((tile_y * 40 + row) * 640 + tile_x * 40) (40 * row)
                  (160 * row) (160 * row + 40 * 2) b1 (Hag row ltac:(lia))) as Hcr.
    rewrite Hc in Hcr |- *.
    destruct (convert_row 40 src _ _) as [[[[p' a0] a1] o1] |]; [| contradiction].
    destruct Hcr as (_ & _ & _ & ->). cbn [mbind option_bind].
    repeat split; lia.
Qed.

Lemma dirty_pushes_succ (src pal bitmap : list Z) (n : Z) :
  0 <= n ->
  dirty_pushes src pal bitmap (n + 1) =
    dirty_pushes src pal bitmap n ++
      (if tile_bit bitmap n then tile_push src pal n else []).
Proof.
  intros Hn. unfold dirty_pushes. rewrite seqZ_app by lia.
  rewrite bind_app. f_equal. rewrite seqZ_cons, seqZ_nil by lia.
  cbn [mbind list_bind]. rewrite app_nil_r. reflexivity.
Qed.

(** * The partial update, tile by tile *)

Lemma bytes_ok_replicate (n : nat) (b : Z) : 0 <= b < 256 -> bytes_ok (replicate n b).
Proof. intros Hb. apply Forall_replicate. exact Hb. Qed.

Lemma allocated_globals_mac :
  pointers allocated_globals mac_frame_buffer = Some 0%nat /\
  pointers allocated_globals dsi_framebuffer = Some 1%nat /\
  heap allocated_globals !! 0%nat =
    Some (replicate (Z.to_nat (MAC_SCREEN_WIDTH * MAC_SCREEN_HEIGHT)) 128) /\
  heap allocated_globals !! 1%nat =
    Some (replicate (Z.to_nat (DISPLAY_WIDTH * DISPLAY_HEIGHT)) (rgb888_to_rgb565 64 64 64)).
Proof.
  unfold allocated_globals. cbn [pointers heap set_heap set_pointers].
  rewrite fn_lookup_insert, fn_lookup_insert_ne, fn_lookup_insert by discriminate.
  rewrite lookup_insert_eq, lookup_insert_ne, lookup_insert_eq by discriminate.
  repeat split.
Qed.

Lemma pending_globals_ready (bitmap : list Z) :
  length bitmap = Z.to_nat BITMAP_WORDS -> engine_ready (pending_globals bitmap).
Proof.
  intros Hlen. unfold engine_ready, tracker_ok, pending_globals.
  cbn [arrays words pointers set_arrays set_flags]. fn_simpl.
  split; [| split; [| split; [| split]]].
  - split; [reflexivity |]. split; [exact Hlen |]. split.
    + unfold allocated_globals. cbn [words set_heap set_pointers].
      vm_compute. split; discriminate.
    + apply Forall_replicate. lia.
  - destruct allocated_globals_buffers_ok as (Hpal & Hmac & Hdsi).
    split; [| split]; assumption.
  - unfold allocated_globals. cbn [pointers set_heap set_pointers]. fn_simpl. eauto.
  - reflexivity.
  - reflexivity.
Qed.

Lemma renderAndPushDirtyTiles_spec (st : globals) (pal : list Z) (m : nat) (src : list Z) :
  engine_ready st -> length pal = 256%nat ->
  pointers st mac_frame_buffer = Some m -> heap st !! m = Some src -> bytes_ok src ->
  exists st',
    renderAndPushDirtyTiles (Some m) pal st = Some (tt, st') /\
    display st' =
      display st ++ [startWrite] ++
        dirty_pushes src pal (arrays st dirty_tiles) TOTAL_TILES ++ [endWrite] /\
    flags st' = flags st /\ words st' = words st /\ pointers st' = pointers st /\
    heap st' = heap st /\
    (forall a, a <> tile_snapshot -> a <> tile_buffer -> arrays st' a = arrays st a) /\
    length (arrays st' tile_snapshot) = length (arrays st tile_snapshot) /\
    length (arrays st' tile_buffer) = length (arrays st tile_buffer).
Proof.
  intros (Hok & Hbuf & _ & Hsnap & Htb) Hpal Hm Hsrc Hbytes.
  destruct Hbuf as (_ & Hmac & _). destruct (Hmac m Hm) as (src' & Hsrc' & Hslen).
  rewrite Hsrc in Hsrc'. injection Hsrc' as <-.
  destruct Hok as (_ & Hdt & _). change (Z.to_nat BITMAP_WORDS) with 5%nat in Hdt.
  unfold renderAndPushDirtyTiles. cbv zeta. run_M.
  set (st0 := set_display (display st ++ [startWrite]) st).
  set (I := fun (n : Z) (s : globals) =>
              flags s = flags st /\ words s = words st /\ pointers s = pointers st /\
              heap s = heap st /\
              (forall a, a <> tile_snapshot -> a <> tile_buffer -> arrays s a = arrays st a) /\
              length (arrays s tile_snapshot) = length (arrays st tile_snapshot) /\
              length (arrays s tile_buffer) = length (arrays st tile_buffer) /\
              display s = display st ++ [startWrite] ++
                            dirty_pushes src pal (arrays st dirty_tiles) n).
  assert (H0 : I 0 st0).
  { unfold I, st0. repeat split. }
  destruct (for_loop_M_rule (fun ty (_ : unit) s => 0 <= ty <= TILES_Y /\ I (TILES_X * ty) s)
    (Z.to_nat TILES_Y) 0 TILES_Y 1
    (fun ty _ =>
       for_loop_M (Z.to_nat TILES_X) 0 TILES_X 1
         (fun tx _ =>
            dirty ← isTileDirty (ty * TILES_X + tx);
            if negb dirty then mret tt else
            src ← deref (Some m);
            snap ← array_get tile_snapshot;
            snap ← defined (snapshotTile src tx ty snap);
            array_set tile_snapshot snap;;
            buf ← array_get tile_buffer;
            buf ← defined (renderTileFromSnapshot snap pal buf);
            array_set tile_buffer buf;;
            emit [setAddrWindow (tx * (TILE_WIDTH * PIXEL_SCALE))
                    (ty * (TILE_HEIGHT * PIXEL_SCALE))
                    (TILE_WIDTH * PIXEL_SCALE) (TILE_HEIGHT * PIXEL_SCALE);
                  writePixels buf (TILE_WIDTH * PIXEL_SCALE * (TILE_HEIGHT * PIXEL_SCALE))])
         tt;;
       mret tt)
    tt st0) as (x' & [] & s' & Hrun & (Hx' & HI) & Hb & _).
  - lia.
  - unfold TILES_Y. lia.
  - split; [unfold TILES_Y; lia | exact H0].
  - intros ty [] s Hty (_ & Hs). rewrite bind_run.
    destruct (for_loop_M_rule
      (fun tx (_ : unit) s => 0 <= tx <= TILES_X /\ I (TILES_X * ty + tx) s)
      (Z.to_nat TILES_X) 0 TILES_X 1
      (fun tx _ =>
         dirty ← isTileDirty (ty * TILES_X + tx);
         if negb dirty then mret tt else
         src ← deref (Some m);
         snap ← array_get tile_snapshot;
         snap ← defined (snapshotTile src tx ty snap);
         array_set tile_snapshot snap;;
         buf ← array_get tile_buffer;
         buf ← defined (renderTileFromSnapshot snap pal buf);
         array_set tile_buffer buf;;
         emit [setAddrWindow (tx * (TILE_WIDTH * PIXEL_SCALE))
                 (ty * (TILE_HEIGHT * PIXEL_SCALE))
                 (TILE_WIDTH * PIXEL_SCALE) (TILE_HEIGHT * PIXEL_SCALE);
               writePixels buf (TILE_WIDTH * PIXEL_SCALE * (TILE_HEIGHT * PIXEL_SCALE))])
      tt s) as (x1 & [] & s1 & Hrun1 & (Hx1 & HI1) & Hb1 & _).
    + lia.
    + unfold TILES_X. lia.
    + split; [unfold TILES_X; lia |]. rewrite Z.add_0_r. exact Hs.
    + intros tx [] s2 Htx (_ & Hf & Hw & Hp & Hh & Ha & Hl1 & Hl2 & Hd).
      unfold TILES_X, TILES_Y in *.
      rewrite bind_run, isTileDirty_run
        by (rewrite Ha, Hdt by discriminate; lia).
      assert (Hnext : dirty_pushes src pal (arrays st dirty_tiles) (16 * ty + (tx + 1)) =
                dirty_pushes src pal (arrays st dirty_tiles) (16 * ty + tx) ++
                  (if tile_bit (arrays st dirty_tiles) (ty * 16 + tx)
                   then tile_push src pal (ty * 16 + tx) else [])).
      { replace (16 * ty + (tx + 1)) with (16 * ty + tx + 1) by lia.
        rewrite dirty_pushes_succ by lia.
        replace (16 * ty + tx) with (ty * 16 + tx) by lia. reflexivity. }
      rewrite Ha by discriminate.
      destruct (tile_bit (arrays st dirty_tiles) (ty * 16 + tx)); cbn [negb]; run_M.
      2: { exists tt, s2. split; [reflexivity |]. split; [lia |].
           unfold I. rewrite Hnext, app_nil_r. repeat split; assumption. }
      unfold deref. rewrite Hh, Hsrc. run_M.
      destruct (snapshot_render_pixels src pal tx ty (arrays s2 tile_snapshot)
                  (arrays s2 tile_buffer))
        as (snap & -> & Hsl & Hren);
        try (unfold TILES_X, TILES_Y; lia); try congruence; try assumption.
      run_M. rewrite fn_lookup_insert_ne by discriminate.
      rewrite Hren. run_M. eexists tt, _. split; [reflexivity |]. split; [lia |].
      unfold I.
      cbn [flags words pointers heap arrays display set_arrays set_display].
      rewrite fn_lookup_insert, fn_lookup_insert_ne, fn_lookup_insert by discriminate.
      repeat split; try assumption; try congruence.
      * intros a Ha1 Ha2. rewrite !fn_lookup_insert_ne by congruence. apply Ha; assumption.
      * pose proof (length_tile_pixels src pal tx ty).
        unfold TILE_WIDTH, TILE_HEIGHT, PIXEL_SCALE in Htb. lia.
      * rewrite Hd, Hnext. unfold tile_push, TILES_X.
        replace ((ty * 16 + tx) mod 16) with tx by (Z.div_mod_to_equations; lia).
        replace ((ty * 16 + tx) / 16) with ty by (Z.div_mod_to_equations; lia).
        rewrite <- !app_assoc. reflexivity.
    + rewrite Hrun1. run_M. exists tt, s1. split; [reflexivity |].
      split; [lia |]. assert (x1 = TILES_X) as -> by lia.
      replace (TILES_X * (ty + 1)) with (TILES_X * ty + TILES_X) by lia. exact HI1.
  - rewrite Hrun. run_M. eexists. split; [reflexivity |].
    assert (x' = TILES_Y) as -> by lia.
    destruct HI as (Hf & Hw & Hp & Hh & Ha & Hl1 & Hl2 & Hd).
    cbn [flags words pointers heap arrays display set_display].
    repeat split; try assumption.
    rewrite Hd, <- !app_assoc. reflexivity.
Qed.

(** * Render passes and loop iterations on a running engine *)

(** * Render passes in full *)
(** The full-frame conversion rewrites the destination block only. *)
Lemma renderFrameToDSI_heap (st : globals) :
  buffers_ok st ->
  exists st',
    renderFrameToDSI (pointers st mac_frame_buffer) st = Some (tt, st') /\
    flags st' = flags st /\ words st' = words st /\ arrays st' = arrays st /\
    pointers st' = pointers st /\ display st' = display st /\
    buffers_ok st' /\
    (forall b, pointers st dsi_framebuffer <> Some b -> heap st' !! b = heap st !! b) /\
    (forall m, pointers st mac_frame_buffer = Some m -> heap st' !! m = heap st !! m).
Proof.
  intros Hbuf. pose proof Hbuf as (Hpal & Hmac & Hdsi).
  destruct (renderFrameToDSI_run st Hbuf) as (st' & Hrun & Hf & Hw & Ha & Hp & Hd & Hb).
  exists st'. split; [exact Hrun |]. repeat (split; [assumption |]).
  unfold renderFrameToDSI in Hrun. run_M.
  assert (Hframe : forall b, pointers st dsi_framebuffer <> Some b ->
                     heap st' !! b = heap st !! b).
  { revert Hrun. run_M.
    destruct (pointers st mac_frame_buffer) as [m |] eqn:Hm;
      [| intros [= <-]; reflexivity].
    destruct (pointers st dsi_framebuffer) as [d |] eqn:Hd';
      [| intros [= <-]; reflexivity].
    destruct (Hmac m eq_refl) as (src & Hsrc & Hslen).
    destruct (Hdsi d eq_refl) as (dsi & Hdsid & Hdlen).
    run_M. unfold deref. rewrite Hsrc. run_M. rewrite Hdsid. run_M.
    destruct (for_loop _ _ _ _ _ _) as [[x' [src' dsi']] |]; run_M; [| discriminate].
    unfold store. rewrite Hdsid. intros [= <-] b Hb'. cbn [heap set_heap].
    apply lookup_insert_ne. congruence. }
  split; [exact Hframe |].
  intros m Hm. apply Hframe. intros Hd'.
  destruct (Hmac m Hm) as (src & Hsrc & Hslen).
  destruct (Hdsi m Hd') as (dsi & Hdsid & Hdlen).
  rewrite Hsrc in Hdsid. injection Hdsid as ->.
  unfold MAC_SCREEN_WIDTH, MAC_SCREEN_HEIGHT, DISPLAY_WIDTH, DISPLAY_HEIGHT in *. lia.
Qed.

Lemma render_phase_full_heap (env : readings) (pal : list Z) (st : globals) :
  buffers_ok st ->
  exists st',
    render_phase env pal true st = Some (FullUpdate, st') /\
    flags st' = <[force_full_update := false]> (flags st) /\
    arrays st' = arrays st /\ pointers st' = pointers st /\
    words st' =
      <[perf_full_count := wrap32 (words st perf_full_count + 1)]>
        (<[perf_push_us := wrap32 (words st perf_push_us + push_time env)]>
           (<[perf_render_us := wrap32 (words st perf_render_us + render_time env)]>
              (words st))) /\
    buffers_ok st' /\
    (forall m, pointers st mac_frame_buffer = Some m -> heap st' !! m = heap st !! m) /\
    display st' =
      display st ++
      match pointers st dsi_framebuffer with
      | Some d =>
          match heap st' !! d with
          | Some data =>
              [startWrite; setAddrWindow 0 0 DISPLAY_WIDTH DISPLAY_HEIGHT;
               writePixels data (DISPLAY_WIDTH * DISPLAY_HEIGHT); endWrite]
          | None => []
          end
      | None => []
      end.
Proof.
  intros Hbuf. unfold render_phase. run_M.
  destruct (renderFrameToDSI_heap st Hbuf)
    as (s1 & -> & Hf1 & Hw1 & Ha1 & Hp1 & Hd1 & Hb1 & _ & Hm1).
  unfold perf_add. run_M.
  destruct (pushFramebufferToDisplay_run
              (set_words (<[perf_render_us := wrap32 (words s1 perf_render_us + render_time env)]>
                            (words s1)) s1) Hb1)
    as (s2 & -> & Hf2 & Hw2 & Ha2 & Hp2 & Hh2 & Hd2).
  run_M. eexists. split; [reflexivity |].
  cbn [flags arrays pointers heap display words set_words set_flags] in *.
  rewrite Hw2. fn_simpl. rewrite Hf2, Hf1, Ha2, Ha1, Hp2, Hp1, Hw1, Hd2, Hd1, Hh2.
  repeat split; cbn [flags arrays pointers heap display words set_words set_flags].
  - rewrite Ha2, Ha1. apply Hbuf.
  - rewrite Hp2, Hh2. apply Hb1.
  - rewrite Hp2, Hh2. apply Hb1.
  - exact Hm1.
  - rewrite Hp1. reflexivity.
Qed.

Lemma engine_inv_transfer (st st' : globals) :
  engine_inv st ->
  length (arrays st' write_dirty_tiles) = Z.to_nat BITMAP_WORDS ->
  Forall (fun w => 0 <= w < 2 ^ 32) (arrays st' write_dirty_tiles) ->
  length (arrays st' dirty_tiles) = Z.to_nat BITMAP_WORDS ->
  words st' frame_buffer_size = words st frame_buffer_size ->
  buffers_ok st' ->
  pointers st' mac_frame_buffer = pointers st mac_frame_buffer ->
  (forall m, pointers st mac_frame_buffer = Some m -> heap st' !! m = heap st !! m) ->
  length (arrays st' tile_snapshot) = length (arrays st tile_snapshot) ->
  length (arrays st' tile_buffer) = length (arrays st tile_buffer) ->
  flags st' use_write_dirty_tracking = flags st use_write_dirty_tracking ->
  engine_inv st'.
Proof.
  intros ((Hok & Hbuf & Hmac & Hsnap & Htb) & Htrack & Hbytes)
    Hw Hall Hd Hsize Hbuf' Hptr Hheap Hl1 Hl2 Hfl.
  split; [| split].
  - split; [| split; [exact Hbuf' | split; [| split]]].
    + destruct Hok as (_ & _ & Hfb & _). unfold tracker_ok. rewrite Hsize.
      repeat split; try assumption; apply Hfb.
    + rewrite Hptr. exact Hmac.
    + rewrite Hl1. exact Hsnap.
    + rewrite Hl2. exact Htb.
  - rewrite Hfl. exact Htrack.
  - intros m src Hm Hsrc. rewrite Hptr in Hm. rewrite (Hheap m Hm) in Hsrc.
    exact (Hbytes m src Hm Hsrc).
Qed.

(** A render pass on a running engine: which update it performs, what it
    counts, and what it leaves as it found it. *)
Lemma render_pass_inv (env : readings) (st : globals) :
  engine_inv st ->
  exists kind st',
    render_pass env st = Some (kind, st') /\
    engine_inv st' /\
    kind = (if flags st force_full_update then FullUpdate
            else choose_update false (bitmap_popcount (arrays st write_dirty_tiles))) /\
    flags st' force_full_update = false /\
    (forall f, f <> force_full_update -> flags st' f = flags st f) /\
    pointers st' = pointers st /\
    words st' perf_frame_count = wrap32 (words st perf_frame_count + 1) /\
    words st' perf_full_count =
      match kind with
      | FullUpdate => wrap32 (words st perf_full_count + 1)
      | _ => words st perf_full_count
      end /\
    words st' perf_partial_count =
      match kind with
      | PartialUpdate => wrap32 (words st perf_partial_count + 1)
      | _ => words st perf_partial_count
      end /\
    words st' perf_skip_count =
      match kind with
      | SkipUpdate => wrap32 (words st perf_skip_count + 1)
      | _ => words st perf_skip_count
      end /\
    words st' task_notification = words st task_notification /\
    words st' last_frame_ticks = words st last_frame_ticks /\
    words st' perf_last_report_ms = words st perf_last_report_ms /\
    arrays st' palette_rgb565 = arrays st palette_rgb565.
Proof.
  intros Hinv. pose proof Hinv as ((Hok & Hbuf & Hmac & Hsnap & Htb) & Htrack & Hbytes).
  destruct (flags st force_full_update) eqn:Hforce.
  - unfold render_pass. run_M. rewrite detect_phase_forced by exact Hforce. run_M.
    destruct (render_phase_full_heap env (arrays st palette_rgb565) st Hbuf)
      as (s1 & -> & Hf & Ha & Hp & Hw & Hb & Hh & Hd).
    unfold perf_add. run_M. eexists FullUpdate, _. split; [reflexivity |].
    cbn [flags arrays pointers heap display words set_words]. rewrite Hw. fn_simpl.
    split.
    { apply (engine_inv_transfer st); try assumption;
        cbn [flags arrays pointers heap display words set_words];
        rewrite ?Ha, ?Hp, ?Hf, ?Hw; fn_simpl; try reflexivity; try apply Hok. }
    rewrite Hf, Ha. fn_simpl. repeat split; try assumption.
    intros f Hne. apply fn_lookup_insert_ne. congruence.
  - destruct (detect_phase_tracking env st Hok Hforce Htrack)
      as (st1 & Hdrain & Hw & Hd & Hfr & Hdet).
    set (d := bitmap_popcount (arrays st write_dirty_tiles)) in *.
    destruct Hfr as (Hf1 & Hw1 & Hp1 & Hh1 & Hd1 & Ha1).
    set (st2 := set_words _ st1) in Hdet.
    assert (Hbuf2 : buffers_ok st2).
    { destruct Hbuf as (Hpal & Hm & Hds). unfold buffers_ok, st2.
      cbn [arrays pointers heap set_words]. rewrite Ha1, Hp1, Hh1 by discriminate. auto. }
    assert (Hready2 : engine_ready st2).
    { split; [| split; [exact Hbuf2 |]].
      - destruct Hok as (Hl1 & Hl2 & Hfb & Hall). unfold tracker_ok, st2.
        cbn [arrays words set_words]. fn_simpl. rewrite Hw, Hd.
        repeat split; try assumption; try apply Hfb;
          try apply length_replicate. apply Forall_replicate. lia.
      - unfold st2. cbn [arrays pointers set_words]. rewrite Hp1, !Ha1 by discriminate. auto. }
    assert (Hinv2 : engine_inv st2).
    { apply (engine_inv_transfer st); try assumption; try apply Hready2;
        unfold st2; cbn [flags arrays pointers heap display words set_words];
        rewrite ?Hp1, ?Hf1, ?Hh1, ?Ha1 by discriminate; fn_simpl; try reflexivity. }
    assert (Hpal2 : arrays st2 palette_rgb565 = arrays st palette_rgb565).
    { unfold st2. cbn [arrays set_words]. apply Ha1; discriminate. }
    assert (Hflags2 : flags st2 = flags st) by exact Hf1.
    assert (Hwords2 : forall w, w <> perf_detect_us -> w <> dirty_tile_count ->
                        words st2 w = words st w).
    { intros w H1 H2. unfold st2. cbn [words set_words].
      rewrite !fn_lookup_insert_ne by congruence. reflexivity. }
    assert (Hcount : words st2 dirty_tile_count = d).
    { unfold st2. cbn [words set_words]. fn_simpl. reflexivity. }
    unfold render_pass. run_M. rewrite Hdet. run_M. unfold choose_update. cbn [negb].
    destruct (Z.ltb_spec dirty_threshold d) as [Hfull | Hnot].
    + destruct (render_phase_full_heap env (arrays st palette_rgb565) st2 Hbuf2)
        as (s3 & -> & Hf & Ha & Hp & Hw3 & Hb & Hh & Hdd).
      unfold perf_add. run_M. eexists FullUpdate, _. split; [reflexivity |].
      cbn [flags arrays pointers heap display words set_words]. rewrite Hw3. fn_simpl.
      split.
      { apply (engine_inv_transfer st2); try assumption;
          cbn [flags arrays pointers heap display words set_words];
          rewrite ?Ha, ?Hp, ?Hf, ?Hw3; fn_simpl; try reflexivity; try apply Hready2. }
      rewrite Hf, Ha, Hp, Hflags2, Hpal2, !Hwords2 by discriminate. fn_simpl.
      repeat split; try assumption; try exact Hp1;
        try (intros f Hne; apply fn_lookup_insert_ne; congruence).
    + unfold render_phase. run_M. rewrite Hcount.
      destruct (Z.ltb_spec 0 d) as [Hpos | Hzero].
      * run_M. destruct Hmac as [m Hm].
        assert (Hm2 : pointers st2 mac_frame_buffer = Some m).
        { unfold st2. cbn [pointers set_words]. rewrite Hp1. exact Hm. }
        destruct Hbuf2 as (Hpal' & Hmac2 & _).
        destruct (Hmac2 m Hm2) as (src & Hsrc & _).
        rewrite Hm2.
        destruct (renderAndPushDirtyTiles_spec st2 (arrays st palette_rgb565) m src)
          as (s3 & -> & Hd3 & Hf3 & Hw3 & Hp3 & Hh3 & Ha3 & Hl1 & Hl2);
          try assumption; try apply Hbuf.
        { destruct Hinv2 as (_ & _ & Hb2). exact (Hb2 m src Hm2 Hsrc). }
        unfold perf_add. run_M. eexists PartialUpdate, _. split; [reflexivity |].
        cbn [flags arrays pointers heap display words set_words]. rewrite Hw3. fn_simpl.
        split.
        { apply (engine_inv_transfer st2 _ Hinv2);
            cbn [flags arrays pointers heap display words set_words]; fn_simpl.
          - rewrite Ha3 by discriminate. apply Hready2.
          - rewrite Ha3 by discriminate. apply Hready2.
          - rewrite Ha3 by discriminate. apply Hready2.
          - reflexivity.
          - unfold buffers_ok. cbn [arrays pointers heap set_words].
            split; [rewrite Ha3 by discriminate; exact Hpal' |].
            rewrite Hp3, Hh3. split; [exact Hmac2 | apply Hready2].
          - rewrite Hp3. reflexivity.
          - intros m' _. rewrite Hh3. reflexivity.
          - exact Hl1.
          - exact Hl2.
          - rewrite Hf3. reflexivity. }
        rewrite Hf3, Hp3, Ha3, Hflags2, Hpal2, !Hwords2 by discriminate.
        repeat split; try assumption; try exact Hp1;
        try (intros f Hne; apply fn_lookup_insert_ne; congruence).
      * unfold perf_add. run_M. eexists SkipUpdate, _. split; [reflexivity |].
        cbn [flags arrays pointers heap display words set_words]. fn_simpl.
        split.
        { apply (engine_inv_transfer st2); try assumption;
            cbn [flags arrays pointers heap display words set_words];
            fn_simpl; try reflexivity; try apply Hready2. }
        rewrite Hflags2, Hpal2, !Hwords2 by discriminate.
        repeat split; try assumption; try exact Hp1;
        try (intros f Hne; apply fn_lookup_insert_ne; congruence).
Qed.

(** The periodic report: when the interval has elapsed the eight counters
    are reset and the report time is set; otherwise nothing changes. *)
Lemma reportVideoPerfStats_words (now : Z) (st : globals) :
  exists st',
    reportVideoPerfStats now st = Some (tt, st') /\
    flags st' = flags st /\ arrays st' = arrays st /\ pointers st' = pointers st /\
    heap st' = heap st /\ display st' = display st /\
    forall w,
      words st' w =
        if PERF_REPORT_INTERVAL_MS <=? wrap32 (now - words st perf_last_report_ms)
        then (if perf_counter w then 0
              else if decide (w = perf_last_report_ms) then now else words st w)
        else words st w.
Proof.
  unfold reportVideoPerfStats. run_M.
  destruct (PERF_REPORT_INTERVAL_MS <=? _); run_M; eexists; (split; [reflexivity |]);
    cbn [flags arrays pointers heap display words set_words];
    repeat (split; [reflexivity |]); intros w; [| reflexivity].
  destruct w; cbn [perf_counter]; fn_simpl; reflexivity.
Qed.

Lemma signal_consumed_inv (st : globals) : engine_inv st -> engine_inv (signal_consumed st).
Proof.
  intros Hinv. apply (engine_inv_transfer st _ Hinv); try reflexivity; try apply Hinv.
Qed.

(** The end of an iteration that rendered. *)
Lemma finish_iteration_inv (env : readings) (kind : update_kind) (s1 : globals) :
  engine_inv s1 ->
  exists s2,
    finish_iteration env kind s1 = Some (Rendered kind, s2) /\
    engine_inv s2 /\
    flags s2 = flags s1 /\
    words s2 last_frame_ticks = now_ticks env /\
    words s2 task_notification = words s1 task_notification /\
    (words s2 perf_frame_count = 0 /\ words s2 perf_full_count = 0 /\
     words s2 perf_partial_count = 0 /\ words s2 perf_skip_count = 0 \/
     words s2 perf_frame_count = words s1 perf_frame_count /\
     words s2 perf_full_count = words s1 perf_full_count /\
     words s2 perf_partial_count = words s1 perf_partial_count /\
     words s2 perf_skip_count = words s1 perf_skip_count).
Proof.
  intros Hinv1. unfold finish_iteration. run_M.
  destruct (reportVideoPerfStats_words (now_ms env)
              (set_words (<[last_frame_ticks := now_ticks env]> (words s1)) s1))
    as (s2 & -> & Hf2 & Ha2 & Hp2 & Hh2 & Hd2 & Hw2).
  cbn [flags arrays pointers heap display words set_words] in *.
  exists s2. split; [reflexivity |].
  assert (Hkeep : forall w, perf_counter w = false -> w <> perf_last_report_ms ->
                    words s2 w = <[last_frame_ticks := now_ticks env]> (words s1) w).
  { intros w Hc Hne. rewrite Hw2, Hc. rewrite decide_False by exact Hne.
    destruct (_ <=? _); reflexivity. }
  split.
  { apply (engine_inv_transfer s1 _ Hinv1);
      rewrite ?Ha2, ?Hp2, ?Hf2, ?Hh2; try reflexivity; try apply Hinv1.
    - rewrite Hkeep by (reflexivity || discriminate). fn_simpl. reflexivity.
    - destruct Hinv1 as ((_ & (Hpal1 & Hm1 & Hd1) & _) & _).
      split; [rewrite Ha2; exact Hpal1 |]. rewrite Hp2, Hh2. split; assumption. }
  split; [exact Hf2 |].
  split; [rewrite Hkeep by (reflexivity || discriminate); fn_simpl; reflexivity |].
  split; [rewrite Hkeep by (reflexivity || discriminate); fn_simpl; reflexivity |].
  rewrite !Hw2. destruct (_ <=? _); cbn [perf_counter]; [left | right]; fn_simpl; auto.
Qed.

(** One iteration of the task loop on a running engine. *)
Lemma iteration_inv (env : readings) (st : globals) :
  engine_inv st ->
  exists o st',
    videoRenderTaskOptimized_iteration env st = Some (o, st') /\
    engine_inv st' /\
    should_render st' = false /\
    flags st' video_task_running = flags st video_task_running /\
    (perf_consistent st -> perf_consistent st') /\
    (o = Abandoned <->
       should_render st = true /\ elapsed_ticks env st < min_frame_ticks env) /\
    words st' last_frame_ticks =
      match o with
      | Abandoned => words st last_frame_ticks
      | Rendered _ => now_ticks env
      end.
Proof.
  intros Hinv. rewrite iteration_unfold.
  destruct (should_render st && (elapsed_ticks env st <? min_frame_ticks env)) eqn:Hab.
  - apply andb_true_iff in Hab as [Hsig Hearly]. apply Z.ltb_lt in Hearly.
    exists Abandoned, (signal_consumed st). split; [reflexivity |].
    split; [apply signal_consumed_inv; exact Hinv |].
    split; [reflexivity |]. split; [reflexivity |].
    split; [intros Hc; exact Hc |]. split; [| reflexivity].
    split; [intros _; split; [exact Hsig | exact Hearly] | reflexivity].
  - destruct (render_pass_inv env (signal_consumed st) (signal_consumed_inv st Hinv))
      as (kind & s1 & Hpass & Hinv1 & Hkind & Hforce & Hflags & Hptr & Hfc & Hfull & Hpart
          & Hskip & Hnote & Hticks & Hrep & Hpal).
    rewrite bind_run, Hpass.
    destruct (finish_iteration_inv env kind s1 Hinv1)
      as (s2 & -> & Hinv2 & Hf2 & Hlast & Hn2 & Hcounts).
    exists (Rendered kind), s2. split; [reflexivity |]. split; [exact Hinv2 |].
    assert (Hsc : forall w, w <> task_notification ->
                    words (signal_consumed st) w = words st w).
    { intros w Hne. unfold signal_consumed. cbn [words set_flags set_words].
      apply fn_lookup_insert_ne. congruence. }
    split.
    { unfold should_render. rewrite Hn2, Hnote, Hf2, Hflags by discriminate.
      unfold signal_consumed. cbn [flags words set_flags set_words]. fn_simpl.
      reflexivity. }
    split.
    { rewrite Hf2, Hflags by discriminate. reflexivity. }
    split.
    { unfold perf_consistent. intros Hc.
      destruct Hcounts as [(-> & -> & -> & ->) | (-> & -> & -> & ->)]; [reflexivity |].
      rewrite Hfc, Hfull, Hpart, Hskip, !Hsc, Hc by discriminate.
      unfold wrap32. change (2 ^ 32) with 4294967296.
      destruct kind; Z.div_mod_to_equations; lia. }
    split; [| exact Hlast].
    split; [discriminate |]. intros [Hsig Hearly]. exfalso.
    rewrite Hsig in Hab. cbn [andb] in Hab. apply Z.ltb_ge in Hab. lia.
Qed.

(** ** The task loop *)

Lemma loop_inv (wakes : list readings) (st : globals) :
  engine_inv st ->
  exists os st',
    videoRenderTaskOptimized_loop wakes st = Some (os, st') /\
    engine_inv st' /\
    (perf_consistent st -> perf_consistent st') /\
    flags st' video_task_running = flags st video_task_running /\
    (flags st video_task_running = true -> length os = length wakes) /\
    (flags st video_task_running = false -> os = [] /\ st' = st).
Proof.
  revert st. induction wakes as [| env wakes IH]; intros st Hinv.
  - exists [], st. split; [reflexivity |]. split; [exact Hinv |]. repeat split; auto.
  - cbn [videoRenderTaskOptimized_loop]. rewrite bind_run. cbn [flag_get].
    destruct (flags st video_task_running) eqn:Hrun.
    + destruct (iteration_inv env st Hinv) as (o & s1 & Hit & Hinv1 & _ & Hr1 & Hperf & _).
      destruct (IH s1 Hinv1) as (os & s2 & Hloop & Hinv2 & Hperf2 & Hr2 & Hlen & _).
      rewrite bind_run, Hit, bind_run, Hloop. exists (o :: os), s2.
      split; [reflexivity |]. split; [exact Hinv2 |]. split; [auto |].
      split; [congruence |]. split; [| discriminate].
      intros _. cbn [length]. f_equal. apply Hlen. congruence.
    + exists [], st. split; [reflexivity |]. split; [exact Hinv |].
      repeat split; auto; discriminate.
Qed.

Lemma VideoSignalFrameReady_inv (st : globals) :
  engine_inv st ->
  exists st',
    VideoSignalFrameReady st = Some (tt, st') /\
    engine_inv st' /\ should_render st' = true /\
    words st' last_frame_ticks = words st last_frame_ticks /\
    display st' = display st /\ heap st' = heap st /\ arrays st' = arrays st.
Proof.
  intros Hinv. unfold VideoSignalFrameReady. run_M. fn_simpl.
  destruct (flags st video_task_handle); run_M; eexists; (split; [reflexivity |]).
  all: split; [apply (engine_inv_transfer st _ Hinv); try reflexivity; apply Hinv |].
  all: unfold should_render; cbn [flags words display heap arrays set_flags set_words];
       fn_simpl; rewrite ?orb_true_r; repeat split.
Qed.

Lemma signals_inv (k : nat) (st : globals) :
  engine_inv st -> (0 < k)%nat ->
  exists st',
    signals k st = Some (tt, st') /\
    engine_inv st' /\ should_render st' = true /\
    words st' last_frame_ticks = words st last_frame_ticks /\
    display st' = display st /\ heap st' = heap st /\ arrays st' = arrays st.
Proof.
  revert st. induction k as [| k IH]; intros st Hinv Hk; [lia |].
  cbn [signals]. rewrite bind_run.
  destruct (VideoSignalFrameReady_inv st Hinv) as (s1 & -> & Hinv1 & Hsr & Hl & Hd & Hh & Ha).
  destruct k as [| k].
  - cbn [signals]. exists s1. split; [reflexivity |]. split; [exact Hinv1 |].
    repeat split; assumption.
  - destruct (IH s1 Hinv1 ltac:(lia)) as (s2 & Hrun & Hinv2 & Hsr2 & Hl2 & Hd2 & Hh2 & Ha2).
    exists s2. split; [exact Hrun |]. split; [exact Hinv2 |].
    repeat split; try assumption; congruence.
Qed.

(** * Initialisation and teardown on an arbitrary heap *)

Lemma ps_malloc_run (count : Z) (st : globals) :
  let b := fresh (dom (heap st)) in
  ps_malloc true count st =
    Some (Some b, set_heap (<[b := replicate (Z.to_nat count) 0]> (heap st)) st) /\
  heap st !! b = None.
Proof.
  intros b. split; [reflexivity |]. apply not_elem_of_dom. apply is_fresh.
Qed.

Lemma memset_run (b : nat) (v n : Z) (data : list Z) (st : globals) :
  heap st !! b = Some data -> Z.of_nat (length data) = n ->
  memset (Some b) v n st =
    Some (tt, set_heap (<[b := replicate (Z.to_nat n) v]> (heap st)) st).
Proof.
  intros Hb Hlen. unfold memset, deref. rewrite bind_run, Hb. run_M.
  unfold memcpy. rewrite decide_True by (rewrite length_replicate; lia).
  run_M. unfold store. rewrite Hb. do 3 f_equal.
  change (Z.to_nat 0) with 0%nat. rewrite take_0, drop_0, Z.add_0_l.
  rewrite take_ge by (rewrite length_replicate; lia).
  rewrite drop_ge by lia. rewrite app_nil_r. reflexivity.
Qed.

Lemma free_run (b : nat) (data : list Z) (st : globals) :
  heap st !! b = Some data ->
  free (Some b) st = Some (tt, set_heap (delete b (heap st)) st).
Proof. intros Hb. unfold free. rewrite Hb. reflexivity. Qed.

Lemma store_run (b : nat) (data new : list Z) (st : globals) :
  heap st !! b = Some data ->
  store (Some b) new st = Some (tt, set_heap (<[b := new]> (heap st)) st).
Proof. intros Hb. unfold store. rewrite Hb. reflexivity. Qed.

Lemma default_palette_loop (st : globals) :
  length (arrays st palette_rgb565) = 256%nat ->
  exists st',
    for_loop_M 256 0 256 1
      (fun i _ =>
         let gray := (255 - i) mod 256 in
         p ← array_get palette_rgb565;
         p' ← defined (elem_set p i (rgb888_to_rgb565 gray gray gray));
         array_set palette_rgb565 p')
      tt st = Some ((256, tt), st') /\
    flags st' = flags st /\ words st' = words st /\ pointers st' = pointers st /\
    heap st' = heap st /\ display st' = display st /\
    (forall a, a <> palette_rgb565 -> arrays st' a = arrays st a) /\
    arrays st' palette_rgb565 = default_palette.
Proof.
  intros Hlen.
  destruct (for_loop_M_rule
    (fun i (_ : unit) s =>
       0 <= i <= 256 /\
       flags s = flags st /\ words s = words st /\ pointers s = pointers st /\
       heap s = heap st /\ display s = display st /\
       (forall a, a <> palette_rgb565 -> arrays s a = arrays st a) /\
       length (arrays s palette_rgb565) = 256%nat /\
       forall j, 0 <= j < i ->
         elem_get (arrays s palette_rgb565) j =
           Some (rgb888_to_rgb565 (255 - j) (255 - j) (255 - j)))
    256 0 256 1
    (fun i _ =>
       let gray := (255 - i) mod 256 in
       p ← array_get palette_rgb565;
       p' ← defined (elem_set p i (rgb888_to_rgb565 gray gray gray));
       array_set palette_rgb565 p')
    tt st) as (x' & [] & st' & Hrun & (Hx & Hf & Hw & Hp & Hh & Hd & Ha & Hl & Hpix) & Hb & _).
  - lia.
  - lia.
  - repeat split; try lia; try assumption.
  - intros i [] s Hi (_ & Hf & Hw & Hp & Hh & Hd & Ha & Hl & Hpix). cbv zeta. run_M.
    rewrite elem_set_eq by lia. run_M. eexists tt, _. split; [reflexivity |].
    cbn [flags words pointers heap display arrays set_arrays]. fn_simpl.
    repeat split; try assumption; try lia.
    + intros a Hne. rewrite fn_lookup_insert_ne by congruence. apply Ha. exact Hne.
    + rewrite length_insert. exact Hl.
    + intros j Hj. rewrite elem_get_insert by lia. case_decide as Hji.
      * subst j. rewrite Z.mod_small by lia. reflexivity.
      * apply Hpix. lia.
  - assert (x' = 256) as -> by lia. exists st'. split; [exact Hrun |].
    repeat split; try assumption.
    apply list_eq. intros i. unfold default_palette.
    destruct (Z_lt_dec (Z.of_nat i) 256) as [Hi | Hi].
    + specialize (Hpix (Z.of_nat i) ltac:(lia)).
      rewrite elem_get_lookup, Nat2Z.id in Hpix by lia. rewrite Hpix.
      rewrite list_lookup_fmap, lookup_seqZ_lt by lia. reflexivity.
    + rewrite lookup_ge_None_2 by lia.
      rewrite lookup_ge_None_2; [reflexivity |].
      rewrite length_fmap, length_seqZ. lia.
Qed.

Lemma pushFramebufferToDisplay_some (d : nat) (data : list Z) (st : globals) :
  pointers st dsi_framebuffer = Some d -> heap st !! d = Some data ->
  pushFramebufferToDisplay st =
    Some (tt, set_display
                (display st ++
                   [startWrite; setAddrWindow 0 0 DISPLAY_WIDTH DISPLAY_HEIGHT;
                    writePixels data (DISPLAY_WIDTH * DISPLAY_HEIGHT); endWrite]) st).
Proof.
  intros Hd Hdata. unfold pushFramebufferToDisplay. run_M. rewrite Hd. run_M.
  unfold deref. rewrite Hdata. reflexivity.
Qed.

(** The allocation of the three Mac-side buffers, common to the runs of
    [VideoInit] below. *)
Ltac alloc_block fb H :=
  match goal with |- context [ps_malloc _ _ ?s] =>
    destruct (ps_malloc_run fb s) as [-> H] end;
  cbn [heap set_words set_heap set_pointers set_arrays set_flags] in H;
  let b := fresh "b" in set (b := fresh _) in *; clearbody b; run_M.

Ltac fresh_ne H b b' :=
  assert (b <> b') by (intros ->; rewrite lookup_insert_eq in H; discriminate);
  rewrite lookup_insert_ne in H by congruence.

Ltac memset_block :=
  erewrite memset_run;
    [ run_M
    | cbn [heap set_pointers set_heap]; rewrite ?lookup_insert_ne by congruence;
      apply lookup_insert_eq
    | rewrite length_replicate; lia ].

Lemma VideoInit_ok (env : init_env) (st : globals) :
  init_ok env = true ->
  length (arrays st palette_rgb565) = 256%nat ->
  exists m s c d st',
    VideoInit env st = Some (true, st') /\
    (heap st !! m = None /\ heap st !! s = None /\ heap st !! c = None /\
     heap st !! d = None /\ NoDup [m; s; c; d]) /\
    (pointers st' mac_frame_buffer = Some m /\ pointers st' snapshot_buffer = Some s /\
     pointers st' compare_buffer = Some c /\ pointers st' dsi_framebuffer = Some d) /\
    heap st' =
      <[d := gray_screen]> (<[c := gray_frame]> (<[s := gray_frame]>
        (<[m := gray_frame]> (heap st)))) /\
    display st' =
      display st ++
        [startWrite; setAddrWindow 0 0 DISPLAY_WIDTH DISPLAY_HEIGHT;
         writePixels gray_screen (DISPLAY_WIDTH * DISPLAY_HEIGHT); endWrite] /\
    (arrays st' palette_rgb565 = default_palette /\
     arrays st' dirty_tiles = replicate (Z.to_nat BITMAP_WORDS) 0 /\
     forall a, a <> palette_rgb565 -> a <> dirty_tiles -> arrays st' a = arrays st a) /\
    (flags st' force_full_update = true /\ flags st' video_task_running = true /\
     flags st' video_task_handle = task_create_ok env || flags st video_task_handle /\
     flags st' frame_ready = flags st frame_ready /\
     flags st' use_write_dirty_tracking = flags st use_write_dirty_tracking) /\
    (words st' frame_buffer_size = MAC_SCREEN_WIDTH * MAC_SCREEN_HEIGHT /\
     words st' dsi_framebuffer_size = DISPLAY_WIDTH * DISPLAY_HEIGHT * 2 /\
     forall w, w <> frame_buffer_size -> w <> dsi_framebuffer_size ->
       words st' w = words st w).
Proof.
  unfold init_ok. intros Henv Hpal.
  repeat (apply andb_true_iff in Henv as [Henv ?]).
  unfold gray_frame, gray_screen, VideoInit, getDSIFramebuffer.
  assert (Hfb0 : 0 <= MAC_SCREEN_WIDTH * MAC_SCREEN_HEIGHT)
    by (unfold MAC_SCREEN_WIDTH, MAC_SCREEN_HEIGHT; lia).
  remember (MAC_SCREEN_WIDTH * MAC_SCREEN_HEIGHT) as fb eqn:Hfb.
  remember (DISPLAY_WIDTH * DISPLAY_HEIGHT) as px eqn:Hpx.
  remember (rgb888_to_rgb565 64 64 64) as gray565 eqn:Hgray.
  destruct st as [f0 w0 a0 p0 h0 d0].
  cbn [flags words arrays pointers heap display] in *.
  run_M. fn_simpl. rewrite Henv. alloc_block fb Hm. rename b into m.
  cbn [negb bool_decide decide_rel is_Some_dec]. run_M.
  memset_block. rewrite insert_insert_eq.
  rewrite H2. alloc_block fb Hs. rename b into s.
  rewrite H1. alloc_block fb Hc. rename b into c.
  cbn [negb orb bool_decide decide_rel is_Some_dec]. run_M.
  fresh_ne Hs s m. fresh_ne Hc c s. fresh_ne Hc c m.
  memset_block. memset_block.
  rewrite H0. cbn [negb]. run_M. rewrite H.
  rewrite (insert_insert_ne _ s c) by congruence.
  rewrite (insert_insert_eq _ c), (insert_insert_eq _ s).
  alloc_block (px * 2 / 2) Hd. rename b into d.
  cbn [negb orb bool_decide decide_rel is_Some_dec]. run_M.
  fresh_ne Hd d c. fresh_ne Hd d s. fresh_ne Hd d m.
  erewrite store_run by (cbn [heap set_pointers set_heap set_words]; apply lookup_insert_eq).
  run_M. rewrite insert_insert_eq.
  erewrite pushFramebufferToDisplay_some; cycle 1.
  { cbn [pointers set_heap set_pointers]. apply fn_lookup_insert. }
  { cbn [heap set_heap]. apply lookup_insert_eq. }
  run_M.
  match goal with |- context [for_loop_M _ _ _ _ _ _ ?s] =>
    destruct (default_palette_loop s)
      as (s5 & Hloop & Hf5 & Hw5 & Hp5 & Hh5 & Hd5 & Ha5 & Hpal5) end.
  { cbn [arrays set_display set_heap set_pointers set_words set_flags set_arrays].
    fn_simpl. exact Hpal. }
  cbv zeta in Hloop. rewrite Hloop. run_M.
  cbn [flags words arrays pointers heap display
       set_display set_heap set_pointers set_words set_flags set_arrays] in *.
  exists m, s, c, d.
  destruct (task_create_ok env) eqn:Htask; run_M.
  all: eexists; split; [reflexivity |].
  all: split;
         [ split; [exact Hm |]; split; [exact Hs |]; split; [exact Hc |];
           split; [exact Hd |];
           repeat (apply NoDup_cons; split;
                   [ intros Hin;
                     repeat (apply elem_of_cons in Hin as [Hin | Hin]; [congruence |]);
                     apply elem_of_nil in Hin; exact Hin |]);
           apply NoDup_nil; exact I |].
  all: cbn [flags words arrays pointers heap display set_flags].
  all: rewrite Hp5, Hh5, Hd5, Hpal5, Hf5, Hw5, !Ha5 by discriminate.
  all: fn_simpl.
  all: rewrite <- Hpx.
  all: split; [repeat split |].
  all: split; [reflexivity |]. all: split; [reflexivity |].
  all: split;
         [ split; [reflexivity |]; split; [reflexivity |]; intros a Ha1 Ha2;
           rewrite Ha5 by exact Ha1; apply fn_lookup_insert_ne; congruence |].
  all: split; [repeat split |].
  all: split; [reflexivity |]. all: split; [reflexivity |].
  all: intros w Hw1 Hw2; rewrite !fn_lookup_insert_ne by congruence; reflexivity.
Qed.

(** The failure to obtain the display framebuffer, on any heap: the Mac
    framebuffer is released, the snapshot and compare buffers are not. *)
Lemma VideoInit_dsi_fail (env : init_env) (st : globals) :
  mac_alloc_ok env && snapshot_alloc_ok env && compare_alloc_ok env = true ->
  panel_present env && dsi_alloc_ok env = false ->
  exists s c st',
    VideoInit env st = Some (false, st') /\
    (heap st !! s = None /\ heap st !! c = None /\ s <> c) /\
    (pointers st' mac_frame_buffer = None /\ pointers st' snapshot_buffer = Some s /\
     pointers st' compare_buffer = Some c /\ pointers st' dsi_framebuffer = None) /\
    heap st' = <[c := gray_frame]> (<[s := gray_frame]> (heap st)) /\
    display st' = display st /\
    flags st' video_task_running = flags st video_task_running.
Proof.
  intros Henv Hdsi.
  repeat (apply andb_true_iff in Henv as [Henv ?]).
  unfold gray_frame, VideoInit, getDSIFramebuffer.
  assert (Hfb0 : 0 <= MAC_SCREEN_WIDTH * MAC_SCREEN_HEIGHT)
    by (unfold MAC_SCREEN_WIDTH, MAC_SCREEN_HEIGHT; lia).
  remember (MAC_SCREEN_WIDTH * MAC_SCREEN_HEIGHT) as fb eqn:Hfb.
  remember (DISPLAY_WIDTH * DISPLAY_HEIGHT) as px eqn:Hpx.
  remember (rgb888_to_rgb565 64 64 64) as gray565 eqn:Hgray.
  destruct st as [f0 w0 a0 p0 h0 d0].
  cbn [flags words arrays pointers heap display] in *.
  run_M. fn_simpl. rewrite Henv. alloc_block fb Hm. rename b into m.
  cbn [negb bool_decide decide_rel is_Some_dec]. run_M.
  memset_block. rewrite insert_insert_eq.
  rewrite H0. alloc_block fb Hs. rename b into s.
  rewrite H. alloc_block fb Hc. rename b into c.
  cbn [negb orb bool_decide decide_rel is_Some_dec]. run_M.
  fresh_ne Hs s m. fresh_ne Hc c s. fresh_ne Hc c m.
  memset_block. memset_block.
  rewrite (insert_insert_ne _ s c) by congruence.
  rewrite (insert_insert_eq _ c), (insert_insert_eq _ s).
  exists s, c.
  destruct (panel_present env); cbn [negb andb] in *; run_M.
  1: rewrite Hdsi; unfold ps_malloc; run_M.
  all: cbn [negb orb bool_decide decide_rel is_Some_dec]; run_M.
  all: erewrite free_run
         by (cbn [heap set_words set_heap set_pointers set_arrays set_flags];
             rewrite !lookup_insert_ne by congruence; apply lookup_insert_eq).
  all: run_M.
  all: eexists; split; [reflexivity |].
  all: cbn [flags words arrays pointers heap display
            set_words set_heap set_pointers set_arrays set_flags]; fn_simpl.
  all: rewrite !(delete_insert_ne _ m) by congruence.
  all: rewrite delete_insert_eq, delete_id by exact Hm.
  all: repeat split; try assumption; congruence.
Qed.

(** [VideoExit] on any state whose buffer pointers refer to live, distinct
    blocks. *)
Lemma VideoExit_run (st : globals) :
  pointers_live st ->
  exists st',
    VideoExit st = Some (tt, st') /\
    (forall p, pointers st' p = None) /\
    flags st' video_task_running = false /\
    (forall p b, pointers st p = Some b -> heap st' !! b = None) /\
    (forall b, (forall p, pointers st p <> Some b) -> heap st' !! b = heap st !! b) /\
    words st' = words st /\ arrays st' = arrays st /\ display st' = display st /\
    VideoExit st' = Some (tt, st').
Proof.
  intros [Hlive Hdist]. destruct st as [f0 w0 a0 p0 h0 d0].
  cbn [flags words arrays pointers heap display] in *.
  unfold VideoExit at 1. run_M.
  assert (Hne : forall p q b b', p <> q -> p0 p = Some b -> p0 q = Some b' -> b <> b').
  { intros p q b b' Hpq Hp Hq ->. apply Hpq. exact (Hdist p q b' Hp Hq). }
  destruct (p0 mac_frame_buffer) as [m |] eqn:Hm;
  destruct (p0 snapshot_buffer) as [s |] eqn:Hs;
  destruct (p0 compare_buffer) as [c |] eqn:Hc;
  destruct (p0 dsi_framebuffer) as [d |] eqn:Hd.
  all: try (pose proof (Hne mac_frame_buffer snapshot_buffer _ _ ltac:(discriminate) Hm Hs));
       try (pose proof (Hne mac_frame_buffer compare_buffer _ _ ltac:(discriminate) Hm Hc));
       try (pose proof (Hne mac_frame_buffer dsi_framebuffer _ _ ltac:(discriminate) Hm Hd));
       try (pose proof (Hne snapshot_buffer compare_buffer _ _ ltac:(discriminate) Hs Hc));
       try (pose proof (Hne snapshot_buffer dsi_framebuffer _ _ ltac:(discriminate) Hs Hd));
       try (pose proof (Hne compare_buffer dsi_framebuffer _ _ ltac:(discriminate) Hc Hd)).
  all: try (destruct (Hlive _ _ Hm) as [xm Hxm]);
       try (destruct (Hlive _ _ Hs) as [xs Hxs]);
       try (destruct (Hlive _ _ Hc) as [xc Hxc]);
       try (destruct (Hlive _ _ Hd) as [xd Hxd]).
  all: destruct (f0 video_task_running) eqn:Hrun; run_M.
  all: repeat first
         [ progress fn_simpl
         | rewrite Hm | rewrite Hs | rewrite Hc | rewrite Hd
         | progress cbn [negb orb bool_decide decide_rel is_Some_dec pointers
                         set_flags set_heap set_pointers]
         | progress run_M
         | erewrite free_run
             by (cbn [heap set_flags set_heap set_pointers];
                 rewrite ?lookup_delete_ne by congruence; eassumption) ].
  all: eexists; (split; [reflexivity |]).
  all: cbn [flags words arrays pointers heap display pointer_set
            set_flags set_heap set_pointers].
  all: split; [intros p; destruct p; fn_simpl; (assumption || reflexivity) |].
  all: split; [fn_simpl; (assumption || reflexivity) |].
  all: split;
         [ intros p b Hp; destruct p;
           rewrite ?Hm, ?Hs, ?Hc, ?Hd in Hp; try discriminate Hp; injection Hp as <-;
           rewrite ?lookup_delete_ne by congruence; apply lookup_delete_eq |].
  all: split;
         [ intros b Hb;
           pose proof (Hb mac_frame_buffer); pose proof (Hb snapshot_buffer);
           pose proof (Hb compare_buffer); pose proof (Hb dsi_framebuffer);
           rewrite ?lookup_delete_ne by congruence; reflexivity |].
  all: split; [reflexivity |]. all: split; [reflexivity |]. all: split; [reflexivity |].
  all: unfold VideoExit; run_M.
  all: repeat first
         [ progress fn_simpl
         | rewrite Hrun | rewrite Hm | rewrite Hs | rewrite Hc | rewrite Hd
         | progress cbn [negb orb bool_decide decide_rel is_Some_dec pointers flags
                         set_flags set_heap set_pointers]
         | progress run_M ].
  all: reflexivity.
Qed.

Lemma initial_globals_statics : statics_ok initial_globals.
Proof.
  repeat split; try reflexivity. apply Forall_replicate. lia.
Qed.

Lemma length_default_palette : length default_palette = 256%nat.
Proof. unfold default_palette. rewrite length_fmap, length_seqZ. reflexivity. Qed.

Lemma length_gray_frame :
  Z.of_nat (length gray_frame) = MAC_SCREEN_WIDTH * MAC_SCREEN_HEIGHT.
Proof.
  unfold gray_frame. rewrite length_replicate.
  unfold MAC_SCREEN_WIDTH, MAC_SCREEN_HEIGHT. lia.
Qed.

Lemma length_gray_screen :
  Z.of_nat (length gray_screen) = DISPLAY_WIDTH * DISPLAY_HEIGHT.
Proof.
  unfold gray_screen. rewrite length_replicate.
  unfold DISPLAY_WIDTH, DISPLAY_HEIGHT. lia.
Qed.

(** A successful [VideoInit] on the static state leaves a running engine. *)
Lemma VideoInit_ok_inv (env : init_env) (st : globals) :
  init_ok env = true -> statics_ok st ->
  exists m s c d st',
    VideoInit env st = Some (true, st') /\
    (heap st !! m = None /\ heap st !! s = None /\ heap st !! c = None /\
     heap st !! d = None /\ NoDup [m; s; c; d]) /\
    (pointers st' mac_frame_buffer = Some m /\ pointers st' snapshot_buffer = Some s /\
     pointers st' compare_buffer = Some c /\ pointers st' dsi_framebuffer = Some d) /\
    heap st' =
      <[d := gray_screen]> (<[c := gray_frame]> (<[s := gray_frame]>
        (<[m := gray_frame]> (heap st)))) /\
    engine_inv st' /\ pointers_live st' /\
    flags st' force_full_update = true /\
    arrays st' palette_rgb565 = default_palette /\
    display st' =
      display st ++
        [startWrite; setAddrWindow 0 0 DISPLAY_WIDTH DISPLAY_HEIGHT;
         writePixels gray_screen (DISPLAY_WIDTH * DISPLAY_HEIGHT); endWrite].
Proof.
  intros Henv (Hpal & Hwl & Hwr & Hsn & Htb & Htr).
  destruct (VideoInit_ok env st Henv Hpal)
    as (m & s & c & d & st' & Hrun & Hfresh & Hptr & Hheap & Hdisp & Harr & Hfl & Hwords).
  exists m, s, c, d, st'. split; [exact Hrun |]. split; [exact Hfresh |].
  split; [exact Hptr |]. split; [exact Hheap |].
  destruct Hfresh as (Hm & Hs & Hc & Hd & Hnd).
  destruct Hptr as (Pm & Ps & Pc & Pd).
  destruct Harr as (Apal & Adt & Aother).
  destruct Hfl as (Ff & Fr & Fh & Ffr & Ftr).
  destruct Hwords as (Wfb & Wdsi & Wother).
  apply NoDup_cons in Hnd as [Hm' Hnd]. apply NoDup_cons in Hnd as [Hs' Hnd].
  apply NoDup_cons in Hnd as [Hc' _].
  assert (Hsm : s <> m) by (intros ->; apply Hm'; apply elem_of_cons; auto).
  assert (Hcm : c <> m)
    by (intros ->; apply Hm'; apply elem_of_cons; right; apply elem_of_cons; auto).
  assert (Hdm : d <> m)
    by (intros ->; apply Hm'; do 2 (apply elem_of_cons; right); apply elem_of_cons; auto).
  assert (Hcs : c <> s) by (intros ->; apply Hs'; apply elem_of_cons; auto).
  assert (Hds : d <> s)
    by (intros ->; apply Hs'; apply elem_of_cons; right; apply elem_of_cons; auto).
  assert (Hdc : d <> c) by (intros ->; apply Hc'; apply elem_of_cons; auto).
  assert (Lm : heap st' !! m = Some gray_frame)
    by (rewrite Hheap, !lookup_insert_ne by congruence; apply lookup_insert_eq).
  assert (Ls : heap st' !! s = Some gray_frame)
    by (rewrite Hheap, !lookup_insert_ne by congruence; apply lookup_insert_eq).
  assert (Lc : heap st' !! c = Some gray_frame)
    by (rewrite Hheap, !lookup_insert_ne by congruence; apply lookup_insert_eq).
  assert (Ld : heap st' !! d = Some gray_screen)
    by (rewrite Hheap; apply lookup_insert_eq).
  split; [| split; [| split; [exact Ff | split; [exact Apal | exact Hdisp]]]].
  - split; [| split].
    + split; [| split; [| split; [| split]]].
      * unfold tracker_ok. rewrite Adt, !Aother, Wfb by discriminate.
        split; [exact Hwl |]. split; [apply length_replicate |].
        split; [unfold MAC_SCREEN_WIDTH, MAC_SCREEN_HEIGHT; lia | exact Hwr].
      * split; [rewrite Apal; apply length_default_palette |]. split.
        -- intros m' Hm'0. rewrite Pm in Hm'0. injection Hm'0 as <-.
           exists gray_frame. split; [exact Lm | apply length_gray_frame].
        -- intros d' Hd'0. rewrite Pd in Hd'0. injection Hd'0 as <-.
           exists gray_screen. split; [exact Ld | apply length_gray_screen].
      * rewrite Pm. eauto.
      * rewrite Aother by discriminate. exact Hsn.
      * rewrite Aother by discriminate. exact Htb.
    + rewrite Ftr. exact Htr.
    + intros m' src Hm'0 Hsrc. rewrite Pm in Hm'0. injection Hm'0 as <-.
      rewrite Lm in Hsrc. injection Hsrc as <-. apply Forall_replicate. lia.
  - split.
    + intros p b Hp. destruct p; rewrite ?Pm, ?Ps, ?Pc, ?Pd in Hp; injection Hp as <-; eauto.
    + intros p q b Hp Hq.
      destruct p, q; try reflexivity; exfalso;
        rewrite ?Pm, ?Ps, ?Pc, ?Pd in Hp; rewrite ?Pm, ?Ps, ?Pc, ?Pd in Hq; congruence.
Qed.

(** * The full update, pixel by pixel *)

(** A forced full update, pixel by pixel. *)
Lemma render_pass_full_pixels (env : readings) (st : globals) (m d : nat) (src : list Z) :
  buffers_ok st ->
  flags st force_full_update = true ->
  pointers st mac_frame_buffer = Some m ->
  pointers st dsi_framebuffer = Some d ->
  heap st !! m = Some src -> bytes_ok src ->
  exists st' dsi,
    render_pass env st = Some (FullUpdate, st') /\
    heap st' = <[d := dsi]> (heap st) /\
    Z.of_nat (length dsi) = DISPLAY_WIDTH * DISPLAY_HEIGHT /\
    display st' =
      display st ++
        [startWrite; setAddrWindow 0 0 DISPLAY_WIDTH DISPLAY_HEIGHT;
         writePixels dsi (DISPLAY_WIDTH * DISPLAY_HEIGHT); endWrite] /\
    flags st' force_full_update = false /\
    pointers st' = pointers st /\ arrays st' = arrays st /\
    forall x y dx dy,
      0 <= x < MAC_SCREEN_WIDTH -> 0 <= y < MAC_SCREEN_HEIGHT ->
      0 <= dx < PIXEL_SCALE -> 0 <= dy < PIXEL_SCALE ->
      exists i c,
        elem_get src (y * MAC_SCREEN_WIDTH + x) = Some i /\
        elem_get (arrays st palette_rgb565) i = Some c /\
        elem_get dsi ((PIXEL_SCALE * y + dy) * DISPLAY_WIDTH + (PIXEL_SCALE * x + dx)) = Some c.
Proof.
  intros Hbuf Hforce Hm Hd Hsrc Hbytes.
  destruct (renderFrameToDSI_spec st m d src Hbuf Hm Hd Hsrc Hbytes)
    as (s1 & dsi & Hrun & Hheap & Hlen & Hdisp & Hpix).
  destruct (renderFrameToDSI_heap st Hbuf)
    as (s1' & Hrun' & Hf1 & Hw1 & Ha1 & Hp1 & _ & _).
  rewrite Hm, Hrun in Hrun'. injection Hrun' as <-.
  exists (set_words
            (<[perf_frame_count := wrap32 (words st perf_frame_count + 1)]>
               (<[perf_full_count := wrap32 (words st perf_full_count + 1)]>
                  (<[perf_push_us := wrap32 (words st perf_push_us + push_time env)]>
                     (<[perf_render_us := wrap32 (words st perf_render_us + render_time env)]>
                        (words st)))))
            (set_flags (<[force_full_update := false]> (flags st))
               (set_display
                  (display st ++
                     [startWrite; setAddrWindow 0 0 DISPLAY_WIDTH DISPLAY_HEIGHT;
                      writePixels dsi (DISPLAY_WIDTH * DISPLAY_HEIGHT); endWrite]) s1))), dsi.
  split.
  { unfold render_pass. run_M. rewrite detect_phase_forced by exact Hforce. run_M.
    unfold render_phase. run_M. rewrite Hm, Hrun. unfold perf_add. run_M.
    erewrite pushFramebufferToDisplay_some; cycle 1.
    { cbn [pointers set_words]. rewrite Hp1. exact Hd. }
    { cbn [heap set_words]. rewrite Hheap. apply lookup_insert_eq. }
    run_M. fn_simpl. rewrite Hw1, Hf1, Hdisp. fn_simpl. destruct s1. reflexivity. }
  cbn [flags arrays pointers heap display words set_words set_flags set_display].
  fn_simpl. repeat split; assumption.
Qed.

(** * Properties of the converters *)

(** X1. [renderFrameToDSI] on allocated buffers is defined, rewrites
    the display framebuffer block and nothing else, and shows every byte
    [(x, y)] of the 640x360 Mac framebuffer as the 2x2 block of display
    pixels [(2x + dx, 2y + dy)], each holding the palette entry the byte
    indexes. *)
Theorem renderFrameToDSI_pixels (st : globals) (m d : nat) (src : list Z) :
  buffers_ok st ->
  pointers st mac_frame_buffer = Some m ->
  pointers st dsi_framebuffer = Some d ->
  heap st !! m = Some src ->
  bytes_ok src ->
  exists st' dsi,
    renderFrameToDSI (Some m) st = Some (tt, st') /\
    heap st' = <[d := dsi]> (heap st) /\
    Z.of_nat (length dsi) = DISPLAY_WIDTH * DISPLAY_HEIGHT /\
    display st' = display st /\
    forall x y dx dy,
      0 <= x < MAC_SCREEN_WIDTH -> 0 <= y < MAC_SCREEN_HEIGHT ->
      0 <= dx < PIXEL_SCALE -> 0 <= dy < PIXEL_SCALE ->
      exists i c,
        elem_get src (y * MAC_SCREEN_WIDTH + x) = Some i /\
        elem_get (arrays st palette_rgb565) i = Some c /\
        elem_get dsi ((PIXEL_SCALE * y + dy) * DISPLAY_WIDTH + (PIXEL_SCALE * x + dx)) = Some c.
Proof. exact (renderFrameToDSI_spec st m d src). Qed.

Lemma renderFrameToDSI_pixels_witness :
  exists st' dsi,
    renderFrameToDSI (Some 0%nat) allocated_globals = Some (tt, st') /\
    heap st' = <[1%nat := dsi]> (heap allocated_globals) /\
    elem_get dsi ((PIXEL_SCALE * 359 + 1) * DISPLAY_WIDTH + (PIXEL_SCALE * 639 + 1)) =
      elem_get (arrays allocated_globals palette_rgb565) 128.
Proof.
  destruct allocated_globals_mac as (Hm & Hd & Hsrc & _).
  destruct (renderFrameToDSI_pixels allocated_globals 0%nat 1%nat _
              allocated_globals_buffers_ok Hm Hd Hsrc
              (bytes_ok_replicate _ 128 ltac:(lia)))
    as (st' & dsi & Hrun & Hheap & _ & _ & Hpix).
  exists st', dsi. split; [exact Hrun |]. split; [exact Hheap |].
  destruct (Hpix 639 359 1 1) as (i & c & Hi & Hc & Hp);
    [unfold MAC_SCREEN_WIDTH; lia | unfold MAC_SCREEN_HEIGHT; lia
    | unfold PIXEL_SCALE; lia | unfold PIXEL_SCALE; lia |].
  rewrite Hp, <- Hc. f_equal.
  rewrite elem_get_lookup in Hi by (unfold MAC_SCREEN_WIDTH; lia).
  apply lookup_replicate in Hi. exact (proj1 Hi).
Defined.

(** X2. [renderTileToBuffer] on a valid tile is defined and returns
    the 80x80 block [tile_pixels]: whatever the output buffer held before,
    pixel [(2 col + dx, 2 row + dy)] of the block is the palette entry of
    the framebuffer byte at column [col] and row [row] of the tile. *)
Theorem renderTileToBuffer_pixels (src pal : list Z) (tile_x tile_y : Z) (out_buffer : list Z) :
  Z.of_nat (length src) = MAC_SCREEN_WIDTH * MAC_SCREEN_HEIGHT ->
  bytes_ok src -> length pal = 256%nat ->
  0 <= tile_x < TILES_X -> 0 <= tile_y < TILES_Y ->
  Z.of_nat (length out_buffer) = TILE_WIDTH * PIXEL_SCALE * TILE_HEIGHT * PIXEL_SCALE ->
  exists out,
    renderTileToBuffer src tile_x tile_y pal out_buffer = Some out /\
    out = tile_pixels src pal tile_x tile_y /\
    Z.of_nat (length out) = TILE_WIDTH * PIXEL_SCALE * TILE_HEIGHT * PIXEL_SCALE /\
    forall col row dx dy,
      0 <= col < TILE_WIDTH -> 0 <= row < TILE_HEIGHT ->
      0 <= dx < PIXEL_SCALE -> 0 <= dy < PIXEL_SCALE ->
      exists i c,
        elem_get src ((tile_y * TILE_HEIGHT + row) * MAC_SCREEN_WIDTH
                      + (tile_x * TILE_WIDTH + col)) = Some i /\
        elem_get pal i = Some c /\
        elem_get out ((PIXEL_SCALE * row + dy) * (TILE_WIDTH * PIXEL_SCALE)
                      + (PIXEL_SCALE * col + dx)) = Some c.
Proof.
  intros Hsrc Hbytes Hpal Hx Hy Hout.
  destruct (renderTileToBuffer_block src pal tile_x tile_y out_buffer Hsrc Hbytes Hpal Hx Hy Hout)
    as (out & Hrun & Hdone).
  exists out. split; [exact Hrun |].
  split; [apply block_done_tile_pixels with (out0 := out_buffer); assumption |].
  destruct Hdone as (Hlen & Hpix & _). split; [lia |].
  unfold MAC_SCREEN_WIDTH, MAC_SCREEN_HEIGHT, TILES_X, TILES_Y, TILE_WIDTH, TILE_HEIGHT,
    PIXEL_SCALE in *.
  intros col row dx dy Hcol Hrow Hdx Hdy.
  destruct (pixel_of_Some src pal ((tile_y * 40 + row) * 640 + (tile_x * 40 + col)) Hpal Hbytes)
    as (i & c & Hi & Hc & Hp); [nia |].
  exists i, c. split; [exact Hi |]. split; [exact Hc |].
  specialize (Hpix row dy (2 * col + dx) ltac:(lia) ltac:(lia) ltac:(lia)).
  replace (0 + (2 * row + dy) * 80 + (2 * col + dx)) with ((2 * row + dy) * (40 * 2) + (2 * col + dx))
    in Hpix by lia.
  rewrite Hpix, <- Hp. f_equal. Z.div_mod_to_equations. lia.
Qed.

Lemma renderTileToBuffer_pixels_witness :
  exists out,
    renderTileToBuffer (replicate (Z.to_nat 100000) 1 ++ replicate (Z.to_nat 130400) 200) 3 2
      ((fun i => 257 * i) <$> seqZ 0 256) (replicate (Z.to_nat 6400) 0) = Some out /\
    out = tile_pixels (replicate (Z.to_nat 100000) 1 ++ replicate (Z.to_nat 130400) 200)
            ((fun i => 257 * i) <$> seqZ 0 256) 3 2.
Proof.
  destruct (renderTileToBuffer_pixels
              (replicate (Z.to_nat 100000) 1 ++ replicate (Z.to_nat 130400) 200)
              ((fun i => 257 * i) <$> seqZ 0 256) 3 2 (replicate (Z.to_nat 6400) 0))
    as (out & Hrun & Heq & _).
  - vm_compute. reflexivity.
  - apply Forall_app. split; apply Forall_replicate; lia.
  - reflexivity.
  - unfold TILES_X. lia.
  - unfold TILES_Y. lia.
  - vm_compute. reflexivity.
  - exists out. split; assumption.
Defined.

(** X3. [renderTile] converts a tile straight into the display
    framebuffer: inside the 80x80 rectangle of the tile every pixel is the
    palette entry of the framebuffer byte it scales, which is what
    [renderFrameToDSI] writes there, and every display pixel outside the
    rectangle keeps its value. *)
Theorem renderTile_in_place (st : globals) (m d : nat) (src dsi pal : list Z)
    (tile_x tile_y : Z) :
  buffers_ok st ->
  pointers st mac_frame_buffer = Some m ->
  pointers st dsi_framebuffer = Some d ->
  heap st !! m = Some src -> heap st !! d = Some dsi ->
  bytes_ok src -> length pal = 256%nat ->
  0 <= tile_x < TILES_X -> 0 <= tile_y < TILES_Y ->
  exists st' dsi',
    renderTile (Some m) tile_x tile_y pal st = Some (tt, st') /\
    heap st' = <[d := dsi']> (heap st) /\
    length dsi' = length dsi /\
    display st' = display st /\
    (forall col row dx dy,
       0 <= col < TILE_WIDTH -> 0 <= row < TILE_HEIGHT ->
       0 <= dx < PIXEL_SCALE -> 0 <= dy < PIXEL_SCALE ->
       exists i c,
         elem_get src ((tile_y * TILE_HEIGHT + row) * MAC_SCREEN_WIDTH
                       + (tile_x * TILE_WIDTH + col)) = Some i /\
         elem_get pal i = Some c /\
         elem_get dsi' ((PIXEL_SCALE * (tile_y * TILE_HEIGHT + row) + dy) * DISPLAY_WIDTH
                        + (PIXEL_SCALE * (tile_x * TILE_WIDTH + col) + dx)) = Some c) /\
    (forall X Y,
       0 <= X < DISPLAY_WIDTH -> 0 <= Y < DISPLAY_HEIGHT ->
       ~ (tile_x * (TILE_WIDTH * PIXEL_SCALE) <= X < (tile_x + 1) * (TILE_WIDTH * PIXEL_SCALE) /\
          tile_y * (TILE_HEIGHT * PIXEL_SCALE) <= Y < (tile_y + 1) * (TILE_HEIGHT * PIXEL_SCALE)) ->
       elem_get dsi' (Y * DISPLAY_WIDTH + X) = elem_get dsi (Y * DISPLAY_WIDTH + X)).
Proof.
  intros (_ & Hmac & Hdsi) Hm Hd Hsrc Hdsid Hbytes Hpal Hx Hy.
  destruct (Hmac m Hm) as (src' & Hsrc' & Hslen).
  rewrite Hsrc in Hsrc'. injection Hsrc' as <-.
  destruct (Hdsi d Hd) as (dsi0 & Hdsid' & Hdlen).
  rewrite Hdsid in Hdsid'. injection Hdsid' as <-.
  unfold MAC_SCREEN_WIDTH, MAC_SCREEN_HEIGHT, DISPLAY_WIDTH, DISPLAY_HEIGHT, TILES_X, TILES_Y,
    TILE_WIDTH, TILE_HEIGHT, PIXEL_SCALE in *.
  unfold renderTile. cbv zeta. run_M. unfold deref at 1. rewrite Hsrc. run_M. rewrite Hd.
  unfold deref. rewrite Hdsid. run_M.
  change (Z.to_nat TILE_HEIGHT) with 40%nat.
  unfold MAC_SCREEN_WIDTH, DISPLAY_WIDTH, TILE_WIDTH, TILE_HEIGHT, PIXEL_SCALE.
  destruct (for_loop_rule
    (fun row buf =>
       0 <= row <= 40 /\
       block_done src pal (tile_y * 40 * 640 + tile_x * 40) 640 40
         (tile_y * 40 * 2 * 1280 + tile_x * 40 * 2) 1280 row dsi buf)
    40 0 40 1
    (fun row buf =>
       '(_, _, _, buf0) ← convert_row 40 src pal
           ((tile_y * 40 + row) * 640 + tile_x * 40,
            (tile_y * 40 * 2 + row * 2) * 1280 + tile_x * 40 * 2,
            (tile_y * 40 * 2 + row * 2) * 1280 + tile_x * 40 * 2 + 1280, buf);
       Some buf0)
    dsi) as (x' & dsi' & Hrun & (Hrow & Hdone) & Hb & _).
  - lia.
  - lia.
  - split; [lia |]. apply block_done_start.
  - intros row buf Hrow (_ & Hdone).
    destruct (convert_row_block src pal (tile_y * 40 * 640 + tile_x * 40) 640 40
                (tile_y * 40 * 2 * 1280 + tile_x * 40 * 2) 1280 row dsi buf)
      as (buf' & Hc & Hdone'); try lia; try nia; try assumption; try reflexivity.
    replace (tile_y * 40 * 640 + tile_x * 40 + row * 640)
      with ((tile_y * 40 + row) * 640 + tile_x * 40) in Hc by lia.
    replace (tile_y * 40 * 2 * 1280 + tile_x * 40 * 2 + 2 * row * 1280)
      with ((tile_y * 40 * 2 + row * 2) * 1280 + tile_x * 40 * 2) in Hc by lia.
    rewrite Hc. cbn [mbind option_bind]. eexists. split; [reflexivity |].
    split; [lia | exact Hdone'].
  - rewrite Hrun. run_M. unfold store. rewrite Hdsid.
    assert (x' = 40) as -> by lia. destruct Hdone as (Hlen & Hpix & Hrest).
    exists (set_heap (<[d := dsi']> (heap st)) st), dsi'.
    split; [reflexivity |]. split; [reflexivity |]. split; [exact Hlen |].
    split; [reflexivity |]. split.
    + intros col row dx dy Hcol Hrow' Hdx Hdy.
      destruct (pixel_of_Some src pal ((tile_y * 40 + row) * 640 + (tile_x * 40 + col))
                  Hpal Hbytes) as (i & c & Hi & Hc & Hp); [nia |].
      exists i, c. split; [exact Hi |]. split; [exact Hc |].
      specialize (Hpix row dy (2 * col + dx) ltac:(lia) ltac:(lia) ltac:(lia)).
      replace (tile_y * 40 * 2 * 1280 + tile_x * 40 * 2 + (2 * row + dy) * 1280 + (2 * col + dx))
        with ((2 * (tile_y * 40 + row) + dy) * 1280 + (2 * (tile_x * 40 + col) + dx))
        in Hpix by lia.
      rewrite Hpix, <- Hp. f_equal. Z.div_mod_to_equations. lia.
    + intros X Y HX HY Hout. apply Hrest. intros r dy Hr Hdy Hin. apply Hout. nia.
Qed.

Lemma renderTile_in_place_witness :
  exists st' dsi',
    renderTile (Some 0%nat) 15 8 (arrays allocated_globals palette_rgb565) allocated_globals =
      Some (tt, st') /\
    heap st' = <[1%nat := dsi']> (heap allocated_globals) /\
    elem_get dsi' 0 = Some (rgb888_to_rgb565 64 64 64).
Proof.
  destruct allocated_globals_mac as (Hm & Hd & Hsrc & Hdsi).
  destruct (renderTile_in_place allocated_globals 0%nat 1%nat _ _
              (arrays allocated_globals palette_rgb565) 15 8
              allocated_globals_buffers_ok Hm Hd Hsrc Hdsi
              (bytes_ok_replicate _ 128 ltac:(lia)) eq_refl
              ltac:(unfold TILES_X; lia) ltac:(unfold TILES_Y; lia))
    as (st' & dsi' & Hrun & Hheap & _ & _ & _ & Hout).
  exists st', dsi'. split; [exact Hrun |]. split; [exact Hheap |].
  specialize (Hout 0 0 ltac:(unfold DISPLAY_WIDTH; lia) ltac:(unfold DISPLAY_HEIGHT; lia)
                ltac:(lia)).
  change (0 * DISPLAY_WIDTH + 0) with 0 in Hout. rewrite Hout.
  rewrite elem_get_lookup by lia. apply lookup_replicate. split; [reflexivity |].
  unfold DISPLAY_WIDTH, DISPLAY_HEIGHT. lia.
Defined.

(** X4. [renderAndPushDirtyTiles] sends to the display, between
    [startWrite] and [endWrite], one window and one block of 6400 pixels for
    each tile whose bit is set in [dirty_tiles], in tile-index order, at
    the 80x80 rectangle of the tile and with the pixels [tile_pixels] of the
    framebuffer; tiles whose bit is clear send nothing.  Flags, counters,
    pointers, the heap and all tables but the two static tile buffers are
    unchanged. *)
Theorem renderAndPushDirtyTiles_trace (st : globals) (pal : list Z) (m : nat) (src : list Z) :
  engine_ready st -> length pal = 256%nat ->
  pointers st mac_frame_buffer = Some m -> heap st !! m = Some src -> bytes_ok src ->
  exists st',
    renderAndPushDirtyTiles (Some m) pal st = Some (tt, st') /\
    display st' =
      display st ++ [startWrite] ++
        dirty_pushes src pal (arrays st dirty_tiles) TOTAL_TILES ++ [endWrite] /\
    flags st' = flags st /\ words st' = words st /\ pointers st' = pointers st /\
    heap st' = heap st /\
    (forall a, a <> tile_snapshot -> a <> tile_buffer -> arrays st' a = arrays st a).
Proof.
  intros Hready Hpal Hm Hsrc Hbytes.
  destruct (renderAndPushDirtyTiles_spec st pal m src Hready Hpal Hm Hsrc Hbytes)
    as (st' & Hrun & Hd & Hf & Hw & Hp & Hh & Ha & _).
  exists st'. repeat split; assumption.
Qed.

Lemma renderAndPushDirtyTiles_trace_witness :
  exists st',
    renderAndPushDirtyTiles (Some 0%nat) (arrays allocated_globals palette_rgb565)
      (pending_globals [1; 0; 0; 0; 2]) = Some (tt, st') /\
    display st' =
      display (pending_globals [1; 0; 0; 0; 2]) ++ [startWrite] ++
        dirty_pushes (replicate (Z.to_nat (MAC_SCREEN_WIDTH * MAC_SCREEN_HEIGHT)) 128)
          (arrays allocated_globals palette_rgb565) [1; 0; 0; 0; 2] TOTAL_TILES ++ [endWrite].
Proof.
  destruct allocated_globals_mac as (Hm & _ & Hsrc & _).
  destruct (renderAndPushDirtyTiles_trace (pending_globals [1; 0; 0; 0; 2])
              (arrays allocated_globals palette_rgb565) 0%nat
              (replicate (Z.to_nat (MAC_SCREEN_WIDTH * MAC_SCREEN_HEIGHT)) 128))
    as (st' & Hrun & Hd & _).
  - apply pending_globals_ready. reflexivity.
  - reflexivity.
  - exact Hm.
  - exact Hsrc.
  - apply bytes_ok_replicate. lia.
  - exists st'. split; [exact Hrun | exact Hd].
Defined.

(** * Properties of the render task *)

Lemma dirty_globals_inv (bitmap : list Z) :
  length bitmap = Z.to_nat BITMAP_WORDS ->
  Forall (fun w => 0 <= w < 2 ^ 32) bitmap ->
  engine_inv (dirty_globals bitmap).
Proof.
  intros Hlen Hall. split; [apply dirty_globals_ready; assumption |]. split.
  { unfold dirty_globals, allocated_globals, ready_globals.
    cbn [flags set_arrays set_flags set_heap set_pointers set_words]. fn_simpl.
    reflexivity. }
  intros m src Hm Hsrc. unfold dirty_globals in Hm, Hsrc.
  cbn [pointers heap set_arrays set_flags] in Hm, Hsrc.
  destruct allocated_globals_mac as (Hm0 & _ & Hsrc0 & _).
  rewrite Hm0 in Hm. apply (inj Some) in Hm. subst m.
  rewrite Hsrc0 in Hsrc. apply (inj Some) in Hsrc. subst src.
  apply bytes_ok_replicate. lia.
Qed.

Lemma running_globals_inv (st : globals) : engine_inv st -> engine_inv (running_globals st).
Proof.
  intros Hinv. apply (engine_inv_transfer st _ Hinv); try reflexivity; apply Hinv.
Qed.

(** X5. A render pass that finds the forced-full flag clear and
    drains between 1 and 115 dirty tiles performs a partial update that
    sends exactly the tiles marked since the last drain: one 80x80 block per
    marked tile, in tile-index order, with the palette colours of the
    framebuffer; the write-time bitmap is left empty and the framebuffer is
    not modified. *)
Theorem partial_update_pushes_marked_tiles (env : readings) (st : globals) (m : nat)
    (src : list Z) :
  engine_ready st ->
  flags st force_full_update = false ->
  flags st use_write_dirty_tracking = true ->
  0 < bitmap_popcount (arrays st write_dirty_tiles) <= dirty_threshold ->
  pointers st mac_frame_buffer = Some m -> heap st !! m = Some src -> bytes_ok src ->
  exists st',
    render_pass env st = Some (PartialUpdate, st') /\
    display st' =
      display st ++ [startWrite] ++
        dirty_pushes src (arrays st palette_rgb565) (arrays st write_dirty_tiles) TOTAL_TILES ++
        [endWrite] /\
    arrays st' write_dirty_tiles = replicate (Z.to_nat BITMAP_WORDS) 0 /\
    arrays st' dirty_tiles = arrays st write_dirty_tiles /\
    heap st' = heap st /\ pointers st' = pointers st /\ flags st' = flags st.
Proof.
  intros Hready Hforce Htrack Hd Hm Hsrc Hbytes.
  pose proof Hready as (Hok & Hbuf & Hmac & Hsnap & Htb).
  destruct (detect_phase_tracking env st Hok Hforce Htrack)
    as (st1 & Hdrain & Hw & Hdt & Hfr & Hdet).
  set (d := bitmap_popcount (arrays st write_dirty_tiles)) in *.
  destruct Hfr as (Hf1 & Hw1 & Hp1 & Hh1 & Hd1 & Ha1).
  set (st2 := set_words _ st1) in Hdet.
  assert (Hready2 : engine_ready st2).
  { split; [| split; [| split; [| split]]].
    - destruct Hok as (Hl1 & Hl2 & Hfb & Hall). unfold tracker_ok, st2.
      cbn [arrays words set_words]. fn_simpl. rewrite Hw, Hdt.
      repeat split; try assumption; try apply Hfb;
        try apply length_replicate. apply Forall_replicate. lia.
    - destruct Hbuf as (Hpal & Hmm & Hds). unfold buffers_ok, st2.
      cbn [arrays pointers heap set_words]. rewrite Ha1, Hp1, Hh1 by discriminate. auto.
    - unfold st2. cbn [pointers set_words]. rewrite Hp1. exact Hmac.
    - unfold st2. cbn [arrays set_words]. rewrite Ha1 by discriminate. exact Hsnap.
    - unfold st2. cbn [arrays set_words]. rewrite Ha1 by discriminate. exact Htb. }
  unfold render_pass. run_M. rewrite Hdet. run_M.
  destruct (Z.ltb_spec dirty_threshold d) as [Hfull | _]; [lia |].
  unfold render_phase. run_M.
  assert (Hcount : words st2 dirty_tile_count = d).
  { unfold st2. cbn [words set_words]. fn_simpl. reflexivity. }
  rewrite Hcount. destruct (Z.ltb_spec 0 d) as [_ | Hzero]; [| lia]. run_M.
  assert (Hm2 : pointers st2 mac_frame_buffer = Some m).
  { unfold st2. cbn [pointers set_words]. rewrite Hp1. exact Hm. }
  rewrite Hm2.
  destruct (renderAndPushDirtyTiles_spec st2 (arrays st palette_rgb565) m src)
    as (s3 & -> & Hd3 & Hf3 & Hw3 & Hp3 & Hh3 & Ha3 & _); try assumption.
  { apply Hbuf. }
  { unfold st2. cbn [heap set_words]. rewrite Hh1. exact Hsrc. }
  unfold perf_add. run_M. eexists. split; [reflexivity |].
  cbn [flags arrays pointers heap display words set_words].
  rewrite Hd3, Hf3, Hp3, Hh3, !Ha3 by discriminate.
  unfold st2. cbn [flags arrays pointers heap display words set_words].
  rewrite Hd1, Hdt, Hw, Hh1, Hp1, Hf1. repeat split.
Qed.

Lemma partial_update_pushes_marked_tiles_witness :
  exists st',
    render_pass late_wake (dirty_globals [5; 0; 0; 0; 0]) = Some (PartialUpdate, st') /\
    display st' =
      display (dirty_globals [5; 0; 0; 0; 0]) ++ [startWrite] ++
        dirty_pushes (replicate (Z.to_nat (MAC_SCREEN_WIDTH * MAC_SCREEN_HEIGHT)) 128)
          (arrays (dirty_globals [5; 0; 0; 0; 0]) palette_rgb565) [5; 0; 0; 0; 0]
          TOTAL_TILES ++
        [endWrite].
Proof.
  destruct allocated_globals_mac as (Hm & _ & Hsrc & _).
  destruct (partial_update_pushes_marked_tiles late_wake (dirty_globals [5; 0; 0; 0; 0]) 0%nat
              (replicate (Z.to_nat (MAC_SCREEN_WIDTH * MAC_SCREEN_HEIGHT)) 128))
    as (st' & Hrun & Hd & _).
  - apply dirty_globals_ready; [reflexivity | repeat constructor; lia].
  - reflexivity.
  - reflexivity.
  - vm_compute. split; [reflexivity | discriminate].
  - exact Hm.
  - exact Hsrc.
  - apply bytes_ok_replicate. lia.
  - exists st'. split; [exact Hrun | exact Hd].
Defined.

(** X6. Once the engine runs, the task loop is defined on every
    sequence of wakes: no iteration reads or writes outside a buffer or a
    table, each wake yields one outcome while [video_task_running] is set,
    the engine invariant holds again at the end, and a loop entered with
    the flag clear ends at once without touching the state. *)
Theorem task_loop_total (wakes : list readings) (st : globals) :
  engine_inv st ->
  exists os st',
    videoRenderTaskOptimized_loop wakes st = Some (os, st') /\
    engine_inv st' /\
    flags st' video_task_running = flags st video_task_running /\
    (flags st video_task_running = true -> length os = length wakes) /\
    (flags st video_task_running = false -> os = [] /\ st' = st).
Proof.
  intros Hinv.
  destruct (loop_inv wakes st Hinv) as (os & st' & Hrun & Hinv' & _ & Hfl & Hlen & Hstop).
  exists os, st'. repeat (split; [assumption |]). exact Hstop.
Qed.

Lemma task_loop_total_witness :
  exists os st',
    videoRenderTaskOptimized_loop [early_wake; late_wake; late_wake]
      (running_globals (dirty_globals [5; 0; 0; 0; 0])) = Some (os, st') /\
    length os = 3%nat.
Proof.
  destruct (task_loop_total [early_wake; late_wake; late_wake]
              (running_globals (dirty_globals [5; 0; 0; 0; 0])))
    as (os & st' & Hrun & _ & _ & Hlen & _).
  - apply running_globals_inv, dirty_globals_inv; [reflexivity | repeat constructor; lia].
  - exists os, st'. split; [exact Hrun |]. apply Hlen. reflexivity.
Defined.

(** X7. The frame counter of the performance report is redundant
    with the per-kind counters: [perf_frame_count] equals
    [perf_full_count + perf_partial_count + perf_skip_count] (as
    [uint32_t]) after every iteration of the task loop, abandoned or
    rendered, reported or not, if it did before. *)
Theorem perf_counters_consistent (wakes : list readings) (st : globals) :
  engine_inv st -> perf_consistent st ->
  exists os st',
    videoRenderTaskOptimized_loop wakes st = Some (os, st') /\
    perf_consistent st'.
Proof.
  intros Hinv Hperf.
  destruct (loop_inv wakes st Hinv) as (os & st' & Hrun & _ & Hperf' & _).
  exists os, st'. split; [exact Hrun | exact (Hperf' Hperf)].
Qed.

Lemma perf_counters_consistent_witness :
  exists os st',
    videoRenderTaskOptimized_loop [late_wake; late_wake]
      (running_globals (dirty_globals [5; 0; 0; 0; 0])) = Some (os, st') /\
    perf_consistent st'.
Proof.
  apply perf_counters_consistent.
  - apply running_globals_inv, dirty_globals_inv; [reflexivity | repeat constructor; lia].
  - reflexivity.
Defined.

(** X8. Frame-ready signals do not queue: after any number
    [k >= 1] of [VideoSignalFrameReady] calls a frame is pending, the next
    iteration of the task loop is abandoned exactly when fewer than
    [min_frame_ticks] ticks have passed since the last render, and in
    either case no signal is pending after that one iteration. *)
Theorem signals_coalesce (env : readings) (st : globals) (k : nat) :
  engine_inv st -> (0 < k)%nat ->
  exists st1 o st2,
    signals k st = Some (tt, st1) /\
    should_render st1 = true /\
    videoRenderTaskOptimized_iteration env st1 = Some (o, st2) /\
    (o = Abandoned <-> elapsed_ticks env st < min_frame_ticks env) /\
    should_render st2 = false.
Proof.
  intros Hinv Hk.
  destruct (signals_inv k st Hinv Hk) as (st1 & Hrun & Hinv1 & Hsr & Hl & _).
  destruct (iteration_inv env st1 Hinv1) as (o & st2 & Hit & _ & Hsr2 & _ & _ & Hab & _).
  exists st1, o, st2. split; [exact Hrun |]. split; [exact Hsr |]. split; [exact Hit |].
  split; [| exact Hsr2].
  unfold elapsed_ticks in *. rewrite Hl in Hab. rewrite Hab, Hsr. tauto.
Qed.

Lemma signals_coalesce_witness :
  exists st1 o st2,
    signals 3 (dirty_globals [5; 0; 0; 0; 0]) = Some (tt, st1) /\
    videoRenderTaskOptimized_iteration late_wake st1 = Some (o, st2) /\
    should_render st2 = false.
Proof.
  destruct (signals_coalesce late_wake (dirty_globals [5; 0; 0; 0; 0]) 3)
    as (st1 & o & st2 & Hrun & _ & Hit & _ & Hsr).
  - apply dirty_globals_inv; [reflexivity | repeat constructor; lia].
  - lia.
  - exists st1, o, st2. auto.
Defined.

(** * Properties of initialisation and teardown *)


(** X9. When every allocation succeeds, [VideoInit] on the static
    state returns true and leaves a running engine: four distinct fresh
    blocks (three of 640x360 bytes filled with 0x80, one of 1280x720 pixels
    filled with dark gray), the heap otherwise as before, the grayscale
    palette installed, the first frame forced, the initial screen pushed
    once; [VideoGetFrameBuffer] and [VideoGetFrameBufferSize] then give the
    Mac framebuffer and its 230400 bytes. *)
Theorem VideoInit_success (env : init_env) (st : globals) :
  init_ok env = true -> statics_ok st ->
  exists m s c d st',
    VideoInit env st = Some (true, st') /\
    (heap st !! m = None /\ heap st !! s = None /\ heap st !! c = None /\
     heap st !! d = None /\ NoDup [m; s; c; d]) /\
    (pointers st' mac_frame_buffer = Some m /\ pointers st' snapshot_buffer = Some s /\
     pointers st' compare_buffer = Some c /\ pointers st' dsi_framebuffer = Some d) /\
    heap st' =
      <[d := gray_screen]> (<[c := gray_frame]> (<[s := gray_frame]>
        (<[m := gray_frame]> (heap st)))) /\
    engine_inv st' /\
    flags st' force_full_update = true /\
    arrays st' palette_rgb565 = default_palette /\
    display st' =
      display st ++
        [startWrite; setAddrWindow 0 0 DISPLAY_WIDTH DISPLAY_HEIGHT;
         writePixels gray_screen (DISPLAY_WIDTH * DISPLAY_HEIGHT); endWrite] /\
    VideoGetFrameBuffer st' = Some (Some m, st') /\
    VideoGetFrameBufferSize st' = Some (MAC_SCREEN_WIDTH * MAC_SCREEN_HEIGHT, st').
Proof.
  intros Henv Hst.
  destruct (VideoInit_ok_inv env st Henv Hst)
    as (m & s & c & d & st' & Hrun & Hfresh & Hptr & Hheap & Hinv & _ & Hforce & Hpal & Hdisp).
  exists m, s, c, d, st'. repeat (split; [assumption |]).
  unfold VideoGetFrameBuffer, VideoGetFrameBufferSize, pointer_get, word_get.
  destruct Hptr as (-> & _). split; [reflexivity |].
  destruct Hinv as ((Hok & _) & _).
  destruct (VideoInit_ok env st Henv (proj1 Hst))
    as (m' & s' & c' & d' & st'' & Hrun' & _ & _ & _ & _ & _ & _ & Hw & _).
  rewrite Hrun in Hrun'. injection Hrun' as <-. rewrite Hw. reflexivity.
Qed.

Lemma VideoInit_success_witness :
  exists m s c d st',
    VideoInit (InitEnv true true true true true true) initial_globals = Some (true, st') /\
    pointers st' mac_frame_buffer = Some m /\ pointers st' snapshot_buffer = Some s /\
    pointers st' compare_buffer = Some c /\ pointers st' dsi_framebuffer = Some d /\
    engine_inv st'.
Proof.
  destruct (VideoInit_success (InitEnv true true true true true true) initial_globals
              eq_refl initial_globals_statics)
    as (m & s & c & d & st' & Hrun & _ & (Pm & Ps & Pc & Pd) & _ & Hinv & _).
  exists m, s, c, d, st'. repeat (split; [assumption |]). assumption.
Defined.

Ltac finish_alloc_fail :=
  split; [reflexivity |];
  split; [fn_simpl; reflexivity |];
  split; [intros p Hp; destruct p; fn_simpl; first [assumption | reflexivity] |];
  repeat split.

(** A failure of one of the first three allocations, on any heap: the
    blocks obtained so far are released again. *)
Lemma VideoInit_alloc_fail (env : init_env) (st : globals) :
  mac_alloc_ok env && snapshot_alloc_ok env && compare_alloc_ok env = false ->
  exists st',
    VideoInit env st = Some (false, st') /\
    heap st' = heap st /\
    pointers st' mac_frame_buffer = None /\
    (forall p, pointers st p = None -> pointers st' p = None) /\
    display st' = display st /\ flags st' = flags st /\ arrays st' = arrays st.
Proof.
  intros Henv.
  unfold VideoInit.
  assert (Hfb0 : 0 <= MAC_SCREEN_WIDTH * MAC_SCREEN_HEIGHT)
    by (unfold MAC_SCREEN_WIDTH, MAC_SCREEN_HEIGHT; lia).
  remember (MAC_SCREEN_WIDTH * MAC_SCREEN_HEIGHT) as fb eqn:Hfb.
  destruct st as [f0 w0 a0 p0 h0 d0].
  cbn [flags words arrays pointers heap display] in *.
  run_M. fn_simpl.
  destruct (mac_alloc_ok env) eqn:Hmac.
  2: { unfold ps_malloc. run_M.
       cbn [negb bool_decide decide_rel is_Some_dec]. run_M.
       eexists; split; [reflexivity |].
       cbn [flags words arrays pointers heap display
            set_words set_heap set_pointers set_arrays set_flags].
       finish_alloc_fail. }
  alloc_block fb Hm. rename b into m.
  cbn [negb bool_decide decide_rel is_Some_dec]. run_M.
  memset_block. rewrite insert_insert_eq.
  cbn [andb] in Henv.
  destruct (snapshot_alloc_ok env) eqn:Hsn.
  - cbn [andb] in Henv. alloc_block fb Hs. rename b into s. rewrite Henv.
    unfold ps_malloc at 1. run_M.
    cbn [negb orb bool_decide decide_rel is_Some_dec]. run_M.
    fresh_ne Hs s m.
    erewrite free_run
      by (cbn [heap set_words set_heap set_pointers set_arrays set_flags];
          apply lookup_insert_eq).
    run_M.
    erewrite free_run
      by (cbn [heap set_words set_heap set_pointers set_arrays set_flags];
          rewrite lookup_delete_ne, lookup_insert_ne by congruence; apply lookup_insert_eq).
    run_M.
    eexists; split; [reflexivity |].
    cbn [flags words arrays pointers heap display
         set_words set_heap set_pointers set_arrays set_flags].
    rewrite (delete_insert_id _ s) by (rewrite lookup_insert_ne by congruence; exact Hs).
    rewrite delete_insert_id by exact Hm.
    finish_alloc_fail.
  - unfold ps_malloc at 1. run_M.
    destruct (compare_alloc_ok env) eqn:Hco.
    + alloc_block fb Hc. rename b into c.
      cbn [negb orb bool_decide decide_rel is_Some_dec]. run_M.
      fresh_ne Hc c m.
      erewrite free_run
        by (cbn [heap set_words set_heap set_pointers set_arrays set_flags];
            apply lookup_insert_eq).
      run_M.
      erewrite free_run
        by (cbn [heap set_words set_heap set_pointers set_arrays set_flags];
            rewrite lookup_delete_ne, lookup_insert_ne by congruence; apply lookup_insert_eq).
      run_M.
      eexists; split; [reflexivity |].
      cbn [flags words arrays pointers heap display
           set_words set_heap set_pointers set_arrays set_flags].
      rewrite (delete_insert_id _ c) by (rewrite lookup_insert_ne by congruence; exact Hc).
      rewrite delete_insert_id by exact Hm.
      finish_alloc_fail.
    + unfold ps_malloc at 1. run_M.
      cbn [negb orb bool_decide decide_rel is_Some_dec]. run_M.
      erewrite free_run
        by (cbn [heap set_words set_heap set_pointers set_arrays set_flags];
            apply lookup_insert_eq).
      run_M.
      eexists; split; [reflexivity |].
      cbn [flags words arrays pointers heap display
           set_words set_heap set_pointers set_arrays set_flags].
      rewrite delete_insert_id by exact Hm.
      finish_alloc_fail.
Qed.

Lemma elem_get_replicate (n : nat) (v i : Z) :
  0 <= i < Z.of_nat n -> elem_get (replicate n v) i = Some v.
Proof.
  intros Hi. rewrite elem_get_lookup by lia. apply lookup_replicate_2. lia.
Qed.

Lemma elem_get_default_palette (i : Z) :
  0 <= i < 256 ->
  elem_get default_palette i = Some (rgb888_to_rgb565 (255 - i) (255 - i) (255 - i)).
Proof.
  intros Hi. rewrite elem_get_lookup by lia. unfold default_palette.
  rewrite list_lookup_fmap, lookup_seqZ_lt by (rewrite Z2Nat.id by lia; exact (proj2 Hi)).
  cbn [fmap option_fmap option_map]. rewrite Z2Nat.id by lia. reflexivity.
Qed.

Lemma pointers_live_null (st : globals) :
  (forall p, pointers st p = None) -> pointers_live st.
Proof.
  intros Hnull. split.
  - intros p b Hp. rewrite Hnull in Hp. discriminate Hp.
  - intros p q b Hp. rewrite Hnull in Hp. discriminate Hp.
Qed.

Lemma allocated_globals_live : pointers_live allocated_globals.
Proof.
  destruct allocated_globals_mac as (Hm & Hd & Hhm & Hhd).
  assert (Hptr : forall p b, pointers allocated_globals p = Some b ->
            (p = mac_frame_buffer /\ b = 0%nat) \/ (p = dsi_framebuffer /\ b = 1%nat)).
  { intros p b.
    destruct p;
      first [ rewrite Hm; intros [= <-]; left; split; reflexivity
            | rewrite Hd; intros [= <-]; right; split; reflexivity
            | unfold allocated_globals, ready_globals, initial_globals;
              cbn [pointers set_heap set_pointers set_words]; fn_simpl;
              intros Hp; discriminate Hp ]. }
  split.
  - intros p b Hp.
    destruct (Hptr p b Hp) as [[_ ->] | [_ ->]];
      [exact (mk_is_Some _ _ Hhm) | exact (mk_is_Some _ _ Hhd)].
  - intros p q b Hp Hq.
    destruct (Hptr p b Hp) as [[-> ->] | [-> ->]];
      destruct (Hptr q _ Hq) as [[-> Hb] | [-> Hb]]; try reflexivity; discriminate Hb.
Qed.

(** X10. After a successful [VideoInit] the first render pass is
    a full update, whatever the tracker says: it pushes one 1280x720 screen
    whose every pixel is the palette colour of the fill byte 0x80, the gray
    (127, 127, 127), and clears the forced-update flag. *)
Theorem first_frame_after_init (env : init_env) (rd : readings) (st : globals) :
  init_ok env = true -> statics_ok st ->
  exists st1 st2,
    VideoInit env st = Some (true, st1) /\
    render_pass rd st1 = Some (FullUpdate, st2) /\
    display st2 =
      display st1 ++
        [startWrite; setAddrWindow 0 0 DISPLAY_WIDTH DISPLAY_HEIGHT;
         writePixels (replicate (Z.to_nat (DISPLAY_WIDTH * DISPLAY_HEIGHT))
                        (rgb888_to_rgb565 127 127 127))
           (DISPLAY_WIDTH * DISPLAY_HEIGHT); endWrite] /\
    flags st2 force_full_update = false.
Proof.
  intros Henv Hst.
  destruct (VideoInit_ok_inv env st Henv Hst)
    as (m & s & c & d & st1 & Hrun & (_ & _ & _ & _ & Hnd) & (Pm & _ & _ & Pd) & Hheap &
        Hinv & _ & Hforce & Hpal & _).
  assert (Hmd : m <> d).
  { apply NoDup_cons in Hnd as [Hm _]. intros ->. apply Hm.
    rewrite !elem_of_cons. right. right. left. reflexivity. }
  assert (Hsrc : heap st1 !! m = Some gray_frame).
  { rewrite Hheap. destruct Hinv as ((_ & _ & _) & _ & _).
    apply NoDup_cons in Hnd as [Hm Hnd].
    assert (m <> s) by (intros ->; apply Hm; rewrite !elem_of_cons; left; reflexivity).
    assert (m <> c)
      by (intros ->; apply Hm; rewrite !elem_of_cons; right; left; reflexivity).
    rewrite (lookup_insert_ne _ d m), (lookup_insert_ne _ c m), (lookup_insert_ne _ s m)
      by congruence.
    apply lookup_insert_eq. }
  pose proof Hinv as ((_ & Hbuf & _) & _ & Hbytes).
  destruct (render_pass_full_pixels rd st1 m d gray_frame Hbuf Hforce Pm Pd Hsrc
              (Hbytes m gray_frame Pm Hsrc))
    as (st2 & dsi & Hpass & _ & Hlen & Hdisp & Hclear & _ & _ & Hpix).
  assert (Hdsi : dsi = replicate (Z.to_nat (DISPLAY_WIDTH * DISPLAY_HEIGHT))
                        (rgb888_to_rgb565 127 127 127)).
  { revert Hlen Hpix. rewrite Hpal.
    unfold DISPLAY_WIDTH, DISPLAY_HEIGHT, MAC_SCREEN_WIDTH, MAC_SCREEN_HEIGHT, PIXEL_SCALE.
    intros Hlen Hpix.
    apply list_eq. intros i. destruct (Z_lt_dec (Z.of_nat i) (1280 * 720)) as [Hi | Hi].
    - rewrite lookup_replicate_2 by lia.
      destruct (Hpix (Z.of_nat i mod 1280 / 2) (Z.of_nat i / 1280 / 2)
                  (Z.of_nat i mod 1280 mod 2) (Z.of_nat i / 1280 mod 2))
        as (b & col & Hb & Hcol & Hout);
        try (Z.div_mod_to_equations; lia).
      unfold gray_frame in Hb. rewrite elem_get_replicate in Hb
        by (unfold MAC_SCREEN_WIDTH, MAC_SCREEN_HEIGHT; Z.div_mod_to_equations; lia).
      apply (inj Some) in Hb. subst b.
      rewrite elem_get_default_palette in Hcol by lia.
      apply (inj Some) in Hcol. subst col.
      replace ((2 * (Z.of_nat i / 1280 / 2) + Z.of_nat i / 1280 mod 2) * 1280 +
               (2 * (Z.of_nat i mod 1280 / 2) + Z.of_nat i mod 1280 mod 2))
        with (Z.of_nat i) in Hout by (Z.div_mod_to_equations; lia).
      rewrite elem_get_lookup, Nat2Z.id in Hout by lia. exact Hout.
    - rewrite lookup_ge_None_2 by lia. symmetry. apply lookup_replicate_None. lia. }
  exists st1, st2. repeat (split; [assumption |]). split; [| exact Hclear].
  rewrite Hdisp, Hdsi. reflexivity.
Qed.

Lemma first_frame_after_init_witness :
  exists st1 st2,
    VideoInit (InitEnv true true true true true true) initial_globals = Some (true, st1) /\
    render_pass late_wake st1 = Some (FullUpdate, st2).
Proof.
  destruct (first_frame_after_init (InitEnv true true true true true true) late_wake
              initial_globals eq_refl initial_globals_statics)
    as (st1 & st2 & Hinit & Hpass & _).
  exists st1, st2. split; assumption.
Defined.

Lemma pointer_refers (st : globals) (b : nat) :
  (exists p, pointers st p = Some b) \/ (forall p, pointers st p <> Some b).
Proof.
  destruct (decide (pointers st mac_frame_buffer = Some b)); [left; eauto |].
  destruct (decide (pointers st snapshot_buffer = Some b)); [left; eauto |].
  destruct (decide (pointers st compare_buffer = Some b)); [left; eauto |].
  destruct (decide (pointers st dsi_framebuffer = Some b)); [left; eauto |].
  right. intros p. destruct p; assumption.
Qed.

(** X11. From a state with no buffer allocated, [VideoInit] followed
    by [VideoExit] gives the heap back exactly as it was, with all four
    pointers NULL and the task stopped, whichever allocations succeeded;
    [VideoInit] returns true exactly when all of them did. *)
Theorem VideoInit_VideoExit_no_leak (env : init_env) (st : globals) :
  (forall p, pointers st p = None) ->
  length (arrays st palette_rgb565) = 256%nat ->
  exists st1 st2,
    VideoInit env st = Some (init_ok env, st1) /\
    VideoExit st1 = Some (tt, st2) /\
    heap st2 = heap st /\
    (forall p, pointers st2 p = None) /\
    flags st2 video_task_running = false.
Proof.
  intros Hnull Hpal.
  assert (Hexit : forall st1 : globals,
            pointers_live st1 ->
            (forall b, heap st !! b = None -> heap st1 !! b = None \/
               exists p, pointers st1 p = Some b) ->
            (forall b, is_Some (heap st !! b) ->
               heap st1 !! b = heap st !! b /\ forall p, pointers st1 p <> Some b) ->
            exists st2, VideoExit st1 = Some (tt, st2) /\ heap st2 = heap st /\
              (forall p, pointers st2 p = None) /\ flags st2 video_task_running = false).
  { intros st1 Hlive Hnew Hold.
    destruct (VideoExit_run st1 Hlive) as (st2 & Hrun & Hp & Hflag & Hfreed & Hkept & _).
    exists st2. repeat (split; [assumption |]). split; [| split; assumption].
    apply map_eq. intros b. destruct (heap st !! b) as [x |] eqn:Hb.
    - destruct (Hold b (mk_is_Some _ _ Hb)) as [Hsame Hnp].
      rewrite Hkept by exact Hnp. rewrite Hsame. exact Hb.
    - destruct (Hnew b Hb) as [Hnone | [p Hp1]].
      + destruct (pointer_refers st1 b) as [[p Hp1] | Hno].
        * exact (Hfreed p b Hp1).
        * rewrite Hkept; [exact Hnone | exact Hno].
      + exact (Hfreed p b Hp1). }
  destruct (mac_alloc_ok env && snapshot_alloc_ok env && compare_alloc_ok env) eqn:Hbuf.
  2: { destruct (VideoInit_alloc_fail env st Hbuf) as (st1 & Hrun & Hheap & _ & Hptr & _).
       assert (Hnull1 : forall p, pointers st1 p = None) by (intros p; apply Hptr, Hnull).
       destruct (Hexit st1 (pointers_live_null st1 Hnull1)) as (st2 & Hrun2 & Hrest).
       - intros b Hb. left. rewrite Hheap. exact Hb.
       - intros b _. split; [rewrite Hheap; reflexivity |].
         intros p. rewrite Hnull1. discriminate.
       - exists st1, st2. unfold init_ok. rewrite Hbuf. cbn [andb].
         split; [exact Hrun |]. split; [exact Hrun2 | exact Hrest]. }
  destruct (panel_present env && dsi_alloc_ok env) eqn:Hdsi.
  2: { destruct (VideoInit_dsi_fail env st Hbuf Hdsi)
         as (s & c & st1 & Hrun & (Hs & Hc & Hsc) & (Pm & Ps & Pc & Pd) & Hheap & _).
       assert (Hptr : forall p b, pointers st1 p = Some b ->
                 (p = snapshot_buffer /\ b = s) \/ (p = compare_buffer /\ b = c)).
       { intros p b Hp. destruct p; rewrite ?Pm, ?Ps, ?Pc, ?Pd in Hp;
           try discriminate Hp; injection Hp as <-; [left | right]; split; reflexivity. }
       destruct (Hexit st1) as (st2 & Hrun2 & Hrest).
       - split.
         + intros p b Hp. rewrite Hheap.
           destruct (Hptr p b Hp) as [[_ ->] | [_ ->]].
           * rewrite lookup_insert_ne by congruence. rewrite lookup_insert_eq. eauto.
           * rewrite lookup_insert_eq. eauto.
         + intros p q b Hp Hq.
           destruct (Hptr p b Hp) as [[-> ->] | [-> ->]];
             destruct (Hptr q _ Hq) as [[-> Hb] | [-> Hb]]; congruence.
       - intros b Hb. destruct (decide (b = s)) as [-> | Hbs]; [right; eauto |].
         destruct (decide (b = c)) as [-> | Hbc]; [right; eauto |].
         left. rewrite Hheap, !lookup_insert_ne by congruence. exact Hb.
       - intros b [x Hb].
         assert (b <> s) by congruence. assert (b <> c) by congruence.
         split; [rewrite Hheap, !lookup_insert_ne by congruence; reflexivity |].
         intros p Hp. destruct (Hptr p b Hp) as [[_ ->] | [_ ->]]; congruence.
       - exists st1, st2. unfold init_ok. rewrite Hbuf. cbn [andb]. rewrite Hdsi.
         split; [exact Hrun |]. split; [exact Hrun2 | exact Hrest]. }
  assert (Henv : init_ok env = true).
  { unfold init_ok. rewrite Hbuf. cbn [andb]. exact Hdsi. }
  destruct (VideoInit_ok env st Henv Hpal)
    as (m & s & c & d & st1 & Hrun & (Hm & Hs & Hc & Hd & Hnd) & (Pm & Ps & Pc & Pd) &
        Hheap & _).
  assert (Hptr : forall p b, pointers st1 p = Some b -> b ∈ [m; s; c; d]).
  { intros p b Hp. rewrite !elem_of_cons.
    destruct p; rewrite ?Pm, ?Ps, ?Pc, ?Pd in Hp; injection Hp as <-; auto. }
  assert (Hin : forall b, b ∈ [m; s; c; d] ->
            heap st !! b = None /\ is_Some (heap st1 !! b) /\
            exists p, pointers st1 p = Some b /\ forall q, pointers st1 q = Some b -> q = p).
  { apply NoDup_cons in Hnd as [Hn1 Hnd]. apply NoDup_cons in Hnd as [Hn2 Hnd].
    apply NoDup_cons in Hnd as [Hn3 _].
    rewrite !elem_of_cons in Hn1. rewrite !elem_of_cons in Hn2. rewrite elem_of_cons in Hn3.
    assert (m <> s /\ m <> c /\ m <> d /\ s <> c /\ s <> d /\ c <> d) as (? & ? & ? & ? & ? & ?)
      by (repeat split; intros ->; tauto).
    intros b Hb. rewrite !elem_of_cons, elem_of_nil in Hb.
    destruct Hb as [-> | [-> | [-> | [-> | []]]]].
    - split; [exact Hm |]. split.
      + rewrite Hheap, !lookup_insert_ne by congruence. rewrite lookup_insert_eq. eauto.
      + exists mac_frame_buffer. split; [exact Pm |].
        intros q Hq. destruct q; rewrite ?Pm, ?Ps, ?Pc, ?Pd in Hq; congruence.
    - split; [exact Hs |]. split.
      + rewrite Hheap, !lookup_insert_ne by congruence. rewrite lookup_insert_eq. eauto.
      + exists snapshot_buffer. split; [exact Ps |].
        intros q Hq. destruct q; rewrite ?Pm, ?Ps, ?Pc, ?Pd in Hq; congruence.
    - split; [exact Hc |]. split.
      + rewrite Hheap, !lookup_insert_ne by congruence. rewrite lookup_insert_eq. eauto.
      + exists compare_buffer. split; [exact Pc |].
        intros q Hq. destruct q; rewrite ?Pm, ?Ps, ?Pc, ?Pd in Hq; congruence.
    - split; [exact Hd |]. split.
      + rewrite Hheap, lookup_insert_eq. eauto.
      + exists dsi_framebuffer. split; [exact Pd |].
        intros q Hq. destruct q; rewrite ?Pm, ?Ps, ?Pc, ?Pd in Hq; congruence. }
  destruct (Hexit st1) as (st2 & Hrun2 & Hrest).
  - split.
    + intros p b Hp. apply (Hin b (Hptr p b Hp)).
    + intros p q b Hp Hq.
      destruct (Hin b (Hptr p b Hp)) as (_ & _ & r & _ & Hr).
      rewrite (Hr p Hp), (Hr q Hq). reflexivity.
  - intros b Hb. destruct (decide (b ∈ [m; s; c; d])) as [Hbin | Hbin].
    + right. destruct (Hin b Hbin) as (_ & _ & p & Hp & _). eauto.
    + left. rewrite !elem_of_cons, elem_of_nil in Hbin.
      rewrite Hheap, !lookup_insert_ne by (intros ->; tauto). exact Hb.
  - intros b [x Hb].
    assert (Hbin : b ∉ [m; s; c; d]).
    { intros Hbin. destruct (Hin b Hbin) as (Hnone & _). congruence. }
    split.
    + rewrite !elem_of_cons, elem_of_nil in Hbin.
      rewrite Hheap, !lookup_insert_ne by (intros ->; tauto). reflexivity.
    + intros p Hp. apply Hbin. exact (Hptr p b Hp).
  - exists st1, st2. rewrite Henv.
    split; [exact Hrun |]. split; [exact Hrun2 | exact Hrest].
Qed.

Lemma VideoInit_VideoExit_no_leak_witness :
  exists st1 st2,
    VideoInit (InitEnv true true true true false true) initial_globals = Some (false, st1) /\
    VideoExit st1 = Some (tt, st2) /\ heap st2 = ∅.
Proof.
  destruct (VideoInit_VideoExit_no_leak (InitEnv true true true true false true)
              initial_globals (fun _ => eq_refl) eq_refl)
    as (st1 & st2 & Hinit & Hexit & Hheap & _).
  exists st1, st2. repeat split; assumption.
Defined.

(** X12. [VideoExit] on a state whose pointers refer to live, distinct
    blocks frees exactly those blocks, sets the four pointers to NULL, stops
    the task and draws nothing.  A second [VideoExit] changes nothing (no
    block is freed twice), and [VideoRefresh] afterwards does nothing. *)
Theorem VideoExit_releases_once (st : globals) :
  pointers_live st ->
  exists st',
    VideoExit st = Some (tt, st') /\
    (forall p, pointers st' p = None) /\
    flags st' video_task_running = false /\
    (forall p b, pointers st p = Some b -> heap st' !! b = None) /\
    (forall b, (forall p, pointers st p <> Some b) -> heap st' !! b = heap st !! b) /\
    display st' = display st /\
    VideoExit st' = Some (tt, st') /\
    VideoRefresh st' = Some (tt, st').
Proof.
  intros Hlive.
  destruct (VideoExit_run st Hlive)
    as (st' & Hrun & Hp & Hflag & Hfreed & Hkept & _ & _ & Hdisp & Hagain).
  exists st'. repeat (split; [assumption |]).
  unfold VideoRefresh. run_M. rewrite Hp.
  cbn [negb orb bool_decide decide_rel is_Some_dec]. reflexivity.
Qed.

Lemma VideoExit_releases_once_witness :
  exists st', VideoExit allocated_globals = Some (tt, st') /\
    VideoExit st' = Some (tt, st').
Proof.
  destruct (VideoExit_releases_once allocated_globals allocated_globals_live)
    as (st' & Hrun & _ & _ & _ & _ & _ & Hagain & _).
  exists st'. split; assumption.
Defined.

(** * Properties of the palette *)

(** X13. Two RGB888 colours get the same display pixel exactly when
    they agree on the five top bits of red, the six top bits of green and
    the five top bits of blue: the conversion loses the low bits and nothing
    else. *)
Theorem rgb888_to_rgb565_quantises (r g b r' g' b' : Z) :
  0 <= r < 256 -> 0 <= g < 256 -> 0 <= b < 256 ->
  0 <= r' < 256 -> 0 <= g' < 256 -> 0 <= b' < 256 ->
  rgb888_to_rgb565 r g b = rgb888_to_rgb565 r' g' b' <->
  r / 8 = r' / 8 /\ g / 4 = g' / 4 /\ b / 8 = b' / 8.
Proof.
  intros Hr Hg Hb Hr' Hg' Hb'.
  change 8 with (2 ^ 3). change 4 with (2 ^ 2).
  rewrite <- !Z.shiftr_div_pow2 by lia. split.
  - intros Heq.
    assert (Hbit : forall k, 0 <= k ->
              Z.testbit (rgb888_to_rgb565 r g b) k = Z.testbit (rgb888_to_rgb565 r' g' b') k)
      by (intros k _; rewrite Heq; reflexivity).
    repeat split; apply Z.bits_inj'; intros n Hn; rewrite !Z.shiftr_spec by lia.
    + destruct (Z_lt_dec (n + 3) 8) as [Hlt | Hge].
      * specialize (Hbit (n + 3) ltac:(lia)).
        rewrite !rgb888_to_rgb565_testbit in Hbit by lia.
        repeat (case_match; rewrite ?Z.ltb_lt, ?Z.ltb_ge in *; try lia). exact Hbit.
      * rewrite !testbit_uint8_high by lia. reflexivity.
    + destruct (Z_lt_dec (n + 2) 5) as [Hlt | Hge]; [| destruct (Z_lt_dec (n + 2) 8)].
      * specialize (Hbit (n + 2 + 11) ltac:(lia)).
        rewrite !rgb888_to_rgb565_testbit in Hbit by lia.
        repeat (case_match; rewrite ?Z.ltb_lt, ?Z.ltb_ge in *; try lia).
        replace (n + 2 + 11 - 11) with (n + 2) in Hbit by lia. exact Hbit.
      * specialize (Hbit (n + 2 - 5) ltac:(lia)).
        rewrite !rgb888_to_rgb565_testbit in Hbit by lia.
        repeat (case_match; rewrite ?Z.ltb_lt, ?Z.ltb_ge in *; try lia).
        replace (n + 2 - 5 + 5) with (n + 2) in Hbit by lia. exact Hbit.
      * rewrite !testbit_uint8_high by lia. reflexivity.
    + destruct (Z_lt_dec (n + 3) 8) as [Hlt | Hge].
      * specialize (Hbit (n + 3 + 5) ltac:(lia)).
        rewrite !rgb888_to_rgb565_testbit in Hbit by lia.
        repeat (case_match; rewrite ?Z.ltb_lt, ?Z.ltb_ge in *; try lia).
        replace (n + 3 + 5 - 5) with (n + 3) in Hbit by lia. exact Hbit.
      * rewrite !testbit_uint8_high by lia. reflexivity.
  - intros (Hrr & Hgg & Hbb).
    assert (Br : forall k, 3 <= k -> Z.testbit r k = Z.testbit r' k).
    { intros k Hk. replace k with (k - 3 + 3) by lia.
      rewrite <- !(Z.shiftr_spec _ 3) by lia. rewrite Hrr. reflexivity. }
    assert (Bg : forall k, 2 <= k -> Z.testbit g k = Z.testbit g' k).
    { intros k Hk. replace k with (k - 2 + 2) by lia.
      rewrite <- !(Z.shiftr_spec _ 2) by lia. rewrite Hgg. reflexivity. }
    assert (Bb : forall k, 3 <= k -> Z.testbit b k = Z.testbit b' k).
    { intros k Hk. replace k with (k - 3 + 3) by lia.
      rewrite <- !(Z.shiftr_spec _ 3) by lia. rewrite Hbb. reflexivity. }
    apply Z.bits_inj'. intros k Hk. rewrite !rgb888_to_rgb565_testbit by lia.
    repeat (case_match; rewrite ?Z.ltb_lt, ?Z.ltb_ge in *; try lia);
      first [apply Br | apply Bg | apply Bb | reflexivity]; lia.
Qed.

Lemma rgb888_to_rgb565_quantises_witness :
  rgb888_to_rgb565 255 130 7 = rgb888_to_rgb565 248 128 0 <->
  255 / 8 = 248 / 8 /\ 130 / 4 = 128 / 4 /\ 7 / 8 = 0 / 8.
Proof.
  apply (rgb888_to_rgb565_quantises 255 130 7 248 128 0); lia.
Defined.

(** What [set_palette] does to the palette table and to the rest of the state. *)
Lemma set_palette_spec (pal : list Z) (num : Z) (st : globals) :
  length (arrays st palette_rgb565) = 256%nat ->
  3 * Z.min num 256 <= Z.of_nat (length pal) ->
  exists st',
    set_palette pal num st = Some (tt, st') /\
    length (arrays st' palette_rgb565) = 256%nat /\
    (forall i, 0 <= i < 256 ->
       if i <? num
       then exists r g b,
              elem_get pal (3 * i) = Some r /\ elem_get pal (3 * i + 1) = Some g /\
              elem_get pal (3 * i + 2) = Some b /\
              elem_get (arrays st' palette_rgb565) i = Some (rgb888_to_rgb565 r g b)
       else elem_get (arrays st' palette_rgb565) i = elem_get (arrays st palette_rgb565) i) /\
    flags st' = <[force_full_update := true]> (flags st) /\
    (forall a, a <> palette_rgb565 -> arrays st' a = arrays st a) /\
    words st' = words st /\ pointers st' = pointers st /\ heap st' = heap st /\
    display st' = display st.
Proof.
  intros Hlen Hpal. unfold set_palette. rewrite bind_run.
  destruct (for_loop_M_rule
    (fun i (_ : unit) s =>
       0 <= i /\
       flags s = flags st /\ words s = words st /\ pointers s = pointers st /\
       heap s = heap st /\ display s = display st /\
       (forall a, a <> palette_rgb565 -> arrays s a = arrays st a) /\
       length (arrays s palette_rgb565) = 256%nat /\
       forall j, 0 <= j < 256 ->
         if j <? i
         then exists r g b,
                elem_get pal (3 * j) = Some r /\ elem_get pal (3 * j + 1) = Some g /\
                elem_get pal (3 * j + 2) = Some b /\
                elem_get (arrays s palette_rgb565) j = Some (rgb888_to_rgb565 r g b)
         else elem_get (arrays s palette_rgb565) j = elem_get (arrays st palette_rgb565) j)
    256 0 (Z.min num 256) 1
    (fun i _ =>
       r ← defined (elem_get pal (i * 3 + 0));
       g ← defined (elem_get pal (i * 3 + 1));
       b ← defined (elem_get pal (i * 3 + 2));
       p ← array_get palette_rgb565;
       p' ← defined (elem_set p i (rgb888_to_rgb565 r g b));
       array_set palette_rgb565 p')
    tt st) as (x' & [] & st' & Hrun & (Hx & Hf & Hw & Hp & Hh & Hd & Ha & Hl & Hpix) & Hb & Hx').
  - lia.
  - lia.
  - repeat split; try lia; try assumption.
    intros j Hj. destruct (Z.ltb_spec j 0); [lia | reflexivity].
  - intros i [] s Hi (_ & Hf & Hw & Hp & Hh & Hd & Ha & Hl & Hpix).
    destruct (elem_get_Some pal (i * 3 + 0)) as [r Hr]; [lia |].
    destruct (elem_get_Some pal (i * 3 + 1)) as [g Hg]; [lia |].
    destruct (elem_get_Some pal (i * 3 + 2)) as [b Hb]; [lia |].
    run_M. rewrite Hr. run_M. rewrite Hg. run_M. rewrite Hb. run_M.
    rewrite elem_set_eq by lia. run_M. eexists tt, _. split; [reflexivity |].
    cbn [flags words pointers heap display arrays set_arrays]. fn_simpl.
    repeat split; try assumption; try lia.
    + intros a Hne. rewrite fn_lookup_insert_ne by congruence. apply Ha. exact Hne.
    + rewrite length_insert. exact Hl.
    + intros j Hj. rewrite elem_get_insert by lia. specialize (Hpix j Hj).
      destruct (Z.ltb_spec j (i + 1)) as [Hlt | Hge]; case_decide as Hji.
      * subst j. exists r, g, b.
        replace (3 * i) with (i * 3 + 0) by lia.
        replace (i * 3 + 0 + 1) with (i * 3 + 1) by lia.
        replace (i * 3 + 0 + 2) with (i * 3 + 2) by lia. auto.
      * destruct (Z.ltb_spec j i); [| lia]. exact Hpix.
      * lia.
      * destruct (Z.ltb_spec j i); [lia |]. exact Hpix.
  - rewrite Hrun. run_M. exists (set_flags (<[force_full_update := true]> (flags st')) st').
    split; [reflexivity |].
    cbn [flags words pointers heap display arrays set_flags]. rewrite Hf.
    repeat split; try assumption.
    intros i Hi. specialize (Hpix i Hi).
    destruct (Z.ltb_spec i num) as [Hlt | Hge]; destruct (Z.ltb_spec i x'); try lia;
      exact Hpix.
Qed.

(** X14. [set_palette] on a table of at least [min num 256] RGB
    triples converts entry [i] of the table into entry [i] of the palette
    for every [i < min num 256], keeps the other entries, and forces a full
    update.  With [num <= 0] no entry changes and the update is still
    forced; entries of the table beyond the 256th are not read. *)
Theorem set_palette_entries (pal : list Z) (num : Z) (st : globals) :
  length (arrays st palette_rgb565) = 256%nat ->
  3 * Z.min num 256 <= Z.of_nat (length pal) ->
  exists st',
    set_palette pal num st = Some (tt, st') /\
    length (arrays st' palette_rgb565) = 256%nat /\
    (forall i, 0 <= i < 256 ->
       if i <? num
       then exists r g b,
              elem_get pal (3 * i) = Some r /\ elem_get pal (3 * i + 1) = Some g /\
              elem_get pal (3 * i + 2) = Some b /\
              elem_get (arrays st' palette_rgb565) i = Some (rgb888_to_rgb565 r g b)
       else elem_get (arrays st' palette_rgb565) i = elem_get (arrays st palette_rgb565) i) /\
    flags st' = <[force_full_update := true]> (flags st) /\
    (forall a, a <> palette_rgb565 -> arrays st' a = arrays st a) /\
    words st' = words st /\ pointers st' = pointers st /\ heap st' = heap st /\
    display st' = display st.
Proof. exact (set_palette_spec pal num st). Qed.

Lemma set_palette_entries_witness :
  exists st',
    set_palette [255; 0; 0; 0; 255; 0] 2 initial_globals = Some (tt, st') /\
    elem_get (arrays st' palette_rgb565) 1 = Some (rgb888_to_rgb565 0 255 0) /\
    elem_get (arrays st' palette_rgb565) 2 = Some 0.
Proof.
  destruct (set_palette_entries [255; 0; 0; 0; 255; 0] 2 initial_globals eq_refl
              ltac:(cbn; lia))
    as (st' & Hrun & _ & Hpix & _).
  exists st'. split; [exact Hrun |]. split.
  - destruct (Hpix 1 ltac:(lia)) as (r & g & b & Hr & Hg & Hb & Hout).
    cbn in Hr, Hg, Hb. injection Hr as <-. injection Hg as <-. injection Hb as <-.
    exact Hout.
  - exact (Hpix 2 ltac:(lia)).
Defined.

(** * Properties of the write tracker *)

Lemma mark_all_app (ts1 ts2 : list Z) (st : globals) :
  mark_all (ts1 ++ ts2) st = mark_all ts2 (mark_all ts1 st).
Proof. unfold mark_all. apply foldl_app. Qed.

(** A run of mark calls sets the bits of the tiles the calls mark. *)
Lemma run_calls_marks (cs : list tracker_call) (st : globals) :
  tracker_ok st -> Forall call_ok cs -> Forall (fun c => c <> Drain) cs ->
  run_calls cs st =
    Some (tt, mark_all (cs ≫= marked_tiles (flags st use_write_dirty_tracking)
                              (words st frame_buffer_size)) st).
Proof.
  intros Hok Hcs Hmarks. revert st Hok.
  induction cs as [| c cs IH]; intros st Hok; [reflexivity |].
  apply Forall_cons in Hcs as [Hc Hcs]. apply Forall_cons in Hmarks as [Hm Hmarks].
  cbn [run_calls]. rewrite bind_run, (run_call_mark st c Hok Hc Hm).
  rewrite bind_cons, mark_all_app.
  destruct (mark_all_frame (marked_tiles (flags st use_write_dirty_tracking)
                              (words st frame_buffer_size) c) st) as (Hf & Hw & _).
  rewrite (IH Hcs Hmarks _ (mark_all_ok _ st Hok)), Hf, Hw. reflexivity.
Qed.

Lemma marked_tiles_bind_valid (tracking : bool) (fb_size : Z) (cs : list tracker_call) :
  fb_size <= MAC_SCREEN_WIDTH * MAC_SCREEN_HEIGHT -> Forall call_ok cs ->
  Forall (fun t => 0 <= t < TOTAL_TILES) (cs ≫= marked_tiles tracking fb_size).
Proof.
  intros Hfb Hcs. apply Forall_bind. eapply Forall_impl; [exact Hcs |].
  intros c Hc. apply marked_tiles_valid; assumption.
Qed.

(** Two bitmaps of 32-bit words with the same bits are equal. *)
Lemma bitmap_ext (b1 b2 : list Z) :
  length b1 = length b2 ->
  Forall (fun w => 0 <= w < 2 ^ 32) b1 -> Forall (fun w => 0 <= w < 2 ^ 32) b2 ->
  (forall t, tile_bit b1 t = tile_bit b2 t) -> b1 = b2.
Proof.
  intros Hlen H1 H2 Hbits. apply list_eq. intros i.
  destruct (b1 !! i) as [w1 |] eqn:Hw1.
  - destruct (lookup_lt_is_Some_2 b2 i) as [w2 Hw2];
      [rewrite <- Hlen; eapply lookup_lt_Some; exact Hw1 |].
    rewrite Hw2. f_equal. apply Z.bits_inj'. intros n Hn.
    pose proof (proj1 (Forall_lookup _ _) H1 i w1 Hw1) as R1.
    pose proof (proj1 (Forall_lookup _ _) H2 i w2 Hw2) as R2.
    cbv beta in R1, R2.
    destruct (Z_lt_dec n 32) as [Hlt | Hge].
    + specialize (Hbits (32 * Z.of_nat i + n)). unfold tile_bit in Hbits.
      replace ((32 * Z.of_nat i + n) / 32) with (Z.of_nat i) in Hbits
        by (Z.div_mod_to_equations; lia).
      replace ((32 * Z.of_nat i + n) mod 32) with n in Hbits
        by (Z.div_mod_to_equations; lia).
      rewrite !elem_get_lookup, Nat2Z.id, Hw1, Hw2 in Hbits by lia. exact Hbits.
    + rewrite <- (Z.mod_small w1 (2 ^ 32)), <- (Z.mod_small w2 (2 ^ 32)) by lia.
      rewrite !Z.mod_pow2_bits_high by lia. reflexivity.
  - symmetry. apply lookup_ge_None. rewrite <- Hlen. apply lookup_ge_None. exact Hw1.
Qed.

Lemma length_filter_bool {A : Type} (f : A -> bool) (l : list A) :
  length (List.filter f l) = length (filter (fun x => f x = true) l).
Proof.
  induction l as [| a l IH]; [reflexivity |].
  cbn [List.filter]. rewrite filter_cons.
  destruct (f a) eqn:Ha; case_decide; try congruence; cbn [length]; congruence.
Qed.

Lemma length_filter_fmap {A B : Type} (g : A -> B) (P : B -> Prop)
    `{!forall x, Decision (P x)} (l : list A) :
  length (filter P (g <$> l)) = length (filter (fun x => P (g x)) l).
Proof.
  induction l as [| a l IH]; [reflexivity |].
  rewrite fmap_cons, !filter_cons. case_decide; cbn [length]; congruence.
Qed.

Lemma length_filter_ext {A : Type} (P Q : A -> Prop)
    `{!forall x, Decision (P x)} `{!forall x, Decision (Q x)} (l : list A) :
  (forall x, x ∈ l -> P x <-> Q x) -> length (filter P l) = length (filter Q l).
Proof.
  induction l as [| a l IH]; intros Hext; [reflexivity |].
  rewrite !filter_cons.
  pose proof (Hext a ltac:(left)) as Ha.
  assert (Hl : length (filter P l) = length (filter Q l))
    by (apply IH; intros x Hx; apply Hext; right; exact Hx).
  do 2 case_decide; try tauto; cbn [length]; congruence.
Qed.

(** The count of a bitmap is the number of tiles whose bit is set. *)
Lemma bitmap_popcount_tiles (bitmap : list Z) :
  bitmap_popcount bitmap =
    Z.of_nat (length (filter (fun t => tile_bit bitmap t = true)
                        (seqZ 0 (32 * Z.of_nat (length bitmap))))).
Proof.
  induction bitmap as [| w l IH] using rev_ind; [reflexivity |].
  rewrite bitmap_popcount_snoc, IH, length_app. cbn [length].
  replace (32 * Z.of_nat (length l + 1)) with (32 * Z.of_nat (length l) + 32) by lia.
  rewrite seqZ_app, filter_app, length_app by lia.
  rewrite Nat2Z.inj_add. f_equal.
  - f_equal. apply length_filter_ext. intros t Ht. apply elem_of_seqZ in Ht.
    unfold tile_bit. rewrite !elem_get_lookup by (Z.div_mod_to_equations; lia).
    rewrite lookup_app_l by (Z.div_mod_to_equations; lia). reflexivity.
  - unfold popcount. f_equal. rewrite length_filter_bool.
    replace (0 + 32 * Z.of_nat (length l)) with (0 + 32 * Z.of_nat (length l) + 0) at 1
      by lia.
    rewrite <- (fmap_add_seqZ (0 + 32 * Z.of_nat (length l)) 0 32), length_filter_fmap.
    apply length_filter_ext. intros j Hj. apply elem_of_seqZ in Hj.
    unfold tile_bit.
    replace ((0 + 32 * Z.of_nat (length l) + j) / 32) with (Z.of_nat (length l))
      by (Z.div_mod_to_equations; lia).
    replace ((0 + 32 * Z.of_nat (length l) + j) mod 32) with j
      by (Z.div_mod_to_equations; lia).
    rewrite elem_get_lookup, Nat2Z.id by lia.
    rewrite lookup_app_r, Nat.sub_diag by lia. reflexivity.
Qed.

(** The count of a bitmap whose set bits are the tiles of [ts]. *)
Lemma bitmap_popcount_marked (bitmap : list Z) (ts : list Z) :
  Forall (fun t => 0 <= t < 32 * Z.of_nat (length bitmap)) ts ->
  (forall t, tile_bit bitmap t = bool_decide (t ∈ ts)) ->
  bitmap_popcount bitmap = Z.of_nat (length (remove_dups ts)).
Proof.
  intros Hts Hbits. rewrite bitmap_popcount_tiles. f_equal.
  apply Permutation_length. apply NoDup_Permutation.
  - apply NoDup_filter, NoDup_seqZ.
  - apply NoDup_remove_dups.
  - intros t. rewrite list_elem_of_filter, elem_of_remove_dups, elem_of_seqZ, Hbits.
    rewrite bool_decide_eq_true. split; [tauto |].
    intros Ht. split; [exact Ht |].
    pose proof (proj1 (Forall_forall _ _) Hts t Ht) as Hr. cbv beta in Hr. lia.
Qed.

(** X15. From a clean write bitmap, any run of mark calls followed by
    [collectWriteDirtyTiles] returns the number of distinct tiles the calls
    marked: a tile marked several times counts once, calls that mark
    nothing (tracking off, offset outside the framebuffer) count nothing,
    and the count never exceeds the 144 tiles of the grid. *)
Theorem drain_counts_distinct_tiles (st : globals) (cs : list tracker_call) :
  tracker_ok st ->
  arrays st write_dirty_tiles = replicate (Z.to_nat BITMAP_WORDS) 0 ->
  Forall call_ok cs -> Forall (fun c => c <> Drain) cs ->
  let tiles := cs ≫= marked_tiles (flags st use_write_dirty_tracking)
                        (words st frame_buffer_size) in
  exists st1 st2,
    run_calls cs st = Some (tt, st1) /\
    collectWriteDirtyTiles st1 = Some (Z.of_nat (length (remove_dups tiles)), st2) /\
    Z.of_nat (length (remove_dups tiles)) <= TOTAL_TILES /\
    forall t, tile_bit (arrays st2 dirty_tiles) t = bool_decide (t ∈ tiles).
Proof.
  intros Hok Hclean Hcs Hmarks tiles.
  assert (Hvalid : Forall (fun t => 0 <= t < TOTAL_TILES) tiles).
  { apply marked_tiles_bind_valid; [| exact Hcs]. destruct Hok as (_ & _ & Hfb & _). lia. }
  pose proof (mark_all_ok tiles st Hok) as Hok1.
  assert (Hbits : forall t,
            tile_bit (arrays (mark_all tiles st) write_dirty_tiles) t =
              bool_decide (t ∈ tiles)).
  { intros t. rewrite (mark_all_tile_bit tiles st t Hok Hvalid), Hclean, tile_bit_zeros.
    reflexivity. }
  destruct (collectWriteDirtyTiles_run _ Hok1) as (st2 & Hdrain & _ & Hdirty & _).
  exists (mark_all tiles st), st2.
  split; [apply run_calls_marks; assumption |].
  split; [| split].
  - rewrite Hdrain. do 2 f_equal. apply bitmap_popcount_marked; [| exact Hbits].
    destruct Hok1 as (Hlen & _). rewrite Hlen.
    eapply Forall_impl; [exact Hvalid |]. intros t.
    change (32 * Z.of_nat (Z.to_nat BITMAP_WORDS)) with 160.
    change TOTAL_TILES with 144. cbv beta. lia.
  - assert (Hsub : remove_dups tiles ⊆+ seqZ 0 TOTAL_TILES).
    { apply NoDup_submseteq; [apply NoDup_remove_dups |].
      intros t Ht. rewrite elem_of_remove_dups in Ht. apply elem_of_seqZ.
      pose proof (proj1 (Forall_forall _ _) Hvalid t Ht) as Hr. cbv beta in Hr. lia. }
    apply submseteq_length in Hsub. rewrite length_seqZ in Hsub.
    change TOTAL_TILES with 144 in *. lia.
  - intros t. rewrite Hdirty. apply Hbits.
Qed.

Lemma drain_counts_distinct_tiles_witness :
  exists st1 st2,
    run_calls [MarkDirtyOffset 0; MarkDirtyRange 10 4; MarkDirtyOffset 230399;
               MarkDirtyOffset 230400] ready_globals = Some (tt, st1) /\
    collectWriteDirtyTiles st1 = Some (2, st2).
Proof.
  destruct (drain_counts_distinct_tiles ready_globals
              [MarkDirtyOffset 0; MarkDirtyRange 10 4; MarkDirtyOffset 230399;
               MarkDirtyOffset 230400] ready_globals_ok eq_refl)
    as (st1 & st2 & Hrun & Hdrain & _).
  - repeat constructor; cbn; lia.
  - repeat constructor; discriminate.
  - exists st1, st2. split; [exact Hrun | exact Hdrain].
Defined.

(** X16. The write bitmap after a run of mark calls depends only on
    the set of tiles the calls mark: the same marks in another order, or
    repeated, leave the same bitmap. *)
Theorem marks_order_irrelevant (st : globals) (cs1 cs2 : list tracker_call) :
  tracker_ok st ->
  Forall call_ok cs1 -> Forall (fun c => c <> Drain) cs1 ->
  Forall call_ok cs2 -> Forall (fun c => c <> Drain) cs2 ->
  (forall t,
     t ∈ cs1 ≫= marked_tiles (flags st use_write_dirty_tracking)
                  (words st frame_buffer_size) <->
     t ∈ cs2 ≫= marked_tiles (flags st use_write_dirty_tracking)
                  (words st frame_buffer_size)) ->
  exists st1 st2,
    run_calls cs1 st = Some (tt, st1) /\ run_calls cs2 st = Some (tt, st2) /\
    arrays st1 write_dirty_tiles = arrays st2 write_dirty_tiles.
Proof.
  intros Hok Hc1 Hm1 Hc2 Hm2 Hsame.
  assert (Hfb : words st frame_buffer_size <= MAC_SCREEN_WIDTH * MAC_SCREEN_HEIGHT)
    by (destruct Hok as (_ & _ & Hfb & _); lia).
  eexists _, _. split; [apply run_calls_marks; assumption |].
  split; [apply run_calls_marks; assumption |].
  pose proof (mark_all_ok (cs1 ≫= marked_tiles (flags st use_write_dirty_tracking)
                                    (words st frame_buffer_size)) st Hok)
    as (Hl1 & _ & _ & Hr1).
  pose proof (mark_all_ok (cs2 ≫= marked_tiles (flags st use_write_dirty_tracking)
                                    (words st frame_buffer_size)) st Hok)
    as (Hl2 & _ & _ & Hr2).
  apply bitmap_ext; [congruence | assumption | assumption |].
  intros t.
  rewrite !mark_all_tile_bit by (try apply marked_tiles_bind_valid; assumption).
  f_equal. apply bool_decide_ext, Hsame.
Qed.

Lemma marks_order_irrelevant_witness :
  exists st1 st2,
    run_calls [MarkDirtyOffset 0; MarkDirtyOffset 700] ready_globals = Some (tt, st1) /\
    run_calls [MarkDirtyOffset 700; MarkDirtyOffset 0; MarkDirtyOffset 700] ready_globals =
      Some (tt, st2) /\
    arrays st1 write_dirty_tiles = arrays st2 write_dirty_tiles.
Proof.
  apply (marks_order_irrelevant ready_globals
           [MarkDirtyOffset 0; MarkDirtyOffset 700]
           [MarkDirtyOffset 700; MarkDirtyOffset 0; MarkDirtyOffset 700] ready_globals_ok).
  - repeat constructor; cbn; lia.
  - repeat constructor; discriminate.
  - repeat constructor; cbn; lia.
  - repeat constructor; discriminate.
  - intros t. rewrite !list_elem_of_bind. split.
    + intros (c & Ht & Hc). exists c. split; [exact Ht |].
      rewrite !elem_of_cons in *. tauto.
    + intros (c & Ht & Hc). exists c. split; [exact Ht |].
      rewrite !elem_of_cons in *. tauto.
Defined.

(** X17. A range of zero or one byte is the single-offset mark:
    [VideoMarkDirtyRange offset size] with [size <= 1] does exactly what
    [VideoMarkDirtyOffset offset] does, so an empty write still marks the
    tile of its offset. *)
Theorem VideoMarkDirtyRange_single (st : globals) (offset size : Z) :
  tracker_ok st -> 0 <= offset -> 0 <= size <= 1 ->
  VideoMarkDirtyRange offset size st = VideoMarkDirtyOffset offset st /\
  exists st', VideoMarkDirtyOffset offset st = Some (tt, st').
Proof.
  intros Hok Hoff Hsize.
  rewrite (VideoMarkDirtyRange_mark_all st offset size Hok Hoff).
  rewrite (VideoMarkDirtyOffset_mark_all st offset Hok Hoff).
  split; [| eauto]. do 3 f_equal.
  unfold marked_tiles, offset_tiles. destruct (negb _); [reflexivity |].
  destruct (Z.leb_spec (words st frame_buffer_size) offset) as [Hle | Hlt]; [reflexivity |].
  destruct Hok as (_ & _ & Hfb & _). revert Hfb.
  unfold MAC_SCREEN_WIDTH, MAC_SCREEN_HEIGHT. intros Hfb.
  unfold clamp_size. rewrite wrap32_small by lia.
  destruct (Z.ltb_spec (words st frame_buffer_size) (offset + size)); [lia |].
  destruct (Z.ltb_spec 1 size); [lia | reflexivity].
Qed.

Lemma VideoMarkDirtyRange_single_witness :
  VideoMarkDirtyRange 700 0 ready_globals = VideoMarkDirtyOffset 700 ready_globals /\
  exists st', VideoMarkDirtyOffset 700 ready_globals = Some (tt, st').
Proof.
  apply (VideoMarkDirtyRange_single ready_globals 700 0 ready_globals_ok); lia.
Defined.

(** X18. When [offset + size] exceeds the [uint32] range the sum wraps
    around, the clamp to the framebuffer end does not apply, and the second
    mark lands on the tile of the wrapped end [offset + size - 1 - 2^32],
    which lies before [offset]: the tiles from [offset] to the framebuffer
    end are not marked beyond the first. *)
Theorem VideoMarkDirtyRange_wraparound (st : globals) (offset size : Z) :
  tracker_ok st ->
  flags st use_write_dirty_tracking = true ->
  0 <= offset < words st frame_buffer_size ->
  0 <= size < 2 ^ 32 ->
  2 ^ 32 < offset + size ->
  let last := offset + size - 1 - 2 ^ 32 in
  0 <= last < offset /\
  clamp_size (words st frame_buffer_size) offset size = size /\
  exists st',
    VideoMarkDirtyRange offset size st = Some (tt, st') /\
    forall t,
      tile_bit (arrays st' write_dirty_tiles) t =
        tile_bit (arrays st write_dirty_tiles) t ||
        bool_decide (t = tile_of_offset offset \/ t = tile_of_offset last).
Proof.
  intros Hok Htrack Hoff Hsize Hwrap last.
  pose proof Hok as (_ & _ & Hfb & _). revert Hfb.
  unfold MAC_SCREEN_WIDTH, MAC_SCREEN_HEIGHT. intros Hfb.
  assert (Hw1 : wrap32 (offset + size) = offset + size - 2 ^ 32).
  { unfold wrap32. change (2 ^ 32) with 4294967296 in *. Z.div_mod_to_equations. lia. }
  assert (Hw2 : wrap32 (offset + size - 1) = last).
  { unfold wrap32, last. change (2 ^ 32) with 4294967296 in *.
    Z.div_mod_to_equations. lia. }
  assert (Hclamp : clamp_size (words st frame_buffer_size) offset size = size).
  { unfold clamp_size. rewrite Hw1.
    destruct (Z.ltb_spec (words st frame_buffer_size) (offset + size - 2 ^ 32));
      [lia | reflexivity]. }
  split; [unfold last; lia |]. split; [exact Hclamp |].
  eexists. split; [apply VideoMarkDirtyRange_mark_all; [exact Hok | lia] |].
  intros t.
  assert (Htiles : marked_tiles (flags st use_write_dirty_tracking)
                     (words st frame_buffer_size) (MarkDirtyRange offset size) =
                   [tile_of_offset offset; tile_of_offset last]).
  { unfold marked_tiles, offset_tiles. rewrite Htrack, Hclamp, Hw2. cbn [negb].
    destruct (Z.leb_spec (words st frame_buffer_size) offset); [lia |].
    destruct (Z.ltb_spec 1 size); [| lia].
    destruct (Z.leb_spec (words st frame_buffer_size) last); [unfold last in *; lia |].
    reflexivity. }
  rewrite mark_all_tile_bit; [| exact Hok |].
  - rewrite Htiles. f_equal. apply bool_decide_ext.
    rewrite !elem_of_cons, elem_of_nil. tauto.
  - apply marked_tiles_valid; [unfold MAC_SCREEN_WIDTH, MAC_SCREEN_HEIGHT; lia |].
    cbn [call_ok]. lia.
Qed.

Lemma VideoMarkDirtyRange_wraparound_witness :
  exists st',
    VideoMarkDirtyRange 100000 4294967295 ready_globals = Some (tt, st') /\
    tile_bit (arrays st' write_dirty_tiles) (tile_of_offset 99998) = true.
Proof.
  destruct (VideoMarkDirtyRange_wraparound ready_globals 100000 4294967295
              ready_globals_ok eq_refl)
    as (_ & _ & st' & Hrun & Hbits);
    [vm_compute; split; [discriminate | reflexivity] | lia | lia |].
  exists st'. split; [exact Hrun |]. rewrite Hbits.
  apply orb_true_iff. right. apply bool_decide_eq_true. right. reflexivity.
Defined.
(** * Properties of the frame comparison *)

Lemma detectDirtyTiles_unfold (current previous : option nat) :
  detectDirtyTiles current previous =
    (array_set dirty_tiles (replicate (Z.to_nat BITMAP_WORDS) 0);;
     cur ← deref current;
     prev ← deref previous;
     '(_, count) ← for_loop_M (Z.to_nat TILES_Y) 0 TILES_Y 1
       (fun ty count =>
          '(_, count) ← for_loop_M (Z.to_nat TILES_X) 0 TILES_X 1
            (fun tx count =>
               '(_, is_dirty) ← defined (tile_scan cur prev tx ty);
               if is_dirty : bool
               then atomic_or_fetch dirty_tiles ((ty * TILES_X + tx) / 32)
                      (Z.shiftl 1 ((ty * TILES_X + tx) mod 32));;
                    mret (count + 1)
               else mret count)
            count;
          mret count)
       0;
     mret count).
Proof. reflexivity. Qed.

(** Two words read from byte buffers are equal when their four bytes are. *)
Lemma load32_eq_iff (cur prev : list Z) (o : Z) :
  bytes_ok cur -> bytes_ok prev -> 0 <= o ->
  o + 4 <= Z.of_nat (length cur) -> o + 4 <= Z.of_nat (length prev) ->
  exists c p,
    load32 cur o = Some c /\ load32 prev o = Some p /\
    (c = p <-> forall k, 0 <= k < 4 -> elem_get cur (o + k) = elem_get prev (o + k)).
Proof.
  intros Hc Hp Ho Hlc Hlp. unfold load32.
  destruct (elem_get_Some cur o) as [c0 Hc0]; [lia |].
  destruct (elem_get_Some cur (o + 1)) as [c1 Hc1]; [lia |].
  destruct (elem_get_Some cur (o + 2)) as [c2 Hc2]; [lia |].
  destruct (elem_get_Some cur (o + 3)) as [c3 Hc3]; [lia |].
  destruct (elem_get_Some prev o) as [p0 Hp0]; [lia |].
  destruct (elem_get_Some prev (o + 1)) as [p1 Hp1]; [lia |].
  destruct (elem_get_Some prev (o + 2)) as [p2 Hp2]; [lia |].
  destruct (elem_get_Some prev (o + 3)) as [p3 Hp3]; [lia |].
  rewrite Hc0, Hc1, Hc2, Hc3, Hp0, Hp1, Hp2, Hp3. cbn [mbind option_bind].
  eexists _, _. split; [reflexivity |]. split; [reflexivity |].
  pose proof (bytes_ok_elem _ _ _ Hc Hc0). pose proof (bytes_ok_elem _ _ _ Hc Hc1).
  pose proof (bytes_ok_elem _ _ _ Hc Hc2). pose proof (bytes_ok_elem _ _ _ Hc Hc3).
  pose proof (bytes_ok_elem _ _ _ Hp Hp0). pose proof (bytes_ok_elem _ _ _ Hp Hp1).
  pose proof (bytes_ok_elem _ _ _ Hp Hp2). pose proof (bytes_ok_elem _ _ _ Hp Hp3).
  destruct (load32_bytes c0 c1 c2 c3) as (E0 & E1 & E2 & E3); try assumption.
  destruct (load32_bytes p0 p1 p2 p3) as (F0 & F1 & F2 & F3); try assumption.
  cbv zeta in *. split.
  - intros Heq. rewrite Heq in E0, E1, E2, E3.
    assert (c0 = p0) by congruence. assert (c1 = p1) by congruence.
    assert (c2 = p2) by congruence. assert (c3 = p3) by congruence. subst.
    intros k Hk.
    assert (k = 0 \/ k = 1 \/ k = 2 \/ k = 3) as [-> | [-> | [-> | ->]]] by lia;
      rewrite ?Z.add_0_r; congruence.
  - intros Hall.
    pose proof (Hall 0 ltac:(lia)) as A0. rewrite Z.add_0_r in A0.
    pose proof (Hall 1 ltac:(lia)) as A1. pose proof (Hall 2 ltac:(lia)) as A2.
    pose proof (Hall 3 ltac:(lia)) as A3.
    assert (c0 = p0) by congruence. assert (c1 = p1) by congruence.
    assert (c2 = p2) by congruence. assert (c3 = p3) by congruence. subst. reflexivity.
Qed.

(** The scan of one tile answers whether some byte of the tile differs. *)
Lemma tile_scan_spec (cur prev : list Z) (tx ty : Z) :
  Z.of_nat (length cur) = MAC_SCREEN_WIDTH * MAC_SCREEN_HEIGHT ->
  Z.of_nat (length prev) = MAC_SCREEN_WIDTH * MAC_SCREEN_HEIGHT ->
  bytes_ok cur -> bytes_ok prev ->
  0 <= tx < TILES_X -> 0 <= ty < TILES_Y ->
  exists x b,
    tile_scan cur prev tx ty = Some (x, b) /\
    (b = true <->
     exists row col, 0 <= row < 40 /\ 0 <= col < 40 /\
       elem_get cur ((ty * 40 + row) * 640 + tx * 40 + col) <>
       elem_get prev ((ty * 40 + row) * 640 + tx * 40 + col)).
Proof.
  unfold MAC_SCREEN_WIDTH, MAC_SCREEN_HEIGHT, TILES_X, TILES_Y.
  intros Hlc Hlp Hc Hp Htx Hty. unfold tile_scan.
  destruct (for_loop_rule
    (fun row (b : bool) =>
       0 <= row <= 40 /\
       (b = true <->
        exists r col, 0 <= r < row /\ 0 <= col < 40 /\
          elem_get cur ((ty * 40 + r) * 640 + tx * 40 + col) <>
          elem_get prev ((ty * 40 + r) * 640 + tx * 40 + col)))
    (Z.to_nat TILE_HEIGHT) 0 TILE_HEIGHT 1
    (fun row is_dirty =>
       if is_dirty : bool then Some is_dirty else
       let y := ty * TILE_HEIGHT + row in
       let offset := y * MAC_SCREEN_WIDTH + tx * TILE_WIDTH in
       '(_, is_dirty) ← for_loop (Z.to_nat (TILE_WIDTH / 4)) 0 (TILE_WIDTH / 4) 1
          (fun w is_dirty =>
             if is_dirty : bool then Some is_dirty else
             c ← load32 cur (offset + 4 * w);
             p ← load32 prev (offset + 4 * w);
             Some (negb (c =? p)))
          is_dirty;
       Some is_dirty)
    false) as (x & b & Hrun & (Hx & Hb) & Hbound & _).
  - lia.
  - unfold TILE_HEIGHT. lia.
  - split; [lia |]. split; [discriminate |]. intros (r & col & Hr & _). lia.
  - intros row b Hrow (_ & Hb). unfold TILE_HEIGHT in Hrow.
    destruct b.
    { exists true. split; [reflexivity |]. split; [lia |]. split; [| reflexivity].
      intros _. destruct (proj1 Hb eq_refl) as (r & col & Hr & Hcol & Hne).
      exists r, col. split; [lia |]. auto. }
    cbv zeta. unfold TILE_HEIGHT, TILE_WIDTH, MAC_SCREEN_WIDTH.
    destruct (for_loop_rule
      (fun w (d : bool) =>
         0 <= w <= 10 /\
         (d = true <->
          exists col, 0 <= col < 4 * w /\
            elem_get cur ((ty * 40 + row) * 640 + tx * 40 + col) <>
            elem_get prev ((ty * 40 + row) * 640 + tx * 40 + col)))
      (Z.to_nat (40 / 4)) 0 (40 / 4) 1
      (fun w is_dirty =>
         if is_dirty : bool then Some is_dirty else
         c ← load32 cur ((ty * 40 + row) * 640 + tx * 40 + 4 * w);
         p ← load32 prev ((ty * 40 + row) * 640 + tx * 40 + 4 * w);
         Some (negb (c =? p)))
      false) as (x1 & d & Hrun1 & (Hx1 & Hd) & Hbound1 & _).
    + lia.
    + cbn. lia.
    + split; [lia |]. split; [discriminate |]. intros (col & Hcol & _). lia.
    + intros w d0 Hw (_ & Hd0). change (40 / 4) with 10 in Hw. destruct d0.
      { exists true. split; [reflexivity |]. split; [lia |]. split; [| reflexivity].
        intros _. destruct (proj1 Hd0 eq_refl) as (col & Hcol & Hne).
        exists col. split; [lia | exact Hne]. }
      destruct (load32_eq_iff cur prev ((ty * 40 + row) * 640 + tx * 40 + 4 * w))
        as (c & p & -> & -> & Hcp); try assumption; try lia.
      cbn [mbind option_bind]. eexists. split; [reflexivity |]. split; [lia |].
      rewrite negb_true_iff, Z.eqb_neq. split.
      * intros Hne.
        assert (Hex : exists k, 0 <= k < 4 /\
                  elem_get cur ((ty * 40 + row) * 640 + tx * 40 + 4 * w + k) <>
                  elem_get prev ((ty * 40 + row) * 640 + tx * 40 + 4 * w + k)).
        { destruct (decide (elem_get cur ((ty * 40 + row) * 640 + tx * 40 + 4 * w + 0) =
                            elem_get prev ((ty * 40 + row) * 640 + tx * 40 + 4 * w + 0)));
            [| exists 0; split; [lia | assumption]].
          destruct (decide (elem_get cur ((ty * 40 + row) * 640 + tx * 40 + 4 * w + 1) =
                            elem_get prev ((ty * 40 + row) * 640 + tx * 40 + 4 * w + 1)));
            [| exists 1; split; [lia | assumption]].
          destruct (decide (elem_get cur ((ty * 40 + row) * 640 + tx * 40 + 4 * w + 2) =
                            elem_get prev ((ty * 40 + row) * 640 + tx * 40 + 4 * w + 2)));
            [| exists 2; split; [lia | assumption]].
          destruct (decide (elem_get cur ((ty * 40 + row) * 640 + tx * 40 + 4 * w + 3) =
                            elem_get prev ((ty * 40 + row) * 640 + tx * 40 + 4 * w + 3)));
            [| exists 3; split; [lia | assumption]].
          exfalso. apply Hne, Hcp. intros k Hk.
          assert (k = 0 \/ k = 1 \/ k = 2 \/ k = 3) as [-> | [-> | [-> | ->]]] by lia;
            assumption. }
        destruct Hex as (k & Hk & Hne'). exists (4 * w + k). split; [lia |].
        replace ((ty * 40 + row) * 640 + tx * 40 + (4 * w + k))
          with ((ty * 40 + row) * 640 + tx * 40 + 4 * w + k) by lia. exact Hne'.
      * intros (col & Hcol & Hne) Heq.
        destruct (Z_lt_dec col (4 * w)) as [Hlt | Hge].
        { assert (false = true) by (apply Hd0; exists col; split; [lia | exact Hne]).
          discriminate. }
        apply Hne. pose proof (proj1 Hcp Heq (col - 4 * w) ltac:(lia)) as Hk.
        replace ((ty * 40 + row) * 640 + tx * 40 + 4 * w + (col - 4 * w))
          with ((ty * 40 + row) * 640 + tx * 40 + col) in Hk by lia. exact Hk.
    + rewrite Hrun1. cbn [mbind option_bind]. exists d. split; [reflexivity |].
      split; [lia |]. change (40 / 4) with 10 in Hbound1.
      assert (x1 = 10) as -> by lia. rewrite Hd. split.
      * intros (col & Hcol & Hne). exists row, col. split; [lia |]. split; [lia | exact Hne].
      * intros (r & col & Hr & Hcol & Hne).
        destruct (Z_lt_dec r row) as [Hlt | Hge].
        { assert (false = true) by (apply Hb; exists r, col; split; [lia | auto]).
          discriminate. }
        assert (r = row) as -> by lia. exists col. split; [lia | exact Hne].
  - exists x, b. split; [exact Hrun |]. unfold TILE_HEIGHT in Hbound.
    assert (x = 40) as -> by lia. exact Hb.
Qed.

Lemma atomic_or_fetch_tile (a : array) (t : Z) (st : globals) :
  0 <= t < 32 * Z.of_nat (length (arrays st a)) ->
  atomic_or_fetch a (t / 32) (Z.shiftl 1 (t mod 32)) st =
    Some (tt, set_arrays (<[a := with_tile_bit (arrays st a) t]> (arrays st)) st).
Proof.
  intros Ht.
  assert (Hidx : 0 <= t / 32 < Z.of_nat (length (arrays st a)))
    by (Z.div_mod_to_equations; lia).
  destruct (lookup_lt_is_Some_2 (arrays st a) (Z.to_nat (t / 32))) as [w Hw]; [lia |].
  unfold atomic_or_fetch, with_tile_bit.
  rewrite bind_run. unfold array_get at 1. rewrite bind_run.
  rewrite elem_get_lookup, Hw by lia. cbn [defined].
  rewrite bind_run, elem_set_eq by lia. reflexivity.
Qed.

(** Setting a bit that was clear adds one to the count. *)
Lemma bitmap_popcount_with_tile_bit (bitmap : list Z) (t : Z) :
  0 <= t < 32 * Z.of_nat (length bitmap) ->
  tile_bit bitmap t = false ->
  bitmap_popcount (with_tile_bit bitmap t) = bitmap_popcount bitmap + 1.
Proof.
  intros Ht Hclear. rewrite !bitmap_popcount_tiles, length_with_tile_bit.
  assert (Hperm :
    filter (fun t' => tile_bit (with_tile_bit bitmap t) t' = true)
      (seqZ 0 (32 * Z.of_nat (length bitmap))) ≡ₚ
    t :: filter (fun t' => tile_bit bitmap t' = true)
           (seqZ 0 (32 * Z.of_nat (length bitmap)))).
  { apply NoDup_Permutation.
    - apply NoDup_filter, NoDup_seqZ.
    - apply NoDup_cons. split; [| apply NoDup_filter, NoDup_seqZ].
      rewrite list_elem_of_filter. intros [Hset _]. congruence.
    - intros x. rewrite elem_of_cons, !list_elem_of_filter, elem_of_seqZ.
      rewrite tile_bit_with_tile_bit by exact Ht.
      rewrite orb_true_iff, Z.eqb_eq. split.
      + intros [[Hx | ->] Hr]; [right; split; assumption | left; reflexivity].
      + intros [-> | [Hx Hr]]; [split; [right; reflexivity | lia] | split; [left |]; assumption]. }
  apply Permutation_length in Hperm. rewrite Hperm. cbn [length]. lia.
Qed.

Lemma tile_differs_rect (cur prev : list Z) (tx ty : Z) :
  0 <= tx < TILES_X -> 0 <= ty < TILES_Y ->
  tile_differs cur prev (ty * TILES_X + tx) <->
  exists row col, 0 <= row < 40 /\ 0 <= col < 40 /\
    elem_get cur ((ty * 40 + row) * 640 + tx * 40 + col) <>
    elem_get prev ((ty * 40 + row) * 640 + tx * 40 + col).
Proof.
  unfold tile_differs, tile_index, TILES_X, TILES_Y, MAC_SCREEN_WIDTH, MAC_SCREEN_HEIGHT,
    TILE_WIDTH, TILE_HEIGHT.
  intros Htx Hty. split.
  - intros (x & y & Hx & Hy & Ht & Hne).
    assert (y / 40 = ty /\ x / 40 = tx) as [Hy' Hx'] by (Z.div_mod_to_equations; lia).
    exists (y - ty * 40), (x - tx * 40).
    split; [Z.div_mod_to_equations; lia |]. split; [Z.div_mod_to_equations; lia |].
    replace ((ty * 40 + (y - ty * 40)) * 640 + tx * 40 + (x - tx * 40)) with (y * 640 + x)
      by lia.
    exact Hne.
  - intros (row & col & Hrow & Hcol & Hne).
    exists (tx * 40 + col), (ty * 40 + row).
    split; [lia |]. split; [lia |]. split; [Z.div_mod_to_equations; lia |].
    replace ((ty * 40 + row) * 640 + (tx * 40 + col))
      with ((ty * 40 + row) * 640 + tx * 40 + col) by lia.
    exact Hne.
Qed.

(** [detectDirtyTiles] on two frames of 640x360 bytes. *)
Lemma detectDirtyTiles_spec (st : globals) (c p : nat) (cur prev : list Z) :
  heap st !! c = Some cur -> heap st !! p = Some prev ->
  Z.of_nat (length cur) = MAC_SCREEN_WIDTH * MAC_SCREEN_HEIGHT ->
  Z.of_nat (length prev) = MAC_SCREEN_WIDTH * MAC_SCREEN_HEIGHT ->
  bytes_ok cur -> bytes_ok prev ->
  exists count st',
    detectDirtyTiles (Some c) (Some p) st = Some (count, st') /\
    (forall t, tile_bit (arrays st' dirty_tiles) t = true <->
               0 <= t < TOTAL_TILES /\ tile_differs cur prev t) /\
    count = bitmap_popcount (arrays st' dirty_tiles) /\
    (cur = prev -> count = 0) /\
    length (arrays st' dirty_tiles) = Z.to_nat BITMAP_WORDS /\
    flags st' = flags st /\ words st' = words st /\ pointers st' = pointers st /\
    heap st' = heap st /\ display st' = display st /\
    (forall a, a <> dirty_tiles -> arrays st' a = arrays st a).
Proof.
  intros Hcur Hprev Hlc Hlp Hbc Hbp.
  rewrite detectDirtyTiles_unfold. run_M.
  unfold deref at 1. cbn [heap set_arrays]. rewrite Hcur. run_M.
  unfold deref at 1. cbn [heap set_arrays]. rewrite Hprev. run_M.
  set (st0 := set_arrays (<[dirty_tiles := replicate (Z.to_nat BITMAP_WORDS) 0]> (arrays st)) st).
  set (I := fun (n count : Z) (s : globals) =>
              flags s = flags st /\ words s = words st /\ pointers s = pointers st /\
              heap s = heap st /\ display s = display st /\
              (forall a, a <> dirty_tiles -> arrays s a = arrays st a) /\
              length (arrays s dirty_tiles) = Z.to_nat BITMAP_WORDS /\
              (forall t, tile_bit (arrays s dirty_tiles) t = true <->
                         0 <= t < n /\ tile_differs cur prev t) /\
              count = bitmap_popcount (arrays s dirty_tiles)).
  assert (H0 : I 0 0 st0).
  { unfold I, st0. cbn [flags words pointers heap display arrays set_arrays]. fn_simpl.
    repeat split; try (rewrite ?length_replicate; reflexivity).
    - intros a Ha. rewrite fn_lookup_insert_ne by congruence. reflexivity.
    - rewrite tile_bit_zeros in H. discriminate H.
    - rewrite tile_bit_zeros in H. discriminate H.
    - rewrite tile_bit_zeros in H. discriminate H.
    - intros [Ht _]. lia. }
  destruct (for_loop_M_rule (fun ty count s => 0 <= ty <= TILES_Y /\ I (TILES_X * ty) count s)
    (Z.to_nat TILES_Y) 0 TILES_Y 1
    (fun ty count =>
       '(_, count) ← for_loop_M (Z.to_nat TILES_X) 0 TILES_X 1
         (fun tx count =>
            '(_, is_dirty) ← defined (tile_scan cur prev tx ty);
            if is_dirty : bool
            then atomic_or_fetch dirty_tiles ((ty * TILES_X + tx) / 32)
                   (Z.shiftl 1 ((ty * TILES_X + tx) mod 32));;
                 mret (count + 1)
            else mret count)
         count;
       mret count)
    0 st0) as (x' & count & s' & Hrun & (Hx' & HI) & Hb & _).
  - lia.
  - unfold TILES_Y. lia.
  - split; [unfold TILES_Y; lia | exact H0].
  - intros ty count s Hty (_ & Hs). rewrite bind_run.
    destruct (for_loop_M_rule
      (fun tx count s => 0 <= tx <= TILES_X /\ I (TILES_X * ty + tx) count s)
      (Z.to_nat TILES_X) 0 TILES_X 1
      (fun tx count =>
         '(_, is_dirty) ← defined (tile_scan cur prev tx ty);
         if is_dirty : bool
         then atomic_or_fetch dirty_tiles ((ty * TILES_X + tx) / 32)
                (Z.shiftl 1 ((ty * TILES_X + tx) mod 32));;
              mret (count + 1)
         else mret count)
      count s) as (x1 & count1 & s1 & Hrun1 & (Hx1 & HI1) & Hb1 & _).
    + lia.
    + unfold TILES_X. lia.
    + split; [unfold TILES_X; lia |]. rewrite Z.add_0_r. exact Hs.
    + intros tx cnt s2 Htx (_ & Hf & Hw & Hp & Hh & Hd & Ha & Hl & Hbits & Hcnt).
      destruct (tile_scan_spec cur prev tx ty Hlc Hlp Hbc Hbp Htx Hty)
        as (x & b & Hscan & Hb').
      rewrite <- (tile_differs_rect cur prev tx ty Htx Hty) in Hb'.
      rewrite bind_run, Hscan. cbn [defined]. unfold TILES_X, TILES_Y in *.
      change (Z.to_nat BITMAP_WORDS) with 5%nat in *.
      assert (Hclear : tile_bit (arrays s2 dirty_tiles) (ty * 16 + tx) = false).
      { destruct (tile_bit (arrays s2 dirty_tiles) (ty * 16 + tx)) eqn:Hset; [| reflexivity].
        apply Hbits in Hset. lia. }
      destruct b.
      * rewrite bind_run, atomic_or_fetch_tile by (rewrite Hl; lia). run_M.
        eexists _, _. split; [reflexivity |]. split; [lia |].
        unfold I. cbn [flags words pointers heap display arrays set_arrays]. fn_simpl.
        split; [exact Hf |]. split; [exact Hw |]. split; [exact Hp |].
        split; [exact Hh |]. split; [exact Hd |].
        split; [intros a Hne; rewrite fn_lookup_insert_ne by congruence; apply Ha, Hne |].
        split; [rewrite length_with_tile_bit; exact Hl |].
        split.
        -- intros t. rewrite tile_bit_with_tile_bit by (rewrite Hl; lia).
           rewrite orb_true_iff, Z.eqb_eq, Hbits. split.
           ++ intros [[Ht Hdiff] | ->]; [split; [lia | exact Hdiff] |].
              split; [lia |]. apply Hb'. reflexivity.
           ++ intros [Ht Hdiff].
              destruct (decide (t = ty * 16 + tx)) as [-> | Hne]; [right; reflexivity |].
              left. split; [lia | exact Hdiff].
        -- rewrite bitmap_popcount_with_tile_bit by (rewrite ?Hl; (lia || exact Hclear)).
           lia.
      * run_M. eexists _, _. split; [reflexivity |]. split; [lia |].
        unfold I. repeat (split; [assumption |]). split; [| exact Hcnt].
        intros t. rewrite Hbits. split.
        -- intros [Ht Hdiff]. split; [lia | exact Hdiff].
        -- intros [Ht Hdiff]. split; [| exact Hdiff].
           destruct (decide (t = ty * 16 + tx)) as [-> | Hne]; [| lia].
           apply Hb' in Hdiff. discriminate Hdiff.
    + rewrite Hrun1. run_M. exists count1, s1. split; [reflexivity |].
      split; [lia |]. assert (x1 = TILES_X) as -> by lia.
      replace (TILES_X * (ty + 1)) with (TILES_X * ty + TILES_X) by lia. exact HI1.
  - rewrite Hrun. run_M. exists count, s'. split; [reflexivity |].
    assert (x' = TILES_Y) as -> by lia.
    destruct HI as (Hf & Hw & Hp & Hh & Hd & Ha & Hl & Hbits & Hcnt).
    split; [exact Hbits |]. split; [exact Hcnt |].
    split; [| repeat split; assumption].
    intros ->. rewrite Hcnt, bitmap_popcount_tiles.
    destruct (filter _ _) as [| t ts] eqn:Hfil; [reflexivity |].
    assert (Hin : t ∈ filter (fun t => tile_bit (arrays s' dirty_tiles) t = true)
                        (seqZ 0 (32 * Z.of_nat (length (arrays s' dirty_tiles)))))
      by (rewrite Hfil; left).
    apply list_elem_of_filter in Hin as [Hset _].
    apply Hbits in Hset as [_ (x & y & _ & _ & _ & Hne)].
    exfalso. apply Hne. reflexivity.
Qed.

(** X19. [detectDirtyTiles] on two frames of 640x360 bytes is
    defined, clears the bitmap and then sets the bit of a tile exactly when
    some byte of the tile differs between the frames; it returns the number
    of bits set, 0 for equal frames, and changes nothing but the bitmap. *)
Theorem detectDirtyTiles_changed_tiles (st : globals) (c p : nat) (cur prev : list Z) :
  heap st !! c = Some cur -> heap st !! p = Some prev ->
  Z.of_nat (length cur) = MAC_SCREEN_WIDTH * MAC_SCREEN_HEIGHT ->
  Z.of_nat (length prev) = MAC_SCREEN_WIDTH * MAC_SCREEN_HEIGHT ->
  bytes_ok cur -> bytes_ok prev ->
  exists count st',
    detectDirtyTiles (Some c) (Some p) st = Some (count, st') /\
    (forall t, tile_bit (arrays st' dirty_tiles) t = true <->
               0 <= t < TOTAL_TILES /\ tile_differs cur prev t) /\
    count = bitmap_popcount (arrays st' dirty_tiles) /\
    (cur = prev -> count = 0) /\
    flags st' = flags st /\ words st' = words st /\ pointers st' = pointers st /\
    heap st' = heap st /\ display st' = display st /\
    (forall a, a <> dirty_tiles -> arrays st' a = arrays st a).
Proof.
  intros Hcur Hprev Hlc Hlp Hbc Hbp.
  destruct (detectDirtyTiles_spec st c p cur prev Hcur Hprev Hlc Hlp Hbc Hbp)
    as (count & st' & Hrun & Hbits & Hcount & Hsame & _ & Hframe).
  exists count, st'. auto.
Qed.

Lemma detectDirtyTiles_changed_tiles_witness :
  exists st', detectDirtyTiles (Some 0%nat) (Some 0%nat) allocated_globals = Some (0, st').
Proof.
  destruct allocated_globals_mac as (_ & _ & Hm & _).
  destruct (detectDirtyTiles_changed_tiles allocated_globals 0 0 _ _ Hm Hm)
    as (count & st' & Hrun & _ & _ & Hsame & _).
  - rewrite length_replicate. apply Z2Nat.id. unfold MAC_SCREEN_WIDTH, MAC_SCREEN_HEIGHT. lia.
  - rewrite length_replicate. apply Z2Nat.id. unfold MAC_SCREEN_WIDTH, MAC_SCREEN_HEIGHT. lia.
  - apply bytes_ok_replicate. lia.
  - apply bytes_ok_replicate. lia.
  - exists st'. rewrite Hrun, (Hsame eq_refl). reflexivity.
Defined.

(** The detection phase of a pass in comparison mode: the frame is copied
    into the snapshot buffer, compared with the compare buffer, and the two
    buffers change roles. *)
Lemma detect_phase_compare (rd : readings) (st : globals) (m s c : nat)
    (cur snap prev : list Z) :
  flags st force_full_update = false ->
  flags st use_write_dirty_tracking = false ->
  pointers st mac_frame_buffer = Some m ->
  pointers st snapshot_buffer = Some s ->
  pointers st compare_buffer = Some c ->
  s <> c ->
  heap st !! m = Some cur -> heap st !! s = Some snap -> heap st !! c = Some prev ->
  words st frame_buffer_size = MAC_SCREEN_WIDTH * MAC_SCREEN_HEIGHT ->
  Z.of_nat (length cur) = MAC_SCREEN_WIDTH * MAC_SCREEN_HEIGHT ->
  Z.of_nat (length snap) = MAC_SCREEN_WIDTH * MAC_SCREEN_HEIGHT ->
  Z.of_nat (length prev) = MAC_SCREEN_WIDTH * MAC_SCREEN_HEIGHT ->
  bytes_ok cur -> bytes_ok prev ->
  exists st',
    detect_phase rd st =
      Some (dirty_threshold <? bitmap_popcount (arrays st' dirty_tiles), st') /\
    words st' dirty_tile_count = bitmap_popcount (arrays st' dirty_tiles) /\
    (forall t, tile_bit (arrays st' dirty_tiles) t = true <->
               0 <= t < TOTAL_TILES /\ tile_differs cur prev t) /\
    (cur = prev -> bitmap_popcount (arrays st' dirty_tiles) = 0) /\
    (pointers st' mac_frame_buffer = Some m /\ pointers st' snapshot_buffer = Some c /\
     pointers st' compare_buffer = Some s /\
     pointers st' dsi_framebuffer = pointers st dsi_framebuffer) /\
    heap st' = <[s := cur]> (heap st) /\
    flags st' = flags st /\ display st' = display st /\
    words st' frame_buffer_size = MAC_SCREEN_WIDTH * MAC_SCREEN_HEIGHT.
Proof.
  intros Hforce Htrack Pm Ps Pc Hsc Hm Hs Hc Hfb Hlc Hls Hlp Hbc Hbp.
  destruct st as [f0 w0 a0 p0 h0 d0].
  cbn [flags words arrays pointers heap display] in *.
  unfold detect_phase, takeFrameSnapshot, swapBuffers, perf_add. run_M.
  rewrite Hforce, Htrack. cbn [negb andb]. run_M. rewrite Ps, Pm.
  unfold deref at 1. cbn [heap]. rewrite Hs. run_M.
  unfold deref at 1. cbn [heap]. rewrite Hm. run_M.
  assert (Hcopy : memcpy snap 0 cur 0 (w0 frame_buffer_size) = Some cur).
  { unfold memcpy. rewrite decide_True by lia. f_equal.
    change (Z.to_nat 0) with 0%nat. rewrite take_0, drop_0, Z.add_0_l.
    rewrite take_ge by lia. rewrite drop_ge by lia. rewrite app_nil_r. reflexivity. }
  rewrite Hcopy. run_M. unfold store at 1. cbn [heap]. rewrite Hs. run_M.
  fn_simpl. rewrite Ps, Pc.
  match goal with |- context [detectDirtyTiles _ _ ?s0] =>
    destruct (detectDirtyTiles_spec s0 s c cur prev)
      as (count & st1 & Hrun & Hbits & Hcount & Hsame & _ & Hf & Hw & Hp & Hh & Hd & _)
  end; try assumption.
  { cbn [heap set_heap set_words]. apply lookup_insert_eq. }
  { cbn [heap set_heap set_words]. rewrite lookup_insert_ne by congruence. exact Hc. }
  rewrite Hrun. run_M. rewrite Hw, Hp. cbn [words pointers set_words set_heap]. fn_simpl.
  rewrite Pc, Ps.
  match goal with |- context [mret _ ?S] => exists S end.
  cbn [flags words arrays pointers heap display set_words set_pointers]. fn_simpl.
  split; [rewrite <- Hcount; destruct (dirty_threshold <? count); reflexivity |].
  rewrite Hf, Hh, Hd. cbn [flags heap display set_words set_heap].
  split; [exact Hcount |]. split; [exact Hbits |].
  split; [intros Heq; rewrite <- Hcount; apply Hsame, Heq |].
  split; [repeat split; exact Pm |]. repeat split. exact Hfb.
Qed.

(** X20. In comparison mode (write tracking off, no update forced)
    the detection phase of a pass flags exactly the tiles that differ
    between the Mac framebuffer and the frame the previous pass saw, held in
    the compare buffer; it then swaps the snapshot and compare buffers, so
    that the frame just seen is the next reference: a second detection phase
    over an unchanged framebuffer finds no dirty tile. *)
Theorem compare_mode_tracks_last_frame (rd rd' : readings) (st : globals) (m s c : nat)
    (cur snap prev : list Z) :
  flags st force_full_update = false ->
  flags st use_write_dirty_tracking = false ->
  pointers st mac_frame_buffer = Some m ->
  pointers st snapshot_buffer = Some s ->
  pointers st compare_buffer = Some c ->
  s <> c ->
  heap st !! m = Some cur -> heap st !! s = Some snap -> heap st !! c = Some prev ->
  words st frame_buffer_size = MAC_SCREEN_WIDTH * MAC_SCREEN_HEIGHT ->
  Z.of_nat (length cur) = MAC_SCREEN_WIDTH * MAC_SCREEN_HEIGHT ->
  Z.of_nat (length snap) = MAC_SCREEN_WIDTH * MAC_SCREEN_HEIGHT ->
  Z.of_nat (length prev) = MAC_SCREEN_WIDTH * MAC_SCREEN_HEIGHT ->
  bytes_ok cur -> bytes_ok prev ->
  exists st1 st2,
    detect_phase rd st = Some (dirty_threshold <? words st1 dirty_tile_count, st1) /\
    words st1 dirty_tile_count = bitmap_popcount (arrays st1 dirty_tiles) /\
    (forall t, tile_bit (arrays st1 dirty_tiles) t = true <->
               0 <= t < TOTAL_TILES /\ tile_differs cur prev t) /\
    pointers st1 snapshot_buffer = Some c /\
    pointers st1 compare_buffer = Some s /\
    heap st1 = <[s := cur]> (heap st) /\
    display st1 = display st /\
    detect_phase rd' st1 = Some (false, st2) /\
    words st2 dirty_tile_count = 0.
Proof.
  intros Hforce Htrack Pm Ps Pc Hsc Hm Hs Hc Hfb Hlc Hls Hlp Hbc Hbp.
  destruct (detect_phase_compare rd st m s c cur snap prev)
    as (st1 & Hrun & Hcnt & Hbits & _ & (Pm1 & Ps1 & Pc1 & _) & Hheap & Hflags & Hdisp & Hfb1);
    try assumption.
  assert (Hm1 : heap st1 !! m = Some cur).
  { rewrite Hheap. destruct (decide (m = s)) as [-> | Hne];
      [apply lookup_insert_eq | rewrite lookup_insert_ne by congruence; exact Hm]. }
  destruct (detect_phase_compare rd' st1 m c s cur prev cur)
    as (st2 & Hrun2 & Hcnt2 & _ & Hzero & _);
    try assumption; try congruence.
  { rewrite Hheap, lookup_insert_ne by congruence. exact Hc. }
  { rewrite Hheap. apply lookup_insert_eq. }
  rewrite <- Hcnt in Hrun. rewrite (Hzero eq_refl) in Hrun2, Hcnt2.
  exists st1, st2. repeat (split; [assumption |]). exact Hcnt2.
Qed.

Lemma compare_globals_ok :
  flags compare_globals force_full_update = false /\
  flags compare_globals use_write_dirty_tracking = false /\
  pointers compare_globals mac_frame_buffer = Some 0%nat /\
  pointers compare_globals snapshot_buffer = Some 2%nat /\
  pointers compare_globals compare_buffer = Some 3%nat /\
  heap compare_globals !! 0%nat = Some gray_frame /\
  heap compare_globals !! 2%nat = Some gray_frame /\
  heap compare_globals !! 3%nat = Some gray_frame /\
  words compare_globals frame_buffer_size = MAC_SCREEN_WIDTH * MAC_SCREEN_HEIGHT.
Proof.
  destruct allocated_globals_mac as (Pm & _ & Hm & _).
  unfold compare_globals.
  cbn [flags pointers heap words set_flags set_heap set_pointers]. fn_simpl.
  rewrite !(lookup_insert_ne _ _ 0%nat) by discriminate.
  rewrite (lookup_insert_ne _ 3%nat 2%nat) by discriminate.
  rewrite !lookup_insert_eq.
  split; [reflexivity |]. split; [reflexivity |]. split; [exact Pm |].
  split; [reflexivity |]. split; [reflexivity |]. split; [exact Hm |].
  split; [reflexivity |]. split; [reflexivity |].
  unfold allocated_globals, ready_globals.
  cbn [words set_heap set_pointers set_words]. fn_simpl. reflexivity.
Qed.

Lemma compare_mode_tracks_last_frame_witness :
  exists st1 st2,
    detect_phase late_wake compare_globals = Some (false, st1) /\
    detect_phase late_wake st1 = Some (false, st2).
Proof.
  destruct compare_globals_ok as (Hf & Ht & Pm & Ps & Pc & Hm & Hs & Hc & Hfb).
  assert (Hlen : Z.of_nat (length gray_frame) = MAC_SCREEN_WIDTH * MAC_SCREEN_HEIGHT).
  { unfold gray_frame. rewrite length_replicate. apply Z2Nat.id.
    unfold MAC_SCREEN_WIDTH, MAC_SCREEN_HEIGHT. lia. }
  assert (Hbytes : bytes_ok gray_frame) by (apply bytes_ok_replicate; lia).
  assert (Hne : 2%nat <> 3%nat) by discriminate.
  destruct (compare_mode_tracks_last_frame late_wake late_wake compare_globals
              0%nat 2%nat 3%nat gray_frame gray_frame gray_frame
              Hf Ht Pm Ps Pc Hne Hm Hs Hc Hfb Hlen Hlen Hlen Hbytes Hbytes)
    as (st1 & st2 & Hrun1 & Hcnt & Hbits & _ & _ & _ & _ & Hrun2 & _).
  exists st1, st2. split; [| exact Hrun2].
  rewrite Hrun1. do 2 f_equal.
  assert (Hzero : bitmap_popcount (arrays st1 dirty_tiles) = 0).
  { rewrite bitmap_popcount_tiles.
    destruct (filter _ _) as [| t ts] eqn:Hfil; [reflexivity |].
    assert (Hin : t ∈ filter (fun t => tile_bit (arrays st1 dirty_tiles) t = true)
                        (seqZ 0 (32 * Z.of_nat (length (arrays st1 dirty_tiles)))))
      by (rewrite Hfil; left).
    apply list_elem_of_filter in Hin as [Hset _].
    apply Hbits in Hset as [_ (x & y & _ & _ & _ & Hne')].
    exfalso. apply Hne'. reflexivity. }
  rewrite Hcnt, Hzero. reflexivity.
Defined.
(** * Marks that land during a drain *)

Lemma for_loop_M_step {L : Type} (fuel : nat) (x bound step : Z) (body : Z -> L -> M L)
    (l : L) (st : globals) :
  for_loop_M (S fuel) x bound step body l st =
    if x <? bound
    then match body x l st with
         | Some (l', st') => for_loop_M fuel (x + step) bound step body l' st'
         | None => None
         end
    else Some ((x, l), st).
Proof.
  unfold for_loop_M. cbn [for_loop]. destruct (x <? bound); [| reflexivity].
  destruct (body x l st) as [[l' st'] |]; reflexivity.
Qed.

(** Without marks in between, the word-by-word drain is the loop of
    [collectWriteDirtyTiles]. *)
Lemma collect_interleaved_loop (n : nat) (i count : Z) (st : globals) :
  collect_interleaved (replicate n []) i count st =
    match for_loop_M n i (i + Z.of_nat n) 1 collect_word count st with
    | Some ((_, c), s) => Some (c, s)
    | None => None
    end.
Proof.
  revert i count st. induction n as [| n IH]; intros i count st.
  - cbn [replicate collect_interleaved]. unfold for_loop_M. cbn [for_loop].
    destruct (Z.ltb_spec i (i + Z.of_nat 0)); [lia | reflexivity].
  - cbn [replicate collect_interleaved run_calls]. rewrite for_loop_M_step.
    destruct (Z.ltb_spec i (i + Z.of_nat (S n))); [| lia].
    rewrite !bind_run. cbn [mret M_ret]. rewrite bind_run.
    destruct (collect_word i count st) as [[c s] |]; [| reflexivity].
    rewrite IH. replace (i + 1 + Z.of_nat n) with (i + Z.of_nat (S n)) by lia.
    reflexivity.
Qed.

Lemma collectWriteDirtyTiles_words (st : globals) :
  collect_interleaved [[]; []; []; []; []] 0 0 st = collectWriteDirtyTiles st.
Proof.
  change [[]; []; []; []; []] with (replicate 5 (@nil tracker_call)).
  rewrite collect_interleaved_loop. unfold collectWriteDirtyTiles. rewrite bind_run.
  change (0 + Z.of_nat 5) with BITMAP_WORDS. change (Z.to_nat BITMAP_WORDS) with 5%nat.
  change (fun i count : Z =>
            bits ← atomic_exchange_n write_dirty_tiles i 0;
            dt ← array_get dirty_tiles;
            dt' ← defined (elem_set dt i bits);
            array_set dirty_tiles dt';;
            defined (popcount_loop 32 bits count)) with collect_word.
  destruct (for_loop_M 5 0 BITMAP_WORDS 1 collect_word 0 st) as [[[x c] s] |]; reflexivity.
Qed.

Lemma slot_tiles_app (tracking : bool) (fb_size : Z) (s1 s2 : list (list tracker_call)) :
  slot_tiles tracking fb_size (s1 ++ s2) =
    slot_tiles tracking fb_size s1 ++ slot_tiles tracking fb_size s2.
Proof. unfold slot_tiles. apply bind_app. Qed.

Lemma slot_tiles_one (tracking : bool) (fb_size : Z) (cs : list tracker_call) :
  slot_tiles tracking fb_size [cs] = cs ≫= marked_tiles tracking fb_size.
Proof. unfold slot_tiles. rewrite bind_cons. cbn [mbind list_bind]. apply app_nil_r. Qed.

Lemma elem_of_slot_tiles (tracking : bool) (fb_size : Z) (slots : list (list tracker_call))
    (t : Z) :
  t ∈ slot_tiles tracking fb_size slots <->
  exists cs c, cs ∈ slots /\ c ∈ cs /\ t ∈ marked_tiles tracking fb_size c.
Proof.
  unfold slot_tiles. rewrite list_elem_of_bind. split.
  - intros (cs & Ht & Hcs). apply list_elem_of_bind in Ht as (c & Ht & Hc). eauto.
  - intros (cs & c & Hcs & Hc & Ht). exists cs. split; [| exact Hcs].
    apply list_elem_of_bind. eauto.
Qed.

Lemma tile_bit_insert (l : list Z) (i v t : Z) :
  0 <= i < Z.of_nat (length l) ->
  tile_bit (<[Z.to_nat i := v]> l) t =
    if decide (t / 32 = i) then Z.testbit v (t mod 32) else tile_bit l t.
Proof.
  intros Hi. unfold tile_bit. rewrite elem_get_insert by exact Hi.
  case_decide; reflexivity.
Qed.

(** The marks of one slot. *)
Lemma slot_marks_run (cs : list tracker_call) (s : globals) :
  tracker_ok s -> Forall call_ok cs -> Forall (fun c => c <> Drain) cs ->
  exists s',
    run_calls cs s = Some (tt, s') /\ tracker_ok s' /\ tracker_frame s s' /\
    arrays s' dirty_tiles = arrays s dirty_tiles /\
    forall t, tile_bit (arrays s' write_dirty_tiles) t = true <->
      tile_bit (arrays s write_dirty_tiles) t = true \/
      t ∈ cs ≫= marked_tiles (flags s use_write_dirty_tracking) (words s frame_buffer_size).
Proof.
  intros Hok Hcs Hmarks.
  pose proof (mark_all_frame (cs ≫= marked_tiles (flags s use_write_dirty_tracking)
                                     (words s frame_buffer_size)) s)
    as (Hf & Hw & Hp & Hh & Hd & Ha).
  eexists. split; [apply run_calls_marks; assumption |].
  split; [apply mark_all_ok; exact Hok |].
  split; [repeat split; try assumption; intros a Ha1 _; apply Ha, Ha1 |].
  split; [apply Ha; discriminate |].
  intros t. rewrite mark_all_tile_bit.
  - rewrite orb_true_iff, bool_decide_eq_true. reflexivity.
  - exact Hok.
  - apply marked_tiles_bind_valid; [| exact Hcs]. destruct Hok as (_ & _ & Hfb & _). lia.
Qed.

(** One exchange of the drain. *)
Lemma collect_word_run (i count : Z) (s : globals) :
  tracker_ok s -> 0 <= i < BITMAP_WORDS ->
  exists bits s',
    arrays s write_dirty_tiles !! Z.to_nat i = Some bits /\
    collect_word i count s = Some (count + popcount bits, s') /\
    arrays s' write_dirty_tiles = <[Z.to_nat i := 0]> (arrays s write_dirty_tiles) /\
    arrays s' dirty_tiles = <[Z.to_nat i := bits]> (arrays s dirty_tiles) /\
    tracker_frame s s' /\ tracker_ok s'.
Proof.
  intros (Hl1 & Hl2 & Hfb & Hall) Hi.
  change (Z.to_nat BITMAP_WORDS) with 5%nat in *. change BITMAP_WORDS with 5 in Hi.
  destruct (lookup_lt_is_Some_2 (arrays s write_dirty_tiles) (Z.to_nat i)) as [w Hw]; [lia |].
  assert (Hwr : 0 <= w < 2 ^ 32).
  { rewrite Forall_lookup in Hall. exact (Hall _ _ Hw). }
  exists w. unfold collect_word, atomic_exchange_n. rewrite !bind_run. unfold array_get at 1.
  rewrite elem_get_lookup, Hw by lia. cbn [defined].
  rewrite elem_set_eq by lia. run_M.
  rewrite fn_lookup_insert_ne by discriminate.
  rewrite elem_set_eq by lia. run_M.
  rewrite popcount_loop_spec by exact Hwr. run_M.
  eexists. split; [reflexivity |]. split; [reflexivity |].
  cbn [arrays set_arrays flags words pointers heap display].
  rewrite fn_lookup_insert, fn_lookup_insert_ne, fn_lookup_insert by discriminate.
  split; [reflexivity |]. split; [reflexivity |]. split.
  - repeat split. intros a Ha1 Ha2. cbn [arrays set_arrays].
    rewrite !fn_lookup_insert_ne by congruence. reflexivity.
  - unfold tracker_ok. cbn [arrays set_arrays words].
    rewrite fn_lookup_insert, fn_lookup_insert_ne, fn_lookup_insert by discriminate.
    rewrite !length_insert. change (Z.to_nat BITMAP_WORDS) with 5%nat.
    repeat split; try assumption; try lia.
    apply Forall_insert; [exact Hall | lia].
Qed.

Lemma tracker_frame_trans (s1 s2 s3 : globals) :
  tracker_frame s1 s2 -> tracker_frame s2 s3 -> tracker_frame s1 s3.
Proof.
  intros (Hf & Hw & Hp & Hh & Hd & Ha) (Hf' & Hw' & Hp' & Hh' & Hd' & Ha').
  repeat split; try congruence. intros a H1 H2. rewrite Ha', Ha by assumption. reflexivity.
Qed.

Lemma drain_inv_step (st0 : globals) (done : list (list tracker_call))
    (cs : list tracker_call) (s : globals) (count : Z) :
  (length done < 5)%nat ->
  Forall call_ok cs -> Forall (fun c => c <> Drain) cs ->
  drain_inv st0 done s count ->
  exists count' s',
    (run_calls cs;; collect_word (Z.of_nat (length done)) count) s = Some (count', s') /\
    drain_inv st0 (done ++ [cs]) s' count'.
Proof.
  intros Hlen Hcs Hmarks (Hok & Hfr & Hbits & Hcount).
  destruct (slot_marks_run cs s Hok Hcs Hmarks) as (s1 & Hrun1 & Hok1 & Hfr1 & Hd1 & Hb1).
  destruct (collect_word_run (Z.of_nat (length done)) count s1 Hok1)
    as (bits & s2 & Hbits2 & Hrun2 & Hw2 & Hd2 & Hfr2 & Hok2);
    [change BITMAP_WORDS with 5; lia |].
  rewrite bind_run, Hrun1, Hrun2. eexists _, s2. split; [reflexivity |].
  pose proof Hfr as (Hf0 & Hw0 & _).
  rewrite Hf0, Hw0 in Hb1.
  destruct Hok as (Hl1 & Hl2 & _). destruct Hok1 as (Hl1' & Hl2' & _ & _).
  change (Z.to_nat BITMAP_WORDS) with 5%nat in *.
  split; [exact Hok2 |].
  split; [exact (tracker_frame_trans _ _ _ Hfr (tracker_frame_trans _ _ _ Hfr1 Hfr2)) |].
  split.
  - intros t Ht. change BITMAP_WORDS with 5 in Ht.
    assert (Hq : 0 <= t / 32) by (apply Z.div_pos; lia).
    rewrite length_app. cbn [length].
    rewrite Hw2, Hd2, !tile_bit_insert by lia.
    specialize (Hbits t Ht). destruct Hbits as (Hdone & Hlater).
    split.
    + intros Hword. destruct (decide (t / 32 = Z.of_nat (length done))) as [Heq | Hne].
      * (* the word exchanged now *)
        rewrite Z.bits_0.
        replace (S (Z.to_nat (t / 32))) with (length (done ++ [cs]))
          by (rewrite length_app; cbn [length]; lia).
        rewrite take_ge, drop_ge by lia. split.
        -- assert (Hbit : Z.testbit bits (t mod 32) =
                          tile_bit (arrays s1 write_dirty_tiles) t).
           { unfold tile_bit. rewrite elem_get_lookup by lia.
             rewrite Heq, Hbits2. reflexivity. }
           rewrite Hbit, Hb1, (Hlater ltac:(lia)), slot_tiles_app, slot_tiles_one, elem_of_app.
           tauto.
        -- split; [discriminate |]. unfold slot_tiles. cbn [mbind list_bind].
           intros Hin. apply elem_of_nil in Hin. contradiction.
      * (* a word exchanged earlier *)
        assert (Hearly : t / 32 < Z.of_nat (length done)) by lia.
        destruct (Hdone Hearly) as (Hrep & Hpend).
        rewrite take_app_le, drop_app_le by lia.
        rewrite Hd1. split; [exact Hrep |].
        rewrite Hb1, Hpend, slot_tiles_app, slot_tiles_one, elem_of_app. reflexivity.
    + intros Hword. rewrite decide_False by lia.
      rewrite Hb1, (Hlater ltac:(lia)), slot_tiles_app, slot_tiles_one, elem_of_app. tauto.
  - rewrite length_app. cbn [length]. rewrite Hd2, Nat2Z.id. rewrite Nat2Z.id in Hbits2.
    replace (length done + 1)%nat with (S (length done)) by lia.
    rewrite (take_S_r _ _ bits) by (apply list_lookup_insert_eq; lia).
    rewrite take_insert_ge by lia. rewrite bitmap_popcount_snoc, Hd1. congruence.
Qed.

Lemma collect_interleaved_inv (st0 : globals) (slots done : list (list tracker_call))
    (s : globals) (count : Z) :
  (length done + length slots = 5)%nat ->
  Forall (Forall call_ok) slots -> Forall (Forall (fun c => c <> Drain)) slots ->
  drain_inv st0 done s count ->
  exists count' s',
    collect_interleaved slots (Z.of_nat (length done)) count s = Some (count', s') /\
    drain_inv st0 (done ++ slots) s' count'.
Proof.
  revert done s count. induction slots as [| cs slots IH]; intros done s count Hlen Hok Hm Hinv.
  - exists count, s. rewrite app_nil_r. split; [reflexivity | exact Hinv].
  - apply Forall_cons in Hok as [Hcs Hok]. apply Forall_cons in Hm as [Hcm Hm].
    cbn [length] in Hlen.
    destruct (drain_inv_step st0 done cs s count ltac:(lia) Hcs Hcm Hinv)
      as (c1 & s1 & Hrun & Hinv1).
    destruct (IH (done ++ [cs]) s1 c1) as (c2 & s2 & Hrun2 & Hinv2);
      [rewrite length_app; cbn [length]; lia | assumption | assumption | exact Hinv1 |].
    exists c2, s2. rewrite <- app_assoc in Hinv2. split; [| exact Hinv2].
    rewrite length_app, Nat2Z.inj_add in Hrun2. cbn [length] in Hrun2.
    cbn [collect_interleaved]. rewrite bind_run in Hrun |- *.
    destruct (run_calls cs s) as [[[] s0] |]; [| discriminate Hrun].
    rewrite bind_run, Hrun. exact Hrun2.
Qed.

(** A drain with marks in between: what it reports, what it leaves pending
    and what it returns. *)
Lemma collect_interleaved_spec (st : globals) (slots : list (list tracker_call)) :
  tracker_ok st -> length slots = Z.to_nat BITMAP_WORDS ->
  Forall (Forall call_ok) slots -> Forall (Forall (fun c => c <> Drain)) slots ->
  let tiles := slot_tiles (flags st use_write_dirty_tracking) (words st frame_buffer_size) in
  exists count st',
    collect_interleaved slots 0 0 st = Some (count, st') /\
    tracker_ok st' /\ tracker_frame st st' /\
    count = bitmap_popcount (arrays st' dirty_tiles) /\
    forall t, 0 <= t < TOTAL_TILES ->
      (tile_bit (arrays st' dirty_tiles) t = true <->
         tile_bit (arrays st write_dirty_tiles) t = true \/
         t ∈ tiles (take (S (Z.to_nat (t / 32))) slots)) /\
      (tile_bit (arrays st' write_dirty_tiles) t = true <->
         t ∈ tiles (drop (S (Z.to_nat (t / 32))) slots)).
Proof.
  intros Hok Hlen Hcs Hm tiles. change (Z.to_nat BITMAP_WORDS) with 5%nat in Hlen.
  destruct (collect_interleaved_inv st slots [] st 0) as (count & st' & Hrun & Hinv);
    try assumption.
  { split; [exact Hok |]. split; [repeat split |]. split; [| reflexivity].
    intros t Ht. cbn [length]. split.
    { intros Hneg. pose proof (Z.div_pos t 32 ltac:(lia) ltac:(lia)). lia. }
    intros _.
    unfold slot_tiles. cbn [mbind list_bind]. rewrite elem_of_nil. tauto. }
  cbn [app length] in Hrun, Hinv. destruct Hinv as (Hok' & Hfr & Hbits & Hcount).
  exists count, st'. split; [exact Hrun |]. split; [exact Hok' |]. split; [exact Hfr |].
  split.
  - rewrite Hcount, take_ge; [reflexivity |]. destruct Hok' as (_ & Hl & _).
    rewrite Hl, Hlen. change (Z.to_nat BITMAP_WORDS) with 5%nat. lia.
  - intros t Ht. change TOTAL_TILES with 144 in Ht.
    apply Hbits; [change BITMAP_WORDS with 5; lia |].
    rewrite Hlen. Z.div_mod_to_equations. lia.
Qed.

(** A range call is its two marks, one after the other: a drain exchange
    that falls between them is a schedule with the two offset calls in
    different slots. *)
Lemma VideoMarkDirtyRange_two_marks (st : globals) (offset size : Z) :
  tracker_ok st -> 0 <= offset < words st frame_buffer_size ->
  VideoMarkDirtyRange offset size st =
    run_calls
      (MarkDirtyOffset offset ::
       if 1 <? clamp_size (words st frame_buffer_size) offset size
       then [MarkDirtyOffset
               (wrap32 (offset + clamp_size (words st frame_buffer_size) offset size - 1))]
       else [])
      st.
Proof.
  intros Hok Hoff.
  rewrite (VideoMarkDirtyRange_mark_all st offset size Hok ltac:(lia)).
  pose proof Hok as (_ & _ & Hfb & _). revert Hfb.
  unfold MAC_SCREEN_WIDTH, MAC_SCREEN_HEIGHT. intros Hfb.
  rewrite run_calls_marks; [| exact Hok | |].
  - do 3 f_equal. unfold marked_tiles, offset_tiles.
    destruct (1 <? _); cbn [mbind list_bind app];
      destruct (negb (flags st use_write_dirty_tracking)); try reflexivity;
      destruct (Z.leb_spec (words st frame_buffer_size) offset); try lia;
      cbn [app]; try reflexivity.
    destruct (_ <=? _); reflexivity.
  - destruct (1 <? _); repeat constructor; cbn [call_ok];
      try (change (2 ^ 32) with 4294967296; lia); apply wrap32_range.
  - destruct (1 <? _); repeat constructor; discriminate.
Qed.

Lemma bool_decide_of_iff (b : bool) (P : Prop) `{!Decision P} :
  (b = true <-> P) -> b = bool_decide P.
Proof.
  intros Hiff. destruct b.
  - symmetry. apply bool_decide_eq_true. apply Hiff. reflexivity.
  - symmetry. apply bool_decide_eq_false. intros HP. apply Hiff in HP. discriminate HP.
Qed.

(** C2 (amended).  A drain is five separate exchanges, and a mark of the
    other core can land between two of them.  Let the call [m] mark tile
    [t] after [length before] exchanges of a drain in progress ([before]
    empty: before the drain exchanges anything), [t] not being pending
    and no other call marking it.  Then exactly one drain reports [t]: the
    drain in progress when the word of [t] is not exchanged yet, although
    this drain may have started before the mark, and otherwise the next
    drain, which finds the bit the first one left.  After the two drains
    the bit is clear.  For every tile, a drain reports the bits pending at
    its start and the marks that precede the exchange of the tile's word,
    leaves pending the marks that follow it, and returns the number of bits
    it reports. *)
Theorem drain_completeness_interleaved (st : globals)
    (before after next : list (list tracker_call)) (cs1 cs2 : list tracker_call)
    (m : tracker_call) (t : Z) :
  let tracking := flags st use_write_dirty_tracking in
  let fb_size := words st frame_buffer_size in
  let slots := before ++ (cs1 ++ m :: cs2) :: after in
  tracker_ok st ->
  length slots = Z.to_nat BITMAP_WORDS -> length next = Z.to_nat BITMAP_WORDS ->
  Forall (Forall call_ok) (slots ++ next) ->
  Forall (Forall (fun c => c <> Drain)) (slots ++ next) ->
  tile_bit (arrays st write_dirty_tiles) t = false ->
  t ∈ marked_tiles tracking fb_size m ->
  Forall (Forall (fun c => t ∉ marked_tiles tracking fb_size c))
    (before ++ [cs1; cs2] ++ after ++ next) ->
  exists count st1 count' st2,
    collect_interleaved slots 0 0 st = Some (count, st1) /\
    count = bitmap_popcount (arrays st1 dirty_tiles) /\
    (forall t', 0 <= t' < TOTAL_TILES ->
       (tile_bit (arrays st1 dirty_tiles) t' = true <->
          tile_bit (arrays st write_dirty_tiles) t' = true \/
          t' ∈ slot_tiles tracking fb_size (take (S (Z.to_nat (t' / 32))) slots)) /\
       (tile_bit (arrays st1 write_dirty_tiles) t' = true <->
          t' ∈ slot_tiles tracking fb_size (drop (S (Z.to_nat (t' / 32))) slots))) /\
    collect_interleaved next 0 0 st1 = Some (count', st2) /\
    count' = bitmap_popcount (arrays st2 dirty_tiles) /\
    isTileDirty t st1 = Some (bool_decide (Z.of_nat (length before) <= t / 32), st1) /\
    isTileDirty t st2 = Some (bool_decide (t / 32 < Z.of_nat (length before)), st2) /\
    tile_bit (arrays st2 write_dirty_tiles) t = false.
Proof.
  intros tracking fb_size slots Hok Hlen Hlen' Hcalls Hmarks Hclear Hm Hothers.
  apply Forall_app in Hcalls as [Hc1 Hc2]. apply Forall_app in Hmarks as [Hm1 Hm2].
  (* the tile is one of the grid *)
  assert (Hvalid : 0 <= t < TOTAL_TILES).
  { assert (Hmc : call_ok m).
    { unfold slots in Hc1. apply Forall_app in Hc1 as [_ Hc1].
      apply Forall_cons in Hc1 as [Hx _]. apply Forall_app in Hx as [_ Hx].
      apply Forall_cons in Hx as [Hx _]. exact Hx. }
    pose proof (marked_tiles_valid tracking fb_size m
                  (proj2 (proj1 (proj2 (proj2 Hok)))) Hmc) as Hall.
    rewrite Forall_forall in Hall. apply Hall, Hm. }
  change TOTAL_TILES with 144 in Hvalid.
  assert (Hq : 0 <= t / 32 < 5) by (Z.div_mod_to_equations; lia).
  (* who marks the tile *)
  rewrite !Forall_app in Hothers. destruct Hothers as (Hbefore & H12 & Hafter & Hnext).
  apply Forall_cons in H12 as [H1 H12]. apply Forall_cons in H12 as [H2 _].
  assert (Hnone : forall l, Forall (Forall (fun c => t ∉ marked_tiles tracking fb_size c)) l ->
            t ∉ slot_tiles tracking fb_size l).
  { intros l Hl Hin. apply elem_of_slot_tiles in Hin as (cs & c & Hcs & Hc & Ht).
    rewrite Forall_forall in Hl. specialize (Hl cs Hcs).
    rewrite Forall_forall in Hl. exact (Hl c Hc Ht). }
  assert (Hsub : forall n l, Forall (Forall (fun c => t ∉ marked_tiles tracking fb_size c)) l ->
            Forall (Forall (fun c => t ∉ marked_tiles tracking fb_size c)) (take n l) /\
            Forall (Forall (fun c => t ∉ marked_tiles tracking fb_size c)) (drop n l)).
  { intros n l Hl. rewrite <- (take_drop n l) in Hl. apply Forall_app in Hl. exact Hl. }
  assert (Hmark : t ∈ slot_tiles tracking fb_size [cs1 ++ m :: cs2]).
  { apply elem_of_slot_tiles. exists (cs1 ++ m :: cs2), m.
    split; [left |]. split; [| exact Hm]. apply elem_of_app. right. left. }
  assert (Hearly : t ∈ slot_tiles tracking fb_size (take (S (Z.to_nat (t / 32))) slots) <->
                   Z.of_nat (length before) <= t / 32).
  { unfold slots. split.
    - intros Hin. destruct (Z_le_dec (Z.of_nat (length before)) (t / 32)) as [Hle | Hgt];
        [exact Hle |].
      rewrite take_app_le in Hin by lia.
      exfalso. exact (Hnone _ (proj1 (Hsub _ _ Hbefore)) Hin).
    - intros Hle. rewrite take_app_ge by lia.
      replace (S (Z.to_nat (t / 32)) - length before)%nat
        with (S (Z.to_nat (t / 32) - length before)) by lia.
      cbn [take]. rewrite slot_tiles_app, elem_of_app. right.
      change ((cs1 ++ m :: cs2) :: take (Z.to_nat (t / 32) - length before) after)
        with ([cs1 ++ m :: cs2] ++ take (Z.to_nat (t / 32) - length before) after).
      rewrite slot_tiles_app, elem_of_app. left. exact Hmark. }
  assert (Hlate : t ∈ slot_tiles tracking fb_size (drop (S (Z.to_nat (t / 32))) slots) <->
                  t / 32 < Z.of_nat (length before)).
  { unfold slots. split.
    - intros Hin. destruct (Z_lt_dec (t / 32) (Z.of_nat (length before))) as [Hlt | Hge];
        [exact Hlt |].
      rewrite drop_app_ge in Hin by lia.
      replace (S (Z.to_nat (t / 32)) - length before)%nat
        with (S (Z.to_nat (t / 32) - length before)) in Hin by lia.
      cbn [drop] in Hin. exfalso. exact (Hnone _ (proj2 (Hsub _ _ Hafter)) Hin).
    - intros Hlt. rewrite drop_app_le by lia. rewrite slot_tiles_app, elem_of_app. right.
      change ((cs1 ++ m :: cs2) :: after) with ([cs1 ++ m :: cs2] ++ after).
      rewrite slot_tiles_app, elem_of_app. left. exact Hmark. }
  (* the two drains *)
  destruct (collect_interleaved_spec st slots Hok Hlen Hc1 Hm1)
    as (count & st1 & Hrun1 & Hok1 & Hfr1 & Hcount1 & Hbits1).
  destruct (collect_interleaved_spec st1 next Hok1 Hlen' Hc2 Hm2)
    as (count' & st2 & Hrun2 & Hok2 & Hfr2 & Hcount2 & Hbits2).
  destruct Hfr1 as (Hf1 & Hw1 & _). rewrite Hf1, Hw1 in Hbits2.
  fold tracking fb_size in Hbits1, Hbits2.
  exists count, st1, count', st2.
  split; [exact Hrun1 |]. split; [exact Hcount1 |]. split; [exact Hbits1 |].
  split; [exact Hrun2 |]. split; [exact Hcount2 |].
  assert (Hin : forall s, tracker_ok s ->
            0 <= t < 32 * Z.of_nat (length (arrays s dirty_tiles))).
  { intros s (_ & Hl & _). rewrite Hl. change (Z.to_nat BITMAP_WORDS) with 5%nat. lia. }
  destruct (Hbits1 t ltac:(change TOTAL_TILES with 144; lia)) as (Hrep1 & Hpend1).
  destruct (Hbits2 t ltac:(change TOTAL_TILES with 144; lia)) as (Hrep2 & Hpend2).
  split; [| split].
  - rewrite isTileDirty_run by (apply Hin, Hok1). do 2 f_equal.
    apply bool_decide_of_iff. rewrite Hrep1, Hclear, Hearly.
    split; [intros [Hf | Hle]; [discriminate Hf | exact Hle] | auto].
  - rewrite isTileDirty_run by (apply Hin, Hok2). do 2 f_equal.
    apply bool_decide_of_iff. rewrite Hrep2, Hpend1, Hlate. split; [| auto].
    intros [Hlt | Hin2]; [exact Hlt |].
    exfalso. exact (Hnone _ (proj1 (Hsub _ _ Hnext)) Hin2).
  - destruct (tile_bit (arrays st2 write_dirty_tiles) t) eqn:Hset; [| reflexivity].
    exfalso. apply (Hnone _ (proj2 (Hsub (S (Z.to_nat (t / 32))) _ Hnext))).
    apply Hpend2. reflexivity.
Qed.

Lemma drain_completeness_interleaved_witness :
  exists count st1 count' st2,
    collect_interleaved
      ([[MarkDirtyOffset 0]] ++ ([] ++ MarkDirtyOffset 230399 :: [MarkDirtyOffset 700]) ::
         [[]; []; []]) 0 0 ready_globals = Some (count, st1) /\
    collect_interleaved [[]; []; [MarkDirtyOffset 5000]; []; []] 0 0 st1 = Some (count', st2) /\
    isTileDirty 143 st1 = Some (true, st1) /\
    isTileDirty 143 st2 = Some (false, st2).
Proof.
  destruct (drain_completeness_interleaved ready_globals [[MarkDirtyOffset 0]] [[]; []; []]
              [[]; []; [MarkDirtyOffset 5000]; []; []] [] [MarkDirtyOffset 700]
              (MarkDirtyOffset 230399) 143)
    as (count & st1 & count' & st2 & Hrun1 & _ & _ & Hrun2 & _ & Hd1 & Hd2 & _).
  - exact ready_globals_ok.
  - reflexivity.
  - reflexivity.
  - repeat constructor; cbn; lia.
  - repeat constructor; discriminate.
  - reflexivity.
  - vm_compute. apply elem_of_cons. left. reflexivity.
  - repeat constructor; vm_compute; intros H;
      repeat (apply elem_of_cons in H as [H | H]; [discriminate |]);
      apply elem_of_nil in H; exact H.
  - exists count, st1, count', st2. repeat split; assumption.
Defined.

(** C2 as stated fails.  The drain has exchanged word 0 when the other core
    marks tile 143, whose bit is in word 4.  The drain in progress, which
    started before the mark, reports the tile; the next drain, the first
    one that starts after the mark, does not, and counts no tile. *)
Lemma mark_reported_by_drain_in_progress :
  match collect_word 0 0 ready_globals with
  | Some (c0, s0) =>
      match VideoMarkDirtyOffset 230399 s0 with
      | Some (_, s1) =>
          match collect_interleaved [[]; []; []; []] 1 c0 s1 with
          | Some (_, s2) =>
              isTileDirty 143 s2 = Some (true, s2) /\
              match collectWriteDirtyTiles s2 with
              | Some (count, s3) => count = 0 /\ isTileDirty 143 s3 = Some (false, s3)
              | None => False
              end
          | None => False
          end
      | None => False
      end
  | None => False
  end.
Proof. vm_compute. repeat split. Qed.

(** * A palette change that lands during a full update *)

(** When the other core does nothing, this is the render pass. *)
Lemma render_pass_interleaved_alone (env : readings) (st : globals) :
  render_pass_interleaved env (mret tt) st = render_pass env st.
Proof.
  unfold render_pass_interleaved, render_pass. rewrite !bind_run. cbn [array_get].
  destruct (detect_phase env st) as [[[] s] |]; reflexivity.
Qed.

(** A pass with nothing forced and nothing marked. *)
Lemma render_pass_skip (env : readings) (s : globals) :
  tracker_ok s -> flags s force_full_update = false ->
  flags s use_write_dirty_tracking = true ->
  bitmap_popcount (arrays s write_dirty_tiles) = 0 ->
  exists s',
    render_pass env s = Some (SkipUpdate, s') /\
    display s' = display s /\ heap s' = heap s /\
    pointers s' = pointers s /\ flags s' = flags s /\
    arrays s' palette_rgb565 = arrays s palette_rgb565.
Proof.
  intros Hs Hf Ht Hz.
  destruct (detect_phase_tracking env s Hs Hf Ht) as (s1 & _ & _ & _ & Hfr & Hdet).
  rewrite Hz in Hdet. unfold render_pass. run_M. rewrite Hdet.
  change (dirty_threshold <? 0) with false. unfold render_phase. run_M. fn_simpl.
  change (0 <? 0) with false. cbn iota. unfold perf_add. run_M. fn_simpl.
  eexists. split; [reflexivity |].
  cbn [flags arrays pointers heap display words set_words]. fn_simpl.
  destruct Hfr as (Hf1 & Hw1 & Hp1 & Hh1 & Hd1 & Ha1).
  repeat split; try assumption. apply Ha1; discriminate.
Qed.

(** C3 (the code departs from the claim).  A full update is in progress
    (the flag was set, by [VideoInit] or by an earlier palette change) and
    nothing is marked.  [renderFrameToDSI] has converted the frame with the
    palette it copied when [set_palette] completes on the other core: the
    table is replaced and [force_full_update] set.  The pass then pushes the
    frame, which shows the old colours, and clears the flag.  The next
    render pass finds the flag clear and no dirty tile and skips: the call
    forced no full update, and the display does not show the new palette. *)
Theorem palette_update_lost (env env' : readings) (pal : list Z) (num : Z) (st : globals)
    (m d : nat) (src : list Z) :
  engine_inv st ->
  flags st force_full_update = true ->
  bitmap_popcount (arrays st write_dirty_tiles) = 0 ->
  pointers st mac_frame_buffer = Some m ->
  pointers st dsi_framebuffer = Some d ->
  heap st !! m = Some src ->
  3 * Z.min num 256 <= Z.of_nat (length pal) ->
  exists sp st1 st2 dsi,
    set_palette pal num st = Some (tt, sp) /\
    render_pass_interleaved env (set_palette pal num) st = Some (FullUpdate, st1) /\
    arrays st1 palette_rgb565 = arrays sp palette_rgb565 /\
    flags st1 force_full_update = false /\
    display st1 =
      display st ++
        [startWrite; setAddrWindow 0 0 DISPLAY_WIDTH DISPLAY_HEIGHT;
         writePixels dsi (DISPLAY_WIDTH * DISPLAY_HEIGHT); endWrite] /\
    (forall x y dx dy,
       0 <= x < MAC_SCREEN_WIDTH -> 0 <= y < MAC_SCREEN_HEIGHT ->
       0 <= dx < PIXEL_SCALE -> 0 <= dy < PIXEL_SCALE ->
       exists i c,
         elem_get src (y * MAC_SCREEN_WIDTH + x) = Some i /\
         elem_get (arrays st palette_rgb565) i = Some c /\
         elem_get dsi ((PIXEL_SCALE * y + dy) * DISPLAY_WIDTH + (PIXEL_SCALE * x + dx)) =
           Some c) /\
    render_pass env' st1 = Some (SkipUpdate, st2) /\
    display st2 = display st1 /\
    flags st2 force_full_update = false /\
    arrays st2 palette_rgb565 = arrays sp palette_rgb565.
Proof.
  intros Hinv Hforce Hzero Pm Pd Hsrc Hpal.
  pose proof Hinv as ((Hok & Hbuf & Hmac & Hsnap & Htb) & Htrack & Hbytes).
  pose proof Hbuf as (Hplen & _ & _).
  (* the call alone *)
  destruct (set_palette_spec pal num st Hplen Hpal)
    as (sp & Hset & Hsplen & Hspent & _).
  (* the conversion *)
  destruct (renderFrameToDSI_spec st m d src Hbuf Pm Pd Hsrc (Hbytes m src Pm Hsrc))
    as (s0 & dsi & Hconv & Hheap0 & Hdlen & Hdisp0 & Hpix).
  destruct (renderFrameToDSI_heap st Hbuf)
    as (s0' & Hconv' & Hf0 & Hw0 & Ha0 & Hp0 & _ & Hbuf0 & _ & Hmac0).
  rewrite Pm, Hconv in Hconv'. apply (inj Some) in Hconv'.
  apply (f_equal snd) in Hconv'. cbn [snd] in Hconv'. subst s0'.
  (* the call during the pass *)
  destruct (set_palette_spec pal num s0) as (s1 & Hset1 & Hs1len & Hs1ent & Hf1 & Ha1 & Hw1 &
                                            Hp1 & Hh1 & Hd1);
    [rewrite Ha0; exact Hplen | exact Hpal |].
  assert (Hsame : arrays s1 palette_rgb565 = arrays sp palette_rgb565).
  { apply list_eq. intros i. destruct (Z_lt_dec (Z.of_nat i) 256) as [Hi | Hi].
    - specialize (Hs1ent (Z.of_nat i) ltac:(lia)). specialize (Hspent (Z.of_nat i) ltac:(lia)).
      rewrite Ha0 in Hs1ent.
      rewrite !elem_get_lookup, Nat2Z.id in Hs1ent, Hspent by lia.
      destruct (Z.of_nat i <? num).
      + destruct Hs1ent as (r & g & b & Hr & Hg & Hb & ->).
        destruct Hspent as (r' & g' & b' & Hr' & Hg' & Hb' & ->). congruence.
      + congruence.
    - rewrite !lookup_ge_None_2 by lia. reflexivity. }
  exists sp.
  unfold render_pass_interleaved. run_M. rewrite (detect_phase_forced env st Hforce). run_M.
  unfold render_phase_interleaved. run_M. rewrite Pm, Hconv. run_M. rewrite Hset1. run_M.
  unfold perf_add. run_M.
  erewrite pushFramebufferToDisplay_some;
    [| cbn [pointers set_words]; rewrite Hp1, Hp0; exact Pd
     | cbn [heap set_words]; rewrite Hh1, Hheap0; apply lookup_insert_eq].
  run_M. fn_simpl.
  match goal with |- context [mret FullUpdate ?S] => set (st1 := S) end.
  assert (Hst1 : flags st1 = <[force_full_update := false]> (flags s1) /\
                 arrays st1 = arrays s1 /\ pointers st1 = pointers s1 /\
                 heap st1 = heap s1 /\
                 words st1 frame_buffer_size = words s1 frame_buffer_size /\
                 display st1 =
                   display s1 ++
                     [startWrite; setAddrWindow 0 0 DISPLAY_WIDTH DISPLAY_HEIGHT;
                      writePixels dsi (DISPLAY_WIDTH * DISPLAY_HEIGHT); endWrite]).
  { unfold st1. cbn [flags words arrays pointers heap display set_words set_flags set_display].
    fn_simpl. repeat split. }
  destruct Hst1 as (Hfl & Har & Hpt & Hhp & Hfb & Hdp). clearbody st1.
  assert (Hwrite : arrays st1 write_dirty_tiles = arrays st write_dirty_tiles).
  { rewrite Har, Ha1, Ha0 by discriminate. reflexivity. }
  assert (Hok1 : tracker_ok st1).
  { destruct Hok as (Hl1 & Hl2 & Hsize & Hall). unfold tracker_ok.
    rewrite Hwrite, Har, Ha1, Ha0, Hfb, Hw1, Hw0 by discriminate. auto. }
  destruct (render_pass_skip env' st1 Hok1) as (st2 & Hskip & Hd2 & _ & _ & Hf2 & Ha2).
  { rewrite Hfl. apply fn_lookup_insert. }
  { rewrite Hfl, fn_lookup_insert_ne, Hf1, fn_lookup_insert_ne, Hf0 by discriminate.
    exact Htrack. }
  { rewrite Hwrite. exact Hzero. }
  exists st1, st2, dsi.
  split; [exact Hset |]. split; [reflexivity |].
  split; [rewrite Har; exact Hsame |].
  split; [rewrite Hfl; apply fn_lookup_insert |].
  split; [rewrite Hdp, Hd1, Hdisp0; reflexivity |].
  split; [exact Hpix |].
  split; [exact Hskip |]. split; [exact Hd2 |].
  split; [rewrite Hf2, Hfl; apply fn_lookup_insert |].
  rewrite Ha2, Har. exact Hsame.
Qed.

Lemma allocated_globals_inv : engine_inv allocated_globals.
Proof.
  destruct allocated_globals_mac as (Hm0 & _ & Hsrc0 & _).
  split; [| split].
  - unfold engine_ready, tracker_ok. split; [| split; [| split; [| split]]].
    + split; [reflexivity |]. split; [reflexivity |]. split.
      * unfold allocated_globals. cbn [words set_heap set_pointers].
        vm_compute. split; discriminate.
      * apply Forall_replicate. lia.
    + exact allocated_globals_buffers_ok.
    + rewrite Hm0. eauto.
    + reflexivity.
    + reflexivity.
  - unfold allocated_globals, ready_globals.
    cbn [flags set_flags set_heap set_pointers set_words]. reflexivity.
  - intros m src Hm Hsrc. rewrite Hm0 in Hm. apply (inj Some) in Hm. subst m.
    rewrite Hsrc0 in Hsrc. apply (inj Some) in Hsrc. subst src.
    apply bytes_ok_replicate. lia.
Qed.

Lemma palette_update_lost_witness :
  exists sp st1 st2 dsi,
    set_palette [255; 0; 0] 1 allocated_globals = Some (tt, sp) /\
    render_pass_interleaved late_wake (set_palette [255; 0; 0] 1) allocated_globals =
      Some (FullUpdate, st1) /\
    arrays st1 palette_rgb565 = arrays sp palette_rgb565 /\
    flags st1 force_full_update = false /\
    display st1 =
      display allocated_globals ++
        [startWrite; setAddrWindow 0 0 DISPLAY_WIDTH DISPLAY_HEIGHT;
         writePixels dsi (DISPLAY_WIDTH * DISPLAY_HEIGHT); endWrite] /\
    render_pass late_wake st1 = Some (SkipUpdate, st2) /\
    display st2 = display st1.
Proof.
  destruct allocated_globals_mac as (Pm & Pd & Hsrc & _).
  assert (Hforce : flags allocated_globals force_full_update = true).
  { unfold allocated_globals, ready_globals.
    cbn [flags set_flags set_heap set_pointers set_words]. reflexivity. }
  assert (Hzero : bitmap_popcount (arrays allocated_globals write_dirty_tiles) = 0).
  { unfold allocated_globals, ready_globals.
    cbn [arrays set_arrays set_heap set_pointers set_words]. reflexivity. }
  assert (Hpal : 3 * Z.min 1 256 <= Z.of_nat (length [255; 0; 0])) by (cbn; lia).
  destruct (palette_update_lost late_wake late_wake [255; 0; 0] 1 allocated_globals
              0%nat 1%nat _ allocated_globals_inv Hforce Hzero Pm Pd Hsrc Hpal)
    as (sp & st1 & st2 & dsi & Hset & Hrun & Hsame & Hflag & Hdisp & _ & Hskip & Hd2 & _).
  exists sp, st1, st2, dsi. repeat (split; [assumption |]). assumption.
Defined.
